(* ===== verification/_CoqProject ===== *)
-Q . S2P
Prelude.v
Regex.v
Chunking.v
HeaderParser.v
Json.v
PyFormat.v
JsonCodec.v
MultiAgent.v
Providers.v
Profile.v
Embeddings.v
Grading.v
Backend.v
Handlers.v
Scheduler.v
PushFeedback.v
Pipeline.v
PushFromBackend.v
