(* ===== verification/Prelude.v ===== *)
(** * A verification development of the automated feedback backend

    The repository is a FastAPI service (src/code/fyp_backend/backend/app)
    that ingests free-text exam answers, splits them into per-question
    chunks, flags near-duplicate answers across submissions, grades a
    submission either with a keyword rubric or with a chain of
    generative-model "agents", and keeps a rolling per-student profile.
    This development models the algorithmic core of that service as
    executable Rocq definitions over an explicit state, and proves what
    makes each part correct.

    ** How the parts interact (and which file models which)

    - [Prelude] (this file): Python text as a list of Unicode code points
      ([text := list Z]), the character classes Python's [re] and [str]
      use ([is_space] = [str.isspace] = regex [\s]; [decimal_value] = [\d]
      and [int()] on digits), [str.strip], slicing [s[i:j]], the [in]
      substring test, [str.lower], and Python's [round] (half to even) on
      rationals; the [pyc] hint database and the shared list lemmas.
    - [Regex]: the subset of Python's [sre] engine the code uses, as a
      deep embedding: a pattern AST ([regex]) whose constructors are the
      compiled opcodes (one-character classes, greedy [REPEAT_ONE] of a
      class, greedy optional group, capturing group, [^] under
      [re.MULTILINE]), a backtracking matcher written in continuation
      passing style exactly as [sre] explores alternatives, [search]
      (leftmost start), [finditer] (the scanner loop of Python 3.7+, with
      its "must advance" rule after an empty match) and [re.sub].
      [re_sub_class] characterises [re.sub] with a one-class pattern
      [[class]+]: every code point it outputs comes from the replacement
      or is a code point of the text outside the class.
      [finditer] recurses on fuel; [finditer_fuel_enough] proves that the
      fuel [2 * length s + 2] chosen by [finditer] is enough: any larger
      fuel gives the same list of matches.
    - [Chunking] models chunking.py: the header pattern of
      [split_numbered_answers] written as a [regex] value that follows the
      verbose pattern line by line, the chunk loop, and
      [clean_text_basic] as the composition of its four [re.sub]/[replace]
      steps.
    - [HeaderParser] gives the header pattern a one-pass reference
      parser ([header_at], [header_scan]: line start, blanks, optional
      [question] and [q] prefixes, one to three digits, blanks, a
      delimiter, at least one blank) and proves that the backtracking
      matcher of [Regex] on [Chunking.header_re] computes exactly it, at
      every position and over the whole [finditer] scan.
    - [Json] models the Python values a generative provider returns after
      [json.loads] (null, bool, int, float with inf/nan, str, list, dict)
      with Python's [dict.get], item assignment, truthiness and the
      builtin [int()] (its accepted string syntax, truncation of floats,
      and the exceptions it raises).
    - [PyFormat] models Python's [str()] and [repr()] on those values
      (CPython's shortest [repr] of floats, the quoting of [str]), which
      the handlers use to write [Text] columns and f-strings; [Json] also
      holds [float()] (its string syntax, [inf] and [nan]) and the IEEE
      comparison and subtraction of floats.
    - [JsonCodec] models CPython's [json] module as the code uses it:
      [dumps] (the encoder with [ensure_ascii], [\uXXXX] escapes and
      surrogate pairs, [repr] of floats, [NaN]/[Infinity]) and [loads]
      (the scanner: blanks, string escapes joining surrogate pairs,
      the number syntax read with [int()]/[float()], the named
      constants, arrays and objects where a repeated key keeps its last
      value, a byte order mark rejected).  The decoder recurses on fuel
      [2 * length s + 1], which [loads_fuel] proves always enough.  The
      JSON columns of the code are defined on top: [weak_concepts_column]
      and [read_weak_concepts] (main.py 340, 382, 391, 469) and
      [to_json]/[from_json] (embeddings.py 30-34).
    - [MultiAgent] models multi_agent.py: [_cap],
      [compute_grade_from_qscores] (including the [try/except] that maps
      every failing [int()] to 0), and [run_multi_agent] as a program in
      a state-and-error monad over an abstract provider ([LLMProvider], a
      type class standing for the [LLMProvider] protocol of
      llm/provider.py); the monad records every provider call, so the
      order and the number of calls are observable.  The mock provider of
      llm/mock.py is an instance.
    - [Providers] models the provider side: [user_text] renders every
      user prompt as its f-string does; [MockLLM] (llm/mock.py) answers
      the fixed JSON of the first agent name in the lowercased prompt;
      [GeminiLLM] (llm/gemini.py) sends [system + "\n\n" + user + ...]
      to a remote model given as an oracle and decodes the stripped reply
      with [JsonCodec.loads]; [LLM_MODE] and [getenv] (config.py) and
      [get_llm] (llm/__init__.py) choose between them, and
      [run_multi_agent_env] is [run_multi_agent] with that provider.
      [load_settings] reads all six constants of config.py, and
      [smoke_test] is test_gemini.py, one request of a fixed prompt to
      the same remote-model oracle.
    - [Profile] models profile.py: [pick_weak_concepts] (Python's stable
      [sorted] by score, then the first [top_k] keys), [calc_trend] and
      [summarize_feedback].

    - [Embeddings] models embeddings.py in IEEE binary64 arithmetic
      (Rocq's primitive floats): [cosine_similarity] with CPython 3.12's
      compensated [sum] ([py_sum]), the dot product over [zip], the
      norms over whole vectors, [math.sqrt], [0.0] for a zero norm and
      the float division; [mock_embedding] over the SHA-256 digest,
      which is a parameter.  [Backend] uses the engine through the class
      [SimilarityEngine] over exact rationals, so its theorems hold for
      any engine (but do not see the rounding of this one).
    - [Grading] models grading.py: [grade_networking_short_answer] with
      its [norm] (the [(cid:N)] pattern of [Chunking] and [str.lower]),
      the nine keyword tests, the per-question cap, the rescaling to
      [max_grade] and [round(_, 2)], the feedback text and the JSON
      breakdown.
    - [Backend] models the persistence layer and two handlers of main.py.
      The tables of models.py ([Submission], [SubmissionChunk],
      [ChunkEmbedding], [SimilarityResult]) are lists of records in a
      record [db]; a request runs in a session monad [SM] whose state
      holds the committed database, the working database (what the
      session has added or changed, seen by its queries through
      autoflush) and the [SERIAL] sequences.  [commit] checks the unique
      constraints of models.py and raises [IntegrityError];
      [handle_500] is the [except Exception: db.rollback(); raise
      HTTPException(500)] wrapper and [finish] the [finally: db.close()].
      [ingest_submission] (main.py 48-141) calls [clean_text_basic] and
      [split_numbered_answers] of [Chunking]; [plagiarism_check]
      (main.py 145-219) calls the similarity engine through the type
      class [SimilarityEngine] (the [local_embedding] and
      [cosine_similarity] of embeddings.py), so its theorems hold for
      every embedding model.  The invariant [sims_sound] (every stored
      similarity result pairs two distinct chunks of the same question)
      is proved preserved by every handler through the combinators
      [preserves_bind], [preserves_commit], [preserves_handle_500], ...

    - [Handlers] models the other handlers of main.py over the same
      session monad and the [FeedbackResult], [ConceptHistory] and
      [StudentProfile] tables: [grade_submission] (calls [Grading]),
      [llm_grade_submission] and [llm_multi_grade] (call the provider
      and [MultiAgent.run_multi_agent], then [Profile] to update the
      student profile), [student_progress], [moodle_push_payload],
      [get_by_moodle_id], and the constant [root] and [health].  The tactic [preserve] proves that a handler
      keeps a property of the tables by following its program.
    - [Scheduler] models scheduler_deadline_pipeline.py, the script that
      drives the backend from Moodle, and the HTTP routing of main.py:
      the route table is replayed from the module's registrations
      ([register], [main_registrations]); the backend is a server
      ([BackendAPI], instance [app_api], over the environment config.py
      reads) that serves each of the ten endpoints with its handler
      model of [Backend] and [Handlers] on the committed database; the script is
      a state-and-error monad over the backend's state and the grades
      Moodle saved, with Moodle's replies, the file download and pypdf's
      page texts as oracles ([extract_text_from_pdf] joins and strips
      them as the script does).  [run_handler] is the session discipline
      of db.py and the handlers ([SessionLocal()] per request, closed at
      the end: what a request does not commit is dropped).  The class
      [GradingBackend] states what the script needs of a backend to grade
      a submission.  Its scenarios run the whole stack: Moodle data, the
      scheduler, ingestion (Chunking), the plagiarism check, the
      multi-agent grading with the mock provider, and the push.
    - [PushFeedback] models push_feedback.py, the one-shot script that
      grades the latest Moodle submission without the backend: its
      Moodle calls, the loop of [pick_latest_submission], the reading of
      the extracted text, its own keyword rubric and the save of the
      grade.
    - [Pipeline] models get_submissions_assignments.py, the first
      version of the Moodle pipeline, over the same world and
      [BackendAPI]: its [moodle_call], [safe_name] and
      [strip_html_to_text] as [re.sub] steps on the [Regex] engine
      ([html.unescape] is a parameter of the site), its
      [extract_text_from_pdf] with the [MAX_EXTRACT_CHARS] cap
      (pdfplumber's page texts are an oracle), the PDF path with its
      [%PDF] check, and the loop of [main] with the plagiarism warning.
    - [PushFromBackend] models push_feedback_from_backend.py: the
      [GET /moodle/push_payload/14] request served by [app_api], read
      with [.json()] and no status check, and the save call whose reply
      is returned unchecked.

    ** Theorems, by component

    1. Segmenter: [finditer] terminates within its fuel (any larger fuel
       gives the same matches) and returns ordered, non-overlapping
       matches; chunks are non-empty and stripped; the scenarios of the
       specification (one-line text gives one chunk; question number 0
       is accepted); [clean_text_basic] is not idempotent.  The header
       pattern, run by the backtracking matcher, finds exactly the
       headers of the one-pass parser ([finditer_header]), whose
       blanks include line breaks.
    2. Multi-agent pipeline: the grade is a total function of
       [q_scores] with a closed form, bounded in [0, 100]; a successful
       run reports exactly that grade, whatever the synthesizer or the
       fix pass answer; a run makes six calls, or eight when the first
       QA pass flags the feedback, never more.
    3. Plagiarism and persistence: the best match is a maximum; a check
       keeps [sims_sound], only appends results above the threshold and
       never clears a flag (the reset branch is dead); matches are always
       across submissions; ingestion is idempotent on an already chunked
       Moodle id, keeps [sims_sound] and answers 500 for its own 400; its
       two other paths are computed in full: a new Moodle id is stored,
       then chunked in a second commit, so a repeated question number
       leaves a partial write ([ingest_new_submission_spec]); a stored
       id without chunks is refilled and chunked in one commit
       ([ingest_rechunk_spec]); the result of a check depends on the
       order of checks.
    4. Heuristic grader: the grade is within [0, max_grade], is a table
       lookup on the raw score for [max_grade = 100], and the scenario
       grades; the feedback lines are fixed praise.
    5. Grading and export handlers: the grading handlers only append to
       the concept history and the feedback results, never remove a
       profile and never touch the plagiarism tables; [grade_submission]
       always commits one feedback row on a stored submission; unknown
       submissions give 500 (404 for the export); the export handlers
       only read; the profile is created then upserted with the trend;
       a non-numeric provider grade breaks the exports.
    6. Similarity engine: the cosine similarity in doubles is symmetric
       for every pair of vectors (multiplication of binary64 numbers
       commutes, proved from the specification of the primitive
       floats), but does not stay in [[-1, 1]]: some mock embeddings
       score above [1] against themselves and an overflowing vector
       scores [nan]; the mock embedding has components in [[-1, 1]] (the
       256 byte values are checked by evaluation) with period 32.
    7. Progress tracker: trend classification, the summary bound, the
       weak concepts are the lowest-scoring ones.
    8. Providers: a whole mock run is computed (six calls, grade 0, the
       mock's answers under ["agents"]); the mock misroutes when a student
       answer names an agent; Gemini returns the value its reply encodes,
       with any [str.isspace] padding around it, and records the prompt; a fenced reply makes the whole run raise
       [JSONDecodeError] at the first call; Gemini mode without a key
       raises [RuntimeError] before any call.  The smoke test fails
       exactly when the backend's Gemini provider cannot be built, and
       without [GEMINI_MODEL] it asks another model than the backend
       uses ([smoke_test_model]).
    9. JSON and text columns: [loads (dumps v) = Ok v] for every value
       without finite floats, surrogates or repeated keys, so the
       [weak_concepts] column would give back its list (facts of the
       codec model: the handlers' model stores the list itself); [str()] of an integer
       grade is read back by [float()] as that integer; [loads] never
       runs out of fuel.
    10. Scheduler: the lookup route is never served, so the scheduler's
       existence checks always fail; no grade is pushed before the
       deadline; every run after the deadline grades and pushes every
       submission again; a submission seen before the deadline is graded
       later only because of the routing fault; a submission without
       numbered headers is never graded, from every backend state in
       which it is unstored or stored without chunks, a state each run
       leaves again.  The application serves every
       endpoint but the router's; [/health] reports [LLM_MODE] in lower
       case, ["gemini"] exactly when grading does not use the mock.
    11. push_feedback.py: [pick_latest_submission] returns the first
       submission of greatest time (or raises); its rubric is stricter
       than grading.py's on Q1, looser on Q2 and the same on Q3.
    12. get_submissions_assignments.py: no grade is pushed before the
       deadline; [safe_name] gives a file name of [[A-Za-z0-9._-]] only,
       not starting or ending with [_]; the extracted PDF text has at
       most [MAX_EXTRACT_CHARS + 3] code points; whatever the backend, a
       submission it reports as flagged is graded and pushed with the
       warning in front of its feedback; against main.py's backend, a
       submission without numbered headers listed first ends every run
       with [HTTPError] 404 before the submissions after it.
    13. push_feedback_from_backend.py: its whole behaviour against the
       application for every backend state (the push, without a grade
       field when the grade column is empty since [requests] drops
       [None] form values, the [KeyError] of a 404 body read as a payload, the [JSONDecodeError] of a 500, a
       Moodle exception reply returned as success, the backend
       unchanged).

    ** Plan for later work

    The round trip [float(str(x)) = x] of [PyFormat.float_repr] and
    [Json.parse_float_str] in general (it is checked here on the
    scenarios); the frame of
    [ingest_submission] and [plagiarism_check] on the grading tables.

    ** Modelling choices

    - Text is a list of code points ([Z]); string literals of the source
      are written with [str "..."] (ASCII) and explicit code points for
      non-ASCII characters (en dash U+2013, em dash U+2014, soft hyphen
      U+00AD).
    - [str.lower] is modelled exactly on ASCII and on the two non-ASCII
      code points whose lowercase contains an ASCII letter (U+0130 and the
      Kelvin sign U+212A); other code points are kept unchanged, which
      decides every ASCII keyword test of the code as Python does.
    - Python floats that hold grades and scores are modelled by exact
      rationals [Q] (the similarity engine of [Embeddings] uses
      binary64); [round] is round-half-to-even on
      the exact value.  For the heuristic grader the raw score is an
      integer in [0..9] and [s / 9 * 100] is never near a tie of
      [round(_, 2)].
      For [compute_grade_from_qscores] the exact value [100 * total / 9]
      is never closer than [1/18] to a tie, so double rounding error
      cannot change the result for any total below [10^14], and the
      clamp to [[0, 100]] makes larger totals irrelevant (integer totals
      beyond the double range raise [OverflowError] in Python; the model
      does not represent that failure, see the findings).

    - Embeddings are stored as the vector itself (taking [json.loads] of
      [json.dumps] to give the same floats back; [loads_dumps] proves the
      round trip for every value without finite floats, and the float
      case needs the shortest-[repr] round trip left for later work);
      timestamps ([server_default=func.now()]) are not represented.
    - A float is a rational, so the sign of a negative zero is lost
      ([json.loads("-0.0")] and [-0.0] itself); [str.isprintable] of
      [repr] is modelled except the format characters (category Cf).

    ** Not modelled

    HTTP routing and request parsing (FastAPI), the SQL engine beyond the
    table operations the handlers use, the network services (the Gemini
    model behind [genai.Client], an oracle in [Providers]; the
    sentence-transformers model; SHA-256, a parameter), [json]'s
    [RecursionError] on deeply nested input and the overflow of huge
    float literals to [inf], db.py's engine set-up
    ([create_engine(DATABASE_URL)], [sessionmaker], [declarative_base]
    and [create_all]: calls of SQLAlchemy with no logic of the
    repository; the session discipline is [run_handler]), the
    [local_embedding] of embeddings.py (a sentence-transformers model),
    [genai.configure] and the prints of test_gemini.py, and in the
    scripts the printing, the directory creation, the PDF
    libraries, [html.unescape] and the URL handling of
    [add_token_to_fileurl] (oracles and parameters of the Moodle side).
    The scheduler's [download_moodle_file] is never called (and would
    raise [NameError]: it reads an undefined [url]). *)

From Stdlib Require Import String Ascii ZArith List Bool Lia.
Import ListNotations.

Declare Scope py_scope.
Delimit Scope py_scope with py.
Open Scope Z_scope.
Open Scope list_scope.

Create HintDb pyc discriminated.
Create Rewrite HintDb pyc_rw.

(** ** Text *)

(** A Python [str] is a sequence of code points. *)
Abbreviation text := (list Z).

(** ASCII string literals of the source, as code points. *)
Fixpoint str (s : string) : text :=
  match s with
  | EmptyString => []
  | String a s' => Z.of_nat (nat_of_ascii a) :: str s'
  end.
Arguments str s%_string.

(** Python's [s[i:j]] for [0 <= i], [0 <= j]: empty when [j <= i],
    clamped to the end of [s]. *)
Definition slice (s : text) (i j : nat) : text := firstn (j - i) (skipn i s).

Notation "s .[ i : j ]" := (slice s i j)
  (at level 1, i at level 99, j at level 99, format "s .[ i : j ]") : py_scope.
Open Scope py_scope.

(** ** Character classes *)

(** The code points for which [str.isspace] holds: CPython's
    [_PyUnicode_IsWhitespace] is a [switch] over exactly this table, and
    the regex class [\s] of a [str] pattern uses the same predicate. *)
Definition space_points : list Z :=
  [9; 10; 11; 12; 13; 28; 29; 30; 31; 32; 133; 160; 5760;
   8192; 8193; 8194; 8195; 8196; 8197; 8198; 8199; 8200; 8201; 8202;
   8232; 8233; 8239; 8287; 12288].

Definition is_space (c : Z) : bool := existsb (Z.eqb c) space_points.

(** First code points of the blocks of ten consecutive decimal digits
    (Unicode category Nd, Unicode 15.0 as in CPython 3.12).  The regex
    class [\d] of a [str] pattern is Nd, and [int()] accepts every Nd
    digit with value [c - block start]. *)
Definition nd_blocks : list Z :=
  [48; 1632; 1776; 1984; 2406; 2534; 2662; 2790; 2918; 3046; 3174; 3302;
   3430; 3558; 3664; 3792; 3872; 4160; 4240; 6112; 6160; 6470; 6608; 6784;
   6800; 6992; 7088; 7232; 7248; 42528; 43216; 43264; 43472; 43504; 43600;
   44016; 65296; 66720; 68912; 69734; 69872; 69942; 70096; 70384; 70736;
   70864; 71248; 71360; 71472; 71904; 72016; 72784; 73040; 73120; 73552;
   92768; 92864; 93008; 120782; 120792; 120802; 120812; 120822; 123200;
   123632; 124144; 125264; 130032].

Definition decimal_value (c : Z) : option Z :=
  match find (fun b => (b <=? c) && (c <? b + 10)) nd_blocks with
  | Some b => Some (c - b)
  | None => None
  end.

Definition is_digit (c : Z) : bool :=
  match decimal_value c with Some _ => true | None => false end.

(** Value of a digit string, most significant digit first: [int(s)] on a
    string of [\d] characters. *)
Fixpoint digits_value_acc (acc : Z) (s : text) : Z :=
  match s with
  | [] => acc
  | c :: s' =>
      digits_value_acc (10 * acc + match decimal_value c with Some v => v | None => 0 end) s'
  end.

Definition digits_value (s : text) : Z := digits_value_acc 0 s.

(** ** [str] methods *)

Fixpoint lstrip (s : text) : text :=
  match s with
  | [] => []
  | c :: s' => if is_space c then lstrip s' else s
  end.

Definition rstrip (s : text) : text := rev (lstrip (rev s)).

(** [str.strip()] with no argument. *)
Definition strip (s : text) : text := rstrip (lstrip s).

Fixpoint is_prefix (p s : text) : bool :=
  match p, s with
  | [], _ => true
  | a :: p', b :: s' => (a =? b) && is_prefix p' s'
  | _ :: _, [] => false
  end.

(** [p in s] for two [str] values. *)
Fixpoint contains (s p : text) : bool :=
  is_prefix p s || match s with [] => false | _ :: s' => contains s' p end.

(** [str.lower()]: see the header for the scope of the model. *)
Definition lower_char (c : Z) : text :=
  if (65 <=? c) && (c <=? 90) then [c + 32]
  else if c =? 304 then [105; 775]
  else if c =? 8490 then [107]
  else [c].

Definition lower (s : text) : text := flat_map lower_char s.

(** [s.replace(a, b)] for one code point [a] and a replacement text. *)
Definition replace_char (a : Z) (b : text) (s : text) : text :=
  flat_map (fun c => if c =? a then b else [c]) s.

(** ** Python's [round] on an exact rational [n / d] (half to even) *)

Definition py_round (n : Z) (d : positive) : Z :=
  let q := n / Z.pos d in
  let r := n mod Z.pos d in
  match Z.compare (2 * r) (Z.pos d) with
  | Lt => q
  | Gt => q + 1
  | Eq => if Z.even q then q else q + 1
  end.

(** [str(n)] for a Python [int]: its decimal digits, with a leading
    minus sign when negative. *)
Fixpoint uint_text (u : Decimal.uint) : text :=
  match u with
  | Decimal.Nil => []
  | Decimal.D0 u => 48 :: uint_text u | Decimal.D1 u => 49 :: uint_text u
  | Decimal.D2 u => 50 :: uint_text u | Decimal.D3 u => 51 :: uint_text u
  | Decimal.D4 u => 52 :: uint_text u | Decimal.D5 u => 53 :: uint_text u
  | Decimal.D6 u => 54 :: uint_text u | Decimal.D7 u => 55 :: uint_text u
  | Decimal.D8 u => 56 :: uint_text u | Decimal.D9 u => 57 :: uint_text u
  end.

Definition py_str_int (z : Z) : text :=
  match Z.to_int z with
  | Decimal.Pos u => uint_text u
  | Decimal.Neg u => 45 :: uint_text u
  end.

(** [max(lo, min(hi, x))]. *)
Definition clamp (lo hi x : Z) : Z := Z.max lo (Z.min hi x).

(** ** Tactics *)

(** Case on every boolean test of the goal, keeping the equation. *)
Ltac case_if :=
  match goal with
  | |- context [if ?b then _ else _] =>
      let E := fresh "E" in destruct b eqn:E
  end.

Ltac inv H := inversion H; subst; clear H.

(** Case analysis on the conditionals and matches of a hypothesis. *)
Ltac break_in H :=
  repeat (match type of H with
          | context [if ?b then _ else _] => let E := fresh "E" in destruct b eqn:E
          | context [match ?x with _ => _ end] => let E := fresh "E" in destruct x eqn:E
          end; cbn beta iota in H; try discriminate H).

(** Case analysis on the conditionals and matches of the goal. *)
Ltac break_goal :=
  repeat (match goal with
          | |- context [if ?b then _ else _] => let E := fresh "E" in destruct b eqn:E
          | |- context [match ?x with _ => _ end] => let E := fresh "E" in destruct x eqn:E
          end; cbn beta iota).

(** Injects the equalities of constructors in the context. *)
Ltac inj_all :=
  repeat match goal with
  | H : Some _ = Some _ |- _ => injection H as H
  | H : Ok _ = Ok _ |- _ => injection H as H
  | H : (_, _) = (_, _) |- _ => injection H as H
  end; subst.

(** Decides the equality tests of the goal that [lia] refutes. *)
Ltac eqb_false :=
  repeat match goal with
  | |- context [?x =? ?y] =>
      replace (x =? y) with false by (symmetry; apply Z.eqb_neq; lia)
  end.

(** ** Shared lemmas *)

Lemma lstrip_suffix (s : text) : exists p, s = p ++ lstrip s.
Proof.
  induction s as [|c s IH]; simpl; [exists []; reflexivity|].
  destruct (is_space c).
  - destruct IH as [p Hp]. exists (c :: p). simpl. congruence.
  - exists []. reflexivity.
Qed.

Lemma lstrip_head (s : text) c s' : lstrip s = c :: s' -> is_space c = false.
Proof.
  induction s as [|d s IH]; simpl; [discriminate|].
  destruct (is_space d) eqn:E; auto. intros H. inv H. exact E.
Qed.

Lemma lstrip_idem (s : text) : lstrip (lstrip s) = lstrip s.
Proof.
  induction s as [|c s IH]; simpl; auto.
  destruct (is_space c) eqn:E; auto. simpl. rewrite E. reflexivity.
Qed.

Lemma length_lstrip (s : text) : (length (lstrip s) <= length s)%nat.
Proof. induction s as [|c s IH]; simpl; [lia|]. destruct (is_space c); simpl; lia. Qed.

Lemma length_strip (s : text) : (length (strip s) <= length s)%nat.
Proof.
  unfold strip, rstrip. rewrite length_rev.
  pose proof (length_lstrip (rev (lstrip s))). rewrite length_rev in H.
  pose proof (length_lstrip s). lia.
Qed.

Lemma lstrip_nil_all_space (s : text) : lstrip s = [] -> forallb is_space s = true.
Proof.
  induction s as [|c s IH]; simpl; auto.
  destruct (is_space c); simpl; auto. discriminate.
Qed.

Lemma lstrip_app (l m : text) :
  lstrip (l ++ m) = match lstrip l with [] => lstrip m | t => t ++ m end.
Proof.
  induction l as [|c l IH]; simpl; auto.
  destruct (is_space c); auto.
Qed.

Lemma lstrip_space_prefix (s : text) :
  exists p, s = p ++ lstrip s /\ forallb is_space p = true.
Proof.
  induction s as [|c s IH]; simpl; [exists []; auto|].
  destruct (is_space c) eqn:E.
  - destruct IH as [p [Hp Hs]]. exists (c :: p). simpl. rewrite E, Hs. split; [congruence | reflexivity].
  - exists []. auto.
Qed.

(** [strip s] is [s] without a whitespace prefix and suffix. *)
Lemma strip_decomp (s : text) :
  exists p q, s = p ++ strip s ++ q /\
              forallb is_space p = true /\ forallb is_space q = true.
Proof.
  destruct (lstrip_space_prefix s) as [p [Hp Hsp]].
  destruct (lstrip_space_prefix (rev (lstrip s))) as [q [Hq Hsq]].
  exists p, (rev q). unfold strip, rstrip. split; [|split; auto].
  - rewrite Hp at 1. f_equal.
    remember (lstrip (rev (lstrip s))) as u eqn:Hu; clear Hu.
    rewrite <- (rev_involutive (lstrip s)), Hq, rev_app_distr. reflexivity.
  - rewrite forallb_forall in *. intros x Hx. apply Hsq. apply in_rev. exact Hx.
Qed.

(** The first code point of a stripped text is not whitespace. *)
Lemma strip_head (s : text) c m : strip s = c :: m -> is_space c = false.
Proof.
  unfold strip, rstrip. intros H.
  destruct (lstrip s) as [|d t] eqn:E; [discriminate|].
  pose proof (lstrip_head s d t E) as Hd. simpl in H.
  rewrite lstrip_app in H. simpl in H. rewrite Hd in H.
  destruct (lstrip (rev t)) as [|z l].
  - simpl in H. congruence.
  - simpl in H. rewrite rev_unit in H. simpl in H. congruence.
Qed.

(** [strip] keeps the first code point [lstrip] leaves. *)
Lemma strip_first (s : text) c r : lstrip s = c :: r -> exists r', strip s = c :: r'.
Proof.
  intros H. pose proof (lstrip_head s c r H) as Hc. unfold strip, rstrip. rewrite H.
  cbn [rev]. rewrite lstrip_app. destruct (lstrip (rev r)) as [|d t].
  - cbn [lstrip]. rewrite Hc. exists []. reflexivity.
  - exists (rev (d :: t)). rewrite rev_app_distr. reflexivity.
Qed.

(** The last code point of a stripped text is not whitespace. *)
Lemma strip_last (s : text) m d : strip s = m ++ [d] -> is_space d = false.
Proof.
  unfold strip, rstrip. intros H.
  apply (f_equal (@rev Z)) in H. rewrite rev_involutive, rev_app_distr in H.
  simpl in H. eapply lstrip_head. exact H.
Qed.

Lemma strip_nil_iff (s : text) : strip s = [] <-> forallb is_space s = true.
Proof.
  destruct (strip_decomp s) as [p [q [Hs [Hp Hq]]]].
  split.
  - intros E. rewrite E in Hs. simpl in Hs. subst s. rewrite forallb_app, Hp, Hq. auto.
  - intros Hall. destruct (strip s) as [|c m] eqn:E; auto.
    exfalso. pose proof (strip_head s c m E) as Hc.
    rewrite Hs, !forallb_app in Hall. simpl in Hall. rewrite Hc in Hall.
    destruct (forallb is_space p); discriminate.
Qed.

(** A text whose ends are not whitespace is its own [strip]. *)
Lemma strip_id (t : text) :
  (forall c m, t = c :: m -> is_space c = false) ->
  (forall m d, t = m ++ [d] -> is_space d = false) ->
  strip t = t.
Proof.
  intros Hh Hl. unfold strip, rstrip.
  assert (Hls : lstrip t = t).
  { destruct t as [|c m]; simpl; auto. rewrite (Hh c m eq_refl). reflexivity. }
  rewrite Hls.
  destruct (rev t) as [|d r] eqn:E; simpl.
  - rewrite <- (rev_involutive t), E. reflexivity.
  - assert (Hd : is_space d = false).
    { apply (Hl (rev r)). rewrite <- (rev_involutive t), E. reflexivity. }
    rewrite Hd, <- E, rev_involutive. reflexivity.
Qed.

Lemma strip_idem (s : text) : strip (strip s) = strip s.
Proof. apply strip_id; [apply strip_head | apply strip_last]. Qed.

Lemma lstrip_all_space (s : text) : forallb is_space s = true -> lstrip s = [].
Proof.
  induction s as [|c s IH]; cbn [forallb lstrip]; [reflexivity|].
  destruct (is_space c); [exact IH | discriminate].
Qed.

(** [str.strip()] removes any whitespace padding around a text. *)
Lemma strip_pad (p t q : text) :
  forallb is_space p = true -> forallb is_space q = true -> strip (p ++ t ++ q) = strip t.
Proof.
  intros Hp Hq. unfold strip, rstrip.
  rewrite lstrip_app, (lstrip_all_space p Hp), lstrip_app, (lstrip_all_space q Hq).
  destruct (lstrip t) as [|c u]; [reflexivity|].
  rewrite rev_app_distr, lstrip_app, lstrip_all_space; [reflexivity|].
  rewrite forallb_forall in *. intros x Hx. apply Hq, in_rev, Hx.
Qed.

Lemma in_skipn {A} (x : A) n l : In x (skipn n l) -> In x l.
Proof. intros H. rewrite <- (firstn_skipn n l). apply in_or_app. auto. Qed.

Lemma in_firstn {A} (x : A) n l : In x (firstn n l) -> In x l.
Proof. intros H. rewrite <- (firstn_skipn n l). apply in_or_app. auto. Qed.

(** Replacing a code point by another keeps the length and removes it. *)
Lemma length_replace_char1 (a b : Z) (s : text) : length (replace_char a [b] s) = length s.
Proof.
  unfold replace_char. induction s as [|c s IH]; simpl; auto.
  destruct (c =? a); simpl; congruence.
Qed.

Lemma replace_char1_not_in (a b : Z) (s : text) : b <> a -> ~ In a (replace_char a [b] s).
Proof.
  intros Hba Hin. unfold replace_char in Hin. apply in_flat_map in Hin.
  destruct Hin as [c [_ Hc]].
  destruct (Z.eqb_spec c a) as [Hca|Hca]; destruct Hc as [Hc|[]]; congruence.
Qed.

(** ** Substring tests *)

Lemma is_prefix_app (k s r : text) : is_prefix k s = true -> is_prefix k (s ++ r) = true.
Proof.
  revert s; induction k as [|a k IH]; intros [|b s] H; simpl in *; auto; try discriminate.
  apply andb_prop in H as [H1 H2]. rewrite H1. simpl. auto.
Qed.

(** [k] does not span the code point [c] when [c] is not in [k]. *)
Lemma is_prefix_app_sep (k s r : text) (c : Z) :
  ~ In c k -> is_prefix k (s ++ c :: r) = is_prefix k s.
Proof.
  revert s; induction k as [|a k IH]; intros [|b s] Hc; simpl; auto.
  - destruct (Z.eqb_spec a c); [subst; exfalso; apply Hc; left; reflexivity | reflexivity].
  - rewrite IH; [reflexivity | intros Hin; apply Hc; right; exact Hin].
Qed.

Lemma contains_app_sep (s r k : text) (c : Z) :
  ~ In c k -> contains (s ++ c :: r) k = contains s k || contains r k.
Proof.
  intros Hc. induction s as [|b s IH].
  - destruct k as [|a k]; [reflexivity|]. cbn [app contains is_prefix].
    destruct (Z.eqb_spec a c); [subst; exfalso; apply Hc; left; reflexivity | reflexivity].
  - change ((b :: s) ++ c :: r) with (b :: (s ++ c :: r)). cbn [contains].
    rewrite IH, <- orb_assoc. f_equal.
    change (b :: s ++ c :: r) with ((b :: s) ++ c :: r). apply is_prefix_app_sep, Hc.
Qed.

(** [no_start p k]: no occurrence of [k] can start inside [p], whatever
    follows [p]: no suffix of [p] is a prefix of [k] or has [k] as a
    prefix. *)
Fixpoint no_start (p k : text) : bool :=
  match p with
  | [] => true
  | c :: p' => negb (is_prefix k (c :: p')) && negb (is_prefix (c :: p') k) && no_start p' k
  end.

Lemma is_prefix_app_inv (k u s : text) :
  is_prefix k (u ++ s) = true -> is_prefix k u = true \/ is_prefix u k = true.
Proof.
  revert u; induction k as [|a k IH]; intros [|b u] H; simpl in *; auto.
  apply andb_prop in H as [H1 H2]. apply Z.eqb_eq in H1. subst b.
  rewrite Z.eqb_refl. simpl. apply IH, H2.
Qed.

Lemma contains_app_l (p s k : text) : no_start p k = true -> contains (p ++ s) k = contains s k.
Proof.
  intros Hp. induction p as [|b p IH]; [reflexivity|].
  cbn [no_start] in Hp. apply andb_prop in Hp as [Hb Hp]. apply andb_prop in Hb as [H1 H2].
  change ((b :: p) ++ s) with (b :: (p ++ s)). cbn [contains]. rewrite IH by exact Hp.
  destruct (is_prefix k (b :: p ++ s)) eqn:E; [|reflexivity].
  change (b :: p ++ s) with ((b :: p) ++ s) in E.
  destruct (is_prefix_app_inv _ _ _ E) as [E'|E']; rewrite E' in *; discriminate.
Qed.

Lemma contains_infix (a s b k : text) : contains s k = true -> contains (a ++ s ++ b) k = true.
Proof.
  intros H. induction a as [|x a IH]; simpl; [|rewrite IH; apply orb_true_r].
  induction s as [|y s IHs]; simpl in *.
  - destruct k; [destruct b; reflexivity | discriminate].
  - apply orb_true_iff in H as [H|H].
    + change (y :: s ++ b) with ((y :: s) ++ b). rewrite (is_prefix_app _ _ _ H). reflexivity.
    + rewrite IHs by exact H. apply orb_true_r.
Qed.

Lemma existsb_map {A B} (f : B -> bool) (g : A -> B) (l : list A) :
  existsb f (map g l) = existsb (fun x => f (g x)) l.
Proof. induction l as [|x l IH]; simpl; [reflexivity | rewrite IH; reflexivity]. Qed.

Lemma lower_app (a b : text) : lower (a ++ b) = lower a ++ lower b.
Proof. apply flat_map_app. Qed.

Lemma lower_char_idem (c : Z) : lower (lower_char c) = lower_char c.
Proof.
  unfold lower_char.
  destruct ((65 <=? c) && (c <=? 90)) eqn:E1; [|destruct (c =? 304) eqn:E2; [|destruct (c =? 8490) eqn:E3]].
  - apply andb_true_iff in E1 as [E1 E2]. apply Z.leb_le in E1, E2.
    cbn [lower flat_map]. unfold lower_char.
    replace ((65 <=? c + 32) && (c + 32 <=? 90)) with false
      by (symmetry; apply andb_false_iff; right; apply Z.leb_gt; lia).
    replace (c + 32 =? 304) with false by (symmetry; apply Z.eqb_neq; lia).
    replace (c + 32 =? 8490) with false by (symmetry; apply Z.eqb_neq; lia). reflexivity.
  - reflexivity.
  - reflexivity.
  - cbn [lower flat_map]. unfold lower_char. rewrite E1, E2, E3. reflexivity.
Qed.

(** [str.lower()] is idempotent. *)
Lemma lower_idem (s : text) : lower (lower s) = lower s.
Proof.
  induction s as [|c s IH]; [reflexivity|].
  change (lower (c :: s)) with (lower_char c ++ lower s). rewrite lower_app, IH, lower_char_idem. reflexivity.
Qed.

Lemma is_prefix_spec (k s : text) : is_prefix k s = true <-> exists y, s = k ++ y.
Proof.
  revert s; induction k as [|a k IH]; intros [|b s]; cbn [is_prefix app].
  - split; [exists []; reflexivity | reflexivity].
  - split; [exists (b :: s); reflexivity | reflexivity].
  - split; [discriminate | intros [y E]; discriminate E].
  - rewrite andb_true_iff, Z.eqb_eq, IH. split.
    + intros [-> [y ->]]. exists y. reflexivity.
    + intros [y E]. injection E as -> E. split; [reflexivity | exists y; exact E].
Qed.

(** [k in s] holds exactly when [s] is [x + k + y]. *)
Lemma contains_spec (s k : text) : contains s k = true <-> exists x y, s = x ++ k ++ y.
Proof.
  induction s as [|c s IH]; cbn [contains].
  - rewrite orb_false_r, is_prefix_spec. split.
    + intros [y E]. exists [], y. exact E.
    + intros [x [y E]]. destruct x; [exists y; exact E | discriminate E].
  - rewrite orb_true_iff, is_prefix_spec, IH. split.
    + intros [[y E] | [x [y E]]]; [exists [], y; exact E | exists (c :: x), y; rewrite E; reflexivity].
    + intros [[|d x] [y E]]; [left; exists y; exact E|].
      injection E as -> E. right. exists x, y. exact E.
Qed.

(** A text holding a keyword holds every infix of it. *)
Lemma contains_key_infix (s a k b : text) : contains s (a ++ k ++ b) = true -> contains s k = true.
Proof.
  rewrite !contains_spec. intros [x [y E]]. exists (x ++ a), (b ++ y). rewrite E, <- !app_assoc. reflexivity.
Qed.

(** [(s or "").strip()[:n]] is a piece of [s]: what it contains, [s]
    contains. *)
Lemma contains_cap (s k : text) (n : nat) :
  contains (lower (firstn n (strip s))) k = true -> contains (lower s) k = true.
Proof.
  intros H. destruct (strip_decomp s) as [p [q [Hs _]]].
  rewrite Hs, <- (firstn_skipn n (strip s)), !lower_app, <- app_assoc.
  apply contains_infix, H.
Qed.

(** ** Rounding *)

Lemma py_round_nonneg (n : Z) (d : positive) : 0 <= n -> 0 <= py_round n d.
Proof.
  intros Hn. unfold py_round.
  assert (0 <= n / Z.pos d) by (apply Z.div_pos; lia).
  destruct (Z.compare _ _); [destruct (Z.even _)|..]; lia.
Qed.

(** Rounding [n / d] to an integer never goes above an integer bound
    of [n / d]. *)
Lemma py_round_le (n : Z) (d : positive) (m : Z) : n <= m * Z.pos d -> py_round n d <= m.
Proof.
  intros Hn. unfold py_round.
  pose proof (Z.div_mod n (Z.pos d) ltac:(lia)) as Hdm.
  pose proof (Z.mod_pos_bound n (Z.pos d) ltac:(lia)) as Hr.
  assert (Hq : n / Z.pos d <= m).
  { apply Z.div_le_upper_bound; lia. }
  assert (Hc : n / Z.pos d < m \/ n mod Z.pos d = 0) by nia.
  destruct (Z.compare_spec (2 * (n mod Z.pos d)) (Z.pos d)) as [E|E|E];
    [destruct (Z.even _)|..]; lia.
Qed.

#[export] Hint Resolve py_round_nonneg : pyc.
#[export] Hint Resolve length_lstrip length_strip in_skipn in_firstn : pyc.
#[export] Hint Rewrite length_replace_char1 : pyc_rw.
#[export] Hint Rewrite strip_idem : pyc_rw.
#[export] Hint Rewrite lstrip_idem : pyc_rw.
