(* ===== verification/Regex.v ===== *)
(** * The subset of Python's [re] engine ([sre]) the backend uses

    Patterns are values of [regex]; [bt] is the backtracking matcher in
    continuation-passing style, trying alternatives in the order [sre]
    tries them (greedy repeats from the longest count down, optional
    groups body-first); [search], [finditer] and [re_sub] are the scanner
    loops of [re.search], [re.finditer] and [re.sub]. *)

From Stdlib Require Import ZArith List Lia Bool.
From S2P Require Import Prelude.
Import ListNotations.
Open Scope list_scope.

Module Sre.

(** Capture registers: group number and span; the first binding of a
    group is its current value. *)
Definition caps := list (nat * (nat * nat)).

Inductive regex : Type :=
| RAny (p : Z -> bool)                          (** [LITERAL]/[IN]: one code point of a class *)
| RSeq (r1 r2 : regex)                          (** concatenation *)
| ROpt (r : regex)                              (** [(?:r)?]: greedy [MAX_REPEAT 0 1] *)
| RRep (p : Z -> bool) (lo : nat) (hi : option nat)
                                                (** [REPEAT_ONE]: greedy [class{lo,hi}], [hi = None] is unbounded *)
| RGroup (g : nat) (r : regex)                  (** capturing group number [g] *)
| RBol.                                         (** [^] under [re.MULTILINE] *)

Record match_ : Type := mkMatch { m_start : nat; m_end : nat; m_caps : caps }.

Definition get_cap (g : nat) (c : caps) : option (nat * nat) :=
  match find (fun gs => Nat.eqb (fst gs) g) c with
  | Some (_, sp) => Some sp
  | None => None
  end.

(** [m.group(g)]. *)
Definition group (s : text) (m : match_) (g : nat) : option text :=
  match get_cap g (m_caps m) with
  | Some (i, j) => Some (slice s i j)
  | None => None
  end.

(** Number of code points of class [p] at the front of [l]. *)
Fixpoint count_while (p : Z -> bool) (l : text) : nat :=
  match l with
  | c :: l' => if p c then S (count_while p l') else O
  | [] => O
  end.

(** How many times [REPEAT_ONE] can match at [i]: at most [hi]. *)
Definition run_len (p : Z -> bool) (hi : option nat) (s : text) (i : nat) : nat :=
  match hi with
  | Some h => Nat.min h (count_while p (skipn i s))
  | None => count_while p (skipn i s)
  end.

(** [AT_BEGINNING_LINE]: start of the string or just after ['\n']. *)
Definition at_line_start (s : text) (i : nat) : bool :=
  match i with
  | O => true
  | S i' => match nth_error s i' with Some c => c =? 10 | None => false end
  end.

Section Backtrack.
Context {A : Type}.

(** Greedy repeat: continue after [lo + m], [lo + m - 1], ..., [lo]
    repetitions, and stop at the first continuation that succeeds. *)
Fixpoint try_down (k : nat -> caps -> option A) (i lo m : nat) (c : caps) : option A :=
  match k (i + lo + m)%nat c with
  | Some x => Some x
  | None => match m with O => None | S m' => try_down k i lo m' c end
  end.

Fixpoint bt (r : regex) (s : text) (i : nat) (c : caps) (k : nat -> caps -> option A)
  : option A :=
  match r with
  | RAny p =>
      match nth_error s i with
      | Some x => if p x then k (S i) c else None
      | None => None
      end
  | RSeq r1 r2 => bt r1 s i c (fun j c' => bt r2 s j c' k)
  | ROpt r1 =>
      match bt r1 s i c k with
      | Some x => Some x
      | None => k i c
      end
  | RRep p lo hi =>
      let n := run_len p hi s i in
      if Nat.ltb n lo then None else try_down k i lo (n - lo) c
  | RGroup g r1 => bt r1 s i c (fun j c' => k j ((g, (i, j)) :: c'))
  | RBol => if at_line_start s i then k i c else None
  end.

End Backtrack.

(** A match attempt starting exactly at [i].  When [must] holds (the
    previous match of the scanner was empty), a match that ends at the
    scan position [pos] is rejected and the engine backtracks, as
    CPython's [must_advance] flag does. *)
Definition match_at (r : regex) (s : text) (must : bool) (pos i : nat) : option match_ :=
  bt r s i [] (fun j c =>
    if must && Nat.eqb j pos then None else Some (mkMatch i j c)).

(** Try start positions [i], [i+1], ..., [i+n]. *)
Fixpoint search_from (r : regex) (s : text) (must : bool) (pos i n : nat) : option match_ :=
  match match_at r s must pos i with
  | Some m => Some m
  | None => match n with O => None | S n' => search_from r s must pos (S i) n' end
  end.

(** [pattern.search(s, pos)]: leftmost start in [pos .. len s]. *)
Definition search (r : regex) (s : text) (must : bool) (pos : nat) : option match_ :=
  search_from r s must pos pos (length s - pos).

(** The scanner loop of [pattern.finditer(s)]: search from the end of
    the previous match; remember whether that match was empty. *)
Fixpoint finditer_fuel (fuel : nat) (r : regex) (s : text) (must : bool) (pos : nat)
  : list match_ :=
  match fuel with
  | O => []
  | S f =>
      match search r s must pos with
      | None => []
      | Some m => m :: finditer_fuel f r s (Nat.eqb (m_end m) (m_start m)) (m_end m)
      end
  end.

Definition finditer (r : regex) (s : text) : list match_ :=
  finditer_fuel (2 * length s + 2) r s false 0.

(** [pattern.sub(repl, s)] for a replacement without group references:
    the text between matches is kept and each match is replaced. *)
Fixpoint sub_pieces (s : text) (pos : nat) (ms : list match_) (repl : text) : text :=
  match ms with
  | [] => skipn pos s
  | m :: ms' => slice s pos (m_start m) ++ repl ++ sub_pieces s (m_end m) ms' repl
  end.

Definition re_sub (r : regex) (repl : text) (s : text) : text :=
  sub_pieces s 0 (finditer r s) repl.

(** ** The matcher calls its continuation at a position inside the text *)

Lemma try_down_cont {A} (k : nat -> caps -> option A) i lo m c x :
  try_down k i lo m c = Some x ->
  exists n, (lo <= n <= lo + m)%nat /\ k (i + n)%nat c = Some x.
Proof.
  induction m as [|m IH]; simpl.
  - destruct (k (i + lo + 0)%nat c) eqn:E; intros H; inv H.
    exists lo. rewrite Nat.add_0_r in E. split; [lia | exact E].
  - destruct (k (i + lo + S m)%nat c) eqn:E; intros H.
    + inv H. exists (lo + S m)%nat. rewrite Nat.add_assoc. split; [lia | exact E].
    + destruct (IH H) as [n [Hn Hk]]. exists n. split; [lia | exact Hk].
Qed.

Lemma count_while_le p l : (count_while p l <= length l)%nat.
Proof. induction l as [|c l IH]; simpl; [lia|]. destruct (p c); lia. Qed.

Lemma run_len_le p hi s i : (run_len p hi s i <= length s - i)%nat.
Proof.
  pose proof (count_while_le p (skipn i s)) as H. rewrite length_skipn in H.
  unfold run_len. destruct hi; lia.
Qed.

(** Whatever [bt r] returns comes from one call of its continuation at a
    position [j] with [i <= j], and [j] stays inside the text when [i]
    does. *)
Lemma bt_cont {A} (r : regex) s : forall i c (k : nat -> caps -> option A) x,
  bt r s i c k = Some x ->
  exists j c', (i <= j)%nat /\ ((i <= length s)%nat -> (j <= length s)%nat) /\ k j c' = Some x.
Proof.
  induction r as [p | r1 IH1 r2 IH2 | r1 IH | p lo hi | g r1 IH |]; intros i c k x H; simpl in H.
  - destruct (nth_error s i) as [y|] eqn:E; [|discriminate].
    destruct (p y); [|discriminate].
    assert (i < length s)%nat by (apply nth_error_Some; congruence).
    exists (S i), c. repeat split; auto; lia.
  - destruct (IH1 _ _ _ _ H) as [j1 [c1 [Hij1 [Hin1 Hk1]]]].
    destruct (IH2 _ _ _ _ Hk1) as [j2 [c2 [Hij2 [Hin2 Hk2]]]].
    exists j2, c2. repeat split; auto; lia.
  - destruct (bt r1 s i c k) eqn:E.
    + inv H. exact (IH _ _ _ _ E).
    + exists i, c. auto.
  - destruct (Nat.ltb (run_len p hi s i) lo) eqn:Elt; [discriminate|].
    destruct (try_down_cont _ _ _ _ _ _ H) as [n [Hn Hk]].
    pose proof (run_len_le p hi s i). apply Nat.ltb_ge in Elt.
    exists (i + n)%nat, c. repeat split; auto; lia.
  - destruct (IH _ _ _ _ H) as [j [c' [Hij [Hin Hk]]]].
    exists j, ((g, (i, j)) :: c'). auto.
  - destruct (at_line_start s i); [|discriminate]. exists i, c. auto.
Qed.

(** A match found by [match_at] spans [i .. j] inside the text and is
    not the empty match the scanner has to skip. *)
Lemma match_at_spec r s must pos i m :
  match_at r s must pos i = Some m ->
  m_start m = i /\ (i <= m_end m)%nat /\
  ((i <= length s)%nat -> (m_end m <= length s)%nat) /\
  (must && Nat.eqb (m_end m) pos = false).
Proof.
  unfold match_at. intros H.
  destruct (bt_cont _ _ _ _ _ _ H) as [j [c [Hij [Hin Hk]]]].
  destruct (must && Nat.eqb j pos) eqn:E; [discriminate|]. inv Hk.
  simpl. auto.
Qed.

(** [search_from] returns the first start position that matches. *)
Lemma search_from_spec r s must pos : forall n i m,
  search_from r s must pos i n = Some m ->
  (i <= m_start m <= i + n)%nat /\ match_at r s must pos (m_start m) = Some m /\
  (forall i', (i <= i' < m_start m)%nat -> match_at r s must pos i' = None).
Proof.
  induction n as [|n IH]; intros i m H; simpl in H.
  - destruct (match_at r s must pos i) eqn:E; [|discriminate]. inv H.
    destruct (match_at_spec _ _ _ _ _ _ E) as [Hs _]. rewrite Hs.
    repeat split; auto; intros; lia.
  - destruct (match_at r s must pos i) eqn:E.
    + inv H. destruct (match_at_spec _ _ _ _ _ _ E) as [Hs _]. rewrite Hs.
      repeat split; auto; intros; lia.
    + destruct (IH _ _ H) as [Hb [Hm Hl]]. repeat split; auto; try lia.
      intros i' Hi'. destruct (Nat.eq_dec i' i); [subst; exact E | apply Hl; lia].
Qed.

(** [search] returns the leftmost match at or after [pos]. *)
Lemma search_spec r s must pos m :
  search r s must pos = Some m ->
  (pos <= m_start m)%nat /\ (m_start m <= m_end m)%nat /\
  ((pos <= length s)%nat -> (m_end m <= length s)%nat) /\
  (must && Nat.eqb (m_end m) pos = false) /\
  match_at r s must pos (m_start m) = Some m /\
  (forall i', (pos <= i' < m_start m)%nat -> match_at r s must pos i' = None).
Proof.
  unfold search. intros H.
  destruct (search_from_spec _ _ _ _ _ _ _ H) as [Hb [Hm Hl]].
  destruct (match_at_spec _ _ _ _ _ _ Hm) as [_ [Hse [Hin Hmust]]].
  repeat split; auto; try lia; intros; apply Hin; lia.
Qed.

(** ** The scanner loop *)

(** The matches of a scan from [pos]: each starts at or after the end of
    the previous one and ends inside the text. *)
Fixpoint ordered (s : text) (pos : nat) (ms : list match_) : Prop :=
  match ms with
  | [] => True
  | m :: ms' =>
      (pos <= m_start m <= m_end m)%nat /\ (m_end m <= length s)%nat /\ ordered s (m_end m) ms'
  end.

(** The measure that bounds the number of scanner steps. *)
Definition scan_measure (s : text) (must : bool) (pos : nat) : nat :=
  (2 * (length s - pos) + if must then 0 else 1)%nat.

(** One step of the scanner decreases [scan_measure]. *)
Lemma scan_step_decreases r s must pos m :
  (pos <= length s)%nat -> search r s must pos = Some m ->
  (m_end m <= length s)%nat /\
  (scan_measure s (Nat.eqb (m_end m) (m_start m)) (m_end m) < scan_measure s must pos)%nat.
Proof.
  intros Hpos H.
  destruct (search_spec _ _ _ _ _ H) as [H1 [H2 [H3 [H4 _]]]].
  specialize (H3 Hpos). split; [exact H3|]. unfold scan_measure.
  destruct (Nat.eqb_spec (m_end m) (m_start m));
    destruct must; simpl in H4; try (apply Nat.eqb_neq in H4); lia.
Qed.

Lemma finditer_fuel_stable r s : forall f1 f2 must pos,
  (pos <= length s)%nat ->
  (scan_measure s must pos < f1)%nat -> (scan_measure s must pos < f2)%nat ->
  finditer_fuel f1 r s must pos = finditer_fuel f2 r s must pos.
Proof.
  induction f1 as [|f1 IH]; intros f2 must pos Hpos H1 H2; [lia|].
  destruct f2 as [|f2]; [lia|]. simpl.
  destruct (search r s must pos) as [m|] eqn:E; auto.
  destruct (scan_step_decreases _ _ _ _ _ Hpos E) as [Hend Hlt].
  f_equal. apply IH; auto; lia.
Qed.

(** The scanner of [finditer] terminates within its fuel: any fuel
    of at least [2 * length s + 2] steps yields the same matches, so the
    bound [finditer] uses never cuts the scan short. *)
Theorem finditer_fuel_enough (r : regex) (s : text) (fuel : nat) :
  (2 * length s + 2 <= fuel)%nat -> finditer_fuel fuel r s false 0 = finditer r s.
Proof.
  intros H. unfold finditer. apply finditer_fuel_stable; unfold scan_measure; lia.
Qed.

Lemma finditer_fuel_enough_witness :
  (2 * length [32; 97; 32] + 2 <= 20)%nat /\
  finditer_fuel 20 (RRep is_space 1 None) [32; 97; 32] false 0 =
  finditer (RRep is_space 1 None) [32; 97; 32].
Proof. split; [simpl; lia | apply finditer_fuel_enough; simpl; lia]. Defined.

Lemma finditer_fuel_ordered r s : forall fuel must pos,
  (pos <= length s)%nat -> ordered s pos (finditer_fuel fuel r s must pos).
Proof.
  induction fuel as [|f IH]; intros must pos Hpos; simpl; auto.
  destruct (search r s must pos) as [m|] eqn:E; simpl; auto.
  destruct (search_spec _ _ _ _ _ E) as [H1 [H2 [H3 _]]].
  specialize (H3 Hpos). repeat split; auto.
Qed.

(** [finditer] returns matches in text order that do not overlap:
    each starts at or after the end of the previous one, and all lie
    inside the text. *)
Theorem finditer_ordered (r : regex) (s : text) : ordered s 0 (finditer r s).
Proof. apply finditer_fuel_ordered. lia. Qed.

(** ** [re.sub] with a one-class pattern [[class]+] *)

(** [search_from] answers [None] only when no start position matches. *)
Lemma search_from_none r s must pos : forall n i,
  search_from r s must pos i n = None ->
  forall i', (i <= i' <= i + n)%nat -> match_at r s must pos i' = None.
Proof.
  induction n as [|n IH]; intros i H i' Hi'; simpl in H;
    destruct (match_at r s must pos i) eqn:E; try discriminate.
  - replace i' with i by lia. exact E.
  - destruct (Nat.eq_dec i' i) as [->|Hne]; [exact E | apply (IH (S i)); [exact H | lia]].
Qed.

(** The suffix of a list from a position it holds. *)
Lemma skipn_nth_cons {A} (l : list A) i x : nth_error l i = Some x -> skipn i l = x :: skipn (S i) l.
Proof.
  revert i. induction l as [|y l IH]; intros [|i] H; simpl in *; try discriminate.
  - congruence.
  - apply IH. exact H.
Qed.

(** [[class]+] fails at a position inside the text, at or after the
    scan position, only on a code point outside the class. *)
Lemma match_at_class p s must pos i c :
  (pos <= i)%nat -> nth_error s i = Some c ->
  match_at (RRep p 1 None) s must pos i = None -> p c = false.
Proof.
  intros Hi Hc H. destruct (p c) eqn:Ep; [|reflexivity]. exfalso.
  unfold match_at in H. cbn [bt] in H. unfold run_len in H.
  rewrite (skipn_nth_cons _ _ _ Hc) in H. cbn [count_while] in H. rewrite Ep in H.
  cbn [Nat.ltb Nat.leb] in H. rewrite ?Nat.sub_0_r in H.
  match type of H with context [try_down _ _ _ ?m _] => destruct m end; cbn [try_down] in H;
    match type of H with context [if ?b then _ else _] => destruct b eqn:Em end; try discriminate;
    apply andb_prop in Em as [_ Em]; apply Nat.eqb_eq in Em; lia.
Qed.

Lemma In_skipn_nth {A} (x : A) n l : In x (skipn n l) -> exists i, (n <= i)%nat /\ nth_error l i = Some x.
Proof.
  intros H. apply In_nth_error in H as [j Hj]. rewrite nth_error_skipn in Hj.
  exists (n + j)%nat. split; [lia | exact Hj].
Qed.

Lemma In_slice_nth (x : Z) s a b : In x (slice s a b) -> exists i, (a <= i < b)%nat /\ nth_error s i = Some x.
Proof.
  unfold slice. intros H. apply In_nth_error in H as [j Hj].
  assert (Hlt : (j < b - a)%nat).
  { assert (Hs : nth_error (firstn (b - a) (skipn a s)) j <> None) by congruence.
    apply nth_error_Some in Hs. rewrite length_firstn in Hs. lia. }
  rewrite nth_error_firstn in Hj. destruct (Nat.ltb_spec j (b - a)); [|lia].
  rewrite nth_error_skipn in Hj. exists (a + j)%nat. split; [lia | exact Hj].
Qed.

(** Every code point [re.sub] outputs for [[class]+] comes from the
    replacement or is a code point of the text outside the class. *)
Lemma sub_pieces_class p repl s c : forall f must pos,
  (pos <= length s)%nat -> (scan_measure s must pos < f)%nat ->
  In c (sub_pieces s pos (finditer_fuel f (RRep p 1 None) s must pos) repl) ->
  In c repl \/ (In c s /\ p c = false).
Proof.
  induction f as [|f IH]; intros must pos Hpos Hf H; [lia|].
  cbn [finditer_fuel] in H. destruct (search (RRep p 1 None) s must pos) as [m|] eqn:E.
  - destruct (search_spec _ _ _ _ _ E) as [H1 [H2 [H3 [_ [_ Hgap]]]]].
    destruct (scan_step_decreases _ _ _ _ _ Hpos E) as [Hend Hlt].
    cbn [sub_pieces] in H. apply in_app_or in H as [H|H]; [|apply in_app_or in H as [H|H]].
    + right. destruct (In_slice_nth _ _ _ _ H) as [i [Hi Hn]].
      split; [eapply nth_error_In; exact Hn|]. apply (match_at_class p s must pos i); [lia | exact Hn | apply Hgap; lia].
    + left. exact H.
    + refine (IH _ _ Hend _ H). lia.
  - cbn [sub_pieces] in H. right. destruct (In_skipn_nth _ _ _ H) as [i [Hi Hn]].
    split; [eapply nth_error_In; exact Hn|].
    assert (Hil : (i < length s)%nat) by (apply nth_error_Some; congruence).
    apply (match_at_class p s must pos i); [lia | exact Hn|].
    unfold search in E. apply (search_from_none _ _ _ _ _ _ E). lia.
Qed.

Lemma re_sub_class p repl s c :
  In c (re_sub (RRep p 1 None) repl s) -> In c repl \/ (In c s /\ p c = false).
Proof.
  unfold re_sub, finditer. apply sub_pieces_class; unfold scan_measure; simpl; lia.
Qed.

End Sre.
