(* ===== verification/Chunking.v ===== *)
(** * Segmenter: chunking.py

    [header_re] is the verbose pattern of [split_numbered_answers]
    written as an [Sre.regex], one constructor per line of the pattern;
    [split_numbered_answers] and [clean_text_basic] follow the Python
    functions statement by statement. *)

From Stdlib Require Import String ZArith List Lia Bool.
From S2P Require Import Prelude Regex.
Import ListNotations.
Open Scope list_scope.

Module Chunking.
Import Sre.

(** ** Case-insensitive literals ([re.IGNORECASE] on a [str] pattern) *)

(** Simple lowercase mapping, on the code points whose lowercase is an
    ASCII letter, U+0131 or U+017F (every other code point is mapped to
    itself, and none of them has such a lowercase). *)
Definition fold_case (c : Z) : Z :=
  if (65 <=? c) && (c <=? 90) then c + 32
  else if c =? 304 then 105
  else if c =? 8490 then 107
  else c.

(** The ignore-case test [sre] compiles for the literal [l] (lowercase):
    [i] and [s] carry the extra equivalences of [sre_compile]
    ([i] ~ U+0131 dotless i, [s] ~ U+017F long s). *)
Definition ci (l : Z) (c : Z) : bool :=
  let f := fold_case c in
  (f =? l) || ((l =? 105) && (f =? 305)) || ((l =? 115) && (f =? 383)).

(** A literal word matched case-insensitively, then [rest]. *)
Fixpoint seq_ci (w : text) (rest : regex) : regex :=
  match w with
  | [] => rest
  | l :: w' => RSeq (RAny (ci l)) (seq_ci w' rest)
  end.

(** A literal word matched exactly, then [rest]. *)
Fixpoint seq_lit (w : text) (rest : regex) : regex :=
  match w with
  | [] => rest
  | l :: w' => RSeq (RAny (Z.eqb l)) (seq_lit w' rest)
  end.

(** [[\.\)\:\-–—]]: period, right parenthesis, colon, hyphen-minus,
    en dash U+2013, em dash U+2014. *)
Definition is_delim (c : Z) : bool :=
  (c =? 46) || (c =? 41) || (c =? 58) || (c =? 45) || (c =? 8211) || (c =? 8212).

Definition ws_star : regex := RRep is_space 0%nat None.
Definition ws_plus : regex := RRep is_space 1%nat None.

(** The header pattern of chunking.py, lines 22-32, compiled with the
    flags [(?mix)] (multiline, ignore case, verbose), one constructor per
    line of the pattern: line start; optional whitespace [\s*]; the
    optional group ["question"] followed by [\s*]; the optional group
    ["q"] followed by [\s*]; group 1, one to three digits [\d{1,3}];
    [\s*]; one delimiter of [[\.\)\:\-–—]]; at least one whitespace
    [\s+]. *)
Definition header_re : regex :=
  RSeq RBol
  (RSeq ws_star
  (RSeq (ROpt (seq_ci (str "question") ws_star))
  (RSeq (ROpt (seq_ci (str "q") ws_star))
  (RSeq (RGroup 1 (RRep is_digit 1%nat (Some 3%nat)))
  (RSeq ws_star
  (RSeq (RAny is_delim)
        ws_plus)))))).

(** [int(m.group(1))]. *)
Definition qno (t : text) (m : match_) : Z :=
  match group t m 1 with
  | Some g => digits_value g
  | None => 0
  end.

(** The loop of [split_numbered_answers] over [enumerate(matches)]: a
    chunk runs from the end of its header to the start of the next one
    (or the end of the text), is stripped, and is kept when non-empty. *)
Fixpoint chunks_of (t : text) (ms : list match_) : list (Z * text) :=
  match ms with
  | [] => []
  | m :: rest =>
      let e := match rest with m' :: _ => m_start m' | [] => length t end in
      let chunk := strip (slice t (m_end m) e) in
      match chunk with
      | [] => chunks_of t rest
      | _ => (qno t m, chunk) :: chunks_of t rest
      end
  end.

Definition split_numbered_answers (text0 : text) : list (Z * text) :=
  let t := strip text0 in
  match t with
  | [] => []
  | _ =>
      match finditer header_re t with
      | [] => []
      | ms => chunks_of t ms
      end
  end.

(** ** [clean_text_basic] *)

(** [\(cid:\d+\)]. *)
Definition cid_re : regex :=
  seq_lit (str "(cid:") (RSeq (RRep is_digit 1%nat None) (RAny (Z.eqb 41))).

(** [[ \t]+]. *)
Definition hspace_re : regex := RRep (fun c => (c =? 32) || (c =? 9)) 1%nat None.

(** [\n{3,}]. *)
Definition newlines3_re : regex := RRep (fun c => c =? 10) 3%nat None.

Definition clean_text_basic (s : text) : text :=
  let s := re_sub cid_re [] s in
  let s := replace_char 173 [] s in
  let s := re_sub hspace_re [32] s in
  let s := re_sub newlines3_re [10; 10] s in
  strip s.

(** ** Chunks *)

Lemma chunks_of_stripped (t : text) (ms : list match_) q c :
  In (q, c) (chunks_of t ms) -> c <> [] /\ strip c = c.
Proof.
  induction ms as [|m rest IH]; simpl; [tauto|].
  destruct (strip (slice t (m_end m) _)) as [|x l] eqn:E; auto.
  intros [H|H]; auto. inv H. split; [discriminate|].
  rewrite <- E. apply strip_idem.
Qed.

(** C4. Every chunk [split_numbered_answers] returns is non-empty and
    already stripped: no chunk begins or ends with whitespace. *)
Theorem split_chunks_stripped (s : text) q c :
  In (q, c) (split_numbered_answers s) -> c <> [] /\ strip c = c.
Proof.
  unfold split_numbered_answers.
  destruct (strip s) as [|x l]; [simpl; tauto|].
  destruct (finditer header_re (x :: l)); [simpl; tauto|].
  apply chunks_of_stripped.
Qed.

(** ** Scenarios *)

Definition nl : text := [10].

(** The end-to-end text of the specification, written on one line. *)
Definition spec_one_line : text :=
  str "1. Services give pods a stable endpoint... 2. ClusterIP is internal... 3. NetworkPolicy can block traffic between frontend and backend...".

(** Headers are recognised only at the start of a line ([^] under
    [re.MULTILINE]): the specification's scenario text written on one
    line yields a single chunk, question 1, holding all three answers. *)
Example split_one_line_scenario :
  split_numbered_answers spec_one_line =
  [(1, str "Services give pods a stable endpoint... 2. ClusterIP is internal... 3. NetworkPolicy can block traffic between frontend and backend...")].
Proof. vm_compute. reflexivity. Qed.

(** With one answer per line, the headers ["1."], ["Q2)"] and
    ["  question 3 -"] are all recognised and give questions 1, 2, 3; a
    header ["0:"] gives question number 0, and a four-digit number is
    not a header and stays inside the previous chunk. *)
Example split_multiline_scenario :
  split_numbered_answers
    (str "1. Services give pods a stable endpoint." ++ nl ++
     str "Q2) ClusterIP is internal" ++ nl ++
     str "  question 3 - NetworkPolicy can block" ++ nl ++
     str "0: zero" ++ nl ++ str "1234. x") =
  [(1, str "Services give pods a stable endpoint.");
   (2, str "ClusterIP is internal");
   (3, str "NetworkPolicy can block");
   (0, str "zero" ++ nl ++ str "1234. x")].
Proof. vm_compute. reflexivity. Qed.

(** [clean_text_basic] is not idempotent, although it is applied
    twice to every chunk (to the submission, then to each chunk in
    main.py): removing one [(cid:N)] artifact can join the text around
    it into a new one. *)
Example clean_text_basic_not_idempotent :
  let s := str "(ci(cid:1)d:2)x" in
  clean_text_basic s = str "(cid:2)x" /\ clean_text_basic (clean_text_basic s) = str "x".
Proof. vm_compute. split; reflexivity. Qed.

Lemma split_chunks_stripped_witness :
  In (1, str "hello") (split_numbered_answers (str "1. hello  ")) /\
  (str "hello" <> [] /\ strip (str "hello") = str "hello").
Proof.
  split; [vm_compute; left; reflexivity|].
  apply (split_chunks_stripped (str "1. hello  ") 1). vm_compute. left. reflexivity.
Defined.

End Chunking.
