(* ===== verification/HeaderParser.v ===== *)
(** * The header pattern of chunking.py as a deterministic parser

    [header_at] reads a question header at a line start in one pass,
    with no backtracking; [header_re_parser] proves that the
    backtracking matcher of [Regex] on [Chunking.header_re] answers
    exactly what [header_at] answers, from every start position, and
    [finditer_header] lifts this to the whole scan of [re.finditer].
    The proof follows the pattern from its end: each suffix of the
    pattern ([tail_delim], [tail_digits], [tail_q], [tail_question]) is
    given a closed form, using that every greedy repeat of the pattern
    is followed by something that fails on the code points it repeats
    over (a blank is neither [q], a digit nor a delimiter; a digit is
    not a delimiter), so only its longest count can succeed. *)

From Stdlib Require Import String ZArith List Lia Bool.
From S2P Require Import Prelude Regex Chunking.
Import ListNotations.
Open Scope Z_scope.

Module HeaderParser.
Import Sre Chunking.

(** ** The reference parser *)

(** [w] matched case-insensitively (as [re.IGNORECASE] compiles a
    literal) at position [i]. *)
Fixpoint word_ci_at (w : text) (s : text) (i : nat) : bool :=
  match w with
  | [] => true
  | l :: w' => match nth_error s i with Some c => ci l c && word_ci_at w' s (S i) | None => false end
  end.

(** The position after the run of whitespace ([\s*]) at [i]. *)
Definition skip_blanks (s : text) (i : nat) : nat := (i + count_while is_space (skipn i s))%nat.

(** From the question number on: one to three digits, blanks, one
    delimiter and at least one blank; the end of the header and the span
    of the number. *)
Definition number_at (s : text) (i3 : nat) : option (nat * (nat * nat)) :=
  let n := count_while is_digit (skipn i3 s) in
  if Nat.eqb n 0 || Nat.ltb 3 n then None else
  let i4 := skip_blanks s (i3 + n) in
  match nth_error s i4 with
  | Some c =>
      if is_delim c then
        let m := count_while is_space (skipn (S i4) s) in
        if Nat.eqb m 0 then None else Some (S i4 + m, (i3, i3 + n))%nat
      else None
  | None => None
  end.

(** A header at line start [i]: blanks, an optional ["question"] and
    blanks, an optional ["q"] and blanks, then [number_at]. *)
Definition header_at (s : text) (i : nat) : option (nat * (nat * nat)) :=
  if negb (at_line_start s i) then None else
  let i1 := skip_blanks s i in
  let i2 := if word_ci_at (str "question") s i1 then skip_blanks s (i1 + 8) else i1 in
  let i3 := if word_ci_at (str "q") s i2 then skip_blanks s (S i2) else i2 in
  number_at s i3.

(** The scanner of [finditer] with [header_at] in place of the matcher. *)
Fixpoint header_search (s : text) (i n : nat) : option match_ :=
  match header_at s i with
  | Some (j, g) => Some (mkMatch i j [(1%nat, g)])
  | None => match n with O => None | S n' => header_search s (S i) n' end
  end.

Fixpoint header_scan (fuel : nat) (s : text) (pos : nat) : list match_ :=
  match fuel with
  | O => []
  | S f =>
      match header_search s pos (length s - pos) with
      | None => []
      | Some m => m :: header_scan f s (m_end m)
      end
  end.

(** ** The suffixes of [header_re] *)

Definition tail_delim : regex := RSeq ws_star (RSeq (RAny is_delim) ws_plus).
Definition tail_digits : regex := RSeq (RGroup 1 (RRep is_digit 1%nat (Some 3%nat))) tail_delim.
Definition tail_q : regex := RSeq (ROpt (seq_ci (str "q") ws_star)) tail_digits.
Definition tail_question : regex := RSeq (ROpt (seq_ci (str "question") ws_star)) tail_q.

(** ** Lemmas *)

Lemma header_re_tails : header_re = RSeq RBol (RSeq ws_star tail_question).
Proof. reflexivity. Qed.

Section Bt.
Context {A : Type}.

Lemma bt_seq_ci (w : text) rest s : forall i c (k : nat -> caps -> option A),
  bt (seq_ci w rest) s i c k = if word_ci_at w s i then bt rest s (i + length w) c k else None.
Proof.
  induction w as [|l w IH]; intros i c k; cbn [seq_ci word_ci_at length].
  - rewrite Nat.add_0_r. reflexivity.
  - cbn [bt]. destruct (nth_error s i) as [x|]; [|reflexivity].
    destruct (ci l x); cbn; [|reflexivity]. rewrite IH, Nat.add_succ_r. reflexivity.
Qed.

Lemma bt_seq r1 r2 s i c (k : nat -> caps -> option A) :
  bt (RSeq r1 r2) s i c k = bt r1 s i c (fun j c' => bt r2 s j c' k).
Proof. reflexivity. Qed.

Lemma bt_group g r s i c (k : nat -> caps -> option A) :
  bt (RGroup g r) s i c k = bt r s i c (fun j c' => k j ((g, (i, j)) :: c')).
Proof. reflexivity. Qed.

Lemma bt_opt r s i c (k : nat -> caps -> option A) :
  bt (ROpt r) s i c k = match bt r s i c k with Some x => Some x | None => k i c end.
Proof. reflexivity. Qed.

Lemma try_down_first (k : nat -> caps -> option A) i lo m c :
  (forall m', (m' < m)%nat -> k (i + lo + m')%nat c = None) -> try_down k i lo m c = k (i + lo + m)%nat c.
Proof.
  induction m as [|m IH]; intros H; cbn [try_down]; [destruct (k _ c); reflexivity|].
  destruct (k (i + lo + S m)%nat c); [reflexivity|]. rewrite IH by (intros; apply H; lia). apply H. lia.
Qed.

(** A greedy repeat whose continuation fails on every shorter count. *)
Lemma bt_rep_greedy p lo hi s i c (k : nat -> caps -> option A) :
  (forall m, (lo <= m < run_len p hi s i)%nat -> k (i + m)%nat c = None) ->
  bt (RRep p lo hi) s i c k = if Nat.ltb (run_len p hi s i) lo then None else k (i + run_len p hi s i)%nat c.
Proof.
  intros H. cbn [bt]. destruct (Nat.ltb_spec (run_len p hi s i) lo); [reflexivity|].
  rewrite try_down_first.
  - f_equal. lia.
  - intros m' Hm'. replace (i + lo + m')%nat with (i + (lo + m'))%nat by lia. apply H. lia.
Qed.
End Bt.

Lemma nth_skipn_count p s i m : (m < count_while p (skipn i s))%nat ->
  exists x, nth_error s (i + m) = Some x /\ p x = true.
Proof.
  revert i. induction m as [|m IH]; intros i H.
  - destruct (skipn i s) as [|x l] eqn:E; cbn in H; [lia|]. destruct (p x) eqn:Ep; [|lia].
    exists x. split; [|exact Ep]. rewrite <- nth_error_skipn, E. reflexivity.
  - destruct (skipn i s) as [|x l] eqn:E; cbn in H; [lia|]. destruct (p x) eqn:Ep; [|lia].
    destruct (IH (S i)) as [y Hy]. { rewrite <- (skipn_skipn 1 i), E. cbn. lia. }
    exists y. rewrite Nat.add_succ_r. exact Hy.
Qed.

(** Code point facts the header pattern relies on. *)
Lemma ci_cases l x : ci l x = true -> x = l \/ x + 32 = l \/ x = 304 \/ x = 8490 \/ x = 305 \/ x = 383.
Proof.
  unfold ci, fold_case. intros H.
  destruct ((65 <=? x) && (x <=? 90)) eqn:E1;
    [|destruct (x =? 304) eqn:E2; [|destruct (x =? 8490) eqn:E3]];
    repeat rewrite Bool.orb_true_iff, ?Bool.andb_true_iff, ?Z.eqb_eq in *; lia.
Qed.

Lemma space_facts x : is_space x = true -> ci 113 x = false /\ is_digit x = false /\ is_delim x = false.
Proof.
  intros H. unfold is_space in H. apply existsb_exists in H as [y [Hy E]]. apply Z.eqb_eq in E. subst y.
  assert (F : forallb (fun y => negb (ci 113 y) && negb (is_digit y) && negb (is_delim y)) space_points = true)
    by (vm_compute; reflexivity).
  rewrite forallb_forall in F. specialize (F x Hy). rewrite !Bool.andb_true_iff, !Bool.negb_true_iff in F. tauto.
Qed.

Lemma digit_facts x : is_digit x = true -> is_delim x = false /\ is_space x = false.
Proof.
  intros H. split.
  - destruct (is_delim x) eqn:E; [|reflexivity]. unfold is_delim in E.
    repeat rewrite Bool.orb_true_iff, ?Z.eqb_eq in E.
    destruct E as [[[[[E|E]|E]|E]|E]|E]; subst x; vm_compute in H; discriminate.
  - destruct (is_space x) eqn:E; [|reflexivity]. apply space_facts in E. rewrite H in E. tauto.
Qed.

Lemma letter_facts l x : (l = 113 \/ l = 117) -> ci l x = true -> is_digit x = false /\ is_space x = false.
Proof.
  intros Hl H. apply ci_cases in H.
  assert (F : forallb (fun y => negb (is_digit y) && negb (is_space y)) [113; 81; 117; 85; 304; 8490; 305; 383] = true)
    by (vm_compute; reflexivity).
  rewrite forallb_forall in F.
  assert (Hin : In x [113; 81; 117; 85; 304; 8490; 305; 383]) by (simpl; lia).
  specialize (F x Hin). rewrite Bool.andb_true_iff, !Bool.negb_true_iff in F. exact F.
Qed.

Section Tails.
Context {A : Type}.
Implicit Types (k : nat -> caps -> option A).

(** The position after a run of whitespace holds a whitespace code point
    at every shorter count. *)
Lemma space_at s i m : (m < count_while is_space (skipn i s))%nat ->
  exists x, nth_error s (i + m) = Some x /\ is_space x = true.
Proof. apply nth_skipn_count. Qed.

Lemma run_len_none p s i : run_len p None s i = count_while p (skipn i s).
Proof. reflexivity. Qed.

(** [\s*] followed by a pattern that fails on whitespace stops at the
    end of the run. *)
Lemma bt_ws_star s i c k :
  (forall p x c', nth_error s p = Some x -> is_space x = true -> k p c' = None) ->
  bt ws_star s i c k = k (skip_blanks s i) c.
Proof.
  intros Hk. unfold ws_star. rewrite bt_rep_greedy.
  - rewrite run_len_none. reflexivity.
  - intros m [_ Hm]. rewrite run_len_none in Hm. destruct (space_at s i m Hm) as [x [Hx Hs]]. exact (Hk _ _ _ Hx Hs).
Qed.

Lemma nth_error_skipn0 {B} (l : list B) i : nth_error l i = nth_error (skipn i l) 0.
Proof. rewrite nth_error_skipn, Nat.add_0_r. reflexivity. Qed.

Lemma bt_tail_delim_fail s i c k :
  (forall x, nth_error s i = Some x -> is_space x = false /\ is_delim x = false) ->
  bt tail_delim s i c k = None.
Proof.
  intros H. unfold tail_delim. cbn [bt]. unfold ws_star. cbn [bt].
  unfold run_len. destruct (skipn i s) as [|x l] eqn:E.
  - cbn [count_while Nat.ltb Nat.leb Nat.sub try_down]. rewrite !Nat.add_0_r, nth_error_skipn0, E. reflexivity.
  - assert (Hx : nth_error s i = Some x) by (rewrite nth_error_skipn0, E; reflexivity).
    destruct (H x Hx) as [Hs Hd]. cbn [count_while]. rewrite Hs.
    cbn [Nat.ltb Nat.leb Nat.sub try_down]. rewrite !Nat.add_0_r, Hx, Hd. reflexivity.
Qed.

Lemma bt_tail_delim s i c k :
  bt tail_delim s i c k =
  match nth_error s (skip_blanks s i) with
  | Some x => if is_delim x then bt ws_plus s (S (skip_blanks s i)) c k else None
  | None => None
  end.
Proof.
  unfold tail_delim. cbn [bt]. rewrite bt_ws_star; [reflexivity|].
  intros p x c' Hx Hs. cbn [bt]. rewrite Hx. destruct (space_facts x Hs) as [_ [_ ->]]. reflexivity.
Qed.

Lemma skip_ws_stop s p x : nth_error s p = Some x -> is_space x = false -> skip_blanks s p = p.
Proof.
  intros Hx Hs. unfold skip_blanks. rewrite nth_error_skipn0 in Hx.
  destruct (skipn p s) as [|y l]; [discriminate|]. cbn in Hx. injection Hx as Hy. subst y. cbn [count_while]. rewrite Hs. lia.
Qed.

Lemma bt_tail_digits_fail s p c k :
  (forall x, nth_error s p = Some x -> is_digit x = false) -> bt tail_digits s p c k = None.
Proof.
  intros H. unfold tail_digits. cbn [bt]. unfold run_len.
  destruct (skipn p s) as [|x l] eqn:E; [reflexivity|].
  assert (Hx : nth_error s p = Some x) by (rewrite nth_error_skipn0, E; reflexivity).
  cbn [count_while]. rewrite (H x Hx). reflexivity.
Qed.

Lemma bt_tail_digits s i c k :
  bt tail_digits s i c k =
  let n := count_while is_digit (skipn i s) in
  if Nat.eqb n 0 || Nat.ltb 3 n then None else bt tail_delim s (i + n) ((1%nat, (i, i + n)%nat) :: c) k.
Proof.
  unfold tail_digits. rewrite bt_seq, bt_group, bt_rep_greedy.
  - unfold run_len. set (n := count_while is_digit (skipn i s)). cbv zeta.
    assert (Hd : forall m, (m < n)%nat -> bt tail_delim s (i + m) ((1%nat, (i, i + m)%nat) :: c) k = None).
    { intros m Hm. apply bt_tail_delim_fail. intros x Hx.
      destruct (nth_skipn_count is_digit s i m Hm) as [y [Hy Hdy]]. rewrite Hx in Hy. injection Hy as ->.
      destruct (digit_facts y Hdy). split; assumption. }
    destruct (Nat.eqb_spec n 0) as [E0|E0]; [rewrite E0; reflexivity|].
    destruct (Nat.ltb_spec 3 n) as [E3|E3].
    + replace (Nat.min 3 n) with 3%nat by lia. cbn [Nat.ltb Nat.leb]. apply Hd. exact E3.
    + replace (Nat.min 3 n) with n by lia. destruct (Nat.ltb_spec n 1); [lia|]. reflexivity.
  - intros m [_ Hm]. apply bt_tail_delim_fail. intros x Hx.
    assert (Hm' : (m < count_while is_digit (skipn i s))%nat) by (unfold run_len in Hm; lia).
    destruct (nth_skipn_count is_digit s i m Hm') as [y [Hy Hdy]]. rewrite Hx in Hy. injection Hy as ->.
    destruct (digit_facts y Hdy). split; assumption.
Qed.


Lemma word_q s i : word_ci_at (str "q") s i = true -> exists x, nth_error s i = Some x /\ ci 113 x = true.
Proof.
  cbn [str word_ci_at]. destruct (nth_error s i) as [x|]; [|discriminate].
  rewrite Bool.andb_true_r. intros H. exists x. split; [reflexivity | exact H].
Qed.

Lemma word_question s i : word_ci_at (str "question") s i = true ->
  word_ci_at (str "q") s i = true /\ exists y, nth_error s (S i) = Some y /\ ci 117 y = true.
Proof.
  cbn [str word_ci_at]. destruct (nth_error s i) as [x|]; [|discriminate].
  destruct (nth_error s (S i)) as [y|]; [|rewrite Bool.andb_false_r; discriminate].
  intros H. apply Bool.andb_true_iff in H as [Hx H]. apply Bool.andb_true_iff in H as [Hy _].
  split; [rewrite Hx; reflexivity | exists y; split; [reflexivity | exact Hy]].
Qed.

Lemma bt_tail_q s i c k :
  bt tail_q s i c k =
  if word_ci_at (str "q") s i then bt tail_digits s (skip_blanks s (S i)) c k else bt tail_digits s i c k.
Proof.
  unfold tail_q. rewrite bt_seq, bt_opt, bt_seq_ci.
  destruct (word_ci_at (str "q") s i) eqn:Wq; [|reflexivity].
  rewrite bt_ws_star.
  - rewrite Nat.add_1_r. destruct (bt tail_digits s (skip_blanks s (S i)) c k); [reflexivity|].
    apply bt_tail_digits_fail. intros x Hx.
    destruct (word_q s i Wq) as [y [Hy Hq]]. rewrite Hx in Hy. injection Hy as ->.
    apply (letter_facts 113); [left; reflexivity | exact Hq].
  - intros p x c' Hx Hs. apply bt_tail_digits_fail. intros y Hy. rewrite Hx in Hy. injection Hy as <-.
    apply space_facts. exact Hs.
Qed.

(** [tail_q] fails on whitespace. *)
Lemma bt_tail_q_space s p x c k : nth_error s p = Some x -> is_space x = true -> bt tail_q s p c k = None.
Proof.
  intros Hx Hs. destruct (space_facts x Hs) as [Hq [Hd _]]. rewrite bt_tail_q.
  destruct (word_ci_at (str "q") s p) eqn:W.
  - destruct (word_q s p W) as [y [Hy Hy']]. rewrite Hx in Hy. injection Hy as <-. congruence.
  - apply bt_tail_digits_fail. intros y Hy. rewrite Hx in Hy. injection Hy as <-. exact Hd.
Qed.

Lemma bt_tail_question s i c k :
  bt tail_question s i c k =
  if word_ci_at (str "question") s i then bt tail_q s (skip_blanks s (i + 8)) c k else bt tail_q s i c k.
Proof.
  unfold tail_question. rewrite bt_seq, bt_opt, bt_seq_ci.
  destruct (word_ci_at (str "question") s i) eqn:W; [|reflexivity].
  rewrite bt_ws_star by (intros p x c' Hx Hs; exact (bt_tail_q_space s p x c' k Hx Hs)).
  cbn [length str]. destruct (bt tail_q s (skip_blanks s (i + 8)) c k); [reflexivity|].
  destruct (word_question s i W) as [Wq [y [Hy Hu]]]. rewrite bt_tail_q, Wq.
  destruct (letter_facts 117 y (or_intror eq_refl) Hu) as [Hyd Hys].
  rewrite (skip_ws_stop s (S i) y Hy Hys). apply bt_tail_digits_fail.
  intros z Hz. rewrite Hy in Hz. injection Hz as <-. exact Hyd.
Qed.

End Tails.

Lemma skip_ws_ge s i : (i <= skip_blanks s i)%nat.
Proof. unfold skip_blanks. lia. Qed.

Lemma try_down_top {B} (k : nat -> caps -> option B) i lo m c x :
  k (i + lo + m)%nat c = Some x -> try_down k i lo m c = Some x.
Proof. destruct m; cbn [try_down]; intros ->; reflexivity. Qed.

Section Final.
Variables (s : text) (must : bool) (pos i : nat).

(** The continuation [match_at] gives the matcher. *)
Definition final_k (j : nat) (c : caps) : option match_ :=
  if must && Nat.eqb j pos then None else Some (mkMatch i j c).

Lemma bt_number i3 : (pos <= i3)%nat ->
  bt tail_digits s i3 [] final_k =
  match number_at s i3 with Some (j, g) => Some (mkMatch i j [(1%nat, g)]) | None => None end.
Proof.
  intros Hp. rewrite bt_tail_digits. unfold number_at. cbv zeta.
  set (n := count_while is_digit (skipn i3 s)).
  destruct (Nat.eqb n 0 || Nat.ltb 3 n); [reflexivity|].
  rewrite bt_tail_delim. set (i4 := skip_blanks s (i3 + n)).
  assert (H4 : (i3 + n <= i4)%nat) by apply skip_ws_ge.
  destruct (nth_error s i4) as [x|]; [|reflexivity]. destruct (is_delim x); [|reflexivity].
  unfold ws_plus. cbn [bt]. unfold run_len. set (m := count_while is_space (skipn (S i4) s)).
  destruct (Nat.eqb_spec m 0) as [E|E].
  - rewrite E. reflexivity.
  - destruct (Nat.ltb_spec m 1); [lia|]. apply try_down_top. unfold final_k.
    replace (S i4 + 1 + (m - 1))%nat with (S i4 + m)%nat by lia.
    destruct (Nat.eqb_spec (S i4 + m) pos); [lia|]. rewrite Bool.andb_false_r. reflexivity.
Qed.
End Final.

(** The question-number scan fails on whitespace. *)
Lemma bt_tail_question_space {A} s p x c (k : nat -> caps -> option A) :
  nth_error s p = Some x -> is_space x = true -> bt tail_question s p c k = None.
Proof.
  intros Hx Hs. rewrite bt_tail_question. destruct (word_ci_at (str "question") s p) eqn:W.
  - destruct (word_question s p W) as [Wq _]. destruct (word_q s p Wq) as [y [Hy Hq]].
    rewrite Hx in Hy. injection Hy as <-. destruct (space_facts x Hs). congruence.
  - exact (bt_tail_q_space s p x c k Hx Hs).
Qed.

Lemma bt_bol {A} s i c (k : nat -> caps -> option A) :
  bt RBol s i c k = if at_line_start s i then k i c else None.
Proof. reflexivity. Qed.

(** The header pattern, run by the backtracking matcher from a position
    at or after the scan position, gives exactly the deterministic
    parse [header_at]: its end and the span of group 1. *)
Lemma header_re_parser (s : text) (must : bool) (pos i : nat) : (pos <= i)%nat ->
  match_at header_re s must pos i =
  match header_at s i with Some (j, g) => Some (mkMatch i j [(1%nat, g)]) | None => None end.
Proof.
  intros Hp. unfold match_at. rewrite header_re_tails, bt_seq, bt_bol. unfold header_at.
  destruct (at_line_start s i); [|reflexivity]. cbn [negb].
  rewrite bt_seq, bt_ws_star by (intros p x c' Hx Hs; exact (bt_tail_question_space s p x c' _ Hx Hs)).
  rewrite bt_tail_question. set (i1 := skip_blanks s i).
  assert (H1 : (i <= i1)%nat) by apply skip_ws_ge.
  set (i2 := if word_ci_at (str "question") s i1 then skip_blanks s (i1 + 8) else i1).
  assert (H2 : (i1 <= i2)%nat) by (unfold i2; destruct (word_ci_at _ s i1); [pose proof (skip_ws_ge s (i1 + 8)); lia | lia]).
  replace (if word_ci_at (str "question") s i1 then bt tail_q s (skip_blanks s (i1 + 8)) [] _ else bt tail_q s i1 [] _)
    with (bt tail_q s i2 [] (final_k must pos i)) by (unfold i2; destruct (word_ci_at _ s i1); reflexivity).
  rewrite bt_tail_q.
  set (i3 := if word_ci_at (str "q") s i2 then skip_blanks s (S i2) else i2).
  assert (H3 : (i2 <= i3)%nat) by (unfold i3; destruct (word_ci_at _ s i2); [pose proof (skip_ws_ge s (S i2)); lia | lia]).
  replace (if word_ci_at (str "q") s i2 then bt tail_digits s (skip_blanks s (S i2)) [] _ else bt tail_digits s i2 [] _)
    with (bt tail_digits s i3 [] (final_k must pos i)) by (unfold i3; destruct (word_ci_at _ s i2); reflexivity).
  apply bt_number. lia.
Qed.

Lemma search_header (s : text) must pos : forall n i, (pos <= i)%nat ->
  search_from header_re s must pos i n = header_search s i n.
Proof.
  induction n as [|n IH]; intros i Hi; cbn [search_from header_search];
    rewrite header_re_parser by exact Hi; destruct (header_at s i) as [[j g]|]; auto.
Qed.

(** C8. Equivalence: [re.finditer] of the header pattern of
    chunking.py, run by the backtracking matcher, finds exactly the
    headers of the one-pass parser [header_scan]: at each line start,
    blanks (which may cross blank lines), an optional ["question"], an
    optional ["q"] (each case-insensitive, each followed by blanks), one
    to three digits not followed by a fourth, blanks, one delimiter of
    [. ) : - – —] and at least one blank, the longest such; backtracking
    never finds another header.  So the segmenter's headers are the
    grammar of the specification, with its spaces read as any
    whitespace, line breaks included. *)
Theorem finditer_header (s : text) : finditer header_re s = header_scan (2 * length s + 2) s 0.
Proof.
  unfold finditer. generalize (2 * length s + 2)%nat as f. generalize false as must. generalize 0%nat as pos.
  intros pos must f. revert pos must. induction f as [|f IH]; intros pos must; [reflexivity|].
  cbn [finditer_fuel header_scan]. unfold search. rewrite search_header by lia.
  destruct (header_search s pos (length s - pos)) as [m|]; [|reflexivity]. rewrite IH. reflexivity.
Qed.

(** Every blank of the pattern is [\s], which includes line breaks: a
    number alone on a line, its delimiter on the next and the answer on
    the line after are one header, and ["Question Q"] prefixes are both
    taken. *)
Example header_spans_lines :
  split_numbered_answers (str "4" ++ nl ++ str "-" ++ nl ++ str "answer" ++ nl ++ str "Question Q5: more") =
  [(4, str "answer"); (5, str "more")].
Proof. vm_compute. reflexivity. Qed.

End HeaderParser.
