(* ===== verification/Json.v ===== *)
(** * Python values returned by the generative provider

    [json.loads] produces [None], [bool], [int], [float] (with [inf] and
    [nan], which Python's decoder accepts), [str], [list] and [dict];
    [py_value] is that type.  The Python operations multi_agent.py
    applies to them are modelled with their exceptions: [dict.get],
    item assignment, truthiness, and the builtin [int()]. *)

From Stdlib Require Import String ZArith QArith List Lia Bool.
From S2P Require Import Prelude.
Import ListNotations.
Open Scope list_scope.

Module Py.

(** The exceptions the modelled code can raise. *)
Inductive exc : Type :=
| TypeError
| ValueError
| OverflowError
| AttributeError
| RuntimeError      (** [GeminiLLM()] without an API key *)
| JSONDecodeError   (** [json.loads] on a text that is not one JSON document *)
| ProviderError     (** a provider call failed in transport *)
| ZeroDivisionError.

(** A computation that returns a value or raises. *)
Inductive result (A : Type) : Type :=
| Ok (a : A)
| Err (e : exc).
Arguments Ok {A} a.
Arguments Err {A} e.

Definition rbind {A B} (r : result A) (f : A -> result B) : result B :=
  match r with Ok a => f a | Err e => Err e end.

Notation "x <- r ;; k" := (rbind r (fun x => k))
  (at level 61, r at next level, right associativity) : py_scope.

Inductive pyfloat : Type :=
| Finite (q : Q)
| PosInf
| NegInf
| NaN.

#[warnings="-register-all"]
Inductive py_value : Type :=
| VNone
| VBool (b : bool)
| VInt (z : Z)
| VFloat (f : pyfloat)
| VStr (s : text)
| VList (l : list py_value)
| VDict (kvs : list (text * py_value)).

(** A Python [dict] built by [json.loads] or by the code has one entry
    per key, in insertion order. *)
Fixpoint dict_find (kvs : list (text * py_value)) (k : text) : option py_value :=
  match kvs with
  | [] => None
  | (k', v) :: kvs' => if list_eq_dec Z.eq_dec k k' then Some v else dict_find kvs' k
  end.

(** [d[k] = v] on a dict: replace the value in place, or append. *)
Fixpoint dict_set (kvs : list (text * py_value)) (k : text) (v : py_value)
  : list (text * py_value) :=
  match kvs with
  | [] => [(k, v)]
  | (k', v') :: kvs' =>
      if list_eq_dec Z.eq_dec k k' then (k', v) :: kvs' else (k', v') :: dict_set kvs' k v
  end.

(** [x.get(k, default)]: only a [dict] has [get]; on any other value the
    attribute lookup raises [AttributeError]. *)
Definition get (x : py_value) (k : text) (default : py_value) : result py_value :=
  match x with
  | VDict kvs => Ok (match dict_find kvs k with Some v => v | None => default end)
  | _ => Err AttributeError
  end.

(** [x[k] = v] with a [str] key: a [dict] is updated; a [list] raises
    [TypeError] (list indices must be integers); other values do not
    support item assignment ([TypeError]). *)
Definition setitem (x : py_value) (k : text) (v : py_value) : result py_value :=
  match x with
  | VDict kvs => Ok (VDict (dict_set kvs k v))
  | _ => Err TypeError
  end.

(** [bool(x)]. *)
Definition truthy (x : py_value) : bool :=
  match x with
  | VNone => false
  | VBool b => b
  | VInt z => negb (z =? 0)
  | VFloat (Finite q) => negb (Qeq_bool q 0)
  | VFloat _ => true
  | VStr s => match s with [] => false | _ => true end
  | VList l => match l with [] => false | _ => true end
  | VDict kvs => match kvs with [] => false | _ => true end
  end.

(** ** [int()] *)

(** Digits after the first one: an underscore is allowed only between
    two digits. *)
Fixpoint digits_tail (l : text) (acc : Z) : option Z :=
  match l with
  | [] => Some acc
  | c :: l' =>
      match decimal_value c with
      | Some v => digits_tail l' (10 * acc + v)
      | None =>
          if c =? 95 then
            match l' with
            | d :: l'' =>
                match decimal_value d with
                | Some v => digits_tail l'' (10 * acc + v)
                | None => None
                end
            | [] => None
            end
          else None
      end
  end.

Definition parse_digits (l : text) : option Z :=
  match l with
  | d :: l' => match decimal_value d with Some v => digits_tail l' v | None => None end
  | [] => None
  end.

(** [int(s)] for a [str]: surrounding whitespace, an optional sign, then
    decimal digits (any Unicode [Nd] digit) with single underscores
    between digits. *)
Definition parse_int_str (s : text) : option Z :=
  match strip s with
  | 43 :: r => parse_digits r
  | 45 :: r => option_map Z.opp (parse_digits r)
  | r => parse_digits r
  end.

(** The builtin [int(x)] on a value of [py_value]. *)
Definition py_int (x : py_value) : result Z :=
  match x with
  | VBool b => Ok (if b then 1 else 0)
  | VInt z => Ok z
  | VFloat (Finite q) => Ok (Z.quot (Qnum q) (Zpos (Qden q)))
  | VFloat PosInf | VFloat NegInf => Err OverflowError
  | VFloat NaN => Err ValueError
  | VStr s => match parse_int_str s with Some z => Ok z | None => Err ValueError end
  | VNone | VList _ | VDict _ => Err TypeError
  end.

(** ** Floats *)

(** [a < b] on doubles: every comparison with a NaN is false. *)
Definition float_lt (a b : pyfloat) : bool :=
  match a, b with
  | NaN, _ | _, NaN => false
  | Finite x, Finite y => negb (Qle_bool y x)
  | NegInf, NegInf => false
  | NegInf, _ => true
  | Finite _, PosInf => true
  | _, _ => false
  end.

Definition float_eq (a b : pyfloat) : bool :=
  match a, b with
  | Finite x, Finite y => Qeq_bool x y
  | PosInf, PosInf | NegInf, NegInf => true
  | _, _ => false
  end.

Definition float_le (a b : pyfloat) : bool := float_lt a b || float_eq a b.

(** [a - b] on doubles, with the infinities and NaN of IEEE 754. *)
Definition float_sub (a b : pyfloat) : pyfloat :=
  match a, b with
  | NaN, _ | _, NaN => NaN
  | Finite x, Finite y => Finite (x - y)
  | PosInf, PosInf | NegInf, NegInf => NaN
  | PosInf, _ | _, NegInf => PosInf
  | NegInf, _ | _, PosInf => NegInf
  end.

(** ASCII lowercase, as [float()] compares ["inf"] and ["nan"]. *)
Definition ascii_lower (c : Z) : Z := if (65 <=? c) && (c <=? 90) then c + 32 else c.

(** A run of decimal digits with single underscores between digits:
    its value, its number of digits, and the rest of the text. *)
Fixpoint scan_digits (l : text) (acc : Z) (n : nat) : Z * nat * text :=
  match l with
  | [] => (acc, n, [])
  | c :: l' =>
      match decimal_value c with
      | Some v => scan_digits l' (10 * acc + v) (S n)
      | None =>
          match l' with
          | d :: l'' =>
              match decimal_value d with
              | Some v => if (c =? 95) && (0 <? n)%nat then scan_digits l'' (10 * acc + v) (S n)
                          else (acc, n, l)
              | None => (acc, n, l)
              end
          | [] => (acc, n, l)
          end
      end
  end.

(** [m * 10^e] as an exact rational. *)
Definition scale10 (m e : Z) : Q :=
  if 0 <=? e then inject_Z (m * 10 ^ e) else m # Z.to_pos (10 ^ (- e)).

(** The decimal literal [digits [. digits] [(e|E) [+|-] digits]], at least
    one digit before or after the point. *)
Definition parse_decimal (body : text) : option Q :=
  let '(ip, ni, r1) := scan_digits body 0 0 in
  let '(fp, nf, r2) :=
    match r1 with 46 :: r => scan_digits r 0 0 | _ => (0, 0%nat, r1) end in
  if ((ni =? 0) && (nf =? 0))%nat then None
  else
    let mant := ip * 10 ^ Z.of_nat nf + fp in
    match r2 with
    | [] => Some (scale10 mant (- Z.of_nat nf))
    | e :: r3 =>
        if (e =? 101) || (e =? 69) then
          let '(sg, r4) := match r3 with 43 :: r => (1, r) | 45 :: r => (-1, r) | _ => (1, r3) end in
          match scan_digits r4 0 0 with
          | (ev, S _, []) => Some (scale10 mant (sg * ev - Z.of_nat nf))
          | _ => None
          end
        else None
    end.

(** [float(s)] for a [str]: surrounding whitespace, an optional sign,
    then [inf], [infinity] or [nan] in any ASCII case, or a decimal
    literal.  Decimal literals are read exactly: their rounding to the
    nearest double is not modelled. *)
Definition parse_float_str (s : text) : option pyfloat :=
  let '(neg, body) := match strip s with
                      | 45 :: r => (true, r) | 43 :: r => (false, r) | r => (false, r) end in
  let lb := map ascii_lower body in
  if list_eq_dec Z.eq_dec lb (str "inf") then Some (if neg then NegInf else PosInf)
  else if list_eq_dec Z.eq_dec lb (str "infinity") then Some (if neg then NegInf else PosInf)
  else if list_eq_dec Z.eq_dec lb (str "nan") then Some NaN
  else option_map (fun q => Finite (if neg then - q else q)%Q) (parse_decimal body).

(** The smallest magnitude an [int] rounds to infinity from:
    [2^1024 - 2^970], half way between the largest double and [2^1024]
    (a tie, which rounds to the even [2^1024]). *)
Definition int_float_limit : Z := 2 ^ 1024 - 2 ^ 970.

(** The builtin [float(x)]. *)
Definition py_float (x : py_value) : result pyfloat :=
  match x with
  | VBool b => Ok (Finite (if b then 1 else 0))
  | VInt z => if int_float_limit <=? Z.abs z then Err OverflowError else Ok (Finite (inject_Z z))
  | VFloat f => Ok f
  | VStr s => match parse_float_str s with Some f => Ok f | None => Err ValueError end
  | VNone | VList _ | VDict _ => Err TypeError
  end.

(** A [Text] column written with [str(v)] holds the value [v] itself;
    [float(column)] then reads [float(str(v))]: the [str] of a bool,
    [None], a list or a dict is not a float literal. *)
Definition float_of_stored (v : py_value) : result pyfloat :=
  match v with
  | VFloat f => Ok f
  | VInt z => Ok (Finite (inject_Z z))
  | VStr s => match parse_float_str s with Some f => Ok f | None => Err ValueError end
  | VBool _ | VNone | VList _ | VDict _ => Err ValueError
  end.

(** [if column:] on a [Text] column written with [str(v)]. *)
Definition stored_truthy (v : py_value) : bool :=
  match v with VStr [] => false | _ => true end.

(** ** Lemmas *)

Lemma dict_find_set_eq kvs k v : dict_find (dict_set kvs k v) k = Some v.
Proof.
  induction kvs as [|[k' v'] kvs IH]; simpl.
  - destruct (list_eq_dec Z.eq_dec k k); congruence.
  - destruct (list_eq_dec Z.eq_dec k k') as [->|Hne]; simpl.
    + destruct (list_eq_dec Z.eq_dec k' k'); congruence.
    + destruct (list_eq_dec Z.eq_dec k k'); [contradiction | exact IH].
Qed.

Lemma dict_find_set_ne kvs k k2 v :
  k2 <> k -> dict_find (dict_set kvs k v) k2 = dict_find kvs k2.
Proof.
  intros Hne. induction kvs as [|[k' v'] kvs IH]; simpl.
  - destruct (list_eq_dec Z.eq_dec k2 k); congruence.
  - destruct (list_eq_dec Z.eq_dec k k') as [->|Hk]; simpl.
    + destruct (list_eq_dec Z.eq_dec k2 k'); congruence.
    + destruct (list_eq_dec Z.eq_dec k2 k'); auto.
Qed.

(** Item assignment followed by [get] of the same key. *)
Lemma setitem_get_eq x k v x' :
  setitem x k v = Ok x' -> forall d, get x' k d = Ok v.
Proof.
  destruct x; simpl; try discriminate. intros H d. inv H. simpl.
  rewrite dict_find_set_eq. reflexivity.
Qed.

Lemma setitem_get_ne x k k2 v x' :
  k2 <> k -> setitem x k v = Ok x' -> forall d, get x' k2 d = get x k2 d.
Proof.
  intros Hne. destruct x; simpl; try discriminate. intros H d. inv H. simpl.
  rewrite dict_find_set_ne by exact Hne. reflexivity.
Qed.

Lemma float_lt_finite (x y : Q) : float_lt (Finite x) (Finite y) = true <-> Qlt x y.
Proof.
  simpl. rewrite negb_true_iff. split; intros H.
  - apply Qnot_le_lt. intros Hle. apply Qle_bool_iff in Hle. congruence.
  - destruct (Qle_bool y x) eqn:E; auto. apply Qle_bool_iff in E. exfalso. exact (Qlt_not_le _ _ H E).
Qed.

Lemma float_lt_irrefl (a : pyfloat) : float_lt a a = false.
Proof.
  destruct a; simpl; auto. rewrite negb_false_iff. apply Qle_bool_iff, Qle_refl.
Qed.

Lemma float_lt_trans (a b c : pyfloat) :
  float_lt a b = true -> float_lt b c = true -> float_lt a c = true.
Proof.
  destruct a as [x| | |], b as [y| | |], c as [z| | |]; try (simpl; discriminate); auto.
  intros H1 H2. apply float_lt_finite in H1, H2. apply float_lt_finite.
  exact (Qlt_trans _ _ _ H1 H2).
Qed.

#[export] Hint Rewrite dict_find_set_eq : pyc_rw.

End Py.
