(* ===== verification/PyFormat.v ===== *)
(** * Python's [str()] and [repr()] on the values of [Py.py_value]

    The handlers of main.py write [str(v)] into [Text] columns and into
    f-strings, and read columns back with [float()].  [py_str] is
    [str()]: [None], [True]/[False], the decimal digits of an [int], the
    [str] itself, [float_repr] of a float, and the [repr]-based text of
    a list or a dict.  [float_repr] is CPython's shortest round-trip
    [repr] for values whose exact decimal expansion has at most 17
    significant digits (every value parsed from a decimal literal of at
    most 17 digits); other rationals are rounded to 17 significant
    digits.  [str_repr] quotes and escapes a [str] as [repr] does, with
    every non-ASCII code point printable except the C1 controls, the
    space separators and the surrogates (the rest of the Unicode
    printability table, e.g. the format characters of category Cf, is
    not modelled).  A float is a rational, so the sign of a negative
    zero is not modelled. *)

From Stdlib Require Import String ZArith QArith List Lia Bool DecimalPos DecimalZ.
From S2P Require Import Prelude Json.
Import ListNotations.
Open Scope list_scope.

Module PyFormat.
Import Py.

(** ** Decimal digits of floats *)

(** Number of decimal digits of a positive integer. *)
Definition ndigits (z : Z) : Z := Z.of_nat (length (py_str_int (Z.abs z))).

(** The least [k <= fuel] with [n * 10^k] divisible by [d]: the number
    of decimals of [n / d] when it is a terminating decimal. *)
Fixpoint decimals_from (fuel : nat) (k : Z) (n d : Z) : option Z :=
  match fuel with
  | O => None
  | S f => if (n * 10 ^ k) mod d =? 0 then Some k else decimals_from f (k + 1) n d
  end.

(** Remove trailing zeros: [(m, e)] and [(m / 10, e + 1)] denote the same
    [m * 10^e]. *)
Fixpoint strip_zeros (fuel : nat) (m e : Z) : Z * Z :=
  match fuel with
  | O => (m, e)
  | S f => if (m mod 10 =? 0) && negb (m =? 0) then strip_zeros f (m / 10) (e + 1) else (m, e)
  end.

(** The significant digits [m] and the exponent [e] of a positive
    rational [n / d] = [m * 10^e]: exact when the expansion terminates
    with at most 17 digits, otherwise rounded half-even to 17 digits. *)
Definition sig_digits (n : Z) (d : positive) : Z * Z :=
  let exact :=
    match decimals_from 1100 0 n (Z.pos d) with
    | Some k => let '(m, e) := strip_zeros 400 (n * 10 ^ k / Z.pos d) (- k) in
                if ndigits m <=? 17 then Some (m, e) else None
    | None => None
    end in
  match exact with
  | Some me => me
  | None =>
      let l := ndigits n - ndigits (Z.pos d) in
      let e0 := 16 - l in
      (* [n / d * 10^e0] lies in [10^15, 10^17); move it to [10^16, 10^17). *)
      let scaled (e : Z) := if 0 <=? e then (n * 10 ^ e, Z.pos d) else (n, Z.pos d * 10 ^ (- e)) in
      let e1 := let '(a, b) := scaled e0 in if a <? 10 ^ 16 * b then e0 + 1 else e0 in
      let '(a, b) := scaled e1 in
      strip_zeros 20 (py_round a (Z.to_pos b)) (- e1)
  end.

Fixpoint zeros (n : nat) : text := match n with O => [] | S k => 48 :: zeros k end.

(** [repr(x)] of a finite positive float with significant digits
    [digits] and [decpt] digits before the decimal point: fixed notation
    when [-4 < decpt <= 16], scientific otherwise, as CPython's
    [float_repr_style = 'short']. *)
Definition format_short (digits : text) (decpt : Z) : text :=
  let nd := Z.of_nat (length digits) in
  if (-4 <? decpt) && (decpt <=? 16) then
    if decpt <=? 0 then str "0." ++ zeros (Z.to_nat (- decpt)) ++ digits
    else if nd <=? decpt then digits ++ zeros (Z.to_nat (decpt - nd)) ++ str ".0"
    else firstn (Z.to_nat decpt) digits ++ [46] ++ skipn (Z.to_nat decpt) digits
  else
    let x := decpt - 1 in
    let mant := match digits with
                | d :: [] => [d]
                | d :: rest => d :: 46 :: rest
                | [] => []
                end in
    let ex := py_str_int (Z.abs x) in
    mant ++ [101] ++ (if x <? 0 then [45] else [43]) ++
    (if (length ex <? 2)%nat then 48 :: ex else ex).

Definition float_repr (f : pyfloat) : text :=
  match f with
  | PosInf => str "inf"
  | NegInf => str "-inf"
  | NaN => str "nan"
  | Finite q =>
      let n := Qnum q in
      if n =? 0 then str "0.0"
      else
        let '(m, e) := sig_digits (Z.abs n) (Qden q) in
        let digits := py_str_int m in
        (if n <? 0 then [45] else []) ++ format_short digits (Z.of_nat (length digits) + e)
  end.

(** ** [repr] of a [str] *)

Definition hex_digit (v : Z) : Z := if v <? 10 then 48 + v else 87 + v.

(** [\xhh], [\uhhhh] or [\Uhhhhhhhh]. *)
Definition hex_escape (c : Z) : text :=
  let hx (w : nat) := map (fun i => hex_digit ((c / 16 ^ Z.of_nat (w - 1 - i)) mod 16)) (seq 0 w) in
  if c <? 256 then [92; 120] ++ hx 2%nat
  else if c <? 65536 then [92; 117] ++ hx 4%nat
  else [92; 85] ++ hx 8%nat.

(** Code points [repr] escapes: C0 and C1 controls, DEL, the
    separators of categories Zs (but the space), Zl and Zp, and the
    surrogates (category Cs). *)
Definition non_printable (c : Z) : bool :=
  (c <? 32) || ((127 <=? c) && (c <=? 160)) || (c =? 5760) || ((8192 <=? c) && (c <=? 8202)) ||
  (c =? 8232) || (c =? 8233) || (c =? 8239) || (c =? 8287) || (c =? 12288) ||
  ((55296 <=? c) && (c <=? 57343)).

Definition repr_char (quote : Z) (c : Z) : text :=
  if (c =? quote) || (c =? 92) then [92; c]
  else if c =? 9 then [92; 116]
  else if c =? 10 then [92; 110]
  else if c =? 13 then [92; 114]
  else if non_printable c then hex_escape c
  else [c].

(** [repr(s)]: single quotes, or double quotes when [s] contains a
    single quote and no double quote. *)
Definition str_repr (s : text) : text :=
  let quote := if existsb (Z.eqb 39) s && negb (existsb (Z.eqb 34) s) then 34 else 39 in
  [quote] ++ flat_map (repr_char quote) s ++ [quote].

(** ** [str()] and [repr()] *)

(** [", ".join(xs)]. *)
Fixpoint join_repr (xs : list text) : text :=
  match xs with
  | [] => []
  | [x] => x
  | x :: xs' => x ++ str ", " ++ join_repr xs'
  end.

Fixpoint py_repr (v : py_value) : text :=
  match v with
  | VNone => str "None"
  | VBool b => if b then str "True" else str "False"
  | VInt z => py_str_int z
  | VFloat f => float_repr f
  | VStr s => str_repr s
  | VList l => [91] ++ join_repr (map py_repr l) ++ [93]
  | VDict kvs =>
      [123] ++ join_repr (map (fun kv => str_repr (fst kv) ++ str ": " ++ py_repr (snd kv)) kvs) ++ [125]
  end.

Definition py_str (v : py_value) : text :=
  match v with
  | VStr s => s
  | _ => py_repr v
  end.

(** ** Round trip of [int] through [str] *)

Lemma digits_tail_all_digits (t : text) (acc : Z) :
  forallb is_digit t = true -> digits_tail t acc = Some (digits_value_acc acc t).
Proof.
  revert acc; induction t as [|c t IH]; intros acc H; [reflexivity|].
  simpl in *. apply andb_prop in H as [Hc Ht]. unfold is_digit in Hc.
  destruct (decimal_value c); [auto | discriminate].
Qed.

Lemma scan_digits_all_digits (t : text) (acc : Z) (n : nat) :
  forallb is_digit t = true -> scan_digits t acc n = (digits_value_acc acc t, (n + length t)%nat, []).
Proof.
  revert acc n; induction t as [|c t IH]; intros acc n H; [simpl; rewrite Nat.add_0_r; reflexivity|].
  simpl in *. apply andb_prop in H as [Hc Ht]. unfold is_digit in Hc.
  destruct (decimal_value c); [|discriminate]. rewrite IH, Nat.add_succ_r by exact Ht. reflexivity.
Qed.

Lemma uint_text_digits (u : Decimal.uint) : forallb is_digit (uint_text u) = true.
Proof. induction u; simpl; auto. Qed.

Lemma uint_text_no_space (u : Decimal.uint) : forallb (fun c => negb (is_space c)) (uint_text u) = true.
Proof. induction u; simpl; auto. Qed.

Lemma digits_value_uint_pos (u : Decimal.uint) (p : positive) :
  digits_value_acc (Z.pos p) (uint_text u) = Z.pos (Pos.of_uint_acc u p).
Proof.
  revert p; induction u; intros p; cbn [uint_text digits_value_acc Pos.of_uint_acc]; try reflexivity;
    rewrite <- IHu; unfold decimal_value; simpl find; cbv iota beta; f_equal; lia.
Qed.

Lemma digits_value_uint (u : Decimal.uint) : digits_value_acc 0 (uint_text u) = Z.of_uint u.
Proof.
  induction u; cbn [uint_text digits_value_acc]; try reflexivity;
    unfold decimal_value; simpl find; cbv iota beta; [exact IHu|..]; apply digits_value_uint_pos.
Qed.

Lemma strip_no_space (s : text) :
  forallb (fun c => negb (is_space c)) s = true -> strip s = s.
Proof.
  intros H. assert (Hl : forall t, forallb (fun c => negb (is_space c)) t = true -> lstrip t = t).
  { intros [|c t] Ht; [reflexivity|]. simpl in *. apply andb_prop in Ht as [Hc _].
    destruct (is_space c); [discriminate|reflexivity]. }
  unfold strip, rstrip. rewrite (Hl s H), Hl; [apply rev_involutive|].
  rewrite forallb_forall in *. intros c Hc. apply H, in_rev, Hc.
Qed.

Lemma to_int_nonnil (z : Z) :
  match Z.to_int z with Decimal.Pos u | Decimal.Neg u => u <> Decimal.Nil end.
Proof. destruct z; simpl; [discriminate | apply DecimalPos.Unsigned.to_uint_nonnil..]. Qed.

(** The digits of a non-empty [uint] read back by [int()]'s digit
    scanner and by [float()]'s decimal literal scanner. *)
Lemma parse_uint_text (u : Decimal.uint) :
  u <> Decimal.Nil ->
  parse_digits (uint_text u) = Some (Z.of_uint u) /\
  parse_decimal (uint_text u) = Some (inject_Z (Z.of_uint u)).
Proof.
  intros Hu. split.
  - rewrite <- digits_value_uint, <- digits_tail_all_digits by apply uint_text_digits.
    destruct u; [congruence|..]; reflexivity.
  - unfold parse_decimal. rewrite scan_digits_all_digits by apply uint_text_digits.
    rewrite digits_value_uint. cbn. destruct (length (uint_text u)) eqn:E.
    + destruct u; [congruence | discriminate..].
    + unfold scale10. cbn. f_equal. f_equal. lia.
Qed.

(** [float()] of a sign and digits: no [inf] or [nan] word. *)
Lemma parse_float_digits (u : Decimal.uint) (neg : bool) :
  u <> Decimal.Nil ->
  parse_float_str ((if neg then [45] else []) ++ uint_text u) =
  option_map (fun q => Finite (if neg then - q else q)%Q) (parse_decimal (uint_text u)).
Proof.
  intros Hu. unfold parse_float_str.
  rewrite strip_no_space by (destruct neg; apply uint_text_no_space).
  destruct neg, u; try congruence; cbn [app]; cbv beta iota;
    repeat (destruct (list_eq_dec _ _ _) as [E|_]; [simpl in E; discriminate E|]); reflexivity.
Qed.

(** [int()] and [float()] read the decimal text of an integer back. *)
Lemma int_text_roundtrip (z : Z) :
  parse_int_str (py_str_int z) = Some z /\
  parse_float_str (py_str_int z) = Some (Finite (inject_Z z)).
Proof.
  rewrite <- (DecimalZ.of_to z) at 2 4. pose proof (to_int_nonnil z) as Hn.
  unfold py_str_int. destruct (Z.to_int z) as [u|u]; cbn [Z.of_int];
    destruct (parse_uint_text u Hn) as [Hi Hf]; split.
  - unfold parse_int_str. rewrite strip_no_space by apply uint_text_no_space.
    destruct u; try congruence; exact Hi.
  - pose proof (parse_float_digits u false Hn) as Hp; cbn [app] in Hp. rewrite Hp, Hf. reflexivity.
  - unfold parse_int_str. rewrite strip_no_space by apply uint_text_no_space.
    cbv beta iota. rewrite Hi. reflexivity.
  - pose proof (parse_float_digits u true Hn) as Hp; cbn [app] in Hp. rewrite Hp, Hf.
    reflexivity.
Qed.

(** Round trip of an [int] through a [Text] column: [int(str(z))]
    is [z] and [float(str(z))] is [z] as a float, for every integer [z]
    (so [float_of_stored] reads a stored [int] as [float(str(z))] does). *)
Lemma str_int_roundtrip (z : Z) :
  py_int (VStr (py_str (VInt z))) = Ok z /\
  py_float (VStr (py_str (VInt z))) = Ok (Finite (inject_Z z)).
Proof.
  cbn [py_str py_repr py_int py_float].
  destruct (int_text_roundtrip z) as [-> ->]. split; reflexivity.
Qed.

End PyFormat.
