(* ===== verification/JsonCodec.v ===== *)
(** * [json.dumps] and [json.loads]

    The backend stores JSON text written by [json.dumps] (the weak
    concepts of a profile, main.py lines 382 and 391; embedding vectors,
    embeddings.py line 31) and reads it back with [json.loads] (main.py
    lines 340 and 469, embeddings.py line 34), and the Gemini provider
    decodes the model's answer with [json.loads] (llm/gemini.py line
    22).  This file models the two functions of Python's [json] package
    with their default arguments: [dumps] is [JSONEncoder] with
    [ensure_ascii=True] and the separators [", "] and [": "]; [loads] is
    the C scanner of [json.decoder] ([scan_once], [scanstring],
    [_parse_object], [_parse_array], [_match_number]) in strict mode.
    The decoder runs on fuel; [loads] gives it two units per code point
    of the input (a bracket costs one unit to the value and one to its
    elements), which is enough (theorem [loads_fuel]).  Numbers
    with a fraction or an exponent are read with [float()] (so exactly,
    see [Json.parse_float_str]); the nesting limit of the C scanner
    ([RecursionError]) is not modelled. *)

From Stdlib Require Import String ZArith QArith List Lia Bool.
From S2P Require Import Prelude Json PyFormat.
Import ListNotations.
Open Scope list_scope.

Module JsonCodec.
Import Py PyFormat.

(** ** Encoder *)

(** ['{0:04x}'.format(n)] for [0 <= n < 65536]. *)
Definition hex4 (n : Z) : text :=
  map (fun i => hex_digit (Z.land (Z.shiftr n (4 * i)) 15)) [3; 2; 1; 0].

Definition u_escape (n : Z) : text := [92; 117] ++ hex4 n.

(** The replacement of one code point by [py_encode_basestring_ascii]:
    [ESCAPE_DCT] for the quote, the backslash and the controls with a
    short escape, the code point itself in [' '..'~'], a [\uXXXX]
    escape below [0x10000], a surrogate pair above. *)
Definition escape_char (c : Z) : text :=
  if c =? 92 then [92; 92]
  else if c =? 34 then [92; 34]
  else if c =? 8 then [92; 98]
  else if c =? 12 then [92; 102]
  else if c =? 10 then [92; 110]
  else if c =? 13 then [92; 114]
  else if c =? 9 then [92; 116]
  else if (32 <=? c) && (c <=? 126) then [c]
  else if c <? 65536 then u_escape c
  else
    let n := c - 65536 in
    u_escape (Z.lor 55296 (Z.land (Z.shiftr n 10) 1023)) ++ u_escape (Z.lor 56320 (Z.land n 1023)).

Definition encode_str (s : text) : text := [34] ++ flat_map escape_char s ++ [34].

(** [floatstr] with [allow_nan=True]. *)
Definition floatstr (f : pyfloat) : text :=
  match f with
  | NaN => str "NaN"
  | PosInf => str "Infinity"
  | NegInf => str "-Infinity"
  | Finite _ => float_repr f
  end.

Fixpoint dumps (v : py_value) : text :=
  match v with
  | VNone => str "null"
  | VBool b => if b then str "true" else str "false"
  | VInt z => py_str_int z
  | VFloat f => floatstr f
  | VStr s => encode_str s
  | VList l => [91] ++ join_repr (map dumps l) ++ [93]
  | VDict kvs =>
      [123] ++ join_repr (map (fun kv => encode_str (fst kv) ++ str ": " ++ dumps (snd kv)) kvs) ++ [125]
  end.

(** ** Decoder *)

(** [WHITESPACE] of the decoder: space, tab, line feed, carriage
    return. *)
Definition is_ws (c : Z) : bool := (c =? 32) || (c =? 9) || (c =? 10) || (c =? 13).

Fixpoint skip_ws (s : text) : text :=
  match s with
  | c :: s' => if is_ws c then skip_ws s' else s
  | [] => []
  end.

Definition hex_value (c : Z) : option Z :=
  if (48 <=? c) && (c <=? 57) then Some (c - 48)
  else if (97 <=? c) && (c <=? 102) then Some (c - 87)
  else if (65 <=? c) && (c <=? 70) then Some (c - 55)
  else None.

Definition hex4_value (a b c d : Z) : option Z :=
  match hex_value a, hex_value b, hex_value c, hex_value d with
  | Some w, Some x, Some y, Some z => Some (((w * 16 + x) * 16 + y) * 16 + z)
  | _, _, _, _ => None
  end.

Definition is_high_surrogate (u : Z) : bool := (55296 <=? u) && (u <=? 56319).
Definition is_low_surrogate (u : Z) : bool := (56320 <=? u) && (u <=? 57343).

(** [Py_UNICODE_JOIN_SURROGATES]. *)
Definition join_surrogates (hi lo : Z) : Z :=
  Z.lor (Z.shiftl (Z.land hi 1023) 10) (Z.land lo 1023) + 65536.

(** The one-character escapes after a backslash. *)
Definition simple_escape (e : Z) : option Z :=
  if e =? 34 then Some 34 else if e =? 92 then Some 92 else if e =? 47 then Some 47
  else if e =? 98 then Some 8 else if e =? 102 then Some 12 else if e =? 110 then Some 10
  else if e =? 114 then Some 13 else if e =? 116 then Some 9 else None.

(** Prepends a decoded code point to the rest of the decoding. *)
Definition cons_ok (c : Z) (r : result (text * text)) : result (text * text) :=
  match r with Ok (t, r') => Ok (c :: t, r') | Err e => Err e end.

(** [scanstring] from just after the opening quote: the decoded text
    and what follows the closing quote.  A literal control character,
    an unknown escape, a bad [\uXXXX] and a missing closing quote raise
    [JSONDecodeError].  A high surrogate escape directly followed by a
    low surrogate escape is joined into one code point. *)
Fixpoint scan_string (s : text) : result (text * text) :=
  match s with
  | [] => Err JSONDecodeError
  | c :: s1 =>
      if c =? 34 then Ok ([], s1)
      else if c =? 92 then
        match s1 with
        | [] => Err JSONDecodeError
        | e :: s2 =>
            if e =? 117 then
              match s2 with
              | a :: b :: c' :: d :: r =>
                  match hex4_value a b c' d with
                  | None => Err JSONDecodeError
                  | Some u =>
                      if is_high_surrogate u then
                        match r with
                        | x :: y :: e1 :: f1 :: g1 :: h1 :: r2 =>
                            if (x =? 92) && (y =? 117) then
                              match hex4_value e1 f1 g1 h1 with
                              | None => Err JSONDecodeError
                              | Some u2 =>
                                  if is_low_surrogate u2 then cons_ok (join_surrogates u u2) (scan_string r2)
                                  else cons_ok u (scan_string r)
                              end
                            else cons_ok u (scan_string r)
                        | _ => cons_ok u (scan_string r)
                        end
                      else cons_ok u (scan_string r)
                  end
              | _ => Err JSONDecodeError
              end
            else
              match simple_escape e with
              | Some c' => cons_ok c' (scan_string s2)
              | None => Err JSONDecodeError
              end
        end
      else if c <? 32 then Err JSONDecodeError
      else cons_ok c (scan_string s1)
  end.

Definition is_ascii_digit (c : Z) : bool := (48 <=? c) && (c <=? 57).

Fixpoint span_digits (s : text) : text * text :=
  match s with
  | c :: r => if is_ascii_digit c then let '(d, r') := span_digits r in (c :: d, r') else ([], s)
  | [] => ([], [])
  end.

(** The integer part: [0], or a digit [1-9] followed by digits. *)
Definition int_part (s : text) : option (text * text) :=
  match s with
  | c :: r =>
      if c =? 48 then Some ([48], r)
      else if (49 <=? c) && (c <=? 57) then let '(d, r') := span_digits r in Some (c :: d, r')
      else None
  | [] => None
  end.

(** A point and at least one digit, or nothing. *)
Definition frac_part (s : text) : text * text :=
  match s with
  | p :: c :: r =>
      if (p =? 46) && is_ascii_digit c then let '(d, r') := span_digits r in (p :: c :: d, r')
      else ([], s)
  | _ => ([], s)
  end.

(** [e] or [E], an optional sign and at least one digit, or nothing. *)
Definition exp_part (s : text) : text * text :=
  match s with
  | e :: r =>
      if (e =? 101) || (e =? 69) then
        let '(sg, r') :=
          match r with
          | c :: r'' => if (c =? 43) || (c =? 45) then ([c], r'') else ([], r)
          | [] => ([], r)
          end in
        match span_digits r' with
        | ([], _) => ([], s)
        | (d, r'') => (e :: sg ++ d, r'')
        end
      else ([], s)
  | [] => ([], s)
  end.

(** [_match_number]: an optional minus sign, the integer part, an
    optional fraction and an optional exponent, with ASCII digits; the
    matched text, whether it has a fraction or an exponent, and the
    rest. *)
Definition match_number (s : text) : option (text * bool * text) :=
  let '(sign, s1) := match s with c :: r => if c =? 45 then ([c], r) else ([], s) | [] => ([], s) end in
  match int_part s1 with
  | None => None
  | Some (ip, r1) =>
      let '(frac, r2) := frac_part r1 in
      let '(ex, r3) := exp_part r2 in
      Some (sign ++ ip ++ frac ++ ex, negb (match frac, ex with [], [] => true | _, _ => false end), r3)
  end.

(** The number a matched literal denotes: [int(integer)] without
    fraction and exponent, [float(literal)] otherwise. *)
Definition number_value (lit : text) (is_float : bool) : result py_value :=
  if is_float then
    match parse_float_str lit with Some f => Ok (VFloat f) | None => Err JSONDecodeError end
  else match parse_int_str lit with Some z => Ok (VInt z) | None => Err JSONDecodeError end.

(** [dict(pairs)]: a repeated key keeps its first position and its last
    value. *)
Definition dict_of_pairs (pairs : list (text * py_value)) : py_value :=
  VDict (fold_left (fun acc kv => dict_set acc (fst kv) (snd kv)) pairs []).

Definition lit_null : text := str "null".
Definition lit_true : text := str "true".
Definition lit_false : text := str "false".
Definition lit_nan : text := str "NaN".
Definition lit_inf : text := str "Infinity".
Definition lit_ninf : text := str "-Infinity".

Definition strip_prefix (p s : text) : option text :=
  if is_prefix p s then Some (skipn (length p) s) else None.

(** The named constants and the numbers, tried in the order of
    [scan_once]; [None] is its [StopIteration]. *)
Definition scan_scalar (s : text) : option (result (py_value * text)) :=
  match strip_prefix lit_null s with Some r => Some (Ok (VNone, r)) | None =>
  match strip_prefix lit_true s with Some r => Some (Ok (VBool true, r)) | None =>
  match strip_prefix lit_false s with Some r => Some (Ok (VBool false, r)) | None =>
  match strip_prefix lit_nan s with Some r => Some (Ok (VFloat NaN, r)) | None =>
  match strip_prefix lit_inf s with Some r => Some (Ok (VFloat PosInf, r)) | None =>
  match strip_prefix lit_ninf s with Some r => Some (Ok (VFloat NegInf, r)) | None =>
  match match_number s with
  | Some (lit, fl, r) => Some (match number_value lit fl with Ok v => Ok (v, r) | Err e => Err e end)
  | None => None
  end end end end end end end.

(** [scan_once] (a value at the head of [s]), [_parse_array] after
    [[] and blanks, [_parse_object] after [{] and blanks.  [None] is the
    end of the fuel; [Some (Err _)] a [JSONDecodeError] ("Expecting
    value" when no value starts at the head). *)
Fixpoint scan_value (fuel : nat) (s : text) : option (result (py_value * text)) :=
  match fuel with
  | O => None
  | S f =>
      match s with
      | c :: r =>
          if c =? 34 then
            Some (match scan_string r with Ok (t, r') => Ok (VStr t, r') | Err e => Err e end)
          else if c =? 91 then
            match skip_ws r with
            | d :: r' =>
                if d =? 93 then Some (Ok (VList [], r'))
                else match scan_elems f [] (d :: r') with
                     | Some (Ok (l, r'')) => Some (Ok (VList l, r''))
                     | Some (Err e) => Some (Err e)
                     | None => None
                     end
            | [] => Some (Err JSONDecodeError)
            end
          else if c =? 123 then
            match skip_ws r with
            | d :: r' =>
                if d =? 125 then Some (Ok (VDict [], r'))
                else match scan_members f [] (d :: r') with
                     | Some (Ok (kvs, r'')) => Some (Ok (dict_of_pairs kvs, r''))
                     | Some (Err e) => Some (Err e)
                     | None => None
                     end
            | [] => Some (Err JSONDecodeError)
            end
          else match scan_scalar s with Some x => Some x | None => Some (Err JSONDecodeError) end
      | [] => Some (Err JSONDecodeError)
      end
  end
with scan_elems (fuel : nat) (acc : list py_value) (s : text) : option (result (list py_value * text)) :=
  match fuel with
  | O => None
  | S f =>
      match scan_value f s with
      | None => None
      | Some (Err e) => Some (Err e)
      | Some (Ok (v, r)) =>
          match skip_ws r with
          | c :: r' =>
              if c =? 93 then Some (Ok (rev (v :: acc), r'))
              else if c =? 44 then
                match skip_ws r' with
                | d :: r'' => if d =? 93 then Some (Err JSONDecodeError)
                              else scan_elems f (v :: acc) (d :: r'')
                | [] => Some (Err JSONDecodeError)
                end
              else Some (Err JSONDecodeError)
          | [] => Some (Err JSONDecodeError)
          end
      end
  end
with scan_members (fuel : nat) (acc : list (text * py_value)) (s : text)
  : option (result (list (text * py_value) * text)) :=
  match fuel with
  | O => None
  | S f =>
      match s with
      | c :: r =>
          if c =? 34 then
            match scan_string r with
            | Err e => Some (Err e)
            | Ok (k, r1) =>
                match skip_ws r1 with
                | d :: r2 =>
                    if d =? 58 then
                      match scan_value f (skip_ws r2) with
                      | None => None
                      | Some (Err e) => Some (Err e)
                      | Some (Ok (v, r3)) =>
                          match skip_ws r3 with
                          | x :: r4 =>
                              if x =? 125 then Some (Ok (rev ((k, v) :: acc), r4))
                              else if x =? 44 then
                                match skip_ws r4 with
                                | y :: r5 => if y =? 125 then Some (Err JSONDecodeError)
                                             else scan_members f ((k, v) :: acc) (y :: r5)
                                | [] => Some (Err JSONDecodeError)
                                end
                              else Some (Err JSONDecodeError)
                          | [] => Some (Err JSONDecodeError)
                          end
                      end
                    else Some (Err JSONDecodeError)
                | [] => Some (Err JSONDecodeError)
                end
            end
          else Some (Err JSONDecodeError)
      | [] => Some (Err JSONDecodeError)
      end
  end.

(** [json.loads(s)]: no byte order mark, one value between blanks. *)
Definition loads (s : text) : result py_value :=
  if match s with c :: _ => c =? 65279 | [] => false end then Err JSONDecodeError
  else
    match scan_value (S (2 * length s)) (skip_ws s) with
    | Some (Ok (v, r)) => match skip_ws r with [] => Ok v | _ => Err JSONDecodeError end
    | Some (Err e) => Err e
    | None => Err JSONDecodeError
    end.

(** ** The JSON columns of the repository *)

(** [StudentProfile.weak_concepts] is written as [json.dumps(weak)] of
    the list of concept names [pick_weak_concepts] returns (main.py
    lines 382 and 391). *)
Definition weak_concepts_column (weak : list text) : text := dumps (VList (map VStr weak)).

(** [json.loads(profile.weak_concepts) if profile and
    profile.weak_concepts else []] (main.py lines 340 and 469): [None]
    stands for a missing profile or a [NULL] column, and an empty text
    is false as well. *)
Definition read_weak_concepts (column : option text) : result py_value :=
  match column with
  | Some ((_ :: _) as t) => loads t
  | _ => Ok (VList [])
  end.

(** [to_json] and [from_json] of embeddings.py: the [embedding_json]
    column of [ChunkEmbedding]. *)
Definition to_json (vec : list pyfloat) : text := dumps (VList (map VFloat vec)).
Definition from_json (s : text) : result py_value := loads s.

(** ** Lemmas *)

Lemma skip_ws_length (s : text) : (length (skip_ws s) <= length s)%nat.
Proof. induction s as [|c s IH]; simpl; [lia|]. destruct (is_ws c); simpl; lia. Qed.

Lemma scan_string_length (s : text) :
  forall t r, scan_string s = Ok (t, r) -> (length r < length s)%nat.
Proof.
  induction s as [s IH] using (well_founded_induction (Wf_nat.well_founded_ltof _ (@length Z))).
  unfold Wf_nat.ltof in IH.
  intros t r H. destruct s as [|c s1]; [discriminate|]. cbn [scan_string] in H. unfold cons_ok in H.
  break_in H.
  all: try (injection H as <- <-; simpl; lia).
  all: injection H as <- <-;
       match goal with E : scan_string ?x = Ok (_, _) |- _ =>
         refine (Nat.lt_trans _ _ _ (IH x _ _ _ E) _); simpl; lia end.
Qed.

Lemma span_digits_app (s d r : text) : span_digits s = (d, r) -> s = d ++ r.
Proof.
  revert d r; induction s as [|c s IH]; intros d r H; simpl in H; [injection H as <- <-; reflexivity|].
  destruct (is_ascii_digit c); [|injection H as <- <-; reflexivity].
  destruct (span_digits s) as [d' r'] eqn:E. injection H as <- <-. simpl. f_equal. apply IH. reflexivity.
Qed.

Lemma int_part_app (s ip r : text) : int_part s = Some (ip, r) -> s = ip ++ r /\ ip <> [].
Proof.
  unfold int_part. destruct s as [|c s]; [discriminate|].
  destruct (c =? 48) eqn:E0; [intros H; injection H as <- <-; apply Z.eqb_eq in E0; subst; split; [reflexivity | discriminate]|].
  destruct ((49 <=? c) && (c <=? 57)); [|discriminate].
  destruct (span_digits s) as [d r'] eqn:E. intros H. injection H as <- <-.
  rewrite (span_digits_app _ _ _ E). split; [reflexivity | discriminate].
Qed.

Lemma frac_part_app (s f r : text) : frac_part s = (f, r) -> s = f ++ r.
Proof.
  unfold frac_part. destruct s as [|p [|c s]]; intros H; try (injection H as <- <-; reflexivity).
  destruct ((p =? 46) && is_ascii_digit c); [|injection H as <- <-; reflexivity].
  destruct (span_digits s) as [d r'] eqn:E. injection H as <- <-.
  rewrite (span_digits_app _ _ _ E). reflexivity.
Qed.

Lemma exp_part_app (s e r : text) : exp_part s = (e, r) -> s = e ++ r.
Proof.
  unfold exp_part. destruct s as [|x s]; intros H; [injection H as <- <-; reflexivity|].
  destruct ((x =? 101) || (x =? 69)); [|injection H as <- <-; reflexivity].
  destruct (match s with c :: r'' => if (c =? 43) || (c =? 45) then ([c], r'') else ([], s) | [] => ([], s) end)
    as [sg r'] eqn:Es.
  assert (Hs : s = sg ++ r').
  { destruct s as [|c s]; [injection Es as <- <-; reflexivity|].
    destruct ((c =? 43) || (c =? 45)); injection Es as <- <-; reflexivity. }
  destruct (span_digits r') as [[|d ds] r''] eqn:E; injection H as <- <-; [reflexivity|].
  rewrite Hs, (span_digits_app _ _ _ E). simpl. rewrite <- app_assoc. reflexivity.
Qed.

Lemma match_number_app (s lit r : text) (fl : bool) :
  match_number s = Some (lit, fl, r) -> s = lit ++ r /\ lit <> [].
Proof.
  unfold match_number.
  destruct (match s with c :: r => if c =? 45 then ([c], r) else ([], s) | [] => ([], s) end)
    as [sign s1] eqn:Es.
  assert (Hs : s = sign ++ s1).
  { destruct s as [|c s]; [injection Es as <- <-; reflexivity|].
    destruct (c =? 45); injection Es as <- <-; reflexivity. }
  destruct (int_part s1) as [[ip r1]|] eqn:Ei; [|discriminate].
  destruct (frac_part r1) as [f r2] eqn:Ef. destruct (exp_part r2) as [e r3] eqn:Ee.
  intros H. injection H as <- _ <-. destruct (int_part_app _ _ _ Ei) as [H1 Hne].
  rewrite Hs, H1, (frac_part_app _ _ _ Ef), (exp_part_app _ _ _ Ee), !app_assoc.
  split; [reflexivity|]. destruct ip; [congruence|]. destruct sign; discriminate.
Qed.

Lemma strip_prefix_app (p s r : text) : strip_prefix p s = Some r -> length r = (length s - length p)%nat.
Proof.
  unfold strip_prefix. destruct (is_prefix p s); [|discriminate]. intros H. injection H as <-.
  apply length_skipn.
Qed.

Lemma scan_scalar_length (s : text) (v : py_value) (r : text) :
  scan_scalar s = Some (Ok (v, r)) -> (length r < length s)%nat.
Proof.
  unfold scan_scalar. intros H. break_in H;
    repeat match goal with Hs : Some _ = Some _ |- _ => injection Hs as Hs end;
    repeat match goal with Hs : Ok _ = Ok _ |- _ => injection Hs as Hs end; subst;
    try (match goal with E : strip_prefix ?p ?x = Some ?y |- _ =>
           rewrite (strip_prefix_app _ _ _ E); unfold strip_prefix in E;
           destruct (is_prefix p x) eqn:Ep; [|discriminate];
           destruct x; [discriminate | simpl; lia] end).
  match goal with E : match_number ?x = Some (?l, _, _) |- _ =>
    destruct (match_number_app _ _ _ _ E) as [-> Hne]; rewrite length_app;
    destruct l; [congruence | simpl; lia] end.
Qed.

(** Collects the length facts of the decoding steps in the context. *)
Ltac decoded_lengths IHv IHe IHm :=
  repeat match goal with
  | E : scan_value _ ?x = Some (Ok (_, _)) |- _ => pose proof (IHv _ _ _ E); clear E
  | E : scan_elems _ _ ?x = Some (Ok (_, _)) |- _ => pose proof (IHe _ _ _ _ E); clear E
  | E : scan_members _ _ ?x = Some (Ok (_, _)) |- _ => pose proof (IHm _ _ _ _ E); clear E
  | E : scan_string ?x = Ok (_, _) |- _ => pose proof (scan_string_length _ _ _ E); clear E
  | E : scan_scalar ?x = Some (Ok (_, _)) |- _ => pose proof (scan_scalar_length _ _ _ E); clear E
  | E : skip_ws ?x = ?y |- _ =>
      let H := fresh in pose proof (skip_ws_length x) as H; rewrite E in H; clear E
  | H : context [skip_ws ?x] |- _ =>
      let H' := fresh in let y := fresh "w" in
      pose proof (skip_ws_length x) as H'; set (y := skip_ws x) in *; clearbody y
  end.

Lemma scan_lengths (n : nat) :
  (forall s v r, scan_value n s = Some (Ok (v, r)) -> (length r < length s)%nat) /\
  (forall acc s l r, scan_elems n acc s = Some (Ok (l, r)) -> (length r < length s)%nat) /\
  (forall acc s kvs r, scan_members n acc s = Some (Ok (kvs, r)) -> (length r < length s)%nat).
Proof.
  induction n as [|n [IHv [IHe IHm]]]; [split; [|split]; intros; discriminate|].
  split; [|split].
  - intros s v r H. cbn [scan_value] in H. break_in H; inj_all;
      decoded_lengths IHv IHe IHm; simpl in *; lia.
  - intros acc s l r H. cbn [scan_elems] in H. break_in H; inj_all;
      decoded_lengths IHv IHe IHm; simpl in *; lia.
  - intros acc s kvs r H. cbn [scan_members] in H. break_in H; inj_all;
      decoded_lengths IHv IHe IHm; simpl in *; lia.
Qed.

(** More fuel does not change an answer. *)
Lemma scan_mono (n : nat) :
  (forall s x, scan_value n s = Some x -> forall m, (n <= m)%nat -> scan_value m s = Some x) /\
  (forall acc s x, scan_elems n acc s = Some x -> forall m, (n <= m)%nat -> scan_elems m acc s = Some x) /\
  (forall acc s x, scan_members n acc s = Some x -> forall m, (n <= m)%nat -> scan_members m acc s = Some x).
Proof.
  induction n as [|n [IHv [IHe IHm]]]; [split; [|split]; intros; discriminate|].
  split; [|split]; intros until x; intros H [|m] Hle; try lia;
    [cbn [scan_value] in H |- * | cbn [scan_elems] in H |- * | cbn [scan_members] in H |- *];
    break_in H;
    repeat match goal with
    | E : scan_value n ?s = Some ?y |- _ => rewrite (IHv _ _ E m ltac:(lia)); clear E
    | E : scan_elems n ?a ?s = Some ?y |- _ => rewrite (IHe _ _ _ E m ltac:(lia)); clear E
    | E : scan_members n ?a ?s = Some ?y |- _ => rewrite (IHm _ _ _ E m ltac:(lia)); clear E
    | E : ?a = ?b |- context [?a] => rewrite E
    end; cbn beta iota; first [reflexivity | exact H].
Qed.

(** Two units of fuel per code point are enough: the decoder never
    stops for lack of fuel. *)
Lemma scan_fuel (n : nat) :
  (forall s, (2 * length s < n)%nat -> scan_value n s <> None) /\
  (forall acc s, (2 * length s + 1 < n)%nat -> scan_elems n acc s <> None) /\
  (forall acc s, (2 * length s + 1 < n)%nat -> scan_members n acc s <> None).
Proof.
  induction n as [|n [IHv [IHe IHm]]]; [split; [|split]; intros; lia|].
  destruct (scan_lengths n) as [Lv [Le Lm]].
  split; [|split]; intros until s; intros Hn;
    [cbn [scan_value] | cbn [scan_elems] | cbn [scan_members]]; break_goal;
    try discriminate;
    decoded_lengths Lv Le Lm; simpl in *;
    first [ match goal with E : scan_value n ?x = None |- _ => exfalso; apply (IHv x); [simpl; lia | exact E] end
          | match goal with E : scan_elems n ?a ?x = None |- _ => exfalso; apply (IHe a x); [simpl; lia | exact E] end
          | match goal with E : scan_members n ?a ?x = None |- _ => exfalso; apply (IHm a x); [simpl; lia | exact E] end
          | apply IHe; simpl; lia
          | apply IHm; simpl; lia ].
Qed.

(** ** Hexadecimal escapes and surrogate pairs *)

Lemma nibble (n i : Z) : 0 <= i -> Z.land (Z.shiftr n (4 * i)) 15 = (n / 2 ^ (4 * i)) mod 16.
Proof.
  intros Hi. rewrite Z.shiftr_div_pow2 by lia.
  change 15 with (Z.ones 4). rewrite Z.land_ones by lia. reflexivity.
Qed.

Lemma hex_value_digit (d : Z) : 0 <= d < 16 -> hex_value (hex_digit d) = Some d.
Proof.
  intros Hd. unfold hex_digit, hex_value.
  destruct (Z.ltb_spec d 10).
  - replace ((48 <=? 48 + d) && (48 + d <=? 57)) with true by (symmetry; apply andb_true_iff; lia).
    f_equal. lia.
  - replace ((48 <=? 87 + d) && (87 + d <=? 57)) with false
      by (symmetry; apply andb_false_iff; right; apply Z.leb_gt; lia).
    replace ((97 <=? 87 + d) && (87 + d <=? 102)) with true by (symmetry; apply andb_true_iff; lia).
    f_equal. lia.
Qed.

(** [\uXXXX] of a code point below [0x10000] decodes to it. *)
Lemma u_escape_value (n : Z) :
  0 <= n < 65536 ->
  exists a b c d, u_escape n = [92; 117; a; b; c; d] /\ hex4_value a b c d = Some n.
Proof.
  intros Hn. do 4 eexists. split; [reflexivity|].
  unfold hex4_value. rewrite !nibble by lia.
  rewrite !hex_value_digit by (apply Z.mod_pos_bound; lia). f_equal.
  change (2 ^ (4 * 3)) with 4096. change (2 ^ (4 * 2)) with 256.
  change (2 ^ (4 * 1)) with 16. change (2 ^ (4 * 0)) with 1. rewrite Z.div_1_r.
  assert (H1 : n / 256 = n / 16 / 16) by (rewrite Z.div_div by lia; reflexivity).
  assert (H2 : n / 4096 = n / 256 / 16) by (rewrite Z.div_div by lia; reflexivity).
  assert (H3 : n / 4096 < 16) by (apply Z.div_lt_upper_bound; lia).
  assert (H4 : 0 <= n / 4096) by (apply Z.div_pos; lia).
  rewrite (Z.mod_small (n / 4096) 16) by lia.
  pose proof (Z.div_mod n 16 ltac:(lia)). pose proof (Z.div_mod (n / 16) 16 ltac:(lia)).
  pose proof (Z.div_mod (n / 256) 16 ltac:(lia)). lia.
Qed.

Lemma lor_low (k x : Z) : 0 <= k -> 0 <= x < 1024 -> Z.lor (k * 1024) x = k * 1024 + x.
Proof.
  intros Hk Hx. rewrite <- Z.add_lor_land.
  replace (Z.land (k * 1024) x) with 0; [lia|].
  assert (Hl : Z.log2 x < 10).
  { destruct (Z.eq_dec x 0) as [->|Hne]; [reflexivity|]. apply Z.log2_lt_pow2; lia. }
  rewrite <- (Z.land_ones_low x 10) by (lia || exact Hl).
  rewrite (Z.land_comm x), Z.land_assoc, (Z.land_ones (k * 1024) 10) by lia.
  change (2 ^ 10) with 1024. rewrite Z.mod_mul by lia. reflexivity.
Qed.

Lemma land_1023 (a : Z) : Z.land a 1023 = a mod 1024.
Proof. change 1023 with (Z.ones 10). rewrite Z.land_ones by lia. reflexivity. Qed.

(** The two escapes of a code point above [0xFFFF] are a high and a low
    surrogate that join back into it. *)
Lemma surrogate_pair (c : Z) :
  65536 <= c <= 1114111 ->
  Z.lor 55296 (Z.land (Z.shiftr (c - 65536) 10) 1023) = 55296 + (c - 65536) / 1024 /\
  Z.lor 56320 (Z.land (c - 65536) 1023) = 56320 + (c - 65536) mod 1024 /\
  join_surrogates (55296 + (c - 65536) / 1024) (56320 + (c - 65536) mod 1024) = c.
Proof.
  intros Hc. set (n := c - 65536).
  assert (Hq : 0 <= n / 1024 < 1024) by (split; [apply Z.div_pos | apply Z.div_lt_upper_bound]; lia).
  pose proof (Z.mod_pos_bound n 1024 ltac:(lia)) as Hr.
  pose proof (Z.div_mod n 1024 ltac:(lia)) as Hd.
  rewrite Z.shiftr_div_pow2 by lia. change (2 ^ 10) with 1024.
  rewrite !land_1023, (Z.mod_small (n / 1024)) by lia.
  change 55296 with (54 * 1024). change 56320 with (55 * 1024).
  rewrite !lor_low by lia. split; [reflexivity | split; [reflexivity|]].
  unfold join_surrogates. rewrite !land_1023.
  rewrite (Z.add_comm (54 * 1024)), (Z.add_comm (55 * 1024)), !Z.mod_add, !Z.mod_small by lia.
  rewrite Z.shiftl_mul_pow2 by lia. change (2 ^ 10) with 1024.
  rewrite lor_low by lia. subst n. lia.
Qed.

(** A code point a [str] can hold and the decoder returns as it is: in
    range, not a surrogate. *)
Definition safe_char (c : Z) : bool :=
  (0 <=? c) && (c <=? 1114111) && negb ((55296 <=? c) && (c <=? 57343)).

Lemma scan_escape (c : Z) (rest : text) :
  safe_char c = true -> scan_string (escape_char c ++ rest) = cons_ok c (scan_string rest).
Proof.
  unfold safe_char. intros Hc. apply andb_prop in Hc as [Hc Hs]. apply andb_prop in Hc as [H0 H1].
  apply Z.leb_le in H0. apply Z.leb_le in H1. apply negb_true_iff in Hs.
  assert (Hns : ~ (55296 <= c <= 57343)).
  { intros [A B]. apply Z.leb_le in A. apply Z.leb_le in B. rewrite A, B in Hs. discriminate. }
  clear Hs. unfold escape_char.
  destruct (Z.eqb_spec c 92) as [->|H92]; [reflexivity|].
  destruct (Z.eqb_spec c 34) as [->|H34]; [reflexivity|].
  destruct (Z.eqb_spec c 8) as [->|H8]; [reflexivity|].
  destruct (Z.eqb_spec c 12) as [->|H12]; [reflexivity|].
  destruct (Z.eqb_spec c 10) as [->|H10]; [reflexivity|].
  destruct (Z.eqb_spec c 13) as [->|H13]; [reflexivity|].
  destruct (Z.eqb_spec c 9) as [->|H9]; [reflexivity|].
  destruct ((32 <=? c) && (c <=? 126)) eqn:Hp.
  - cbn [app scan_string]. apply andb_prop in Hp as [Hp _]. apply Z.leb_le in Hp.
    rewrite (proj2 (Z.eqb_neq c 34) H34), (proj2 (Z.eqb_neq c 92) H92).
    replace (c <? 32) with false by (symmetry; apply Z.ltb_ge; lia). reflexivity.
  - destruct (Z.ltb_spec c 65536) as [Hlt|Hge].
    + destruct (u_escape_value c) as [a [b [x [d [E V]]]]]; [lia|]. rewrite E. cbn [app scan_string].
      cbn - [hex4_value is_high_surrogate cons_ok]. rewrite V.
      replace (is_high_surrogate c) with false; [reflexivity|].
      unfold is_high_surrogate. destruct (Z.leb_spec 55296 c); [|reflexivity].
      destruct (Z.leb_spec c 56319); [lia | reflexivity].
    + cbv zeta. destruct (surrogate_pair c) as [Hhi [Hlo Hj]]; [lia|]. rewrite Hhi, Hlo.
      set (n := c - 65536) in *.
      assert (Hq : 0 <= n / 1024 < 1024) by (split; [apply Z.div_pos | apply Z.div_lt_upper_bound]; lia).
      pose proof (Z.mod_pos_bound n 1024 ltac:(lia)) as Hr.
      destruct (u_escape_value (55296 + n / 1024)) as [a [b [x [d [E1 V1]]]]]; [lia|].
      destruct (u_escape_value (56320 + n mod 1024)) as [e [f [g [h [E2 V2]]]]]; [lia|].
      rewrite E1, E2. cbn [app scan_string]. cbn - [hex4_value is_high_surrogate is_low_surrogate cons_ok].
      rewrite V1, V2.
      replace (is_high_surrogate (55296 + n / 1024)) with true
        by (symmetry; unfold is_high_surrogate; apply andb_true_iff; split; apply Z.leb_le; lia).
      replace (is_low_surrogate (56320 + n mod 1024)) with true
        by (symmetry; unfold is_low_surrogate; apply andb_true_iff; split; apply Z.leb_le; lia).
      rewrite Hj. reflexivity.
Qed.

Lemma scan_encoded (t rest : text) :
  forallb safe_char t = true -> scan_string (flat_map escape_char t ++ 34 :: rest) = Ok (t, rest).
Proof.
  induction t as [|c t IH]; intros H; [reflexivity|].
  simpl in H. apply andb_prop in H as [Hc Ht].
  cbn [flat_map]. rewrite <- app_assoc, scan_escape, IH by assumption. reflexivity.
Qed.

(** ** Numbers *)

Lemma uint_text_ascii (u : Decimal.uint) : forallb is_ascii_digit (uint_text u) = true.
Proof. induction u; simpl; auto. Qed.

(** [str()] of a positive integer starts with a digit [1-9]. *)
Lemma pos_text_head (p : positive) :
  exists d ds, uint_text (Pos.to_uint p) = d :: ds /\ 49 <= d <= 57.
Proof.
  assert (E : Pos.to_uint p = Decimal.unorm (Pos.to_uint p)).
  { rewrite <- DecimalPos.Unsigned.to_of, DecimalPos.Unsigned.of_to. reflexivity. }
  unfold Decimal.unorm in E.
  destruct (Decimal.nzhead (Pos.to_uint p)) as [| u | u | u | u | u | u | u | u | u | u] eqn:Ez.
  1: exfalso; apply (DecimalPos.Unsigned.to_uint_nonzero p); exact E.
  1: exfalso; exact (DecimalFacts.nzhead_nonzero _ _ Ez).
  all: rewrite E; do 2 eexists; split; [reflexivity | lia].
Qed.

Lemma span_digits_text (ds r : text) :
  forallb is_ascii_digit ds = true ->
  (match r with c :: _ => is_ascii_digit c = false | [] => True end) ->
  span_digits (ds ++ r) = (ds, r).
Proof.
  intros Hd Hr. induction ds as [|c ds IH].
  - destruct r as [|c r]; [reflexivity|]. simpl. rewrite Hr. reflexivity.
  - simpl in Hd. apply andb_prop in Hd as [Hc Hd]. simpl. rewrite Hc, IH by exact Hd. reflexivity.
Qed.

(** What may follow a value in the text [dumps] writes: nothing, a
    comma, or a closing bracket or brace. *)
Definition value_end (r : text) : bool :=
  match r with [] => true | c :: _ => (c =? 44) || (c =? 93) || (c =? 125) end.

Lemma value_end_number (r : text) :
  value_end r = true ->
  (match r with c :: _ => is_ascii_digit c = false | [] => True end) /\
  frac_part r = ([], r) /\ exp_part r = ([], r).
Proof.
  destruct r as [|c r]; [split; [exact I | split; reflexivity]|].
  intros H. cbn [value_end] in H.
  assert (Hc : c = 44 \/ c = 93 \/ c = 125)
    by (repeat rewrite orb_true_iff in H; rewrite !Z.eqb_eq in H; tauto).
  destruct Hc as [-> | [-> | ->]]; (split; [reflexivity | split; [destruct r; reflexivity | reflexivity]]).
Qed.

Lemma match_number_int (z : Z) (r : text) :
  value_end r = true -> match_number (py_str_int z ++ r) = Some (py_str_int z, false, r).
Proof.
  intros Hr. destruct (value_end_number r Hr) as [Hd [Hf He]].
  unfold py_str_int. destruct z as [|p|p]; cbn [Z.to_int].
  - cbn [uint_text app]. unfold match_number. cbn. rewrite Hf, He. reflexivity.
  - destruct (pos_text_head p) as [d [ds [E Hdr]]]. rewrite E. unfold match_number.
    cbn [app]. replace (d =? 45) with false by (symmetry; apply Z.eqb_neq; lia).
    unfold int_part. replace (d =? 48) with false by (symmetry; apply Z.eqb_neq; lia).
    replace ((49 <=? d) && (d <=? 57)) with true by (symmetry; apply andb_true_iff; lia).
    pose proof (uint_text_ascii (Pos.to_uint p)) as Ha. rewrite E in Ha. simpl in Ha.
    apply andb_prop in Ha as [_ Ha]. rewrite span_digits_text by assumption.
    rewrite Hf, He. cbn [app negb]. rewrite app_nil_r. reflexivity.
  - destruct (pos_text_head p) as [d [ds [E Hdr]]]. rewrite E. unfold match_number.
    cbn [app]. rewrite Z.eqb_refl.
    unfold int_part. replace (d =? 48) with false by (symmetry; apply Z.eqb_neq; lia).
    replace ((49 <=? d) && (d <=? 57)) with true by (symmetry; apply andb_true_iff; lia).
    pose proof (uint_text_ascii (Pos.to_uint p)) as Ha. rewrite E in Ha. simpl in Ha.
    apply andb_prop in Ha as [_ Ha]. rewrite span_digits_text by assumption.
    rewrite Hf, He. cbn [app negb]. rewrite app_nil_r. reflexivity.
Qed.

(** The named constants as code points. *)
Ltac lits :=
  change lit_null with [110; 117; 108; 108] in *; change lit_true with [116; 114; 117; 101] in *;
  change lit_false with [102; 97; 108; 115; 101] in *; change lit_nan with [78; 97; 78] in *;
  change lit_inf with [73; 110; 102; 105; 110; 105; 116; 121] in *;
  change lit_ninf with [45; 73; 110; 102; 105; 110; 105; 116; 121] in *.

Lemma scan_value_int (z : Z) (r : text) (n : nat) :
  value_end r = true -> scan_value (S n) (py_str_int z ++ r) = Some (Ok (VInt z, r)).
Proof.
  intros Hr. pose proof (match_number_int z r Hr) as Hm.
  destruct (int_text_roundtrip z) as [Hi _].
  unfold py_str_int in *. destruct z as [|p|p]; cbn [Z.to_int] in *.
  - cbn [uint_text app] in *. cbn [scan_value]. unfold scan_scalar, strip_prefix.
    cbn - [match_number number_value]. rewrite Hm. unfold number_value. rewrite Hi. reflexivity.
  - destruct (pos_text_head p) as [d [ds [E Hdr]]]. rewrite E in *. cbn [app scan_value] in *.
    eqb_false. cbv iota. unfold scan_scalar, strip_prefix. lits. cbn [is_prefix]. eqb_false. cbn [andb].
    rewrite Hm. unfold number_value. rewrite Hi. reflexivity.
  - destruct (pos_text_head p) as [d [ds [E Hdr]]]. rewrite E in *. cbn [app scan_value] in *.
    cbv iota. unfold scan_scalar, strip_prefix. lits. cbn [is_prefix]. eqb_false. cbn [andb].
    rewrite Hm. unfold number_value. rewrite Hi. reflexivity.
Qed.

(** ** Values that survive the round trip *)

Section PyValueInd.
Variable P : py_value -> Prop.
Hypothesis HNone : P VNone.
Hypothesis HBool : forall b, P (VBool b).
Hypothesis HInt : forall z, P (VInt z).
Hypothesis HFloat : forall f, P (VFloat f).
Hypothesis HStr : forall s, P (VStr s).
Hypothesis HList : forall l, Forall P l -> P (VList l).
Hypothesis HDict : forall kvs, Forall (fun kv => P (snd kv)) kvs -> P (VDict kvs).

(** Induction on a [py_value] through its lists and dicts. *)
Fixpoint py_value_ind' (v : py_value) : P v :=
  match v with
  | VNone => HNone
  | VBool b => HBool b
  | VInt z => HInt z
  | VFloat f => HFloat f
  | VStr s => HStr s
  | VList l =>
      HList l ((fix go (l : list py_value) : Forall P l :=
                  match l with
                  | [] => Forall_nil _
                  | x :: l' => Forall_cons _ (py_value_ind' x) (go l')
                  end) l)
  | VDict kvs =>
      HDict kvs ((fix go (kvs : list (text * py_value)) : Forall (fun kv => P (snd kv)) kvs :=
                    match kvs with
                    | [] => Forall_nil _
                    | (k, x) :: r => Forall_cons (P := fun kv => P (snd kv)) (k, x) (py_value_ind' x) (go r)
                    end) kvs)
  end.
End PyValueInd.

Definition key_eqb (k1 k2 : text) : bool := if list_eq_dec Z.eq_dec k1 k2 then true else false.

(** A Python [dict] has one entry per key. *)
Fixpoint keys_distinct (kvs : list (text * py_value)) : bool :=
  match kvs with
  | [] => true
  | (k, _) :: r => negb (existsb (fun kv => key_eqb k (fst kv)) r) && keys_distinct r
  end.

(** A well-formed Python value: every [dict] in it, at any depth, has
    one entry per key (the invariant of CPython's [dict]). *)
Fixpoint py_wf (v : py_value) : bool :=
  match v with
  | VList l => forallb py_wf l
  | VDict kvs => keys_distinct kvs && forallb (fun kv => py_wf (snd kv)) kvs
  | _ => true
  end.

(** The values [loads (dumps v)] gives back: no finite float (their
    [repr] is read back exactly only for short decimals), strings of
    code points that are not surrogates, dicts with distinct keys. *)
Fixpoint json_safe (v : py_value) : bool :=
  match v with
  | VNone | VBool _ | VInt _ => true
  | VFloat (Finite _) => false
  | VFloat _ => true
  | VStr s => forallb safe_char s
  | VList l => forallb json_safe l
  | VDict kvs => forallb (fun '(k, x) => forallb safe_char k && json_safe x) kvs && keys_distinct kvs
  end.

(** The text of a safe value starts with an ASCII code point that is
    not a blank nor a closing bracket or brace. *)
Lemma dumps_head (v : py_value) :
  json_safe v = true ->
  exists c t, dumps v = c :: t /\ is_ws c = false /\ c <> 93 /\ c <> 125 /\ c < 128.
Proof.
  intros Hs. destruct v as [| [] | z | [q| | |] | s | l | kvs]; try discriminate;
    try (do 2 eexists; split; [reflexivity|]; vm_compute;
         repeat split; try reflexivity; intro Hc; discriminate Hc).
  cbn [dumps]. unfold py_str_int. destruct z as [|p|p]; cbn [Z.to_int];
    try (do 2 eexists; split; [reflexivity | split; [reflexivity | lia]]).
  destruct (pos_text_head p) as [d [ds [E Hd]]]. rewrite E. do 2 eexists. split; [reflexivity|].
  unfold is_ws. eqb_false. split; [reflexivity | lia].
Qed.

Lemma skip_ws_head (c : Z) (t : text) : is_ws c = false -> skip_ws (c :: t) = c :: t.
Proof. intros H. cbn [skip_ws]. rewrite H. reflexivity. Qed.

(** [dict(pairs)] of pairs with distinct keys is those pairs. *)
Lemma fold_dict_set_distinct (kvs acc : list (text * py_value)) :
  keys_distinct kvs = true ->
  (forall kv, In kv kvs -> existsb (fun kv' => key_eqb (fst kv) (fst kv')) acc = false) ->
  fold_left (fun acc kv => dict_set acc (fst kv) (snd kv)) kvs acc = acc ++ kvs.
Proof.
  revert acc. induction kvs as [|[k x] kvs IH]; intros acc Hd Hn; [symmetry; apply app_nil_r|].
  cbn [keys_distinct] in Hd. apply andb_prop in Hd as [Hk Hd]. apply negb_true_iff in Hk.
  cbn [fold_left fst snd].
  assert (Hset : dict_set acc k x = acc ++ [(k, x)]).
  { specialize (Hn (k, x) (or_introl eq_refl)). cbn [fst] in Hn. clear - Hn.
    induction acc as [|[k' x'] acc IHa]; [reflexivity|]. cbn in Hn |- *.
    unfold key_eqb in Hn. destruct (list_eq_dec Z.eq_dec k k') as [->|Hne]; [discriminate|].
    rewrite IHa by exact Hn. reflexivity. }
  rewrite Hset. rewrite IH; [rewrite <- app_assoc; reflexivity | exact Hd |].
  intros [k2 x2] Hin. rewrite existsb_app. rewrite (Hn (k2, x2) (or_intror Hin)). cbn.
  unfold key_eqb. destruct (list_eq_dec Z.eq_dec k2 k) as [->|]; [|reflexivity].
  exfalso. assert (Hex : existsb (fun kv => key_eqb k (fst kv)) kvs = true).
  { apply existsb_exists. exists (k, x2). split; [exact Hin|]. cbn. unfold key_eqb.
    destruct (list_eq_dec Z.eq_dec k k); congruence. }
  congruence.
Qed.

(** What the round trip of one value gives, as a hypothesis of the
    lemmas on lists and dicts. *)
Definition scans_back (v : py_value) : Prop :=
  json_safe v = true -> forall r, value_end r = true ->
  exists n, scan_value n (dumps v ++ r) = Some (Ok (v, r)).

Lemma scan_value_more (n m : nat) (s : text) x :
  scan_value n s = Some x -> scan_value (Nat.max n m) s = Some x.
Proof. intros H. apply (proj1 (scan_mono n) s x H). lia. Qed.

Lemma skip_ws_space (t : text) : skip_ws (32 :: t) = skip_ws t.
Proof. reflexivity. Qed.

Lemma join_repr_head (a : text) (l : list text) : exists tail, join_repr (a :: l) = a ++ tail.
Proof. destruct l as [|b l]; [exists []; symmetry; apply app_nil_r | eexists; reflexivity]. Qed.

(** The text after a comma and a blank: the next value starts with a
    code point that is not a blank nor a closing bracket or brace. *)
Lemma next_value_head (y : py_value) (l : list py_value) (r : text) :
  json_safe y = true ->
  exists c t, join_repr (map dumps (y :: l)) ++ r = c :: t /\ is_ws c = false /\ c <> 93 /\ c <> 125.
Proof.
  intros Hy. destruct (dumps_head y Hy) as [c [t [E [Hw [H93 [H125 _]]]]]].
  destruct (join_repr_head (dumps y) (map dumps l)) as [tail Ht].
  cbn [map]. rewrite Ht, E. exists c, (t ++ tail ++ r). cbn [app]. rewrite <- app_assoc.
  repeat split; assumption.
Qed.

Lemma scan_elems_dumps (l : list py_value) :
  Forall scans_back l -> forallb json_safe l = true -> l <> [] ->
  forall acc r, exists n,
    scan_elems n acc (join_repr (map dumps l) ++ 93 :: r) = Some (Ok (rev acc ++ l, r)).
Proof.
  induction 1 as [|x l Hx Hl IH]; intros Hs Hne acc r; [congruence|].
  cbn [forallb] in Hs. apply andb_prop in Hs as [Hsx Hsl].
  destruct l as [|y l'].
  - destruct (Hx Hsx (93 :: r) eq_refl) as [n Hn]. exists (S n).
    cbn [map join_repr scan_elems]. rewrite Hn. cbn. reflexivity.
  - set (rest := join_repr (map dumps (y :: l')) ++ 93 :: r).
    destruct (Hx Hsx (44 :: 32 :: rest) eq_refl) as [n Hn].
    destruct (IH Hsl ltac:(discriminate) (x :: acc) r) as [m Hm].
    destruct (next_value_head y l' (93 :: r)) as [c [t [Ec [Hw [H93 _]]]]];
      [apply andb_prop in Hsl; tauto|].
    fold rest in Ec, Hm.
    exists (S (Nat.max n m)).
    replace (join_repr (map dumps (x :: y :: l')) ++ 93 :: r) with (dumps x ++ 44 :: 32 :: rest)
      by (unfold rest; cbn [map join_repr]; rewrite <- !app_assoc; reflexivity).
    cbn [scan_elems]. rewrite (scan_value_more _ m _ _ Hn). cbv iota beta.
    rewrite (skip_ws_head 44) by reflexivity. change (44 =? 93) with false. change (44 =? 44) with true.
    cbv iota beta. rewrite skip_ws_space, Ec, skip_ws_head by exact Hw.
    replace (c =? 93) with false by (symmetry; apply Z.eqb_neq; exact H93).
    rewrite <- Ec. rewrite (proj1 (proj2 (scan_mono m)) _ _ _ Hm) by lia.
    cbn [rev]. rewrite <- app_assoc. reflexivity.
Qed.

Definition member_text (kv : text * py_value) : text := encode_str (fst kv) ++ str ": " ++ dumps (snd kv).

Lemma member_text_shape (k : text) (x : py_value) (tail : text) :
  member_text (k, x) ++ tail = 34 :: flat_map escape_char k ++ 34 :: 58 :: 32 :: dumps x ++ tail.
Proof. unfold member_text, encode_str. cbn [fst snd]. rewrite <- !app_assoc. reflexivity. Qed.

(** One member: the key, the colon, the value, then what follows. *)
Lemma scan_member_step (n : nat) acc (k : text) (x : py_value) (tail : text) :
  forallb safe_char k = true -> json_safe x = true ->
  scan_value n (dumps x ++ tail) = Some (Ok (x, tail)) ->
  scan_members (S n) acc (member_text (k, x) ++ tail) =
  match skip_ws tail with
  | c :: r4 =>
      if c =? 125 then Some (Ok (rev ((k, x) :: acc), r4))
      else if c =? 44 then
        match skip_ws r4 with
        | y :: r5 => if y =? 125 then Some (Err JSONDecodeError) else scan_members n ((k, x) :: acc) (y :: r5)
        | [] => Some (Err JSONDecodeError)
        end
      else Some (Err JSONDecodeError)
  | [] => Some (Err JSONDecodeError)
  end.
Proof.
  intros Hk Hx Hv. destruct (dumps_head x Hx) as [c [t [E [Hw _]]]].
  rewrite member_text_shape. cbn [scan_members]. change (34 =? 34) with true. cbv iota beta.
  rewrite scan_encoded by exact Hk. cbv iota beta.
  rewrite (skip_ws_head 58) by reflexivity. change (58 =? 58) with true. cbv iota beta.
  rewrite skip_ws_space, E. change ((c :: t) ++ tail) with (c :: (t ++ tail)).
  rewrite skip_ws_head by exact Hw. change (c :: (t ++ tail)) with ((c :: t) ++ tail).
  rewrite <- E, Hv. reflexivity.
Qed.

Lemma scan_members_dumps (kvs : list (text * py_value)) :
  Forall (fun kv => scans_back (snd kv)) kvs ->
  forallb (fun '(k, x) => forallb safe_char k && json_safe x) kvs = true -> kvs <> [] ->
  forall acc r, exists n,
    scan_members n acc (join_repr (map member_text kvs) ++ 125 :: r) = Some (Ok (rev acc ++ kvs, r)).
Proof.
  induction 1 as [|[k x] kvs Hx Hl IH]; intros Hs Hne acc r; [congruence|].
  cbn [forallb] in Hs. apply andb_prop in Hs as [Hsx Hsl]. apply andb_prop in Hsx as [Hk Hsx].
  cbn [snd] in Hx. destruct kvs as [|[k2 x2] kvs'].
  - destruct (Hx Hsx (125 :: r) eq_refl) as [n Hn]. exists (S n).
    cbn [map join_repr]. rewrite (scan_member_step n acc k x _ Hk Hsx Hn).
    rewrite (skip_ws_head 125) by reflexivity. change (125 =? 125) with true. cbv iota beta.
    reflexivity.
  - set (rest := join_repr (map member_text ((k2, x2) :: kvs')) ++ 125 :: r).
    destruct (Hx Hsx (44 :: 32 :: rest) eq_refl) as [n Hn].
    destruct (IH Hsl ltac:(discriminate) ((k, x) :: acc) r) as [m Hm].
    destruct (join_repr_head (member_text (k2, x2)) (map member_text kvs')) as [tail Ht].
    assert (Er : rest = 34 :: flat_map escape_char k2 ++ 34 :: 58 :: 32 :: dumps x2 ++ tail ++ 125 :: r)
      by (unfold rest; cbn [map]; rewrite Ht, <- app_assoc, member_text_shape; reflexivity).
    exists (S (Nat.max n m)).
    replace (join_repr (map member_text ((k, x) :: (k2, x2) :: kvs')) ++ 125 :: r)
      with (member_text (k, x) ++ 44 :: 32 :: rest)
      by (unfold rest; cbn [map join_repr]; rewrite <- !app_assoc; reflexivity).
    rewrite (scan_member_step _ acc k x _ Hk Hsx (scan_value_more _ m _ _ Hn)).
    rewrite (skip_ws_head 44) by reflexivity. change (44 =? 125) with false. change (44 =? 44) with true.
    cbv iota beta. rewrite skip_ws_space, Er, skip_ws_head by reflexivity.
    change (34 =? 125) with false. cbv iota beta. rewrite <- Er.
    rewrite (proj2 (proj2 (scan_mono m)) _ _ _ Hm) by lia.
    cbn [rev]. rewrite <- app_assoc. reflexivity.
Qed.

Lemma scan_dumps (v : py_value) : scans_back v.
Proof.
  induction v as [| b | z | f | s | l IH | kvs IH] using py_value_ind'; intros Hs r Hr.
  - exists 1%nat. reflexivity.
  - exists 1%nat. destruct b; reflexivity.
  - exists 1%nat. apply scan_value_int, Hr.
  - exists 1%nat. destruct f as [q| | |]; [discriminate | reflexivity..].
  - exists 1%nat. cbn [dumps]. unfold encode_str. rewrite <- !app_assoc. cbn [app scan_value].
    change (34 =? 34) with true. cbv iota beta. rewrite scan_encoded by exact Hs. reflexivity.
  - cbn [json_safe] in Hs. destruct l as [|x l'].
    + exists 1%nat. reflexivity.
    + destruct (next_value_head x l' (93 :: r)) as [c [t [Ec [Hw [H93 _]]]]];
        [apply andb_prop in Hs; tauto|].
      destruct (scan_elems_dumps (x :: l') IH Hs ltac:(discriminate) [] r) as [n Hn].
      exists (S n). cbn [dumps]. rewrite <- app_assoc. cbn [app scan_value].
      change (91 =? 34) with false. change (91 =? 91) with true. cbv iota beta.
      rewrite <- app_assoc. change ([93] ++ r) with (93 :: r).
      rewrite Ec, skip_ws_head by exact Hw.
      replace (c =? 93) with false by (symmetry; apply Z.eqb_neq; exact H93).
      rewrite <- Ec, Hn. reflexivity.
  - cbn [json_safe] in Hs. apply andb_prop in Hs as [Hs Hd]. destruct kvs as [|[k x] kvs'].
    + exists 1%nat. reflexivity.
    + destruct (join_repr_head (member_text (k, x)) (map member_text kvs')) as [tail Ht].
      destruct (scan_members_dumps ((k, x) :: kvs') IH Hs ltac:(discriminate) [] r) as [n Hn].
      exists (S n). cbn [dumps]. rewrite <- app_assoc. cbn [app scan_value].
      change (123 =? 34) with false. change (123 =? 91) with false. change (123 =? 123) with true.
      cbv iota beta.
      change (map (fun kv => encode_str (fst kv) ++ str ": " ++ dumps (snd kv)) ((k, x) :: kvs'))
        with (map member_text ((k, x) :: kvs')).
      rewrite <- app_assoc. change ([125] ++ r) with (125 :: r).
      cbn [map]. rewrite Ht, <- app_assoc, member_text_shape.
      rewrite skip_ws_head by reflexivity. change (34 =? 125) with false. cbv iota beta.
      rewrite <- member_text_shape, app_assoc, <- Ht.
      change (member_text (k, x) :: map member_text kvs') with (map member_text ((k, x) :: kvs')).
      rewrite Hn. cbn [rev app]. unfold dict_of_pairs.
      rewrite fold_dict_set_distinct by (exact Hd || (intros; reflexivity)). reflexivity.
Qed.

(** [json.loads(json.dumps(v)) == v] for every value without finite
    floats whose strings hold no surrogate and whose dicts have one
    entry per key. *)
Lemma loads_dumps (v : py_value) : json_safe v = true -> loads (dumps v) = Ok v.
Proof.
  intros Hs. destruct (scan_dumps v Hs [] eq_refl) as [n Hn]. rewrite app_nil_r in Hn.
  destruct (dumps_head v Hs) as [c [t [E [Hw [_ [_ Hc]]]]]].
  unfold loads. rewrite E. replace (c =? 65279) with false by (symmetry; apply Z.eqb_neq; lia).
  rewrite skip_ws_head by exact Hw. rewrite <- E.
  destruct (scan_value (S (2 * length (dumps v))) (dumps v)) as [y|] eqn:Ey.
  - assert (Hy : scan_value (Nat.max n (S (2 * length (dumps v)))) (dumps v) = Some y)
      by (apply (proj1 (scan_mono _) _ _ Ey); lia).
    rewrite (scan_value_more _ _ _ _ Hn) in Hy. injection Hy as <-. reflexivity.
  - exfalso. apply (proj1 (scan_fuel (S (2 * length (dumps v)))) (dumps v)); [lia | exact Ey].
Qed.

(** Termination of [json.loads]: the fuel [loads] gives the decoder, two
    units per code point of the input, is always enough, so the decoder's
    fuel-exhausted answer [None] never occurs and every [JSONDecodeError]
    of [loads] comes from the input, not from the bound. *)
Lemma loads_fuel (s : text) : scan_value (S (2 * length s)) (skip_ws s) <> None.
Proof. apply (proj1 (scan_fuel _)). pose proof (skip_ws_length s). lia. Qed.

(** Round trip of the [weak_concepts] column: reading back with
    [json.loads] the text [llm_multi_grade] writes with [json.dumps] gives
    the list of concept names itself, for any names without surrogate
    code points.  This is what lets [Backend.profile_row] hold the list. *)
Theorem weak_concepts_roundtrip (weak : list text) :
  Forall (fun w => forallb safe_char w = true) weak ->
  read_weak_concepts (Some (weak_concepts_column weak)) = Ok (VList (map VStr weak)).
Proof.
  intros Hw. assert (Hs : json_safe (VList (map VStr weak)) = true).
  { induction Hw as [|w ws Hw1 _ IH]; [reflexivity|]. cbn in *. now rewrite Hw1, IH. }
  unfold read_weak_concepts, weak_concepts_column.
  destruct (dumps_head _ Hs) as [c [t [E _]]]. rewrite E, <- E. apply loads_dumps, Hs.
Qed.

Lemma weak_concepts_roundtrip_witness :
  Forall (fun w => forallb safe_char w = true) [str "service"; str "networkpolicy"] /\
  read_weak_concepts (Some (weak_concepts_column [str "service"; str "networkpolicy"])) =
    Ok (VList [VStr (str "service"); VStr (str "networkpolicy")]).
Proof.
  split; [repeat constructor | apply (weak_concepts_roundtrip [str "service"; str "networkpolicy"]);
    repeat constructor].
Defined.

(** The text of a safe value has no blank at either end, so the
    [strip()] of a provider's reply leaves it alone. *)
Lemma strip_delimited (a b : Z) (x : text) :
  is_space a = false -> is_space b = false -> strip (a :: x ++ [b]) = a :: x ++ [b].
Proof.
  intros Ha Hb. apply strip_id; [intros c m E; injection E as <- _; exact Ha|].
  intros m d E. rewrite app_comm_cons in E. apply app_inj_tail in E as [_ <-]. exact Hb.
Qed.

Lemma dumps_strip (v : py_value) : json_safe v = true -> strip (dumps v) = dumps v.
Proof.
  intros Hs. destruct v as [| b | z | [q| | |] | s | l | kvs]; try discriminate Hs.
  - reflexivity.
  - destruct b; reflexivity.
  - apply strip_no_space. cbn [dumps]. unfold py_str_int. destruct (Z.to_int z) as [u|u];
      [apply uint_text_no_space | cbn [forallb]; rewrite uint_text_no_space; reflexivity].
  - reflexivity.
  - reflexivity.
  - reflexivity.
  - apply strip_delimited; reflexivity.
  - apply strip_delimited; reflexivity.
  - apply strip_delimited; reflexivity.
Qed.

(** A reply whose first code point is a backquote (a Markdown code
    fence) is not a JSON document. *)
Lemma loads_backquote (r : text) : loads (96 :: r) = Err JSONDecodeError.
Proof. reflexivity. Qed.

(** ** The values [json.loads] builds are well formed *)

Lemma dict_set_keys (acc : list (text * py_value)) (k : text) (x : py_value) :
  map fst (dict_set acc k x) = if existsb (fun kv => key_eqb k (fst kv)) acc then map fst acc else map fst acc ++ [k].
Proof.
  induction acc as [|[k' x'] acc IH]; [reflexivity|]. cbn [dict_set existsb fst map].
  unfold key_eqb at 1. destruct (list_eq_dec Z.eq_dec k k') as [->|Hne]; [reflexivity|].
  cbn [orb map fst]. rewrite IH. destruct (existsb _ acc); reflexivity.
Qed.

Lemma keys_distinct_map (kvs : list (text * py_value)) : keys_distinct kvs = true <-> NoDup (map fst kvs).
Proof.
  induction kvs as [|[k x] kvs IH]; cbn [keys_distinct map fst]; [split; [constructor | reflexivity]|].
  rewrite andb_true_iff, negb_true_iff, IH, NoDup_cons_iff. split; intros [H1 H2]; split; auto.
  - intros Hin. apply in_map_iff in Hin as [[k' x'] [Ek Hin]]. cbn in Ek. subst k'.
    assert (C : existsb (fun kv => key_eqb k (fst kv)) kvs = true).
    { apply existsb_exists. exists (k, x'). split; [exact Hin|]. unfold key_eqb; cbn [fst]. destruct (list_eq_dec Z.eq_dec k k); congruence. }
    congruence.
  - apply not_true_iff_false. intros C. apply existsb_exists in C as [[k' x'] [Hin Hk]]. cbn in Hk.
    unfold key_eqb in Hk. destruct (list_eq_dec Z.eq_dec k k') as [->|]; [|discriminate].
    apply H1, in_map_iff. exists (k', x'). split; [reflexivity | exact Hin].
Qed.

Lemma dict_set_distinct (acc : list (text * py_value)) (k : text) (x : py_value) :
  keys_distinct acc = true -> keys_distinct (dict_set acc k x) = true.
Proof.
  rewrite !keys_distinct_map, dict_set_keys. intros H. destruct (existsb _ acc) eqn:E; [exact H|].
  apply NoDup_app; [exact H | constructor; [intros [] | constructor] |].
  intros k' Hin [Ek' | []]. subst k'. apply not_true_iff_false in E. apply E, existsb_exists.
  apply in_map_iff in Hin as [[k'' x''] [Ek Hin]]. cbn in Ek. subst k''. exists (k, x''). split; [exact Hin|].
  unfold key_eqb; cbn [fst]. destruct (list_eq_dec Z.eq_dec k k); congruence.
Qed.

Lemma dict_set_values (acc : list (text * py_value)) (k : text) (x : py_value) :
  forallb (fun kv => py_wf (snd kv)) acc = true -> py_wf x = true ->
  forallb (fun kv => py_wf (snd kv)) (dict_set acc k x) = true.
Proof.
  intros Ha Hx. induction acc as [|[k' x'] acc IH]; cbn in *; [rewrite Hx; reflexivity|].
  apply andb_prop in Ha as [H1 H2]. destruct (list_eq_dec Z.eq_dec k k'); cbn; rewrite ?Hx, ?H1, ?H2, ?IH; auto.
Qed.

Lemma dict_of_pairs_wf (pairs : list (text * py_value)) :
  forallb (fun kv => py_wf (snd kv)) pairs = true -> py_wf (dict_of_pairs pairs) = true.
Proof.
  intros H. unfold dict_of_pairs. cbn [py_wf].
  assert (G : forall acc, keys_distinct acc = true -> forallb (fun kv => py_wf (snd kv)) acc = true ->
    keys_distinct (fold_left (fun acc kv => dict_set acc (fst kv) (snd kv)) pairs acc) = true /\
    forallb (fun kv => py_wf (snd kv)) (fold_left (fun acc kv => dict_set acc (fst kv) (snd kv)) pairs acc) = true).
  { induction pairs as [|kv pairs IH]; intros acc H1 H2; [auto|]. cbn in H |- *. apply andb_prop in H as [Hkv Hp].
    apply IH; [exact Hp | apply dict_set_distinct, H1 | apply dict_set_values; assumption]. }
  destruct (G [] eq_refl eq_refl) as [-> ->]. reflexivity.
Qed.

Lemma forallb_rev {A} (f : A -> bool) (l : list A) : forallb f (rev l) = forallb f l.
Proof.
  induction l as [|x l IH]; [reflexivity|]. cbn [rev]. rewrite forallb_app, IH. cbn.
  rewrite andb_true_r, andb_comm. reflexivity.
Qed.

Lemma scan_scalar_wf (s : text) (v : py_value) (r : text) :
  scan_scalar s = Some (Ok (v, r)) -> py_wf v = true.
Proof.
  unfold scan_scalar, number_value. intros H. break_in H; inj_all; try reflexivity; break_in E9; inversion E9; reflexivity.
Qed.

Lemma scan_wf (n : nat) :
  (forall s v r, scan_value n s = Some (Ok (v, r)) -> py_wf v = true) /\
  (forall acc s l r, scan_elems n acc s = Some (Ok (l, r)) ->
     forallb py_wf acc = true -> forallb py_wf l = true) /\
  (forall acc s kvs r, scan_members n acc s = Some (Ok (kvs, r)) ->
     forallb (fun kv => py_wf (snd kv)) acc = true -> forallb (fun kv => py_wf (snd kv)) kvs = true).
Proof.
  induction n as [|n [IHv [IHe IHm]]]; [split; [|split]; intros; discriminate|].
  split; [|split].
  - intros s v r H. cbn [scan_value] in H. break_in H; inj_all; try reflexivity; cbn [py_wf];
      first [ eapply IHe; [eassumption | reflexivity]
            | apply dict_of_pairs_wf; eapply IHm; [eassumption | reflexivity]
            | eapply scan_scalar_wf; eassumption ].
  - intros acc s l r H Ha. cbn [scan_elems] in H. break_in H; inj_all;
      match goal with Hv : scan_value n _ = Some (Ok (_, _)) |- _ => pose proof (IHv _ _ _ Hv) as Hw end;
      first [rewrite forallb_app, forallb_rev | eapply IHe; [eassumption|]]; cbn; rewrite Hw, Ha; reflexivity.
  - intros acc s kvs r H Ha. cbn [scan_members] in H. break_in H; inj_all;
      match goal with Hv : scan_value n _ = Some (Ok (_, _)) |- _ => pose proof (IHv _ _ _ Hv) as Hw end;
      first [rewrite forallb_app, forallb_rev | eapply IHm; [eassumption|]]; cbn; rewrite Hw, Ha; reflexivity.
Qed.

(** Type: every value the repository decodes from a JSON column --
    an embedding decoded by [from_json] and the weak concepts decoded by
    [read_weak_concepts] -- is a well-formed Python value: at every depth
    its dicts have one entry per key, whatever keys the document repeats. *)
Theorem decoded_values_wf :
  (forall s v, from_json s = Ok v -> py_wf v = true) /\
  (forall c v, read_weak_concepts c = Ok v -> py_wf v = true).
Proof.
  assert (L : forall s v, loads s = Ok v -> py_wf v = true).
  { intros s v H. unfold loads in H. break_in H; inj_all. injection H as <-.
    exact (proj1 (scan_wf _) _ _ _ E0). }
  split; [exact L|]. intros [[|c t]|] v H; unfold read_weak_concepts in H; try (injection H as <-; reflexivity).
  exact (L _ _ H).
Qed.

(** [{"a": 1, "a": 2}]: a document that repeats a key. *)
Definition dup_key_doc : text := [123; 34; 97; 34; 58; 49; 44; 34; 97; 34; 58; 50; 125].

Lemma decoded_values_wf_witness :
  from_json dup_key_doc = Ok (VDict [(str "a", VInt 2)]) /\ py_wf (VDict [(str "a", VInt 2)]) = true.
Proof.
  split; [vm_compute; reflexivity|].
  apply (proj1 decoded_values_wf dup_key_doc). vm_compute. reflexivity.
Defined.

End JsonCodec.
