(* ===== verification/MultiAgent.v ===== *)
(** * Multi-agent orchestrator: multi_agent.py

    The generative provider is the type class [LLMProvider] (the
    [LLMProvider] protocol of llm/provider.py) over a provider state;
    [run_multi_agent] is a program of the monad [M], which threads that
    state, records each provider call, and propagates Python exceptions
    as [Py.Err].  The user prompts are kept as the structured data each
    f-string interpolates ([prompt]); the system prompts are the literal
    strings of the source. *)

From Stdlib Require Import String ZArith QArith List Lia Bool.
From S2P Require Import Prelude Json.
Import ListNotations.
Open Scope list_scope.

Module MultiAgent.
Import Py.

(** ** [_cap] and the deterministic grade *)

(** [_cap(s, n)]: [(s or "").strip()[:n]]; [.strip] exists only on
    [str]. *)
Definition _cap (s : py_value) (n : nat) : result text :=
  match (if truthy s then s else VStr []) with
  | VStr t => Ok (firstn n (strip t))
  | _ => Err AttributeError
  end.

Definition qscore_keys : list text := [str "Q1"; str "Q2"; str "Q3"].

(** One iteration of the loop of [compute_grade_from_qscores]: the
    [try]/[except Exception] adds [0] whenever [q_scores.get] or [int()]
    raises. *)
Definition add_qscore (q_scores : py_value) (total : Z) (k : text) : Z :=
  match (v <- get q_scores k (VInt 0) ;; py_int v) with
  | Ok n => total + n
  | Err _ => total + 0
  end.

Definition compute_grade_from_qscores (q_scores : py_value) : Z :=
  let total := fold_left (add_qscore q_scores) qscore_keys 0 in
  let grade := py_round (total * 100) 9 in
  clamp 0 100 grade.

(** ** The provider interface *)

(** The user prompt of each agent call, as the data its f-string
    interpolates. *)
Inductive prompt : Type :=
| PCorrectness (q1 q2 q3 : text)
| PMisconception (q1 q2 q3 : text)
| PClarity (q1 q2 q3 : text)
| PPersonalization (ctx : py_value) (q1 q2 q3 : text)
| PSynthesizer (corr misc clarity pers : py_value)
| PQA (q_scores synth : py_value)
| PCompressFix (q_scores synth : py_value)
| PQAAgain (q_scores synth2 : py_value)
| PLLMGrade (q1 q2 q3 : text).     (** the prompt of [llm_grade_submission], main.py 278-290 *)

Definition sys_correctness : text := str "You are the Correctness Agent. Return STRICT JSON only.".
Definition sys_misconception : text := str "You are the Misconception Agent. Return STRICT JSON only.".
Definition sys_clarity : text := str "You are the Clarity Agent. Return STRICT JSON only.".
Definition sys_personalization : text := str "You are the Personalization Agent. Return STRICT JSON only.".
Definition sys_synthesizer : text := str "You are the Feedback Synthesizer. Return STRICT JSON only.".
Definition sys_qa : text := str "You are the Feedback QA Agent. Return STRICT JSON only.".
Definition sys_fix : text := str "You compress and fix feedback. Return STRICT JSON only.".

(** [generate_json(system, user)]: a parsed value, or a failure. *)
Class LLMProvider (St : Type) := {
  generate_json : text -> prompt -> St -> result py_value * St
}.

Record llm_call : Type := mkCall { call_system : text; call_user : prompt }.

Record pstate (St : Type) : Type := mkPState { provider : St; calls : list llm_call }.
Arguments mkPState {St} provider calls.
Arguments provider {St} p.
Arguments calls {St} p.

Section Monad.
Context {St : Type} `{LLMProvider St}.

Definition M (A : Type) : Type := pstate St -> result A * pstate St.

Definition mret {A} (a : A) : M A := fun s => (Ok a, s).

Definition mbind {A B} (m : M A) (f : A -> M B) : M B :=
  fun s => match m s with
           | (Ok a, s') => f a s'
           | (Err e, s') => (Err e, s')
           end.

(** A Python operation that may raise and does not touch the provider. *)
Definition lift {A} (r : result A) : M A := fun s => (r, s).

(** One call [llm.generate_json(system=..., user=...)]. *)
Definition call_llm (sys : text) (p : prompt) : M py_value :=
  fun s => let (r, st') := generate_json sys p (provider s) in
           (r, mkPState st' (calls s ++ [mkCall sys p])).

End Monad.

Declare Scope agent_scope.
Delimit Scope agent_scope with agent.
Notation "'let*' x ':=' m 'in' k" := (mbind m (fun x => k))
  (at level 61, x name, m at next level, right associativity) : agent_scope.
Open Scope agent_scope.

(** ** [run_multi_agent] *)

(** [qmap.get(k, "")] on the question map of main.py. *)
Fixpoint qmap_get (qmap : list (Z * text)) (k : Z) : py_value :=
  match qmap with
  | [] => VStr []
  | (k', t) :: rest => if k =? k' then VStr t else qmap_get rest k
  end.

(** [clarity[0]] when the provider answered with a non-empty list. *)
Definition first_if_list (v : py_value) : py_value :=
  match v with
  | VList (x :: _) => x
  | _ => v
  end.

Section Run.
Context {St : Type} `{LLMProvider St}.

(** Lines 316-360: the compress-and-fix pass and the second QA pass,
    run when the first QA pass reports [too_long] or [contradiction]. *)
Definition correct_once (corr synth : py_value) (grade : Z) : M (py_value * py_value) :=
  let* qs := lift (get corr (str "q_scores") (VDict [])) in
  let* synth2 := call_llm sys_fix (PCompressFix qs synth) in
  let* synth2 := lift (setitem synth2 (str "grade") (VInt grade)) in
  let* qs' := lift (get corr (str "q_scores") (VDict [])) in
  let* qa2 := call_llm sys_qa (PQAAgain qs' synth2) in
  mret (synth2, qa2).

(** [qa.get("too_long") or qa.get("contradiction")], short-circuit. *)
Definition qa_flags (qa : py_value) : @M St bool :=
  let* tl := lift (get qa (str "too_long") VNone) in
  if truthy tl then mret true
  else let* ct := lift (get qa (str "contradiction") VNone) in mret (truthy ct).

(** Lines 96-100: the minimal context sent to the personalization
    agent. *)
Definition personalization_ctx (student_context : py_value) : result py_value :=
  wc <- get student_context (str "weak_concepts") (VList []) ;;
  tr <- get student_context (str "trend") (VStr (str "unknown")) ;;
  lfs <- get student_context (str "last_feedback_summary") (VStr []) ;;
  lfs <- _cap lfs 200 ;;
  Ok (VDict [(str "weak_concepts", wc); (str "trend", tr); (str "last_feedback_summary", VStr lfs)]).

Definition run_multi_agent (qmap : list (Z * text)) (student_context : py_value)
  : M py_value :=
  let* q1 := lift (_cap (qmap_get qmap 1) 600) in
  let* q2 := lift (_cap (qmap_get qmap 2) 600) in
  let* q3 := lift (_cap (qmap_get qmap 3) 600) in
  let* corr := call_llm sys_correctness (PCorrectness q1 q2 q3) in
  let* qs := lift (get corr (str "q_scores") (VDict [])) in
  let grade := compute_grade_from_qscores qs in
  let* misc := call_llm sys_misconception (PMisconception q1 q2 q3) in
  let* clarity := call_llm sys_clarity (PClarity q1 q2 q3) in
  let clarity := first_if_list clarity in
  let* ctx := lift (personalization_ctx student_context) in
  let* c1 := lift (_cap (VStr q1) 300) in
  let* c2 := lift (_cap (VStr q2) 300) in
  let* c3 := lift (_cap (VStr q3) 300) in
  let* pers := call_llm sys_personalization (PPersonalization ctx c1 c2 c3) in
  let* synth := call_llm sys_synthesizer (PSynthesizer corr misc clarity pers) in
  let* synth := lift (setitem synth (str "grade") (VInt grade)) in
  let* qs' := lift (get corr (str "q_scores") (VDict [])) in
  let* qa := call_llm sys_qa (PQA qs' synth) in
  let* flagged := qa_flags qa in
  let* final := (if flagged then correct_once corr synth grade else mret (synth, qa)) in
  let (synth, qa) := final in
  lift (setitem synth (str "agents")
          (VDict [(str "correctness", corr); (str "misconceptions", misc);
                  (str "clarity", clarity); (str "personalization", pers);
                  (str "qa", qa)])).

End Run.

(** ** Deterministic grade fusion *)

(** What one key contributes to [total]. *)
Definition qscore (q_scores : py_value) (k : text) : Z :=
  match (v <- get q_scores k (VInt 0) ;; py_int v) with
  | Ok n => n
  | Err _ => 0
  end.

Lemma add_qscore_spec q total k : add_qscore q total k = total + qscore q k.
Proof. unfold add_qscore, qscore. destruct (rbind _ _); lia. Qed.

(** [round(n / d)] has no tie when [d] is odd, and is then the floor of
    [n / d + 1/2]. *)
Lemma py_round_odd (n : Z) (d : positive) :
  Z.odd (Z.pos d) = true -> py_round n d = (2 * n + Z.pos d) / (2 * Z.pos d).
Proof.
  intros Hodd. unfold py_round.
  pose proof (Z.div_mod n (Z.pos d) ltac:(lia)) as Hdm.
  pose proof (Z.mod_pos_bound n (Z.pos d) ltac:(lia)) as Hb.
  set (q := n / Z.pos d) in *. set (r := n mod Z.pos d) in *.
  assert (Hne : 2 * r <> Z.pos d).
  { intros E. rewrite <- E, Z.odd_mul in Hodd. discriminate. }
  destruct (Z.compare_spec (2 * r) (Z.pos d)) as [E|E|E]; [contradiction| |].
  - apply (Z.div_unique (2 * n + Z.pos d) (2 * Z.pos d) q (2 * r + Z.pos d)); lia.
  - apply (Z.div_unique (2 * n + Z.pos d) (2 * Z.pos d) (q + 1) (2 * r - Z.pos d)); lia.
Qed.

(** C3. The deterministic grade is [round(100 * total / 9)] clamped to
    [0..100], where [total] sums [int(q_scores.get(k, 0))] over ["Q1"],
    ["Q2"], ["Q3"] and a key whose lookup or [int()] raises counts 0;
    the rounding never meets a tie, so it is [(200 * total + 9) / 18]. *)
Theorem compute_grade_closed_form (q_scores : py_value) :
  compute_grade_from_qscores q_scores =
  clamp 0 100 ((200 * (qscore q_scores (str "Q1") + qscore q_scores (str "Q2")
                       + qscore q_scores (str "Q3")) + 9) / 18).
Proof.
  unfold compute_grade_from_qscores, qscore_keys. cbn [fold_left].
  rewrite !add_qscore_spec, py_round_odd by reflexivity.
  f_equal. f_equal; lia.
Qed.

Lemma clamp_bounds lo hi x : lo <= hi -> lo <= clamp lo hi x <= hi.
Proof. unfold clamp. lia. Qed.

(** The grade fused from the correctness scores is always in
    [0..100], whatever the provider returned: no value of [q_scores]
    makes [compute_grade_from_qscores] raise or leave the range. *)
Theorem compute_grade_bounds (q_scores : py_value) :
  0 <= compute_grade_from_qscores q_scores <= 100.
Proof. unfold compute_grade_from_qscores. apply clamp_bounds. lia. Qed.

Definition grade_table : list Z := [0; 11; 22; 33; 44; 56; 67; 78; 89; 100].

(** On a well-formed answer [{"Q1": a, "Q2": b, "Q3": c}] with
    integer scores in [0..3], the grade is the entry [a + b + c] of
    [0, 11, 22, 33, 44, 56, 67, 78, 89, 100]: all 3s give 100 and all 0s
    give 0. *)
Theorem compute_grade_table (a b c : Z) :
  0 <= a <= 3 -> 0 <= b <= 3 -> 0 <= c <= 3 ->
  compute_grade_from_qscores
    (VDict [(str "Q1", VInt a); (str "Q2", VInt b); (str "Q3", VInt c)]) =
  nth (Z.to_nat (a + b + c)) grade_table 0.
Proof.
  intros Ha Hb Hc. rewrite compute_grade_closed_form.
  unfold qscore. simpl.
  assert (Ht : a + b + c = 0 \/ a + b + c = 1 \/ a + b + c = 2 \/ a + b + c = 3 \/
               a + b + c = 4 \/ a + b + c = 5 \/ a + b + c = 6 \/ a + b + c = 7 \/
               a + b + c = 8 \/ a + b + c = 9) by lia.
  destruct Ht as [E|[E|[E|[E|[E|[E|[E|[E|[E|E]]]]]]]]]; rewrite E; reflexivity.
Qed.

(** The answer of the mock correctness agent (llm/mock.py, lines 8-17):
    its [q_scores] are keyed ["1"], ["2"], ["3"]. *)
Definition mock_correctness_q_scores : py_value :=
  VDict [(str "1", VInt 2); (str "2", VInt 3); (str "3", VInt 2)].

(** With the mock provider the fused grade is always 0: the mock
    answers [q_scores] under the keys ["1"], ["2"], ["3"] while the
    fusion reads ["Q1"], ["Q2"], ["Q3"], so every score defaults to 0. *)
Theorem mock_grade_zero :
  compute_grade_from_qscores mock_correctness_q_scores = 0.
Proof. reflexivity. Qed.

(** ** The sequence of provider calls *)

(** The agents in the order [run_multi_agent] calls them when the
    self-correction runs. *)
Definition agents_with_fix : list text :=
  [sys_correctness; sys_misconception; sys_clarity; sys_personalization;
   sys_synthesizer; sys_qa; sys_fix; sys_qa].

Definition agents_plain : list text := firstn 6 agents_with_fix.

(** Case analysis on the next step of a monadic run in hypothesis [H]. *)
Ltac mstep H :=
  match type of H with
  | context [generate_json ?a ?b ?c] =>
      let r := fresh "r" in let st := fresh "st" in let E := fresh "Eg" in
      destruct (generate_json a b c) as [r st] eqn:E
  | context [match ?x with Ok _ => _ | Err _ => _ end] =>
      let a := fresh "a" in let E := fresh "E" in destruct x as [a|a] eqn:E
  | context [if ?b then _ else _] => let E := fresh "Eb" in destruct b eqn:E
  end.

Ltac mrun H :=
  cbv beta iota zeta delta [run_multi_agent correct_once qa_flags mbind mret lift call_llm] in H;
  repeat (mstep H; cbn beta iota zeta in H).

Section Pipeline.
Context {St : Type} `{LLMProvider St}.

(** Closes a goal about the calls of a finished run: the new calls are
    the ones appended to the trace. *)
Ltac new_calls :=
  first [ exists []; split; [symmetry; apply app_nil_r | ]
        | eexists; split; [rewrite <- ?app_assoc; reflexivity | ] ].

(** C2. Bounded self-correction: whatever the provider answers,
    including failures, one run of [run_multi_agent] makes its provider
    calls in the order correctness, misconception, clarity,
    personalization, synthesizer, QA, compress-and-fix, QA again, and
    stops somewhere along that sequence: at most eight calls, and the
    compress-and-fix pass at most once. *)
Theorem run_multi_agent_calls_bounded (qmap : list (Z * text)) (ctx : py_value)
  (s : pstate St) r s' :
  run_multi_agent qmap ctx s = (r, s') ->
  exists new, calls s' = calls s ++ new /\
              exists rest, agents_with_fix = map call_system new ++ rest.
Proof.
  intros Hrun. mrun Hrun.
  all: inv Hrun; cbn [calls]; new_calls; eexists; reflexivity.
Qed.

(** A successful run makes exactly the six calls of the plain
    pipeline, or exactly those and the compress-and-fix and second QA
    calls. *)
Theorem run_multi_agent_ok_calls (qmap : list (Z * text)) (ctx : py_value)
  (s : pstate St) res s' :
  run_multi_agent qmap ctx s = (Ok res, s') ->
  exists new, calls s' = calls s ++ new /\
              (map call_system new = agents_plain \/ map call_system new = agents_with_fix).
Proof.
  intros Hrun. mrun Hrun.
  all: inv Hrun; cbn [calls]; new_calls; first [left; reflexivity | right; reflexivity].
Qed.

Lemma grade_ne_agents : str "grade" <> str "agents".
Proof. discriminate. Qed.

(** C1. Deterministic grade fusion: when [run_multi_agent] succeeds,
    the ["grade"] of its result is [compute_grade_from_qscores] of the
    [q_scores] the correctness agent answered to the first call; every
    grade the synthesizer or the compress-and-fix pass reports is
    overwritten. *)
Theorem run_multi_agent_grade (qmap : list (Z * text)) (ctx : py_value)
  (s : pstate St) res s' :
  run_multi_agent qmap ctx s = (Ok res, s') ->
  exists q1 q2 q3 corr st1 qs,
    _cap (qmap_get qmap 1) 600 = Ok q1 /\ _cap (qmap_get qmap 2) 600 = Ok q2 /\
    _cap (qmap_get qmap 3) 600 = Ok q3 /\
    generate_json sys_correctness (PCorrectness q1 q2 q3) (provider s) = (Ok corr, st1) /\
    get corr (str "q_scores") (VDict []) = Ok qs /\
    get res (str "grade") VNone = Ok (VInt (compute_grade_from_qscores qs)).
Proof.
  intros Hrun. mrun Hrun.
  all: inv Hrun; do 6 eexists; repeat split; try eassumption.
  all: erewrite setitem_get_ne by (exact grade_ne_agents || eassumption).
  all: eapply setitem_get_eq; eassumption.
Qed.

End Pipeline.

(** ** A scripted provider *)

(** A deterministic fake provider: it answers the queued responses in
    order, and fails once the queue is empty. *)
#[export] Instance script_provider : LLMProvider (list (result py_value)) := {
  generate_json := fun _ _ st =>
    match st with
    | r :: rest => (r, rest)
    | [] => (Err ProviderError, [])
    end
}.

Definition long_feedback : text := concat (repeat (str "word ") 150).

(** The self-correction scenario of the specification: the synthesizer
    writes 150 words and claims grade 55, the QA pass reports
    [too_long], the compress-and-fix pass claims grade 99 and the second
    QA pass still reports [too_long]. *)
Definition scenario_script : list (result py_value) :=
  [ Ok (VDict [(str "q_scores", VDict [(str "Q1", VInt 2); (str "Q2", VInt 3); (str "Q3", VInt 2)])]);
    Ok (VDict []);
    Ok (VList [VDict [(str "clarity_score", VInt 7)]]);
    Ok (VDict []);
    Ok (VDict [(str "grade", VInt 55); (str "final_feedback", VStr long_feedback)]);
    Ok (VDict [(str "too_long", VBool true)]);
    Ok (VDict [(str "grade", VInt 99); (str "final_feedback", VStr (str "short"))]);
    Ok (VDict [(str "too_long", VBool true)]) ].

Definition scenario_run :=
  run_multi_agent [(1, str "Services give pods a stable endpoint")]
                  (VDict []) (mkPState scenario_script []).

(** Self-correction scenario: a too-long synthesis triggers exactly
    one compress-and-fix call and one second QA call, the run stops
    although the second QA still flags the feedback, and the final grade
    is the fused 78 (= round(700 / 9)), not the 55 or 99 the provider
    proposed. *)
Example self_correction_scenario :
  map call_system (calls (snd scenario_run)) = agents_with_fix /\
  exists res, fst scenario_run = Ok res /\
              get res (str "grade") VNone = Ok (VInt 78).
Proof. split; [reflexivity | eexists; split; reflexivity]. Qed.

Lemma compute_grade_table_witness :
  (0 <= 2 <= 3 /\ 0 <= 3 <= 3 /\ 0 <= 2 <= 3) /\
  compute_grade_from_qscores
    (VDict [(str "Q1", VInt 2); (str "Q2", VInt 3); (str "Q3", VInt 2)]) =
  nth (Z.to_nat (2 + 3 + 2)) grade_table 0.
Proof. split; [lia | apply compute_grade_table; lia]. Defined.

(** The result and the final state of the scenario run. *)
Definition scenario_result : py_value :=
  match fst scenario_run with Ok r => r | Err _ => VNone end.
Definition scenario_state := snd scenario_run.

Definition scenario_qmap : list (Z * text) := [(1, str "Services give pods a stable endpoint")].
Definition scenario_start : pstate (list (result py_value)) := mkPState scenario_script [].

Lemma run_multi_agent_calls_bounded_witness :
  run_multi_agent scenario_qmap (VDict []) scenario_start = (Ok scenario_result, scenario_state) /\
  exists new, calls scenario_state = calls scenario_start ++ new /\
              exists rest, agents_with_fix = map call_system new ++ rest.
Proof.
  split; [vm_compute; reflexivity|].
  apply (run_multi_agent_calls_bounded scenario_qmap (VDict []) scenario_start (Ok scenario_result)).
  vm_compute. reflexivity.
Defined.

Lemma run_multi_agent_ok_calls_witness :
  run_multi_agent scenario_qmap (VDict []) scenario_start = (Ok scenario_result, scenario_state) /\
  exists new, calls scenario_state = calls scenario_start ++ new /\
              (map call_system new = agents_plain \/ map call_system new = agents_with_fix).
Proof.
  split; [vm_compute; reflexivity|].
  apply (run_multi_agent_ok_calls scenario_qmap (VDict []) scenario_start scenario_result).
  vm_compute. reflexivity.
Defined.

Lemma run_multi_agent_grade_witness :
  run_multi_agent scenario_qmap (VDict []) scenario_start = (Ok scenario_result, scenario_state) /\
  exists q1 q2 q3 corr st1 qs,
    _cap (qmap_get scenario_qmap 1) 600 = Ok q1 /\ _cap (qmap_get scenario_qmap 2) 600 = Ok q2 /\
    _cap (qmap_get scenario_qmap 3) 600 = Ok q3 /\
    generate_json sys_correctness (PCorrectness q1 q2 q3) (provider scenario_start) = (Ok corr, st1) /\
    get corr (str "q_scores") (VDict []) = Ok qs /\
    get scenario_result (str "grade") VNone = Ok (VInt (compute_grade_from_qscores qs)).
Proof.
  split; [vm_compute; reflexivity|].
  apply (run_multi_agent_grade scenario_qmap (VDict []) scenario_start scenario_result scenario_state).
  vm_compute. reflexivity.
Defined.

End MultiAgent.
