(* ===== verification/Providers.v ===== *)
(** * The generative providers: llm/mock.py, llm/gemini.py, llm/__init__.py, config.py, test_gemini.py

    [user_text] renders each user prompt as its f-string does
    (multi_agent.py lines 37-213, main.py lines 276-288): the literal
    lines of the template, with [str()] of each interpolated value.
    [MockLLM] is the deterministic provider of llm/mock.py:
    [generate_json] lowercases [system + " " + user] and answers with the
    fixed JSON of the first agent name that text contains, in the order
    of the source; the synthesizer's answer is the default.
    [GeminiLLM] sends one prompt per call to a remote model, given here
    as an oracle [service], and decodes [(resp.text or "").strip()] with
    [JsonCodec.loads].  [get_llm] chooses the provider from [LLM_MODE],
    read from the environment as config.py reads it, and
    [run_multi_agent_env] runs the orchestrator with that provider.
    [load_settings] is the whole of config.py; [smoke_test] is the
    manual script test_gemini.py over the same oracle. *)

From Stdlib Require Import String ZArith QArith List Lia Bool.
From S2P Require Import Prelude Json PyFormat JsonCodec MultiAgent.
Import ListNotations.
Open Scope list_scope.

Module Providers.
Import Py PyFormat JsonCodec MultiAgent.

(** ** Rendering the user prompts *)

(** One line of a template.  The templates quote with [""]; a Rocq
    literal cannot hold that character, so a backquote stands for it
    (no template contains a backquote). *)
Definition line (s : string) : text := map (fun c => if c =? 96 then 34 else c) (str s).

(** ["\n".join(lines)]: a triple-quoted f-string that starts and ends
    with a line break is the join of its lines between two empty ones. *)
Fixpoint unlines (ls : list text) : text :=
  match ls with
  | [] => []
  | [x] => x
  | x :: r => x ++ [10] ++ unlines r
  end.

Definition answer_lines (q1 q2 q3 : text) : list text :=
  [line "Q1: " ++ q1; line "Q2: " ++ q2; line "Q3: " ++ q3].

Definition qa_schema : text :=
  line "{`quality_score`:0-1, `issues`:[...], `too_long`:true/false, `contradiction`:true/false}".

(** Main.py's template is indented by twelve spaces, which the
    f-string keeps. *)
Definition indent12 : text := line "            ".

(** The fixed lines around the answers of the first four agents. *)
Definition correctness_head : list text :=
  [line "Correctness Agent (BE BRIEF)"; line "Student answers:"].

Definition correctness_tail : list text :=
  [[]; line "Return STRICT JSON:"; line "{";
   line "  `q_scores`: {`Q1`: 0-3, `Q2`: 0-3, `Q3`: 0-3},";
   line "  `key_points_found`: {`Q1`:[max 3], `Q2`:[max 3], `Q3`:[max 3]}";
   line "}"; []].

Definition misconception_head : list text :=
  [line "Misconception Agent (VERY BRIEF)"; line "For each question return:";
   line "- misconceptions: max 1 short sentence"; line "- missing_points_top: max 2 bullet phrases";
   []; line "Student answers:"].

Definition misconception_tail : list text :=
  [[]; line "Return STRICT JSON:"; line "{";
   line "  `Q1`: {`misconceptions`:[...], `missing_points_top`:[...]},";
   line "  `Q2`: {`misconceptions`:[...], `missing_points_top`:[...]},";
   line "  `Q3`: {`misconceptions`:[...], `missing_points_top`:[...]}";
   line "}"; []].

Definition clarity_head : list text :=
  [line "Clarity Agent (VERY BRIEF)"; line "Return EXACTLY ONE JSON OBJECT (NOT a list):";
   line "{`clarity_score`: 0-10, `writing_suggestions`: [max 2 short bullets]}";
   []; line "Answers:"].

Definition personalization_mid : list text :=
  [[]; line "Return STRICT JSON:"; line "{";
   line "  `personalized_notes`: `max 2 sentences`,";
   line "  `recommended_next_topics`: [max 3 topics]"; line "}";
   []; line "Short answers:"].

Definition user_lines (p : prompt) : list text :=
  match p with
  | PCorrectness q1 q2 q3 => [] :: correctness_head ++ answer_lines q1 q2 q3 ++ correctness_tail
  | PMisconception q1 q2 q3 => [] :: misconception_head ++ answer_lines q1 q2 q3 ++ misconception_tail
  | PClarity q1 q2 q3 => [] :: clarity_head ++ answer_lines q1 q2 q3 ++ [[]]
  | PPersonalization ctx c1 c2 c3 =>
      [] :: [line "Personalization Agent (BE BRIEF)"] ++ (line "Student context: " ++ py_str ctx) ::
      personalization_mid ++ answer_lines c1 c2 c3 ++ [[]]
  | PSynthesizer corr misc clarity pers =>
      [[]; line "SYNTHESIZER (VERY SHORT OUTPUT)"; line "Do NOT teach. Do NOT write long paragraphs.";
       line "Follow limits strictly."; []; line "Inputs:";
       line "Correctness: " ++ py_str corr; line "Misconceptions: " ++ py_str misc;
       line "Clarity: " ++ py_str clarity; line "Personalization: " ++ py_str pers;
       []; line "Return STRICT JSON exactly with these keys:"; line "{";
       line "  `confidence`: 0-1,";
       line "  `final_feedback`: `max 120 words`,";
       line "  `strengths`: [max 3 short bullets],";
       line "  `weaknesses`: [max 3 short bullets],";
       line "  `next_steps`: [max 3 short bullets],";
       line "  `concept_scores`: {`service`:0-1,`clusterip_nodeport`:0-1,`networkpolicy`:0-1}";
       line "}"; []]
  | PQA qs synth =>
      [[]; line "Feedback QA Agent"; line "Check:"; line "1) final_feedback <= 120 words";
       line "2) strengths/weaknesses/next_steps within limits";
       line "3) no contradictions with q_scores:";
       line "   - if q_scores are low, feedback must not claim `all perfect`";
       line "   - if q_scores are max, feedback should not claim `major mistakes`";
       []; line "Return STRICT JSON:"; qa_schema;
       []; line "q_scores:"; py_str qs; []; line "Feedback JSON:"; py_str synth; []]
  | PCompressFix qs synth =>
      [[]; line "COMPRESS & FIX"; line "Rewrite to be shorter and consistent with q_scores.";
       line "Rules:"; line "- final_feedback max 80 words"; line "- strengths max 2 bullets";
       line "- weaknesses max 2 bullets"; line "- next_steps max 2 bullets";
       line "- do NOT change grade (grade is computed)"; line "- keep the same keys";
       []; line "q_scores:"; py_str qs; []; line "Input JSON:"; py_str synth; [];
       line "Return STRICT JSON with SAME keys."; []]
  | PQAAgain qs synth2 =>
      [[]; line "QA AGAIN"; line "Return STRICT JSON:"; qa_schema;
       []; line "q_scores:"; py_str qs; []; line "Feedback JSON:"; py_str synth2; []]
  | PLLMGrade q1 q2 q3 =>
      [[]] ++
      map (app indent12)
        ([line "Assignment: Kubernetes basics (Services, ClusterIP vs NodePort, NetworkPolicy).";
          line "Student answers:"] ++ answer_lines q1 q2 q3) ++
      [[]] ++
      map (app indent12)
        [line "Return JSON with fields:";
         line "grade (0-100), confidence (0-1),";
         line "strengths (list), weaknesses (list), misconceptions (list),";
         line "next_steps (list),";
         line "concept_scores (object with keys: service, clusterip_nodeport, networkpolicy each 0-1)";
         []]
  end.

Definition user_text (p : prompt) : text := unlines (user_lines p).

(** ** [MockLLM] (llm/mock.py) *)

Definition strs (l : list string) : py_value := VList (map (fun s => VStr (str s)) l).
Local Open Scope string_scope.

Definition en_dash : Z := 8211.

Definition mock_correctness : py_value :=
  VDict [(str "q_scores", mock_correctness_q_scores);
         (str "key_points_found",
          VDict [(str "1", strs ["stable endpoint"; "pods"; "load balancing"]);
                 (str "2", strs ["ClusterIP internal"; "NodePort external"]);
                 (str "3", strs ["restrict traffic"; "frontend->backend"])])].

Definition mock_misconception : py_value :=
  VDict [(str "misconceptions", VList []);
         (str "missing_points",
          VDict [(str "1", strs ["Services select pods using labels"]);
                 (str "2", strs ["Ingress/LoadBalancer commonly used"]);
                 (str "3", strs ["default deny behavior requires policy design"])])].

Definition mock_clarity : py_value :=
  VDict [(str "clarity_score", VFloat (Finite (75 # 100)));
         (str "writing_suggestions",
          VList [VStr (str "Use 1" ++ [en_dash] ++
                       str "2 more technical terms precisely (e.g., label selector, service discovery).");
                 VStr (str "Keep each answer 2" ++ [en_dash] ++ str "4 sentences for clarity.")])].

Definition mock_personalization : py_value :=
  VDict [(str "personalized_notes",
          strs ["You are improving on Kubernetes networking basics.";
                "Focus next on NetworkPolicy rule directions (ingress vs egress)."]);
         (str "recommended_next_topics",
          strs ["Service selectors"; "Ingress vs NodePort"; "NetworkPolicy ingress/egress"])].

Definition mock_qa : py_value :=
  VDict [(str "quality_score", VFloat (Finite (82 # 100))); (str "issues", VList [])].

Definition mock_final_feedback : text :=
  str "Good work overall. Improve by adding label-selector detail and mention production exposure via Ingress/LoadBalancer.".

Definition mock_concept_scores : py_value :=
  VDict [(str "service", VFloat (Finite (75 # 100)));
         (str "clusterip_nodeport", VFloat (Finite (8 # 10)));
         (str "networkpolicy", VFloat (Finite (7 # 10)))].

Definition mock_synthesizer : py_value :=
  VDict [(str "grade", VInt 78); (str "confidence", VFloat (Finite (7 # 10)));
         (str "final_feedback", VStr mock_final_feedback);
         (str "concept_scores", mock_concept_scores)].

(** The agent names the mock looks for, in the order of its tests. *)
Definition mock_keys : list text :=
  [str "correctness agent"; str "misconception agent"; str "clarity agent";
   str "personalization agent"; str "feedback qa agent"].

Definition generate_json_mock (system user : text) : py_value :=
  let s := lower (system ++ str " " ++ user) in
  if contains s (str "correctness agent") then mock_correctness
  else if contains s (str "misconception agent") then mock_misconception
  else if contains s (str "clarity agent") then mock_clarity
  else if contains s (str "personalization agent") then mock_personalization
  else if contains s (str "feedback qa agent") then mock_qa
  else mock_synthesizer.

Local Close Scope string_scope.

(** [MockLLM] keeps no state and never fails. *)
#[export] Instance MockLLM : LLMProvider unit := {
  generate_json sys p st := (Ok (generate_json_mock sys (user_text p)), st)
}.

(** ** What the mock reads *)

(** A text is neutral for the mock when it names none of its agents. *)
Definition mock_neutral (t : text) : bool :=
  forallb (fun k => negb (contains (lower t) k)) mock_keys.

Lemma lower_unlines (ls : list text) : lower (unlines ls) = unlines (map lower ls).
Proof.
  induction ls as [|x [|y ls] IH]; [reflexivity | reflexivity |].
  change (unlines (x :: y :: ls)) with (x ++ [10] ++ unlines (y :: ls)).
  rewrite !lower_app, IH. reflexivity.
Qed.

Lemma contains_unlines (ls : list text) (k : text) :
  k <> [] -> ~ In 10 k -> contains (unlines ls) k = existsb (fun l => contains l k) ls.
Proof.
  intros Hk H10. induction ls as [|x [|y ls] IH].
  - destruct k; [congruence | reflexivity].
  - simpl. rewrite orb_false_r. reflexivity.
  - change (unlines (x :: y :: ls)) with (x ++ 10 :: unlines (y :: ls)).
    rewrite contains_app_sep, IH by exact H10. reflexivity.
Qed.

Lemma user_lines_head (p : prompt) : exists rest, user_lines p = [] :: rest /\ rest <> [].
Proof. destruct p; eexists; (split; [reflexivity | discriminate]). Qed.

(** The mock tests each agent name on the system prompt and on each
    line of the user prompt: no name spans a line break. *)
Lemma mock_text_contains (sys : text) (p : prompt) (k : text) :
  k <> [] -> ~ In 10 k ->
  contains (lower (sys ++ str " " ++ user_text p)) k =
  contains (lower sys ++ [32]) k || existsb (fun l => contains (lower l) k) (List.tl (user_lines p)).
Proof.
  intros Hk H10. destruct (user_lines_head p) as [[|y rest] [E Hr]]; [congruence|].
  unfold user_text. rewrite E. cbn [List.tl].
  change (unlines ([] :: y :: rest)) with (10 :: unlines (y :: rest)).
  replace (lower (sys ++ str " " ++ 10 :: unlines (y :: rest)))
    with ((lower sys ++ [32]) ++ 10 :: unlines (map lower (y :: rest)))
    by (rewrite lower_app, <- lower_unlines, <- app_assoc; reflexivity).
  rewrite contains_app_sep, contains_unlines, existsb_map by assumption.
  reflexivity.
Qed.

(** The labels that precede an interpolated value on its line. *)
Definition labels : list string := ["Q1: "; "Q2: "; "Q3: "; "Student context: "]%string.

(** The keys are non-empty, hold no line break, and no occurrence of
    one can start inside a label. *)
Lemma mock_key_shape (k : text) :
  In k mock_keys ->
  k <> [] /\ ~ In 10 k /\
  forall lab : string, In lab labels -> no_start (lower (line lab)) k = true.
Proof.
  intros Hk. simpl in Hk.
  repeat destruct Hk as [<-|Hk]; [..|contradiction];
    (split; [discriminate | split; [cbv; intuition discriminate |]]);
    intros lab Hl; simpl in Hl; repeat destruct Hl as [<-|Hl]; try contradiction;
    reflexivity.
Qed.

Lemma answer_line_contains (lab : string) (q k : text) :
  In lab labels -> In k mock_keys ->
  contains (lower (line lab ++ q)) k = contains (lower q) k.
Proof.
  intros Hl Hk. destruct (mock_key_shape k Hk) as [Hne [_ Hhd]].
  rewrite lower_app. apply contains_app_l, Hhd, Hl.
Qed.

Lemma mock_neutral_spec (t : text) :
  mock_neutral t = true <-> forall k, In k mock_keys -> contains (lower t) k = false.
Proof.
  unfold mock_neutral. rewrite forallb_forall.
  split; intros H k Hk; specialize (H k Hk); destruct (contains (lower t) k); auto.
Qed.

Lemma key_nonnil (k : text) : In k mock_keys -> k <> [].
Proof. intros Hk. apply (mock_key_shape k Hk). Qed.

Lemma key_no_nl (k : text) : In k mock_keys -> ~ In 10 k.
Proof. intros Hk. apply (mock_key_shape k Hk). Qed.

(** The mock's five tests, in order, on a text. *)
Definition mock_flags (s : text) : list bool := map (fun k => contains (lower s) k) mock_keys.

Definition mock_route (flags : list bool) : py_value :=
  if nth 0 flags false then mock_correctness
  else if nth 1 flags false then mock_misconception
  else if nth 2 flags false then mock_clarity
  else if nth 3 flags false then mock_personalization
  else if nth 4 flags false then mock_qa
  else mock_synthesizer.

Lemma generate_json_mock_route (sys u : text) :
  generate_json_mock sys u = mock_route (mock_flags (sys ++ str " " ++ u)).
Proof. reflexivity. Qed.

(** The tests on the system prompt and on each line of the user
    prompt. *)
Definition line_flags (sys : text) (ls : list text) : list bool :=
  map (fun k => contains (lower sys ++ [32]) k || existsb (fun l => contains (lower l) k) ls) mock_keys.

Lemma mock_flags_lines (sys : text) (p : prompt) :
  mock_flags (sys ++ str " " ++ user_text p) = line_flags sys (List.tl (user_lines p)).
Proof.
  apply map_ext_in. intros k Hk.
  apply mock_text_contains; [apply key_nonnil | apply key_no_nl]; exact Hk.
Qed.

(** A labelled line whose value names no agent does not change the
    tests. *)
Lemma line_flags_drop (sys : text) (pre post : list text) (lab : string) (v : text) :
  In lab labels -> mock_neutral v = true ->
  line_flags sys (pre ++ (line lab ++ v) :: post) = line_flags sys (pre ++ post).
Proof.
  intros Hl Hv. rewrite mock_neutral_spec in Hv. apply map_ext_in. intros k Hk.
  rewrite !existsb_app. cbn [existsb].
  rewrite answer_line_contains, (Hv k Hk) by assumption. reflexivity.
Qed.

Lemma line_flags_answers (sys : text) (pre post : list text) (q1 q2 q3 : text) :
  mock_neutral q1 = true -> mock_neutral q2 = true -> mock_neutral q3 = true ->
  line_flags sys (pre ++ answer_lines q1 q2 q3 ++ post) = line_flags sys (pre ++ post).
Proof.
  intros H1 H2 H3. unfold answer_lines. cbn [app].
  rewrite !line_flags_drop by (simpl; auto 6). reflexivity.
Qed.

Lemma mock_answers_correctness (q1 q2 q3 : text) :
  generate_json_mock sys_correctness (user_text (PCorrectness q1 q2 q3)) = mock_correctness.
Proof.
  rewrite generate_json_mock_route, mock_flags_lines. unfold mock_route, line_flags.
  cbn [map nth]. replace (contains (lower sys_correctness ++ [32]) (str "correctness agent"))
    with true by (vm_compute; reflexivity). reflexivity.
Qed.

Lemma mock_answers_misconception (q1 q2 q3 : text) :
  mock_neutral q1 = true -> mock_neutral q2 = true -> mock_neutral q3 = true ->
  generate_json_mock sys_misconception (user_text (PMisconception q1 q2 q3)) = mock_misconception.
Proof.
  intros. rewrite generate_json_mock_route, mock_flags_lines. cbn [user_lines List.tl].
  rewrite line_flags_answers by assumption. vm_compute. reflexivity.
Qed.

Lemma mock_answers_clarity (q1 q2 q3 : text) :
  mock_neutral q1 = true -> mock_neutral q2 = true -> mock_neutral q3 = true ->
  generate_json_mock sys_clarity (user_text (PClarity q1 q2 q3)) = mock_clarity.
Proof.
  intros. rewrite generate_json_mock_route, mock_flags_lines. cbn [user_lines List.tl].
  rewrite line_flags_answers by assumption. vm_compute. reflexivity.
Qed.

Lemma mock_answers_personalization (ctx : py_value) (c1 c2 c3 : text) :
  mock_neutral (py_str ctx) = true ->
  mock_neutral c1 = true -> mock_neutral c2 = true -> mock_neutral c3 = true ->
  generate_json_mock sys_personalization (user_text (PPersonalization ctx c1 c2 c3)) =
  mock_personalization.
Proof.
  intros. rewrite generate_json_mock_route, mock_flags_lines. cbn [user_lines List.tl].
  change (?a :: ?l) with ([a] ++ l) at 1. rewrite line_flags_drop by (simpl; auto 6).
  rewrite app_assoc, line_flags_answers by assumption. vm_compute. reflexivity.
Qed.

(** [_cap] keeps a neutral text neutral: it only cuts. *)
Lemma mock_neutral_cap (s : text) (n : nat) :
  mock_neutral s = true -> mock_neutral (firstn n (strip s)) = true.
Proof.
  rewrite !mock_neutral_spec. intros H k Hk.
  destruct (contains (lower (firstn n (strip s))) k) eqn:E; [|reflexivity].
  rewrite <- (H k Hk). symmetry. apply (contains_cap s k n E).
Qed.

Lemma cap_str (t : text) (n : nat) : _cap (VStr t) n = Ok (firstn n (strip t)).
Proof. destruct t; reflexivity. Qed.

Lemma qmap_get_neutral (qmap : list (Z * text)) (i : Z) :
  Forall (fun e => mock_neutral (snd e) = true) qmap ->
  exists t, qmap_get qmap i = VStr t /\ mock_neutral t = true.
Proof.
  intros H. induction H as [|[k t] qmap Ht _ IH]; [exists []; split; reflexivity|].
  cbn [qmap_get]. destruct (i =? k); [exists t; split; [reflexivity | exact Ht] | exact IH].
Qed.

(** What [run_multi_agent] returns with the mock: the synthesizer's
    answer with the fused grade 0 in place of its 78, and the agents'
    answers under ["agents"]. *)
Definition mock_run_result : py_value :=
  VDict [(str "grade", VInt 0); (str "confidence", VFloat (Finite (7 # 10)));
         (str "final_feedback", VStr mock_final_feedback);
         (str "concept_scores", mock_concept_scores);
         (str "agents",
          VDict [(str "correctness", mock_correctness); (str "misconceptions", mock_misconception);
                 (str "clarity", mock_clarity); (str "personalization", mock_personalization);
                 (str "qa", mock_qa)])].

(** C12. With the mock provider, [run_multi_agent] on answers and a
    personalization context that name none of the mock's agents makes
    the six calls of a run without self-correction and returns the
    mock synthesizer's answer with the fused grade 0 in place of its 78
    (the mock's [q_scores] keys ["1"], ["2"], ["3"] are not the ["Q1"],
    ["Q2"], ["Q3"] the fusion reads), and the five agents' answers
    under ["agents"]. *)
Theorem mock_run_spec (qmap : list (Z * text)) (sc ctx : py_value) :
  Forall (fun e => mock_neutral (snd e) = true) qmap ->
  personalization_ctx sc = Ok ctx -> mock_neutral (py_str ctx) = true ->
  let '(r, ps) := run_multi_agent qmap sc (mkPState tt []) in
  r = Ok mock_run_result /\ map call_system (calls ps) = agents_plain.
Proof.
  intros Hq Hctx Hn.
  destruct (qmap_get_neutral qmap 1 Hq) as [t1 [E1 H1]].
  destruct (qmap_get_neutral qmap 2 Hq) as [t2 [E2 H2]].
  destruct (qmap_get_neutral qmap 3 Hq) as [t3 [E3 H3]].
  unfold run_multi_agent, mbind, mret, lift, call_llm.
  rewrite E1, E2, E3, !cap_str. cbn [generate_json MockLLM provider calls]. cbn beta iota zeta.
  rewrite mock_answers_correctness.
  rewrite mock_answers_misconception, mock_answers_clarity by (apply mock_neutral_cap; assumption).
  rewrite Hctx. cbn beta iota zeta.
  rewrite mock_answers_personalization by (repeat apply mock_neutral_cap; assumption).
  vm_compute. split; reflexivity.
Qed.

(** The first test of the mock passes on a prompt whose first answer
    names the correctness agent. *)
Lemma line_flags_correctness (sys : text) (pre post : list text) (q1 q2 q3 : text) :
  contains (lower q1) (str "correctness agent") = true ->
  nth 0 (line_flags sys (pre ++ answer_lines q1 q2 q3 ++ post)) false = true.
Proof.
  intros H. unfold line_flags, mock_keys. cbn [map nth]. rewrite !existsb_app. cbn [answer_lines existsb].
  rewrite answer_line_contains, H by (simpl; auto 6). rewrite !orb_true_r. reflexivity.
Qed.

(** C15. The mock dispatches on the whole prompt, student answers
    included: when the first answer names the correctness agent (in any
    case), the misconception and clarity agents receive the correctness
    agent's JSON. *)
Theorem mock_misroutes (q1 q2 q3 : text) :
  contains (lower q1) (str "correctness agent") = true ->
  generate_json_mock sys_misconception (user_text (PMisconception q1 q2 q3)) = mock_correctness /\
  generate_json_mock sys_clarity (user_text (PClarity q1 q2 q3)) = mock_correctness.
Proof.
  intros H. rewrite !generate_json_mock_route, !mock_flags_lines. cbn [user_lines List.tl].
  unfold mock_route. rewrite !line_flags_correctness by exact H. split; reflexivity.
Qed.

Definition injected_answer : text := str "As the Correctness Agent would say: a Service gives pods a stable endpoint.".

Lemma mock_misroutes_witness :
  contains (lower injected_answer) (str "correctness agent") = true /\
  generate_json_mock sys_misconception (user_text (PMisconception injected_answer [] [])) = mock_correctness /\
  generate_json_mock sys_clarity (user_text (PClarity injected_answer [] [])) = mock_correctness.
Proof.
  assert (H : contains (lower injected_answer) (str "correctness agent") = true) by (vm_compute; reflexivity).
  split; [exact H | exact (mock_misroutes injected_answer [] [] H)].
Defined.

Definition sample_qmap : list (Z * text) :=
  [(1, str "Services give pods a stable endpoint and DNS name.");
   (2, str "ClusterIP is internal; NodePort opens a port on every node.");
   (3, str "NetworkPolicy allows frontend to backend and blocks the rest.")].

Definition sample_ctx : py_value :=
  VDict [(str "weak_concepts", VList []); (str "trend", VStr (str "unknown"));
         (str "last_feedback_summary", VStr [])].

Lemma mock_run_spec_witness :
  Forall (fun e => mock_neutral (snd e) = true) sample_qmap /\
  personalization_ctx (VDict []) = Ok sample_ctx /\ mock_neutral (py_str sample_ctx) = true /\
  (let '(r, ps) := run_multi_agent sample_qmap (VDict []) (mkPState tt []) in
   r = Ok mock_run_result /\ map call_system (calls ps) = agents_plain).
Proof.
  assert (Hq : Forall (fun e => mock_neutral (snd e) = true) sample_qmap)
    by (repeat constructor; vm_compute; reflexivity).
  assert (Hc : personalization_ctx (VDict []) = Ok sample_ctx) by (vm_compute; reflexivity).
  assert (Hn : mock_neutral (py_str sample_ctx) = true) by (vm_compute; reflexivity).
  split; [exact Hq | split; [exact Hc | split; [exact Hn | exact (mock_run_spec _ _ _ Hq Hc Hn)]]].
Defined.

(** A whole mock run on an answer that names the correctness agent: the
    stored misconception and clarity answers are the correctness JSON. *)
Example mock_run_injected :
  match fst (run_multi_agent [(1, injected_answer)] (VDict []) (mkPState tt [])) with
  | Ok r => get r (str "agents") VNone
  | Err _ => Err ValueError
  end =
  Ok (VDict [(str "correctness", mock_correctness); (str "misconceptions", mock_correctness);
             (str "clarity", mock_correctness); (str "personalization", mock_correctness);
             (str "qa", mock_qa)]).
Proof. vm_compute. reflexivity. Qed.

(** ** config.py and [GeminiLLM] *)

(** The process environment, as [os.getenv] sees it after
    [load_dotenv()]: a variable set to the empty text is set. *)
Definition environ : Type := list (text * text).

Fixpoint getenv (env : environ) (k dflt : text) : text :=
  match env with
  | [] => dflt
  | (k', v) :: rest => if list_eq_dec Z.eq_dec k k' then v else getenv rest k dflt
  end.

(** [LLM_MODE = os.getenv("LLM_MODE", "mock").lower()], read once when
    config.py is imported. *)
Definition LLM_MODE (env : environ) : text := lower (getenv env (str "LLM_MODE") (str "mock")).

(** The module constants of config.py (lines 7-13), read once when it
    is imported. *)
Record settings : Type := mkSettings {
  DATABASE_URL : text;
  REDIS_URL : text;
  s_LLM_MODE : text;
  AWS_REGION : text;
  AWS_PROFILE : text;
  BEDROCK_MODEL_ID : text
}.

Definition load_settings (env : environ) : settings :=
  mkSettings (getenv env (str "DATABASE_URL") []) (getenv env (str "REDIS_URL") [])
    (LLM_MODE env) (getenv env (str "AWS_REGION") (str "ap-south-1"))
    (getenv env (str "AWS_PROFILE") (str "default")) (getenv env (str "BEDROCK_MODEL_ID") []).

(** The remote model: the [resp.text] of the [n]-th
    [generate_content(model=..., contents=prompt)] of a client ([None]
    when the response has no text), or [ProviderError] when the call
    raises.  The service is an oracle: the model is not. *)
Definition service : Type := text -> text -> nat -> result (option text).

(** A [GeminiLLM]: its [self.model], its client's service and the
    prompts sent so far. *)
Record gemini : Type := mkGemini { g_model : text; g_service : service; g_sent : list text }.

(** [GeminiLLM.__init__]: [RuntimeError] without an API key. *)
Definition GeminiLLM (env : environ) (svc : service) : result gemini :=
  match getenv env (str "GEMINI_API_KEY") [] with
  | [] => Err RuntimeError
  | _ => Ok (mkGemini (getenv env (str "GEMINI_MODEL") (str "gemini-2.5-flash-lite")) svc [])
  end.

(** [f"{system}\n\n{user}\n\nReturn ONLY valid JSON. No markdown."] *)
Definition gemini_prompt (system user : text) : text :=
  system ++ [10; 10] ++ user ++ [10; 10] ++ str "Return ONLY valid JSON. No markdown.".

(** [GeminiLLM.generate_json]: one request, [(resp.text or "").strip()],
    [json.loads]. *)
Definition gemini_generate_json (system user : text) (g : gemini) : result py_value * gemini :=
  let prompt := gemini_prompt system user in
  let g' := mkGemini (g_model g) (g_service g) (g_sent g ++ [prompt]) in
  match g_service g (g_model g) prompt (length (g_sent g)) with
  | Err e => (Err e, g')
  | Ok resp => (loads (strip (match resp with Some t => t | None => [] end)), g')
  end.

#[export] Instance GeminiProvider : LLMProvider gemini := {
  generate_json sys p g := gemini_generate_json sys (user_text p) g
}.

(** The provider [get_llm()] returns. *)
Inductive llm : Type :=
| LMock (m : unit)
| LGemini (g : gemini).

#[export] Instance LLM : LLMProvider llm := {
  generate_json sys p l :=
    match l with
    | LMock m => let '(r, m') := @generate_json unit MockLLM sys p m in (r, LMock m')
    | LGemini g => let '(r, g') := gemini_generate_json sys (user_text p) g in (r, LGemini g')
    end
}.

(** [get_llm()] of llm/__init__.py. *)
Definition get_llm (env : environ) (svc : service) : result llm :=
  if list_eq_dec Z.eq_dec (LLM_MODE env) (str "gemini") then
    g <- GeminiLLM env svc ;; Ok (LGemini g)
  else Ok (LMock tt).

(** test_gemini.py, the manual smoke test: [RuntimeError] without an
    API key, else one [generate_content] of a fixed prompt to
    [GEMINI_MODEL] (default ["gemini-2.5-pro"]); the result is the
    [resp.text] it prints, whose accessor raises [ValueError] on a
    response without text. *)
Definition smoke_prompt : text := str "Say hello in one short sentence.".

(** [resp.text] of a [google.generativeai] response. *)
Definition resp_text (r : result (option text)) : result text :=
  match r with
  | Err e => Err e
  | Ok (Some t) => Ok t
  | Ok None => Err ValueError
  end.

Definition smoke_test (env : environ) (svc : service) : result text :=
  match getenv env (str "GEMINI_API_KEY") [] with
  | [] => Err RuntimeError
  | _ =>
      resp_text (svc (getenv env (str "GEMINI_MODEL") (str "gemini-2.5-pro")) smoke_prompt 0%nat)
  end.

(** [run_multi_agent] with the provider [get_llm()] builds (lines 26-27
    of multi_agent.py), from an empty call log. *)
Definition run_multi_agent_env (env : environ) (svc : service) (qmap : list (Z * text))
    (student_context : py_value) : result py_value * list llm_call :=
  match get_llm env svc with
  | Err e => (Err e, [])
  | Ok l => let '(r, ps) := run_multi_agent qmap student_context (mkPState l []) in (r, calls ps)
  end.

(** ** The Gemini provider *)

(** [qmap.get(k, "")] is a [str]. *)
Lemma qmap_get_str (qmap : list (Z * text)) (k : Z) : exists t, qmap_get qmap k = VStr t.
Proof.
  induction qmap as [|[k' t] rest IH]; [exists []; reflexivity|].
  cbn [qmap_get]. destruct (k =? k'); [exists t; reflexivity | exact IH].
Qed.

(** A reply that opens with a Markdown code fence is rejected by
    [json.loads]. *)
Lemma loads_fenced (t r : text) : lstrip t = 96 :: r -> loads (strip t) = Err JSONDecodeError.
Proof. intros H. destruct (strip_first t 96 r H) as [r' ->]. apply loads_backquote. Qed.

(** C13. [GeminiLLM.generate_json] refines the service: when the model's
    reply is the JSON text of a value (no finite float, no surrogate,
    one entry per key) padded with any whitespace [str.isspace] accepts
    -- also the form feeds, no-break spaces and line separators that
    JSON's own grammar rejects, which the [strip()] removes -- the
    provider returns that value, and it has sent exactly one more
    prompt, [system + "\n\n" + user + "\n\nReturn ONLY valid JSON. No
    markdown."], asked as the next call of its client. *)
Theorem gemini_returns_reply (g : gemini) (sys : text) (p : prompt) (v : py_value) (pre post : text) :
  json_safe v = true -> forallb is_space pre = true -> forallb is_space post = true ->
  g_service g (g_model g) (gemini_prompt sys (user_text p)) (length (g_sent g)) =
    Ok (Some (pre ++ dumps v ++ post)) ->
  generate_json sys p g =
    (Ok v, mkGemini (g_model g) (g_service g) (g_sent g ++ [gemini_prompt sys (user_text p)])).
Proof.
  intros Hs Hpre Hpost Hr. cbn [generate_json GeminiProvider]. unfold gemini_generate_json.
  rewrite Hr, strip_pad, dumps_strip, loads_dumps by assumption. reflexivity.
Qed.

(** C14. In Gemini mode the code does not tolerate what its prompt
    forbids: when every reply of the model opens (after blanks) with a
    Markdown code fence, [run_multi_agent] raises [JSONDecodeError] at
    its first call, the correctness agent's, and makes no other call. *)
Theorem gemini_fenced_run_fails (env : environ) (svc : service) (qmap : list (Z * text)) (sc : py_value) :
  LLM_MODE env = str "gemini" -> getenv env (str "GEMINI_API_KEY") [] <> [] ->
  (forall m pr n, exists t r, svc m pr n = Ok (Some t) /\ lstrip t = 96 :: r) ->
  exists p, run_multi_agent_env env svc qmap sc = (Err JSONDecodeError, [mkCall sys_correctness p]).
Proof.
  intros Hm Hk Hsvc. unfold run_multi_agent_env, get_llm, GeminiLLM. rewrite Hm.
  destruct (list_eq_dec Z.eq_dec (str "gemini") (str "gemini")) as [_|C]; [|congruence].
  destruct (getenv env (str "GEMINI_API_KEY") []) as [|k ks]; [congruence|]. cbn -[run_multi_agent].
  destruct (qmap_get_str qmap 1) as [t1 E1]. destruct (qmap_get_str qmap 2) as [t2 E2].
  destruct (qmap_get_str qmap 3) as [t3 E3].
  unfold run_multi_agent, mbind, lift, call_llm. rewrite E1, E2, E3, !cap_str.
  cbn [generate_json LLM provider calls]. unfold gemini_generate_json. cbn [g_service g_model g_sent].
  match goal with |- context [svc ?m ?pr ?n] => destruct (Hsvc m pr n) as [t [r [-> Ht]]] end.
  rewrite (loads_fenced t r Ht). eexists. reflexivity.
Qed.

(** [get_llm()] raises [RuntimeError] before any call when
    [LLM_MODE] is ["gemini"] in any letter case and [GEMINI_API_KEY] is
    unset or empty; then [run_multi_agent] fails without calling a
    provider. *)
Theorem gemini_missing_key (env : environ) (svc : service) (qmap : list (Z * text)) (sc : py_value) :
  LLM_MODE env = str "gemini" -> getenv env (str "GEMINI_API_KEY") [] = [] ->
  run_multi_agent_env env svc qmap sc = (Err RuntimeError, []).
Proof.
  intros Hm Hk. unfold run_multi_agent_env, get_llm, GeminiLLM. rewrite Hm, Hk. reflexivity.
Qed.

Definition sample_reply : py_value :=
  VDict [(str "q_scores", VDict [(str "Q1", VInt 3); (str "Q2", VInt 2); (str "Q3", VInt 1)]);
         (str "key_points_found", VList [VStr (str "stable endpoint")])].

(** Padding around a reply: a form feed and a no-break space before, a
    line feed and a line separator after. *)
Definition pad_before : text := [12; 160].
Definition pad_after : text := [10; 8232].

Definition sample_gemini : gemini :=
  mkGemini (str "gemini-2.5-flash-lite") (fun _ _ _ => Ok (Some (pad_before ++ dumps sample_reply ++ pad_after))) [].

Lemma gemini_returns_reply_witness :
  json_safe sample_reply = true /\ forallb is_space pad_before = true /\ forallb is_space pad_after = true /\
  g_service sample_gemini (g_model sample_gemini)
    (gemini_prompt sys_correctness (user_text (PCorrectness [] [] []))) (length (g_sent sample_gemini)) =
    Ok (Some (pad_before ++ dumps sample_reply ++ pad_after)) /\
  generate_json sys_correctness (PCorrectness [] [] []) sample_gemini =
    (Ok sample_reply, mkGemini (g_model sample_gemini) (g_service sample_gemini)
                        (g_sent sample_gemini ++ [gemini_prompt sys_correctness (user_text (PCorrectness [] [] []))])).
Proof.
  assert (Hs : json_safe sample_reply = true) by reflexivity.
  assert (H1 : forallb is_space pad_before = true) by reflexivity.
  assert (H2 : forallb is_space pad_after = true) by reflexivity.
  assert (Hr : g_service sample_gemini (g_model sample_gemini)
    (gemini_prompt sys_correctness (user_text (PCorrectness [] [] []))) (length (g_sent sample_gemini)) =
    Ok (Some (pad_before ++ dumps sample_reply ++ pad_after))) by reflexivity.
  split; [exact Hs | split; [exact H1 | split; [exact H2 | split; [exact Hr |]]]].
  exact (gemini_returns_reply _ _ _ _ _ _ Hs H1 H2 Hr).
Defined.

(** A model that wraps its JSON in a Markdown fence, and an environment
    that selects Gemini with a key, the mode written in capitals. *)
Definition fenced_service : service := fun _ _ _ => Ok (Some (str "```json {} ```")).

Definition gemini_env : environ := [(str "LLM_MODE", str "Gemini"); (str "GEMINI_API_KEY", str "key")].

Lemma gemini_fenced_run_fails_witness :
  LLM_MODE gemini_env = str "gemini" /\ getenv gemini_env (str "GEMINI_API_KEY") [] <> [] /\
  (forall m pr n, exists t r, fenced_service m pr n = Ok (Some t) /\ lstrip t = 96 :: r) /\
  exists p, run_multi_agent_env gemini_env fenced_service sample_qmap (VDict []) =
            (Err JSONDecodeError, [mkCall sys_correctness p]).
Proof.
  assert (Hm : LLM_MODE gemini_env = str "gemini") by reflexivity.
  assert (Hk : getenv gemini_env (str "GEMINI_API_KEY") [] <> []) by discriminate.
  assert (Hf : forall m pr n, exists t r, fenced_service m pr n = Ok (Some t) /\ lstrip t = 96 :: r)
    by (intros m pr n; eexists; eexists; split; reflexivity).
  split; [exact Hm | split; [exact Hk | split; [exact Hf | exact (gemini_fenced_run_fails _ _ _ _ Hm Hk Hf)]]].
Defined.

Definition keyless_env : environ := [(str "LLM_MODE", str "GEMINI")].

Lemma gemini_missing_key_witness :
  LLM_MODE keyless_env = str "gemini" /\ getenv keyless_env (str "GEMINI_API_KEY") [] = [] /\
  run_multi_agent_env keyless_env fenced_service sample_qmap (VDict []) = (Err RuntimeError, []).
Proof.
  assert (Hm : LLM_MODE keyless_env = str "gemini") by reflexivity.
  assert (Hk : getenv keyless_env (str "GEMINI_API_KEY") [] = []) by reflexivity.
  split; [exact Hm | split; [exact Hk | exact (gemini_missing_key _ _ _ _ Hm Hk)]].
Defined.

(** ** config.py and the smoke test *)

(** Whether the environment sets the variable [k]. *)
Definition env_sets (env : environ) (k : text) : bool :=
  existsb (fun kv => if list_eq_dec Z.eq_dec k (fst kv) then true else false) env.

(** [os.getenv(k, d)] returns [d] exactly when [k] is unset: otherwise
    the default does not matter. *)
Lemma getenv_unset (env : environ) (k d : text) : env_sets env k = false -> getenv env k d = d.
Proof.
  induction env as [|[k' v] env IH]; cbn [getenv env_sets existsb fst]; [reflexivity|].
  destruct (list_eq_dec Z.eq_dec k k'); [discriminate | exact IH].
Qed.

Lemma getenv_set (env : environ) (k d1 d2 : text) : env_sets env k = true -> getenv env k d1 = getenv env k d2.
Proof.
  induction env as [|[k' v] env IH]; cbn [getenv env_sets existsb fst]; [discriminate|].
  destruct (list_eq_dec Z.eq_dec k k'); [reflexivity | exact IH].
Qed.

(** [LLM_MODE] is lower case: [health] reports and [get_llm] compares
    the same text, whatever the case of the variable. *)
Lemma LLM_MODE_lower (env : environ) : lower (LLM_MODE env) = LLM_MODE env.
Proof. apply lower_idem. Qed.

(** [get_llm] builds a Gemini provider, or raises, exactly when
    [LLM_MODE] is ["gemini"]. *)
Lemma get_llm_mock (env : environ) (svc : service) :
  get_llm env svc = Ok (LMock tt) <-> LLM_MODE env <> str "gemini".
Proof.
  unfold get_llm. destruct (list_eq_dec Z.eq_dec (LLM_MODE env) (str "gemini")) as [E|E].
  - split; [|tauto]. destruct (GeminiLLM env svc); discriminate.
  - tauto.
Qed.

(** C30. The smoke test fails with the exception the backend's
    [GeminiLLM] raises exactly when that provider cannot be built (no
    API key).  Otherwise it returns the text of one reply to its fixed
    prompt, asked of the model the backend uses when [GEMINI_MODEL] is
    set, and, when it is not set, of ["gemini-2.5-pro"] while the
    backend uses ["gemini-2.5-flash-lite"]: the two default models
    differ. *)
Theorem smoke_test_model (env : environ) (svc : service) :
  match GeminiLLM env svc with
  | Err e => smoke_test env svc = Err e
  | Ok g => exists m, smoke_test env svc = resp_text (svc m smoke_prompt 0%nat) /\
      if env_sets env (str "GEMINI_MODEL") then m = g_model g
      else m = str "gemini-2.5-pro" /\ g_model g = str "gemini-2.5-flash-lite"
  end.
Proof.
  unfold GeminiLLM, smoke_test. destruct (getenv env (str "GEMINI_API_KEY") []); [reflexivity|].
  eexists; split; [reflexivity|]. cbn [g_model].
  destruct (env_sets env (str "GEMINI_MODEL")) eqn:E.
  - apply getenv_set. exact E.
  - rewrite !getenv_unset by exact E. split; reflexivity.
Qed.

End Providers.
