(* ===== verification/Profile.v ===== *)
(** * Student progress tracker: profile.py

    [pick_weak_concepts] is Python's stable [sorted] by score (an
    insertion sort that places each item after the items it is not
    smaller than, comparing with [<] only) followed by the first [top_k]
    keys; [calc_trend] and [summarize_feedback] follow the source line
    by line.  Scores and grades are Python floats ([pyfloat]: finite
    values as exact rationals, the infinities and NaN with IEEE
    comparisons and subtraction).  With a NaN score CPython's merge sort
    may order items differently from an insertion sort; the model is the
    insertion sort. *)

From Stdlib Require Import String ZArith QArith List Lia Lqa Bool Permutation Sorted.
From S2P Require Import Prelude Json.
Import ListNotations.
Open Scope list_scope.

Module Profile.
Import Py.

(** ** [pick_weak_concepts] *)

Definition item : Type := text * pyfloat.

(** Insert [x] after every item it is not smaller than: Python's sort
    is stable and compares keys with [<] only. *)
Fixpoint insert_stable (x : item) (l : list item) : list item :=
  match l with
  | [] => [x]
  | y :: l' => if float_lt (snd x) (snd y) then x :: l else y :: insert_stable x l'
  end.

(** [sorted(items, key=lambda x: x[1])]. *)
Definition sorted_by_score (items : list item) : list item :=
  fold_left (fun acc x => insert_stable x acc) items [].

Definition pick_weak_concepts (concept_scores : list item) (top_k : nat) : list text :=
  map fst (firstn top_k (sorted_by_score concept_scores)).

(** ** [calc_trend] *)

Inductive trend : Type := Unknown | Improving | Declining | Stable.

Definition calc_trend (prev_grade : option pyfloat) (new_grade : pyfloat) : trend :=
  match prev_grade with
  | None => Unknown
  | Some p =>
      let diff := float_sub new_grade p in
      if float_le (Finite 5) diff then Improving
      else if float_le diff (Finite (-5)) then Declining
      else Stable
  end.

(** ** [summarize_feedback] *)

(** [(text or "").strip().replace("\n", " ")], then the cut to
    [max_len] code points with ["..."] appended. *)
Definition summarize_feedback (t : py_value) (max_len : nat) : result text :=
  match (if truthy t then t else VStr []) with
  | VStr s =>
      let t := replace_char 10 [32] (strip s) in
      Ok (if Nat.ltb max_len (length t) then firstn max_len t ++ str "..." else t)
  | _ => Err AttributeError
  end.

(** ** Sorting lemmas *)

(** [x] sorts no later than [y]: [y] is not smaller. *)
Definition score_le (x y : item) : Prop := float_lt (snd y) (snd x) = false.

Lemma insert_stable_perm x l : Permutation (insert_stable x l) (x :: l).
Proof.
  induction l as [|y l IH]; simpl; auto.
  destruct (float_lt (snd x) (snd y)); auto.
  eapply perm_trans; [apply perm_skip, IH | apply perm_swap].
Qed.

Lemma sorted_by_score_perm_acc items acc :
  Permutation (fold_left (fun acc x => insert_stable x acc) items acc) (rev items ++ acc).
Proof.
  revert acc. induction items as [|x items IH]; intros acc; simpl; auto.
  rewrite IH, <- app_assoc. simpl.
  apply Permutation_app_head. apply insert_stable_perm.
Qed.

Lemma sorted_by_score_perm items : Permutation (sorted_by_score items) items.
Proof.
  unfold sorted_by_score. rewrite sorted_by_score_perm_acc, app_nil_r.
  apply Permutation_sym, Permutation_rev.
Qed.

(** Insertion keeps a list strongly sorted: [<] on floats is
    irreflexive and transitive, NaN included. *)
Lemma insert_stable_sorted x l :
  StronglySorted score_le l -> StronglySorted score_le (insert_stable x l).
Proof.
  induction 1 as [|y l Hs IH Hall]; simpl; [repeat constructor|].
  unfold score_le in *. rewrite Forall_forall in Hall.
  destruct (float_lt (snd x) (snd y)) eqn:E.
  - constructor; [constructor; auto; rewrite Forall_forall; auto|].
    constructor.
    + destruct (float_lt (snd y) (snd x)) eqn:E2; auto.
      pose proof (float_lt_trans _ _ _ E E2). rewrite float_lt_irrefl in *. discriminate.
    + rewrite Forall_forall. intros z Hz. specialize (Hall z Hz).
      destruct (float_lt (snd z) (snd x)) eqn:E2; auto.
      pose proof (float_lt_trans _ _ _ E2 E). congruence.
  - constructor; auto. rewrite Forall_forall. intros z Hz.
    apply (Permutation_in _ (insert_stable_perm x l)) in Hz as [<-|Hz]; auto.
Qed.

Lemma sorted_by_score_sorted items : StronglySorted score_le (sorted_by_score items).
Proof.
  unfold sorted_by_score.
  assert (Hgen : forall acc, StronglySorted score_le acc ->
            StronglySorted score_le (fold_left (fun acc x => insert_stable x acc) items acc)).
  { induction items as [|x items IH]; intros acc Hacc; simpl; auto.
    apply IH, insert_stable_sorted, Hacc. }
  apply Hgen. constructor.
Qed.

(** In a strongly sorted list, an item of the prefix sorts no later
    than any item of the suffix. *)
Lemma sorted_prefix_le (l : list item) n x y :
  StronglySorted score_le l -> In x (firstn n l) -> In y (skipn n l) -> score_le x y.
Proof.
  intros Hs. revert n. induction Hs as [|z l Hs IH Hall]; intros n Hx Hy.
  - destruct n; simpl in *; contradiction.
  - destruct n as [|n]; simpl in Hx; [contradiction|].
    destruct Hx as [<-|Hx].
    + rewrite Forall_forall in Hall. apply Hall.
      simpl in Hy. eapply in_skipn; exact Hy.
    + eapply IH; eauto.
Qed.

(** [pick_weak_concepts] returns the keys of the [min top_k n]
    lowest-scoring concepts: the concepts split into a chosen part, whose
    keys are the result in order, and the rest, and no concept left out
    scores less than a chosen one. *)
Theorem weak_concepts_lowest (concept_scores : list item) (top_k : nat) :
  exists chosen rest,
    Permutation concept_scores (chosen ++ rest) /\
    pick_weak_concepts concept_scores top_k = map fst chosen /\
    length chosen = Nat.min top_k (length concept_scores) /\
    (forall x y, In x chosen -> In y rest -> float_lt (snd y) (snd x) = false).
Proof.
  set (l := sorted_by_score concept_scores).
  exists (firstn top_k l), (skipn top_k l). repeat split.
  - rewrite firstn_skipn. symmetry. apply sorted_by_score_perm.
  - rewrite length_firstn. f_equal. apply Permutation_length, sorted_by_score_perm.
  - intros x y Hx Hy. apply (sorted_prefix_le l top_k); auto. apply sorted_by_score_sorted.
Qed.

Lemma Qle_bool_ext (a b c d : Q) :
  (Qle a b <-> Qle c d) -> Qle_bool a b = Qle_bool c d.
Proof.
  intros H. destruct (Qle_bool a b) eqn:E1, (Qle_bool c d) eqn:E2; auto;
    rewrite ?Qle_bool_iff in *; rewrite <- ?not_true_iff_false, ?Qle_bool_iff in *; tauto.
Qed.

Lemma float_le_finite (x y : Q) : float_le (Finite x) (Finite y) = Qle_bool x y.
Proof.
  unfold float_le. simpl.
  destruct (Qle_bool x y) eqn:E3, (Qle_bool y x) eqn:E1; simpl; auto.
  - apply Qeq_bool_iff, Qle_antisym; apply Qle_bool_iff; assumption.
  - destruct (Qeq_bool x y) eqn:E2; auto. apply Qeq_bool_iff in E2.
    assert (Hxy : Qle_bool x y = true) by (apply Qle_bool_iff; rewrite E2; apply Qle_refl).
    congruence.
  - exfalso. destruct (Qlt_le_dec x y) as [H|H].
    + apply Qlt_le_weak, Qle_bool_iff in H. congruence.
    + apply Qle_bool_iff in H. congruence.
Qed.

(** Trend classification: no previous grade gives [unknown]; a rise
    of at least 5 points [improving]; a fall of at least 5 points
    [declining]; anything in between [stable]. *)
Theorem calc_trend_spec (prev : option Q) (g : Q) :
  calc_trend (option_map Finite prev) (Finite g) =
  match prev with
  | None => Unknown
  | Some p => if Qle_bool (p + 5) g then Improving
              else if Qle_bool g (p - 5) then Declining else Stable
  end.
Proof.
  destruct prev as [p|]; simpl; auto. rewrite !float_le_finite.
  rewrite (Qle_bool_ext 5 (g - p) (p + 5) g) by (split; intros; lra).
  rewrite (Qle_bool_ext (g - p) (-5) g (p - 5)) by (split; intros; lra).
  reflexivity.
Qed.

(** The four cases of the specification: [None -> unknown],
    [70 -> 76 improving], [80 -> 74 declining], [80 -> 82 stable]. *)
Example calc_trend_examples :
  calc_trend None (Finite 76) = Unknown /\ calc_trend (Some (Finite 70)) (Finite 76) = Improving /\
  calc_trend (Some (Finite 80)) (Finite 74) = Declining /\
  calc_trend (Some (Finite 80)) (Finite 82) = Stable.
Proof. repeat split; reflexivity. Qed.

(** The feedback summary is one line of at most [max_len + 3]
    code points, and is the stripped feedback itself when that fits. *)
Theorem summarize_feedback_bounded (t : py_value) (max_len : nat) (s : text) :
  summarize_feedback t max_len = Ok s ->
  (length s <= max_len + 3)%nat /\ ~ In 10 s /\
  (forall u, (if truthy t then t else VStr []) = VStr u ->
             (length (strip u) <= max_len)%nat -> s = replace_char 10 [32] (strip u)).
Proof.
  unfold summarize_feedback. destruct (if truthy t then t else VStr []) eqn:Et; try discriminate.
  intros H. inv H.
  set (u := replace_char 10 [32] (strip s0)).
  assert (Hno : ~ In 10 u) by (apply replace_char1_not_in; discriminate).
  assert (Hlen : length u = length (strip s0)) by apply length_replace_char1.
  repeat split.
  - destruct (Nat.ltb max_len (length u)) eqn:E.
    + rewrite length_app, length_firstn. simpl. lia.
    + apply Nat.ltb_ge in E. lia.
  - destruct (Nat.ltb max_len (length u)); auto.
    intros Hin. apply in_app_or in Hin as [Hin|Hin]; [apply in_firstn in Hin; auto|].
    simpl in Hin. lia.
  - intros u' Hu' Hle. inv Hu'. fold u. rewrite <- Hlen in Hle.
    destruct (Nat.ltb max_len (length u)) eqn:E; auto. apply Nat.ltb_lt in E. lia.
Qed.

Lemma summarize_feedback_bounded_witness :
  summarize_feedback (VStr (str " Good work ")) 4 = Ok (str "Good...") /\
  (length (str "Good...") <= 4 + 3)%nat /\ ~ In 10 (str "Good...") /\
  (forall u, (if truthy (VStr (str " Good work ")) then VStr (str " Good work ") else VStr []) = VStr u ->
             (length (strip u) <= 4)%nat -> str "Good..." = replace_char 10 [32] (strip u)).
Proof.
  split; [vm_compute; reflexivity|].
  apply (summarize_feedback_bounded (VStr (str " Good work ")) 4). vm_compute. reflexivity.
Defined.

End Profile.
