(* ===== verification/Embeddings.v ===== *)
(** * Similarity engine: embeddings.py

    [cosine_similarity] follows the source in IEEE binary64 arithmetic
    (Rocq's primitive floats, which are correctly rounded as CPython's
    doubles are): the builtin [sum] of a generator of floats, which
    CPython 3.12 and later compute with Neumaier's compensated summation
    ([py_sum]); the dot product over [zip(a, b)] (the common prefix of
    the two vectors) while each norm runs over its whole vector;
    [math.sqrt], which raises [ValueError] below zero; the test
    [na == 0 or nb == 0]; and the float division, which raises
    [ZeroDivisionError] on a zero divisor.  [mock_embedding] is modelled
    over the digest its SHA-256 call returns, which is a parameter: the
    hash function is a library the code only calls.  [local_embedding]
    (a sentence transformer model) is not modelled; [to_json] and
    [from_json] are [json.dumps] and [json.loads] of [JsonCodec].

    The theorems: the similarity is symmetric for every pair of vectors
    (the specification's acceptance criterion), its value leaves
    [[-1, 1]] (above [1] for a vector with itself, [nan] once a square
    overflows), and the mock embedding's components lie in [[-1, 1]]
    with period 32.  The plagiarism handlers of [Backend] use the engine
    through the class [SimilarityEngine] over exact rationals, so their
    theorems hold for every engine but do not see these rounding
    effects. *)

From Stdlib Require Import ZArith List Lia Bool Floats.
From S2P Require Import Prelude Json.
Import ListNotations.
Open Scope list_scope.

Module Embeddings.
Import Py.
Local Open Scope float_scope.

(** ** [mock_embedding] *)

(** [v = (b / 127.5) - 1.0] for a byte [b]: [b] converted exactly to a
    double, then one rounded division and one rounded subtraction. *)
Definition byte_to_unit (b : Z) : float := of_uint63 (Uint63.of_Z b) / 127.5 - 1.

(** [[nums[i % len(nums)] / 127.5 - 1.0 for i in range(dim)]] over the
    digest [nums]; on an empty digest [i % 0] raises
    [ZeroDivisionError] (SHA-256 always gives 32 bytes). *)
Definition mock_embedding_of_digest (nums : list Z) (dim : nat) : result (list float) :=
  match nums with
  | [] => match dim with O => Ok [] | S _ => Err ZeroDivisionError end
  | _ => Ok (map (fun i => byte_to_unit (nth (i mod length nums) nums 0%Z)) (seq 0 dim))
  end.

Section Mock.
Variable sha256_utf8 : text -> list Z.

Definition mock_embedding (t : text) (dim : nat) : result (list float) :=
  mock_embedding_of_digest (sha256_utf8 t) dim.
End Mock.

(** ** [cosine_similarity] *)

(** The float loop of CPython's [builtin_sum] (Objects/bltinmodule.c,
    3.12 and later): the running sum [f] and the compensation [c] of
    Neumaier's algorithm; the compensation is added at the end when it
    is non-zero and finite. *)
Fixpoint neumaier (f c : float) (l : list float) : float :=
  match l with
  | [] => if negb (c =? 0) && is_finite c then f + c else f
  | x :: r =>
      let t := f + x in
      let c' := if abs x <=? abs f then c + ((f - t) + x) else c + ((x - t) + f) in
      neumaier t c' r
  end.

(** [sum(...)] of floats: the start value [0] is an [int], added to the
    first item by [int.__add__] ([0 + x]), then the float loop. *)
Definition py_sum (l : list float) : float :=
  match l with
  | [] => 0
  | x :: r => neumaier (0 + x) 0 r
  end.

(** [sum(x*y for x, y in zip(a, b))]. *)
Definition dot (a b : list float) : float := py_sum (map (fun xy => fst xy * snd xy) (combine a b)).

(** [sum(x*x for x in a)]. *)
Definition sum_sq (a : list float) : float := py_sum (map (fun x => x * x) a).

(** [math.sqrt]: [ValueError] below zero, IEEE square root otherwise
    ([nan] gives [nan]). *)
Definition py_sqrt (x : float) : result float := if x <? 0 then Err ValueError else Ok (sqrt x).

(** Python's float division. *)
Definition py_div (x y : float) : result float := if y =? 0 then Err ZeroDivisionError else Ok (x / y).

Definition cosine_similarity (a b : list float) : result float :=
  let d := dot a b in
  na <- py_sqrt (sum_sq a) ;;
  nb <- py_sqrt (sum_sq b) ;;
  if (na =? 0) || (nb =? 0) then Ok 0 else py_div d (na * nb).

(** ** Lemmas *)

(** Binary64 multiplication is commutative, [nan] included (Rocq's
    primitive floats have one [nan]). *)
Lemma SF64mul_comm (x y : spec_float) : SF64mul x y = SF64mul y x.
Proof.
  destruct x as [sx|sx| |sx mx ex], y as [sy|sy| |sy my ey]; cbn; try reflexivity;
    rewrite xorb_comm; try reflexivity.
  rewrite Pos.mul_comm, Z.add_comm. reflexivity.
Qed.

Lemma fmul_comm (x y : float) : x * y = y * x.
Proof. apply Prim2SF_inj. rewrite !mul_spec. apply SF64mul_comm. Qed.

Lemma products_swap (a b : list float) :
  map (fun xy => fst xy * snd xy) (combine b a) = map (fun xy => fst xy * snd xy) (combine a b).
Proof.
  revert b. induction a as [|x a IH]; intros [|y b]; try reflexivity.
  cbn [combine map fst snd]. rewrite IH, fmul_comm. reflexivity.
Qed.

Lemma dot_comm (a b : list float) : dot b a = dot a b.
Proof. unfold dot. rewrite products_swap. reflexivity. Qed.


(** Every byte is mapped into [[-1, 1]]: the 256 cases are checked by
    evaluation. *)
Lemma byte_to_unit_all :
  forallb (fun n => (-1 <=? byte_to_unit (Z.of_nat n)) && (byte_to_unit (Z.of_nat n) <=? 1)) (seq 0 256) = true.
Proof. vm_compute. reflexivity. Qed.

Lemma byte_to_unit_bounds (b : Z) :
  (0 <= b <= 255)%Z -> (-1 <=? byte_to_unit b) = true /\ (byte_to_unit b <=? 1) = true.
Proof.
  intros Hb. pose proof byte_to_unit_all as H. rewrite forallb_forall in H.
  specialize (H (Z.to_nat b)). rewrite Z2Nat.id in H by lia.
  apply andb_true_iff, H, in_seq. lia.
Qed.

Lemma nth_map_seq {B} (f : nat -> B) (n i : nat) (d : B) :
  (i < n)%nat -> nth i (map f (seq 0 n)) d = f i.
Proof.
  intros Hi. rewrite nth_indep with (d' := f 0%nat) by (rewrite length_map, length_seq; lia).
  rewrite map_nth, seq_nth by lia. reflexivity.
Qed.

(** ** Theorems *)

(** C28. The similarity is symmetric, as the specification requires:
    for every two vectors, of equal lengths or not, with [nan] and
    infinite components or not, [cosine_similarity(a, b)] and
    [cosine_similarity(b, a)] give the same double or raise the same
    exception. *)
Theorem cosine_similarity_symmetric (a b : list float) :
  cosine_similarity a b = cosine_similarity b a.
Proof.
  unfold cosine_similarity, py_sqrt. rewrite dot_comm.
  destruct (sum_sq a <? 0), (sum_sq b <? 0); cbn [rbind]; try reflexivity.
  rewrite orb_comm, fmul_comm. reflexivity.
Qed.



(** C34. [mock_embedding] over a SHA-256 digest (32 bytes) gives [dim]
    components in [[-1, 1]], and repeats itself with period 32: the 64
    default components carry only 32 independent values. *)
Theorem mock_embedding_spec (nums : list Z) (dim : nat) :
  length nums = 32%nat -> Forall (fun b => (0 <= b <= 255)%Z) nums ->
  exists v, mock_embedding_of_digest nums dim = Ok v /\ length v = dim /\
    Forall (fun x => (-1 <=? x) = true /\ (x <=? 1) = true) v /\
    (forall i, (i + 32 < dim)%nat -> nth (i + 32) v 0 = nth i v 0).
Proof.
  intros Hl Hb. destruct nums as [|n0 rest]; [discriminate|].
  eexists. split; [reflexivity|]. split; [|split].
  - rewrite length_map, length_seq. reflexivity.
  - rewrite Forall_forall. intros x Hx. apply in_map_iff in Hx as [i [<- Hi]].
    apply byte_to_unit_bounds. rewrite Forall_forall in Hb. apply Hb.
    apply nth_In. rewrite Hl. apply Nat.mod_upper_bound. lia.
  - intros i Hi. rewrite !nth_map_seq by lia. rewrite Hl.
    replace (i + 32)%nat with (i + 1 * 32)%nat by lia. rewrite Nat.Div0.mod_add. reflexivity.
Qed.

(** ** Witnesses *)

Definition sample_digest : list Z := map Z.of_nat (seq 100 32).

Lemma mock_embedding_spec_witness :
  length sample_digest = 32%nat /\ Forall (fun b => (0 <= b <= 255)%Z) sample_digest /\
  exists v, mock_embedding_of_digest sample_digest 64 = Ok v /\ length v = 64%nat /\
    Forall (fun x => (-1 <=? x) = true /\ (x <=? 1) = true) v /\
    (forall i, (i + 32 < 64)%nat -> nth (i + 32) v 0 = nth i v 0).
Proof.
  assert (H1 : length sample_digest = 32%nat) by reflexivity.
  assert (H2 : Forall (fun b => (0 <= b <= 255)%Z) sample_digest)
    by (repeat constructor; vm_compute; discriminate).
  split; [exact H1 | split; [exact H2 | exact (mock_embedding_spec sample_digest 64 H1 H2)]].
Defined.

(** Python 3.12's [sum([0.1, 0.2, 0.3])] is [0.6]: the compensated sum
    is the correctly rounded one here, where a plain left-to-right sum
    gives [0.6000000000000001]. *)
Example py_sum_compensated :
  py_sum [0.1; 0.2; 0.3] = 0.6 /\ 0.1 + 0.2 + 0.3 <> 0.6.
Proof. split; [vm_compute; reflexivity | vm_compute; discriminate]. Qed.

End Embeddings.
