(* ===== verification/Grading.v ===== *)
(** * Heuristic grader: grading.py

    [grade_networking_short_answer] follows the source statement by
    statement: [norm] removes the [(cid:N)] artifacts with the same
    pattern as [clean_text_basic] and lowercases; each question scores
    one point per satisfied keyword test, capped at 3; the raw score is
    rescaled to [max_grade] and rounded to two decimals; the feedback
    text and the JSON breakdown are built as the code builds them.  The
    float [max_grade] and the float score are modelled as rationals: the
    raw score is an integer in [0..9], so [score / 9 * max_grade] is
    never within a rounding error of a tie of [round(_, 2)] for the
    default [max_grade = 100]. *)

From Stdlib Require Import String ZArith QArith List Lia Bool.
From S2P Require Import Prelude Regex Chunking Json.
Import ListNotations.
Open Scope list_scope.

Module Grading.
Import Sre Chunking Py.

(** [q_chunks.get(k, "")] on the question map (a [dict], one entry per
    key). *)
Fixpoint qget (q_chunks : list (Z * text)) (k : Z) : text :=
  match q_chunks with
  | [] => []
  | (k', t) :: rest => if k =? k' then t else qget rest k
  end.

(** [norm(s)]: [re.sub(r"\(cid:\d+\)", "", s).lower()]. *)
Definition norm (s : text) : text := lower (re_sub cid_re [] s).

(** [w in q] for a literal keyword [w]. *)
Definition kw (q : text) (w : string) : bool := contains q (str w).

Definition b2z (b : bool) : Z := if b then 1 else 0.

(** The three tests of each question, in source order (lines 18-23,
    31-36, 44-49); each adds one point. *)
Definition tests1 (q1 : text) : list bool :=
  [ kw q1 "service" && (kw q1 "stable" || kw q1 "endpoint" || kw q1 "dns");
    kw q1 "pod" && (kw q1 "ip" || kw q1 "restart" || kw q1 "change");
    kw q1 "load" && (kw q1 "balance" || kw q1 "balanc") ].

Definition tests2 (q2 : text) : list bool :=
  [ kw q2 "clusterip" && (kw q2 "internal" || kw q2 "inside" || kw q2 "within");
    kw q2 "nodeport" && (kw q2 "external" || kw q2 "outside");
    kw q2 "node" && kw q2 "port" ].

Definition tests3 (q3 : text) : list bool :=
  [ kw q3 "networkpolicy" || kw q3 "network policy";
    (kw q3 "allow" || kw q3 "only") && (kw q3 "block" || kw q3 "deny");
    kw q3 "frontend" && kw q3 "backend" ].

(** [pts = 0], one [pts += 1] per passing test, then [min(pts, 3)]. *)
Definition points (tests : list bool) : Z :=
  Z.min (fold_left (fun pts b => pts + b2z b) tests 0) 3.

(** [round(x, 2)] on the exact value [x]. *)
Definition round2 (x : Q) : Q := py_round (Qnum x * 100) (Qden x) # 100.

Definition em_dash : Z := 8212.

(** [f"Q{i}: {pts}/3 — {comment}"]. *)
Definition feedback_line (i : Z) (pts : Z) (comment : string) : text :=
  str "Q" ++ py_str_int i ++ str ": " ++ py_str_int pts ++ str "/3 " ++ [em_dash] ++ str " " ++
  str comment.

Definition overall : text :=
  str "Overall: Solid answers. Improve by mentioning Services select Pods using labels; and for external access, LoadBalancer/Ingress are common.".

(** [sep.join(xs)]. *)
Fixpoint join (sep : text) (xs : list text) : text :=
  match xs with
  | [] => []
  | [x] => x
  | x :: xs' => x ++ sep ++ join sep xs'
  end.

Definition grade_networking_short_answer (q_chunks : list (Z * text)) (max_grade : Q)
  : Q * text * py_value :=
  let pts1 := points (tests1 (norm (qget q_chunks 1))) in
  let pts2 := points (tests2 (norm (qget q_chunks 2))) in
  let pts3 := points (tests3 (norm (qget q_chunks 3))) in
  let score := inject_Z (pts1 + pts2 + pts3) in
  let feedback :=
    [feedback_line 1 pts1 "Service concept explained well.";
     feedback_line 2 pts2 "ClusterIP vs NodePort is mostly correct.";
     feedback_line 3 pts3 "Good example of restricting traffic."] in
  let raw_max := 9%Q in
  let grade := round2 ((score / raw_max) * max_grade) in
  let feedback_text := overall ++ [10; 10] ++ join [10] feedback in
  let feedback_json :=
    VDict [(str "q1", VInt pts1); (str "q2", VInt pts2); (str "q3", VInt pts3);
           (str "raw_score", VFloat (Finite score)); (str "raw_max", VFloat (Finite raw_max))] in
  (grade, feedback_text, feedback_json).

(** The raw score of a question map. *)
Definition raw_score (q_chunks : list (Z * text)) : Z :=
  points (tests1 (norm (qget q_chunks 1))) + points (tests2 (norm (qget q_chunks 2))) +
  points (tests3 (norm (qget q_chunks 3))).

Definition grade_of (r : Q * text * py_value) : Q := fst (fst r).
Definition feedback_of (r : Q * text * py_value) : text := snd (fst r).

(** ** Lemmas *)

Lemma fold_b2z_bounds (tests : list bool) (acc : Z) :
  acc <= fold_left (fun pts b => pts + b2z b) tests acc <= acc + Z.of_nat (length tests).
Proof.
  revert acc. induction tests as [|b tests IH]; intros acc; simpl; [lia|].
  specialize (IH (acc + b2z b)). unfold b2z in *. destruct b; lia.
Qed.

(** Three tests score at most 3 points, so the [min(pts, 3)] of the
    source never changes a score. *)
Lemma points_exact (tests : list bool) :
  length tests = 3%nat -> points tests = fold_left (fun pts b => pts + b2z b) tests 0.
Proof.
  intros Hl. unfold points. pose proof (fold_b2z_bounds tests 0) as H.
  rewrite Hl in H. simpl in H. lia.
Qed.

Lemma points_bounds (tests : list bool) : 0 <= points tests <= 3.
Proof. unfold points. pose proof (fold_b2z_bounds tests 0). lia. Qed.

Lemma raw_score_bounds (q_chunks : list (Z * text)) : 0 <= raw_score q_chunks <= 9.
Proof.
  unfold raw_score.
  pose proof (points_bounds (tests1 (norm (qget q_chunks 1)))).
  pose proof (points_bounds (tests2 (norm (qget q_chunks 2)))).
  pose proof (points_bounds (tests3 (norm (qget q_chunks 3)))). lia.
Qed.

Lemma grade_of_raw (q_chunks : list (Z * text)) (max_grade : Q) :
  grade_of (grade_networking_short_answer q_chunks max_grade) =
  round2 (inject_Z (raw_score q_chunks) / 9 * max_grade).
Proof. reflexivity. Qed.

(** [round2] stays within [0] and any bound with two decimals. *)
Lemma round2_bounds (x : Q) (m : Z) :
  0 <= Qnum x -> Qle x (m # 100) -> Qle 0 (round2 x) /\ Qle (round2 x) (m # 100).
Proof.
  intros Hx Hle. unfold round2, Qle in *; simpl in *.
  split.
  - apply Z.mul_nonneg_nonneg; [apply py_round_nonneg; lia | lia].
  - apply Z.mul_le_mono_pos_r; [lia|]. apply py_round_le. lia.
Qed.

(** ** Properties *)

(** C33. The heuristic grade lies between 0 and [max_grade] for every
    question map, when [max_grade] is non-negative and has at most two
    decimals. *)
Theorem grade_bounds (q_chunks : list (Z * text)) (m : Z) :
  0 <= m ->
  Qle 0 (grade_of (grade_networking_short_answer q_chunks (m # 100))) /\
  Qle (grade_of (grade_networking_short_answer q_chunks (m # 100))) (m # 100).
Proof.
  intros Hm. rewrite grade_of_raw. pose proof (raw_score_bounds q_chunks).
  apply round2_bounds; unfold Qle, Qmult, Qdiv, Qinv, inject_Z; simpl; nia.
Qed.

Definition grade_table_100 : list Q :=
  [0 # 100; 1111 # 100; 2222 # 100; 3333 # 100; 4444 # 100;
   5556 # 100; 6667 # 100; 7778 # 100; 8889 # 100; 10000 # 100].

(** With the default [max_grade = 100], the grade is determined by
    the raw score [s] in [0..9] (the sum of the three capped question
    scores): it is [round(s / 9 * 100, 2)], the [s]-th entry of 0, 11.11,
    22.22, 33.33, 44.44, 55.56, 66.67, 77.78, 88.89, 100. *)
Theorem grade_table (q_chunks : list (Z * text)) :
  0 <= raw_score q_chunks <= 9 /\
  grade_of (grade_networking_short_answer q_chunks 100) =
  nth (Z.to_nat (raw_score q_chunks)) grade_table_100 0%Q.
Proof.
  rewrite grade_of_raw. pose proof (raw_score_bounds q_chunks) as Hb. split; [exact Hb|].
  generalize dependent (raw_score q_chunks). intros s Hs.
  assert (s = 0 \/ s = 1 \/ s = 2 \/ s = 3 \/ s = 4 \/ s = 5 \/ s = 6 \/ s = 7 \/ s = 8 \/ s = 9)
    as Hc by lia.
  repeat destruct Hc as [->|Hc]; try reflexivity. subst. reflexivity.
Qed.

(** The question map [grade_submission] builds from the chunks the
    Segmenter and [clean_text_basic] produce for a text. *)
Definition qmap_of_text (t : text) : list (Z * text) :=
  map (fun qc => (fst qc, clean_text_basic (snd qc))) (split_numbered_answers t).

(** The specification's end-to-end text, on one line, is one chunk
    (question 1); it scores 2 of 9 raw points (22.22), one of them for
    the keyword "ip", found inside "ClusterIP".  With one answer per
    line it scores 4 points (44.44): 1 for Q1, 1 for Q2, 2 for Q3. *)
Example grade_spec_scenario :
  raw_score (qmap_of_text spec_one_line) = 2 /\
  grade_of (grade_networking_short_answer (qmap_of_text spec_one_line) 100) = 2222 # 100 /\
  let t := str "1. Services give pods a stable endpoint..." ++ nl ++
           str "2. ClusterIP is internal..." ++ nl ++
           str "3. NetworkPolicy can block traffic between frontend and backend..." in
  map (fun q => points q)
      [tests1 (norm (qget (qmap_of_text t) 1)); tests2 (norm (qget (qmap_of_text t) 2));
       tests3 (norm (qget (qmap_of_text t) 3))] = [1; 1; 2] /\
  grade_of (grade_networking_short_answer (qmap_of_text t) 100) = 4444 # 100.
Proof. vm_compute. repeat split; reflexivity. Qed.

(** The per-question feedback lines are fixed praise: with no answer
    at all the grade is 0 and the feedback still says "Q1: 0/3 — Service
    concept explained well.". *)
Example grade_fixed_praise :
  grade_of (grade_networking_short_answer [] 100) = 0 # 100 /\
  contains (feedback_of (grade_networking_short_answer [] 100))
           (str "Q1: 0/3 " ++ [em_dash] ++ str " Service concept explained well.") = true.
Proof. vm_compute. split; reflexivity. Qed.

Lemma grade_bounds_witness :
  0 <= 10000 /\
  Qle 0 (grade_of (grade_networking_short_answer (qmap_of_text spec_one_line) (10000 # 100))) /\
  Qle (grade_of (grade_networking_short_answer (qmap_of_text spec_one_line) (10000 # 100))) (10000 # 100).
Proof.
  assert (H : 0 <= 10000) by lia.
  split; [exact H | exact (grade_bounds (qmap_of_text spec_one_line) 10000 H)].
Defined.

End Grading.
