(* ===== verification/Backend.v ===== *)
(** * HTTP handlers and persistence: main.py, models.py, db.py

    The tables of models.py are lists of records in insertion (id)
    order; a [session] is SQLAlchemy's session: the state last committed,
    the working state that adds and attribute updates change (queries
    read it, as autoflush makes them), and the id sequences, which a
    rollback does not give back.  A handler is a program of the session
    monad [SM]; [commit] checks the unique constraints of models.py and
    raises [IntegrityError] on a violation; [handle_500] is the
    [except Exception: db.rollback(); raise HTTPException(500)] that
    wraps most handlers; [finish] is [finally: db.close()]. *)

From Stdlib Require Import String ZArith QArith List Lia Bool.
From S2P Require Import Prelude Regex Chunking Json Profile.
Import ListNotations.
Open Scope list_scope.

Module Backend.
Import Py Chunking.

(** ** Tables (models.py) *)

Inductive status : Type := Pending | Flagged | Graded.

Record submission : Type := mkSub {
  sub_id : Z; sub_moodle_id : Z; sub_assignment : Z; sub_course : Z; sub_student : Z;
  sub_raw : option text; sub_cleaned : text; sub_status : status; sub_flag : bool }.

Record chunk : Type := mkChunk {
  ch_id : Z; ch_sub : Z; ch_qno : Z; ch_text : text; ch_cleaned : text }.

(** [embedding_json] holds [json.dumps(vec)]; [json.loads] gives the
    same floats back, so the table holds the vector itself. *)
Record embedding : Type := mkEmb { emb_id : Z; emb_chunk : Z; emb_vec : list Q }.

Record similarity_result : Type := mkSim {
  sim_id : Z; sim_chunk : Z; sim_matched : Z; sim_score : Q; sim_flagged : bool;
  sim_qno : Z; sim_other_sub : Z }.

(** [FeedbackResult]: [grade] and [confidence] are [Text] columns the
    handlers write with [str(...)]; [feedback_json] is a [JSON] column. *)
Record feedback_result : Type := mkFb {
  fb_id : Z; fb_sub : Z; fb_grade : text; fb_text : text; fb_json : py_value; fb_conf : text }.

(** [ConceptHistory]: the three score columns are [Text]. *)
Record concept_row : Type := mkHist {
  h_id : Z; h_student : Z; h_sub : Z; h_service : text; h_clusterip_nodeport : text;
  h_networkpolicy : text }.

(** [StudentProfile], keyed by [student_id]: [weak_concepts] holds
    [json.dumps] of a list of [str], which [json.loads] gives back, so
    the column holds the list; [last_grade] is [str] of a float and
    [trend] one of the four strings of [calc_trend]. *)
Record profile_row : Type := mkProf {
  p_student : Z; p_weak : list text; p_summary : text; p_last_grade : text;
  p_trend : Profile.trend }.

Record db : Type := mkDB {
  t_subs : list submission; t_chunks : list chunk; t_embs : list embedding;
  t_sims : list similarity_result; t_fbs : list feedback_result; t_hist : list concept_row;
  t_profiles : list profile_row }.

(** The [SERIAL] sequence of each table. *)
Record seqs : Type := mkSeqs {
  seq_sub : Z; seq_chunk : Z; seq_emb : Z; seq_sim : Z; seq_fb : Z; seq_hist : Z }.

Record session : Type := mkSession { committed : db; working : db; sequences : seqs }.

(** [UniqueConstraint("submission_id", "question_no")] of
    [SubmissionChunk]. *)
Fixpoint chunks_unique (cs : list chunk) : bool :=
  match cs with
  | [] => true
  | c :: cs' =>
      forallb (fun d => negb ((ch_sub d =? ch_sub c) && (ch_qno d =? ch_qno c))) cs' &&
      chunks_unique cs'
  end.

(** [unique=True] on [ChunkEmbedding.chunk_id]. *)
Fixpoint embs_unique (es : list embedding) : bool :=
  match es with
  | [] => true
  | e :: es' => forallb (fun f => negb (emb_chunk f =? emb_chunk e)) es' && embs_unique es'
  end.

(** The [Submission] table has no unique constraint: the
    [__table_args__] of models.py (lines 8-10) is a module-level name,
    outside the class, and SQLAlchemy never sees it. *)
(** The primary key [student_id] of [StudentProfile]. *)
Fixpoint profiles_unique (ps : list profile_row) : bool :=
  match ps with
  | [] => true
  | p :: ps' => forallb (fun q => negb (p_student q =? p_student p)) ps' && profiles_unique ps'
  end.

Definition constraints_ok (d : db) : bool :=
  chunks_unique (t_chunks d) && embs_unique (t_embs d) && profiles_unique (t_profiles d).

(** ** The session monad *)

Inductive err : Type :=
| HTTPException (code : Z)
| IntegrityError
| DataError          (** a statement the database rejects, e.g. a negative [LIMIT] *)
| PyError (e : exc).

Inductive outcome (A : Type) : Type :=
| Done (a : A)
| Raised (e : err).
Arguments Done {A} a.
Arguments Raised {A} e.

Definition SM (A : Type) : Type := session -> outcome A * session.

Definition sret {A} (a : A) : SM A := fun s => (Done a, s).

Definition sbind {A B} (m : SM A) (f : A -> SM B) : SM B :=
  fun s => match m s with
           | (Done a, s') => f a s'
           | (Raised e, s') => (Raised e, s')
           end.

Declare Scope session_scope.
Delimit Scope session_scope with session.
Notation "'do' x <- m ; k" := (sbind m (fun x => k))
  (at level 61, x name, m at next level, right associativity) : session_scope.
Notation "m ;; k" := (sbind m (fun _ => k))
  (at level 61, right associativity) : session_scope.
Open Scope session_scope.

Definition raise {A} (e : err) : SM A := fun s => (Raised e, s).

(** A query: autoflush makes it read the working state. *)
Definition query {A} (f : db -> A) : SM A := fun s => (Done (f (working s)), s).

Definition modify (f : db -> db) : SM unit :=
  fun s => (Done tt, mkSession (committed s) (f (working s)) (sequences s)).

Definition next_ids (f : seqs -> seqs) (get : seqs -> Z) : SM Z :=
  fun s => let q := f (sequences s) in
           (Done (get q), mkSession (committed s) (working s) q).

Definition fresh_sub_id : SM Z :=
  next_ids (fun q => mkSeqs (seq_sub q + 1) (seq_chunk q) (seq_emb q) (seq_sim q) (seq_fb q) (seq_hist q)) seq_sub.
Definition fresh_chunk_id : SM Z :=
  next_ids (fun q => mkSeqs (seq_sub q) (seq_chunk q + 1) (seq_emb q) (seq_sim q) (seq_fb q) (seq_hist q)) seq_chunk.
Definition fresh_emb_id : SM Z :=
  next_ids (fun q => mkSeqs (seq_sub q) (seq_chunk q) (seq_emb q + 1) (seq_sim q) (seq_fb q) (seq_hist q)) seq_emb.
Definition fresh_sim_id : SM Z :=
  next_ids (fun q => mkSeqs (seq_sub q) (seq_chunk q) (seq_emb q) (seq_sim q + 1) (seq_fb q) (seq_hist q)) seq_sim.

(** [db.commit()]: flush, check the constraints, and make the working
    state the committed one; a violation raises and leaves the session
    to be rolled back. *)
Definition commit : SM unit :=
  fun s => if constraints_ok (working s)
           then (Done tt, mkSession (working s) (working s) (sequences s))
           else (Raised IntegrityError, s).

(** [db.rollback()] and [db.close()]: uncommitted changes are lost. *)
Definition rollback_session (s : session) : session :=
  mkSession (committed s) (committed s) (sequences s).

(** [try: body except Exception as e: db.rollback(); raise
    HTTPException(status_code=500, detail=str(e))]: every exception,
    the handler's own [HTTPException]s included, becomes a 500. *)
Definition handle_500 {A} (body : SM A) : SM A :=
  fun s => match body s with
           | (Done a, s') => (Done a, s')
           | (Raised _, s') => (Raised (HTTPException 500), rollback_session s')
           end.

(** [finally: db.close()]. *)
Definition finish {A} (body : SM A) : SM A :=
  fun s => let (r, s') := body s in (r, rollback_session s').

(** ** Table updates *)

Definition add_sub (x : submission) : SM unit :=
  modify (fun d => mkDB (t_subs d ++ [x]) (t_chunks d) (t_embs d) (t_sims d)
                        (t_fbs d) (t_hist d) (t_profiles d)).
Definition add_chunk_row (x : chunk) : SM unit :=
  modify (fun d => mkDB (t_subs d) (t_chunks d ++ [x]) (t_embs d) (t_sims d)
                        (t_fbs d) (t_hist d) (t_profiles d)).
Definition add_emb (x : embedding) : SM unit :=
  modify (fun d => mkDB (t_subs d) (t_chunks d) (t_embs d ++ [x]) (t_sims d)
                        (t_fbs d) (t_hist d) (t_profiles d)).
Definition add_sim (x : similarity_result) : SM unit :=
  modify (fun d => mkDB (t_subs d) (t_chunks d) (t_embs d) (t_sims d ++ [x])
                        (t_fbs d) (t_hist d) (t_profiles d)).

(** Attribute assignments on the loaded [Submission] row [id]. *)
Definition update_sub (id : Z) (f : submission -> submission) : SM unit :=
  modify (fun d => mkDB (map (fun x => if sub_id x =? id then f x else x) (t_subs d))
                        (t_chunks d) (t_embs d) (t_sims d) (t_fbs d) (t_hist d) (t_profiles d)).

Fixpoint forM_ {A} (l : list A) (f : A -> SM unit) : SM unit :=
  match l with
  | [] => sret tt
  | x :: l' => f x ;; forM_ l' f
  end.

(** ** [ingest_submission] (main.py lines 39-141) *)

Record SubmissionIn : Type := mkIn {
  in_moodle_submission_id : Z; in_assignment_id : Z; in_course_id : Z; in_student_id : Z;
  in_raw_text : option text; in_cleaned_text : option text }.

(** [a or b] on an [Optional[str]]. *)
Definition or_text (a : option text) (b : text) : text :=
  match a with
  | Some ((_ :: _) as t) => t
  | _ => b
  end.

Definition chunks_of_sub (d : db) (sid : Z) : list chunk :=
  filter (fun c => ch_sub c =? sid) (t_chunks d).

(** [db.add(SubmissionChunk(...))] for each [(qno, chunk_text)]. *)
Definition add_chunks (sid : Z) (chunks : list (Z * text)) : SM unit :=
  forM_ chunks (fun qc =>
    do cid <- fresh_chunk_id ;
    add_chunk_row (mkChunk cid sid (fst qc) (snd qc) (clean_text_basic (snd qc)))).

Definition ingest_response (st : text) (id : Z) (chunks : list (Z * text)) : py_value :=
  VDict [(str "status", VStr st); (str "id", VInt id);
         (str "chunks_saved", VInt (Z.of_nat (length chunks)));
         (str "chunk_questions", VList (map (fun qc => VInt (fst qc)) chunks))].

Definition ingest_submission (data : SubmissionIn) : SM py_value :=
  finish (handle_500 (
    let source_text := strip (or_text (in_cleaned_text data) (or_text (in_raw_text data) [])) in
    match source_text with
    | [] => raise (HTTPException 400)
    | _ =>
      let cleaned := clean_text_basic source_text in
      do existing <- query (fun d => find (fun x => sub_moodle_id x =? in_moodle_submission_id data)
                                          (t_subs d)) ;
      match existing with
      | Some ex =>
          do n <- query (fun d => length (chunks_of_sub d (sub_id ex))) ;
          if (0 <? n)%nat then
            sret (VDict [(str "status", VStr (str "already_exists")); (str "id", VInt (sub_id ex));
                         (str "chunks_saved", VInt (Z.of_nat n))])
          else
            update_sub (sub_id ex) (fun x =>
              mkSub (sub_id x) (sub_moodle_id x) (in_assignment_id data) (in_course_id data)
                    (in_student_id data) (in_raw_text data) cleaned (sub_status x) (sub_flag x)) ;;
            let chunks := split_numbered_answers cleaned in
            add_chunks (sub_id ex) chunks ;;
            commit ;;
            sret (ingest_response (str "rechunked_existing") (sub_id ex) chunks)
      | None =>
          do sid <- fresh_sub_id ;
          add_sub (mkSub sid (in_moodle_submission_id data) (in_assignment_id data)
                         (in_course_id data) (in_student_id data) (in_raw_text data) cleaned
                         Pending false) ;;
          commit ;;
          let chunks := split_numbered_answers cleaned in
          add_chunks sid chunks ;;
          commit ;;
          sret (ingest_response (str "stored") sid chunks)
      end
    end)).

(** ** [plagiarism_check] (main.py lines 145-219) *)

(** The embedding provider and the similarity function the handler
    calls ([local_embedding] and [cosine_similarity] of embeddings.py):
    the capability interface of the similarity engine. *)
Class SimilarityEngine : Type := {
  local_embedding : text -> list Q;
  cosine_similarity : list Q -> list Q -> Q
}.

(** [round(x, 4)] on the exact value. *)
Definition round4 (x : Q) : Q := Qmake (py_round (Qnum x * 10000) (Qden x)) 10000.

Definition emb_of (d : db) (cid : Z) : option embedding :=
  find (fun e => emb_chunk e =? cid) (t_embs d).

(** The join of lines 170-176: every chunk of question [ch_qno c] other
    than [c] itself, with its embedding (in chunk id order). *)
Definition others (d : db) (c : chunk) : list (chunk * embedding) :=
  flat_map (fun oc =>
      if (ch_qno oc =? ch_qno c) && negb (ch_id oc =? ch_id c)
      then map (fun e => (oc, e)) (filter (fun e => emb_chunk e =? ch_id oc) (t_embs d))
      else [])
    (t_chunks d).

Record best : Type := mkBest { best_chunk : Z; best_sim : Q; best_sub : Z }.

(** Lines 178-183: keep the first candidate of highest similarity. *)
Definition best_step `{SimilarityEngine} (v1 : list Q) (acc : option best)
  (oe : chunk * embedding) : option best :=
  let sim := cosine_similarity v1 (emb_vec (snd oe)) in
  match acc with
  | Some b => if negb (Qle_bool sim (best_sim b)) then Some (mkBest (ch_id (fst oe)) sim (ch_sub (fst oe)))
              else acc
  | None => Some (mkBest (ch_id (fst oe)) sim (ch_sub (fst oe)))
  end.

Definition best_match `{SimilarityEngine} (v1 : list Q) (os : list (chunk * embedding))
  : option best := fold_left (best_step v1) os None.

(** [sub.plagiarism_flag = True; sub.status = "flagged"]. *)
Definition set_flagged (y : submission) : submission :=
  mkSub (sub_id y) (sub_moodle_id y) (sub_assignment y) (sub_course y)
        (sub_student y) (sub_raw y) (sub_cleaned y) Flagged true.

(** [sub.plagiarism_flag = False; if sub.status == "flagged": sub.status
    = "pending"]. *)
Definition clear_flag (y : submission) : submission :=
  mkSub (sub_id y) (sub_moodle_id y) (sub_assignment y) (sub_course y)
        (sub_student y) (sub_raw y) (sub_cleaned y)
        (match sub_status y with Flagged => Pending | st => st end) false.

Section Plagiarism.
Context `{SimilarityEngine}.

(** Lines 155-159: compute and store the embedding of [c] if missing. *)
Definition ensure_embedding (c : chunk) : SM unit :=
  do ex <- query (fun d => emb_of d (ch_id c)) ;
  match ex with
  | Some _ => sret tt
  | None =>
      do eid <- fresh_emb_id ;
      add_emb (mkEmb eid (ch_id c) (local_embedding (ch_cleaned c)))
  end.

Definition flag_entry (c : chunk) (b : best) : py_value :=
  VDict [(str "chunk_id", VInt (ch_id c)); (str "question_no", VInt (ch_qno c));
         (str "matched_submission_id", VInt (best_sub b));
         (str "matched_chunk_id", VInt (best_chunk b));
         (str "similarity", VFloat (Finite (round4 (best_sim b))))].

(** Lines 165-214: one iteration of the comparison loop, with the
    accumulated [flags]. *)
Definition check_chunk (submission_id : Z) (threshold : Q) (flags : list py_value) (c : chunk)
  : SM (list py_value) :=
  do cemb <- query (fun d => emb_of d (ch_id c)) ;
  match cemb with
  | None => raise (PyError AttributeError)
  | Some ce =>
      do os <- query (fun d => others d c) ;
      match best_match (emb_vec ce) os with
      | Some b =>
          if Qle_bool threshold (best_sim b) then
            let flags := flags ++ [flag_entry c b] in
            do rid <- fresh_sim_id ;
            add_sim (mkSim rid (ch_id c) (best_chunk b) (best_sim b) true (ch_qno c) (best_sub b)) ;;
            do sub <- query (fun d => find (fun x => sub_id x =? submission_id) (t_subs d)) ;
            (match sub with
             | Some x =>
                 if (0 <? length flags)%nat then update_sub (sub_id x) set_flagged
                 else update_sub (sub_id x) clear_flag
             | None => sret tt
             end) ;;
            commit ;;
            sret flags
          else sret flags
      | None => sret flags
      end
  end.

Fixpoint foldM {A B} (f : B -> A -> SM B) (l : list A) (b : B) : SM B :=
  match l with
  | [] => sret b
  | x :: l' => do b' <- f b x ; foldM f l' b'
  end.

Definition plagiarism_check (submission_id : Z) (threshold : Q) : SM py_value :=
  finish (
    do chunks <- query (fun d => chunks_of_sub d submission_id) ;
    match chunks with
    | [] => raise (HTTPException 404)
    | _ =>
        forM_ chunks ensure_embedding ;;
        commit ;;
        do flags <- foldM (check_chunk submission_id threshold) chunks [] ;
        sret (VDict [(str "submission_id", VInt submission_id);
                     (str "threshold", VFloat (Finite threshold));
                     (str "flags", VList flags);
                     (str "flagged_count", VInt (Z.of_nat (length flags)))])
    end).

End Plagiarism.

(** ** Invariants of the tables *)

(** Every stored similarity result pairs two distinct chunks of the
    same question, and records the matched chunk's submission. *)
Definition sims_sound (d : db) : Prop :=
  forall r, In r (t_sims d) ->
    exists c oc, In c (t_chunks d) /\ In oc (t_chunks d) /\
                 ch_id c = sim_chunk r /\ ch_id oc = sim_matched r /\
                 ch_qno oc = ch_qno c /\ ch_id oc <> ch_id c /\ ch_sub oc = sim_other_sub r.

(** [sims_sound] decided by computation. *)
Definition sims_soundb (d : db) : bool :=
  forallb (fun r =>
    existsb (fun c =>
      existsb (fun oc =>
        (ch_id c =? sim_chunk r) && (ch_id oc =? sim_matched r) && (ch_qno oc =? ch_qno c) &&
        negb (ch_id oc =? ch_id c) && (ch_sub oc =? sim_other_sub r)) (t_chunks d)) (t_chunks d))
    (t_sims d).

Lemma sims_soundb_sound (d : db) : sims_soundb d = true -> sims_sound d.
Proof.
  unfold sims_soundb. rewrite forallb_forall. intros H r Hr.
  specialize (H r Hr). apply existsb_exists in H as [c [Hc H]].
  apply existsb_exists in H as [oc [Hoc H]].
  rewrite !andb_true_iff, !Z.eqb_eq, negb_true_iff, Z.eqb_neq in H.
  exists c, oc. tauto.
Qed.

(** Whether submission [id] carries the plagiarism flag. *)
Definition flag_of (d : db) (id : Z) : bool :=
  existsb (fun x => (sub_id x =? id) && sub_flag x) (t_subs d).

(** A property of sessions: it holds of the committed and the working
    state, and every step of a handler keeps it. *)
Definition preserves (P : db -> Prop) {A} (m : SM A) : Prop :=
  forall s r s', P (committed s) -> P (working s) -> m s = (r, s') ->
                 P (committed s') /\ P (working s').

Lemma preserves_ret P {A} (a : A) : preserves P (sret a).
Proof. intros s r s' H1 H2 E. inv E. auto. Qed.

Lemma preserves_raise P {A} e : preserves P (@raise A e).
Proof. intros s r s' H1 H2 E. inv E. auto. Qed.

Lemma preserves_bind P {A B} (m : SM A) (k : A -> SM B) :
  preserves P m -> (forall a, preserves P (k a)) -> preserves P (sbind m k).
Proof.
  intros Hm Hk s r s' H1 H2 E. unfold sbind in E.
  destruct (m s) as [[a|e] s1] eqn:Em.
  - destruct (Hm _ _ _ H1 H2 Em). eapply Hk; eauto.
  - inv E. eapply Hm; eauto.
Qed.

Lemma preserves_commit P : preserves P commit.
Proof.
  intros s r s' H1 H2 E. unfold commit in E.
  destruct (constraints_ok (working s)); inv E; simpl; auto.
Qed.

Lemma preserves_fresh P f g : preserves P (next_ids f g).
Proof. intros s r s' H1 H2 E. inv E. simpl. auto. Qed.

Lemma preserves_finish P {A} (m : SM A) : preserves P m -> preserves P (finish m).
Proof.
  intros Hm s r s' H1 H2 E. unfold finish in E.
  destruct (m s) as [r1 s1] eqn:Em. inv E. simpl. destruct (Hm _ _ _ H1 H2 Em). auto.
Qed.

Lemma preserves_forM P {A} (l : list A) (f : A -> SM unit) :
  (forall x, In x l -> preserves P (f x)) -> preserves P (forM_ l f).
Proof.
  induction l as [|x l IH]; intros Hf; simpl.
  - apply preserves_ret.
  - apply preserves_bind; [apply Hf; simpl; auto|]. intros _. apply IH. intros y Hy. apply Hf. simpl. auto.
Qed.

Lemma preserves_foldM P {A B} (f : B -> A -> SM B) (l : list A) :
  (forall b x, In x l -> preserves P (f b x)) -> forall b, preserves P (foldM f l b).
Proof.
  induction l as [|x l IH]; intros Hf b; simpl.
  - apply preserves_ret.
  - apply preserves_bind; [apply Hf; simpl; auto|]. intros b'. apply IH.
    intros b'' y Hy. apply Hf. simpl. auto.
Qed.

(** Case analysis on the next step of a session run in [H]. *)
Ltac sproj H :=
  cbn beta iota zeta delta [committed working sequences t_subs t_chunks t_embs t_sims
                            t_fbs t_hist t_profiles
                            seq_sub seq_chunk seq_emb seq_sim seq_fb seq_hist] in H.

Ltac sstep H :=
  match type of H with
  | context [match ?x with Done _ => _ | Raised _ => _ end] =>
      let E := fresh "E" in destruct x eqn:E
  | context [match ?x with Some _ => _ | None => _ end] =>
      let E := fresh "E" in destruct x eqn:E
  | context [if ?b then _ else _] => let E := fresh "Eb" in destruct b eqn:E
  end.

(** ** Lemmas on the comparison loop *)

Lemma others_spec d c oc e :
  In (oc, e) (others d c) ->
  In oc (t_chunks d) /\ ch_qno oc = ch_qno c /\ ch_id oc <> ch_id c /\
  In e (t_embs d) /\ emb_chunk e = ch_id oc.
Proof.
  unfold others. intros H. apply in_flat_map in H. destruct H as [oc' [Hin Hm]].
  destruct ((ch_qno oc' =? ch_qno c) && negb (ch_id oc' =? ch_id c)) eqn:E; [|contradiction].
  apply andb_true_iff in E as [E1 E2]. apply negb_true_iff in E2.
  apply in_map_iff in Hm. destruct Hm as [e' [Heq Hf]]. inv Heq.
  apply filter_In in Hf as [He Hc].
  repeat split; auto; [lia | apply Z.eqb_neq; exact E2 | lia].
Qed.

Lemma best_step_from `{SimilarityEngine} v acc oe b :
  best_step v acc oe = Some b ->
  acc = Some b \/ (best_chunk b = ch_id (fst oe) /\ best_sub b = ch_sub (fst oe) /\
                   best_sim b = cosine_similarity v (emb_vec (snd oe))).
Proof.
  unfold best_step. destruct acc as [b0|].
  - destruct (negb _); intros E; inv E; auto.
  - intros E. inv E. auto.
Qed.

Lemma best_fold_in `{SimilarityEngine} v os : forall acc b,
  fold_left (best_step v) os acc = Some b ->
  acc = Some b \/
  exists oe, In oe os /\ best_chunk b = ch_id (fst oe) /\ best_sub b = ch_sub (fst oe) /\
             best_sim b = cosine_similarity v (emb_vec (snd oe)).
Proof.
  induction os as [|oe os IH]; simpl; intros acc b E; auto.
  destruct (IH _ _ E) as [Hs|[oe' [Hin Hx]]].
  - destruct (best_step_from _ _ _ _ Hs) as [Ha|Hn]; auto. right. exists oe. auto.
  - right. exists oe'. auto.
Qed.

(** The best match is one of the candidates. *)
Lemma best_match_in `{SimilarityEngine} v os b :
  best_match v os = Some b ->
  exists oe, In oe os /\ best_chunk b = ch_id (fst oe) /\ best_sub b = ch_sub (fst oe) /\
             best_sim b = cosine_similarity v (emb_vec (snd oe)).
Proof.
  unfold best_match. intros E. destruct (best_fold_in _ _ _ _ E) as [H0|H0]; [discriminate | exact H0].
Qed.

Lemma best_step_props `{SimilarityEngine} v acc oe b1 :
  best_step v acc oe = Some b1 ->
  (forall b0, acc = Some b0 -> Qle (best_sim b0) (best_sim b1)) /\
  Qle (cosine_similarity v (emb_vec (snd oe))) (best_sim b1).
Proof.
  unfold best_step. destruct acc as [b0|].
  - destruct (Qle_bool (cosine_similarity v (emb_vec (snd oe))) (best_sim b0)) eqn:E;
      simpl; intros Hb; inv Hb; split; intros; simpl in *; try congruence.
    + match goal with H : Some _ = Some _ |- _ => inv H end. apply Qle_refl.
    + apply Qle_bool_iff. exact E.
    + match goal with H : Some _ = Some _ |- _ => inv H end.
      apply Qlt_le_weak, Qnot_le_lt. intros Hle. apply Qle_bool_iff in Hle. congruence.
    + apply Qle_refl.
  - intros Hb. inv Hb. split; [discriminate | apply Qle_refl].
Qed.

Lemma best_fold_max `{SimilarityEngine} v os : forall acc b,
  fold_left (best_step v) os acc = Some b ->
  (forall b0, acc = Some b0 -> Qle (best_sim b0) (best_sim b)) /\
  (forall oe, In oe os -> Qle (cosine_similarity v (emb_vec (snd oe))) (best_sim b)).
Proof.
  induction os as [|oe os IH]; simpl; intros acc b E.
  - subst. split; [intros b0 Hb; inv Hb; apply Qle_refl | tauto].
  - destruct (best_step v acc oe) as [b1|] eqn:E1.
    2:{ exfalso. clear -E1. unfold best_step in E1. destruct acc; [destruct (negb _)|]; discriminate. }
    destruct (IH _ _ E) as [Hm Hall].
    destruct (best_step_props _ _ _ _ E1) as [Hmono Hcur].
    specialize (Hm b1 eq_refl). split.
    + intros b0 Hb0. eapply Qle_trans; [apply Hmono; exact Hb0 | exact Hm].
    + intros oe' [<-|Hin]; [eapply Qle_trans; eauto | auto].
Qed.

(** C7. The match kept for a chunk is a best one: its similarity is at
    least that of every candidate chunk of the same question, and it is
    one of the candidates. *)
Theorem best_match_max `{SimilarityEngine} (v : list Q) (os : list (chunk * embedding)) b :
  best_match v os = Some b ->
  (forall oe, In oe os -> Qle (cosine_similarity v (emb_vec (snd oe))) (best_sim b)) /\
  exists oe, In oe os /\ best_chunk b = ch_id (fst oe) /\
             best_sim b = cosine_similarity v (emb_vec (snd oe)).
Proof.
  intros E. split.
  - apply (best_fold_max v os None b E).
  - destruct (best_match_in _ _ _ E) as [oe [Hin [Hc [_ Hs]]]]. exists oe. auto.
Qed.

(** ** The plagiarism check keeps the tables sound *)

Definition plag_inv (T : list chunk) (d0 : db) (thr : Q) (d : db) : Prop :=
  t_chunks d = T /\ sims_sound d /\
  (exists new, t_sims d = t_sims d0 ++ new /\ Forall (fun r => Qle thr (sim_score r)) new) /\
  (forall id, flag_of d0 id = true -> flag_of d id = true).

Lemma plag_inv_embs T d0 thr d es :
  plag_inv T d0 thr d -> plag_inv T d0 thr (mkDB (t_subs d) (t_chunks d) es (t_sims d) (t_fbs d) (t_hist d) (t_profiles d)).
Proof. unfold plag_inv, sims_sound, flag_of. simpl. tauto. Qed.

Lemma flag_of_set_flagged (subs : list submission) i id :
  existsb (fun x => (sub_id x =? id) && sub_flag x) subs = true ->
  existsb (fun x => (sub_id x =? id) && sub_flag x)
          (map (fun x => if sub_id x =? i then set_flagged x else x) subs) = true.
Proof.
  induction subs as [|x subs IH]; simpl; [discriminate|].
  intros H. apply orb_true_iff in H as [H|H]; apply orb_true_iff; [left|right; auto].
  destruct (sub_id x =? i); simpl; auto. apply andb_true_iff in H as [H _]. rewrite H. reflexivity.
Qed.

Lemma plag_inv_add_sim `{SimilarityEngine} T d0 thr d c ce b rid subs' :
  plag_inv T d0 thr d -> In c T -> emb_of d (ch_id c) = Some ce ->
  best_match (emb_vec ce) (others d c) = Some b -> Qle thr (best_sim b) ->
  (forall id, flag_of d id = true -> existsb (fun x => (sub_id x =? id) && sub_flag x) subs' = true) ->
  plag_inv T d0 thr
    (mkDB subs' (t_chunks d) (t_embs d)
          (t_sims d ++ [mkSim rid (ch_id c) (best_chunk b) (best_sim b) true (ch_qno c) (best_sub b)])
          (t_fbs d) (t_hist d) (t_profiles d)).
Proof.
  intros [HT [Hs [[new [Hnew Hall]] Hf]]] Hc Hce Hb Hthr Hsubs.
  destruct (best_match_in _ _ _ Hb) as [[oc e] [Hin [Hbc [Hbs _]]]].
  destruct (others_spec _ _ _ _ Hin) as [Hoc [Hq [Hne _]]]. simpl in *.
  repeat split; simpl; auto.
  - intros r Hr. apply in_app_or in Hr as [Hr|[<-|[]]]; [exact (Hs r Hr)|].
    exists c, oc. simpl. rewrite HT. repeat split; auto. rewrite <- HT. exact Hoc.
  - exists (new ++ [mkSim rid (ch_id c) (best_chunk b) (best_sim b) true (ch_qno c) (best_sub b)]).
    split; [rewrite Hnew, app_assoc; reflexivity|].
    apply Forall_app. split; auto.
  - intros id Hid. unfold flag_of. simpl. apply Hsubs, Hf, Hid.
Qed.

Lemma check_chunk_preserves `{SimilarityEngine} T d0 thr sid flags c :
  In c T -> preserves (plag_inv T d0 thr) (check_chunk sid thr flags c).
Proof.
  intros Hc s r s' H1 H2 E.
  cbv beta iota zeta delta [check_chunk sbind query raise sret fresh_sim_id next_ids
                            add_sim modify update_sub commit] in E.
  sproj E. repeat (sstep E; sproj E).
  all: inv E; cbn [committed working t_subs t_chunks t_embs t_sims]; auto.
  all: try match goal with
            | H : (0 <? length (_ ++ [_]))%nat = false |- _ =>
                rewrite length_app, Nat.add_comm in H; discriminate H
            end.
  all: split; auto.
  all: eapply plag_inv_add_sim;
         [ exact H2 | exact Hc | eassumption | eassumption
         | apply Qle_bool_iff; assumption
         | intros id Hid; first [apply flag_of_set_flagged; exact Hid | exact Hid] ].
Qed.

Lemma ensure_embedding_preserves `{SimilarityEngine} T d0 thr c :
  preserves (plag_inv T d0 thr) (ensure_embedding c).
Proof.
  intros s r s' H1 H2 E.
  cbv beta iota zeta delta [ensure_embedding sbind query sret fresh_emb_id next_ids add_emb modify] in E.
  sproj E. repeat (sstep E; sproj E).
  all: inv E; cbn [committed working]; split; auto; apply plag_inv_embs; auto.
Qed.

Lemma preserves_query_bind P {A B} (f : db -> A) (k : A -> SM B) :
  (forall d, P d -> preserves P (k (f d))) -> preserves P (sbind (query f) k).
Proof. intros Hk s r s' H1 H2 E. unfold sbind, query in E. eapply Hk; eauto. Qed.

Lemma plagiarism_check_preserves `{SimilarityEngine} d0 thr sid :
  preserves (plag_inv (t_chunks d0) d0 thr) (plagiarism_check sid thr).
Proof.
  unfold plagiarism_check. apply preserves_finish, preserves_query_bind. intros d Hd.
  destruct (chunks_of_sub d sid) as [|c cs] eqn:Ec; [apply preserves_raise|].
  apply preserves_bind; [apply preserves_forM; intros; apply ensure_embedding_preserves|].
  intros _. apply preserves_bind; [apply preserves_commit|]. intros _.
  apply preserves_bind; [|intros; apply preserves_ret].
  apply preserves_foldM. intros b x Hx. apply check_chunk_preserves.
  rewrite <- Ec in Hx. unfold chunks_of_sub in Hx. apply filter_In in Hx as [Hx _].
  destruct Hd as [HT _]. rewrite <- HT. exact Hx.
Qed.

Lemma plag_inv_init d0 thr : sims_sound d0 -> plag_inv (t_chunks d0) d0 thr d0.
Proof.
  intros Hs. repeat split; auto. exists []. rewrite app_nil_r. auto.
Qed.

Lemma plagiarism_check_inv `{SimilarityEngine} d q sid thr r s' :
  sims_sound d -> plagiarism_check sid thr (mkSession d d q) = (r, s') ->
  plag_inv (t_chunks d) d thr (committed s').
Proof.
  intros Hs E. apply plag_inv_init with (thr := thr) in Hs.
  exact (proj1 (plagiarism_check_preserves d thr sid (mkSession d d q) r s' Hs Hs E)).
Qed.

(** C5. The plagiarism check keeps the similarity table sound: every
    stored result, old or new, pairs a chunk with a different chunk of
    the same question, and the chunk table is left unchanged. *)
Theorem plagiarism_check_sims_sound `{SimilarityEngine} (d : db) (q : seqs) (sid : Z) (thr : Q) r s' :
  sims_sound d -> plagiarism_check sid thr (mkSession d d q) = (r, s') ->
  sims_sound (committed s') /\ t_chunks (committed s') = t_chunks d.
Proof. intros Hs E. destruct (plagiarism_check_inv _ _ _ _ _ _ Hs E) as [HT [Hss _]]. auto. Qed.

(** C6. Every similarity result the check records has a score of at
    least the threshold, and results are only appended. *)
Theorem plagiarism_check_above_threshold `{SimilarityEngine} (d : db) (q : seqs) (sid : Z) (thr : Q) r s' :
  sims_sound d -> plagiarism_check sid thr (mkSession d d q) = (r, s') ->
  exists new, t_sims (committed s') = t_sims d ++ new /\
              Forall (fun x => Qle thr (sim_score x)) new.
Proof. intros Hs E. destruct (plagiarism_check_inv _ _ _ _ _ _ Hs E) as [_ [_ [Hn _]]]. exact Hn. Qed.

(** C35. The plagiarism check never clears a flag: the branch of lines
    210-213 that would reset [plagiarism_flag] runs only when [flags] is
    empty, and it sits under the [if] that has just appended to
    [flags]. *)
Theorem plagiarism_check_flags_monotone `{SimilarityEngine} (d : db) (q : seqs) (sid : Z) (thr : Q) r s'
  (id : Z) :
  sims_sound d -> plagiarism_check sid thr (mkSession d d q) = (r, s') ->
  flag_of d id = true -> flag_of (committed s') id = true.
Proof. intros Hs E. destruct (plagiarism_check_inv _ _ _ _ _ _ Hs E) as [_ [_ [_ Hf]]]. apply Hf. Qed.

Lemma chunks_unique_same c oc (cs : list chunk) :
  chunks_unique cs = true -> In c cs -> In oc cs ->
  ch_sub oc = ch_sub c -> ch_qno oc = ch_qno c -> c = oc.
Proof.
  induction cs as [|x cs IH]; simpl; [tauto|].
  intros Hu Hc Hoc Hs Hq. apply andb_true_iff in Hu as [Hall Hu].
  rewrite forallb_forall in Hall.
  destruct Hc as [<-|Hc]; destruct Hoc as [<-|Hoc]; auto.
  - specialize (Hall oc Hoc). rewrite Hs, Hq, !Z.eqb_refl in Hall. discriminate.
  - specialize (Hall c Hc). rewrite <- Hs, <- Hq, !Z.eqb_refl in Hall. discriminate.
Qed.

(** Under the unique constraint on (submission, question), a sound
    similarity table never pairs two chunks of the same submission: every
    recorded match is a chunk of another submission answering the same
    question. *)
Theorem sims_cross_submission (d : db) :
  chunks_unique (t_chunks d) = true -> sims_sound d ->
  forall r, In r (t_sims d) ->
    exists c oc, In c (t_chunks d) /\ In oc (t_chunks d) /\
                 ch_id c = sim_chunk r /\ ch_id oc = sim_matched r /\
                 ch_qno oc = ch_qno c /\ ch_sub oc <> ch_sub c.
Proof.
  intros Hu Hs r Hr. destruct (Hs r Hr) as [c [oc [Hc [Hoc [Hi [Hm [Hq [Hne _]]]]]]]].
  exists c, oc. repeat split; auto.
  intros Hsub. apply Hne. rewrite (chunks_unique_same c oc (t_chunks d)); auto.
Qed.

(** ** Ingestion *)

(** The state a new ingestion leaves: [chunk_rows] are the rows
    [add_chunks sid chunks] adds, with ids from [next + 1]. *)
Fixpoint chunk_rows (sid next : Z) (chunks : list (Z * text)) : list chunk :=
  match chunks with
  | [] => []
  | qc :: r => mkChunk (next + 1) sid (fst qc) (snd qc) (clean_text_basic (snd qc)) :: chunk_rows sid (next + 1) r
  end.

(** No question number occurs twice. *)
Fixpoint distinct_qnos (chunks : list (Z * text)) : bool :=
  match chunks with
  | [] => true
  | qc :: r => forallb (fun p => negb (fst p =? fst qc)) r && distinct_qnos r
  end.

Definition with_chunks (d : db) (cs : list chunk) : db :=
  mkDB (t_subs d) (t_chunks d ++ cs) (t_embs d) (t_sims d) (t_fbs d) (t_hist d) (t_profiles d).

Definition with_sub (d : db) (x : submission) : db :=
  mkDB (t_subs d ++ [x]) (t_chunks d) (t_embs d) (t_sims d) (t_fbs d) (t_hist d) (t_profiles d).

(** The chunk sequence after [n] rows. *)
Definition bump_chunks (q : seqs) (n : nat) : seqs :=
  mkSeqs (seq_sub q) (seq_chunk q + Z.of_nat n) (seq_emb q) (seq_sim q) (seq_fb q) (seq_hist q).

(** The fields the re-chunk path assigns to the stored row
    (lines 100-104), and the update of that row. *)
Definition refill (data : SubmissionIn) (cleaned : text) (x : submission) : submission :=
  mkSub (sub_id x) (sub_moodle_id x) (in_assignment_id data) (in_course_id data)
        (in_student_id data) (in_raw_text data) cleaned (sub_status x) (sub_flag x).

Definition with_update (d : db) (id : Z) (f : submission -> submission) : db :=
  mkDB (map (fun x => if sub_id x =? id then f x else x) (t_subs d))
       (t_chunks d) (t_embs d) (t_sims d) (t_fbs d) (t_hist d) (t_profiles d).

Definition source_text (data : SubmissionIn) : text :=
  strip (or_text (in_cleaned_text data) (or_text (in_raw_text data) [])).

(** C9. Idempotent re-ingestion: when a submission with the same
    Moodle id already has chunks, ingesting the payload again (with a
    non-empty text) answers ["already_exists"] with the stored id and
    chunk count and leaves the database exactly as it was. *)
Theorem ingest_existing_idempotent (d : db) (q : seqs) (data : SubmissionIn) (x : submission) :
  source_text data <> [] ->
  find (fun y => sub_moodle_id y =? in_moodle_submission_id data) (t_subs d) = Some x ->
  (0 < length (chunks_of_sub d (sub_id x)))%nat ->
  ingest_submission data (mkSession d d q) =
  (Done (VDict [(str "status", VStr (str "already_exists")); (str "id", VInt (sub_id x));
                (str "chunks_saved", VInt (Z.of_nat (length (chunks_of_sub d (sub_id x)))))]),
   mkSession d d q).
Proof.
  unfold source_text. intros Hne Hf Hn.
  unfold ingest_submission, finish, handle_500, sbind, query, sret.
  destruct (strip _) as [|c t]; [contradiction|]. cbn beta iota zeta delta [working].
  rewrite Hf. cbn beta iota zeta delta [working]. apply Nat.ltb_lt in Hn. rewrite Hn. reflexivity.
Qed.

(** C36. An empty answer text is reported as an internal error: the
    [HTTPException(400)] raised inside the [try] block is caught by
    [except Exception] and re-raised as a 500, and nothing is
    written. *)
Theorem ingest_empty_is_500 (d : db) (q : seqs) (data : SubmissionIn) :
  source_text data = [] ->
  ingest_submission data (mkSession d d q) = (Raised (HTTPException 500), mkSession d d q).
Proof.
  unfold source_text. intros He.
  unfold ingest_submission, finish, handle_500, raise. rewrite He. reflexivity.
Qed.

(** [add_chunks] appends [chunk_rows] and advances the sequence. *)
Lemma add_chunks_run (sid : Z) (chunks : list (Z * text)) (c w : db) (q : seqs) :
  add_chunks sid chunks (mkSession c w q) =
  (Done tt, mkSession c (with_chunks w (chunk_rows sid (seq_chunk q) chunks)) (bump_chunks q (length chunks))).
Proof.
  revert w q. induction chunks as [|qc r IH]; intros w q.
  - unfold with_chunks, bump_chunks. destruct w, q. cbn. rewrite app_nil_r, Z.add_0_r. reflexivity.
  - unfold add_chunks. cbn [forM_]. fold (add_chunks sid r).
    unfold sbind at 1. unfold sbind, fresh_chunk_id, next_ids, add_chunk_row, modify.
    cbn [committed working sequences seq_chunk]. rewrite IH.
    unfold with_chunks, bump_chunks. cbn. rewrite <- app_assoc. f_equal. f_equal. f_equal. lia.
Qed.

Lemma chunks_unique_app (l1 l2 : list chunk) :
  (forall c1 c2, In c1 l1 -> In c2 l2 -> ch_sub c1 <> ch_sub c2) ->
  chunks_unique (l1 ++ l2) = chunks_unique l1 && chunks_unique l2.
Proof.
  induction l1 as [|c l1 IH]; intros Hd; [reflexivity|].
  cbn [app chunks_unique]. rewrite forallb_app, IH by (intros; apply Hd; [right|]; assumption).
  replace (forallb (fun d => negb ((ch_sub d =? ch_sub c) && (ch_qno d =? ch_qno c))) l2) with true.
  - rewrite andb_true_r. destruct (forallb _ l1), (chunks_unique l1), (chunks_unique l2); reflexivity.
  - symmetry. apply forallb_forall. intros x Hx.
    assert (ch_sub x <> ch_sub c) by (apply not_eq_sym, Hd; [left; reflexivity | exact Hx]).
    apply Z.eqb_neq in H. rewrite H. reflexivity.
Qed.

Lemma chunk_rows_sub sid next chunks c : In c (chunk_rows sid next chunks) -> ch_sub c = sid.
Proof.
  revert next. induction chunks as [|qc r IH]; intros next H; [destruct H|].
  destruct H as [<-|H]; [reflexivity | exact (IH _ H)].
Qed.

Lemma forallb_rows sid next n chunks :
  forallb (fun d => negb ((ch_sub d =? sid) && (ch_qno d =? n))) (chunk_rows sid next chunks) =
  forallb (fun p => negb (fst p =? n)) chunks.
Proof.
  revert next. induction chunks as [|qc r IH]; intros next; [reflexivity|].
  cbn [chunk_rows forallb ch_sub ch_qno]. rewrite Z.eqb_refl, IH. reflexivity.
Qed.

Lemma chunks_unique_rows sid next chunks : chunks_unique (chunk_rows sid next chunks) = distinct_qnos chunks.
Proof.
  revert next. induction chunks as [|qc r IH]; intros next; [reflexivity|].
  cbn [chunk_rows chunks_unique distinct_qnos ch_sub ch_qno]. rewrite forallb_rows, IH. reflexivity.
Qed.

Lemma chunks_of_sub_nil (d : db) (sid : Z) :
  chunks_of_sub d sid = [] -> forall c, In c (t_chunks d) -> ch_sub c <> sid.
Proof.
  unfold chunks_of_sub. intros E c Hc Hs. assert (In c (filter (fun c => ch_sub c =? sid) (t_chunks d))).
  { apply filter_In. split; [exact Hc | apply Z.eqb_eq; exact Hs]. }
  rewrite E in H. destruct H.
Qed.

Lemma constraints_rows (w : db) (sid next : Z) (chunks : list (Z * text)) :
  constraints_ok w = true -> (forall c, In c (t_chunks w) -> ch_sub c <> sid) ->
  constraints_ok (with_chunks w (chunk_rows sid next chunks)) = distinct_qnos chunks.
Proof.
  unfold constraints_ok, with_chunks. cbn [t_chunks t_embs t_profiles]. intros Hok Hfresh.
  apply andb_true_iff in Hok as [Hok Hp]. apply andb_true_iff in Hok as [Hc He].
  rewrite chunks_unique_app, Hc, He, Hp, chunks_unique_rows.
  - destruct (distinct_qnos _); reflexivity.
  - intros c1 c2 H1 H2. rewrite (chunk_rows_sub _ _ _ _ H2). exact (Hfresh c1 H1).
Qed.

(** The constraints do not look at the submissions table. *)
Lemma constraints_subs (d : db) (subs : list submission) :
  constraints_ok (mkDB subs (t_chunks d) (t_embs d) (t_sims d) (t_fbs d) (t_hist d) (t_profiles d)) = constraints_ok d.
Proof. reflexivity. Qed.

(** A new Moodle id: the submission row, then its chunk rows. *)
Lemma ingest_new_run (d : db) (q : seqs) (data : SubmissionIn) :
  source_text data <> [] ->
  find (fun y => sub_moodle_id y =? in_moodle_submission_id data) (t_subs d) = None ->
  constraints_ok d = true ->
  Forall (fun c => ch_sub c <> seq_sub q + 1) (t_chunks d) ->
  let sid := seq_sub q + 1 in
  let cleaned := clean_text_basic (source_text data) in
  let chunks := split_numbered_answers cleaned in
  let d1 := with_sub d (mkSub sid (in_moodle_submission_id data) (in_assignment_id data) (in_course_id data)
                              (in_student_id data) (in_raw_text data) cleaned Pending false) in
  let q' := bump_chunks (mkSeqs sid (seq_chunk q) (seq_emb q) (seq_sim q) (seq_fb q) (seq_hist q)) (length chunks) in
  ingest_submission data (mkSession d d q) =
  if distinct_qnos chunks
  then (Done (ingest_response (str "stored") sid chunks),
        mkSession (with_chunks d1 (chunk_rows sid (seq_chunk q) chunks))
                  (with_chunks d1 (chunk_rows sid (seq_chunk q) chunks)) q')
  else (Raised (HTTPException 500), mkSession d1 d1 q').
Proof.
  unfold source_text. intros Hne Hf Hok Hfresh. cbv zeta.
  unfold ingest_submission, finish, handle_500.
  destruct (strip _) as [|c t] eqn:Es; [contradiction|].
  unfold sbind at 1. unfold query. cbn [working]. rewrite Hf.
  unfold sbind at 1. unfold fresh_sub_id, next_ids. cbn [sequences committed working].
  unfold sbind at 1. unfold add_sub, modify. cbn [committed working sequences].
  unfold sbind at 1. unfold commit. cbn [working]. rewrite constraints_subs, Hok.
  unfold sbind at 1. cbn [working]. rewrite add_chunks_run.
  unfold sbind, commit. cbn [working seq_chunk].
  rewrite constraints_rows; [destruct (distinct_qnos _); reflexivity | rewrite constraints_subs; exact Hok|].
  rewrite Forall_forall in Hfresh. exact Hfresh.
Qed.

(** An already stored Moodle id without chunks: the row is refilled and
    the chunks added in one commit. *)
Lemma ingest_rechunk_run (d : db) (q : seqs) (data : SubmissionIn) (x : submission) :
  source_text data <> [] ->
  find (fun y => sub_moodle_id y =? in_moodle_submission_id data) (t_subs d) = Some x ->
  chunks_of_sub d (sub_id x) = [] ->
  constraints_ok d = true ->
  let cleaned := clean_text_basic (source_text data) in
  let chunks := split_numbered_answers cleaned in
  let d1 := with_update d (sub_id x) (refill data cleaned) in
  let d2 := with_chunks d1 (chunk_rows (sub_id x) (seq_chunk q) chunks) in
  ingest_submission data (mkSession d d q) =
  if distinct_qnos chunks
  then (Done (ingest_response (str "rechunked_existing") (sub_id x) chunks), mkSession d2 d2 (bump_chunks q (length chunks)))
  else (Raised (HTTPException 500), mkSession d d (bump_chunks q (length chunks))).
Proof.
  unfold source_text. intros Hne Hf Hn Hok. cbv zeta.
  unfold ingest_submission, finish, handle_500.
  destruct (strip _) as [|c t] eqn:Es; [contradiction|].
  unfold sbind at 1. unfold query. cbn [working]. rewrite Hf.
  unfold sbind at 1. unfold query. cbn [working]. rewrite Hn. cbn [length Nat.ltb Nat.leb].
  unfold sbind at 1. unfold update_sub, modify. cbn [committed working sequences].
  unfold sbind at 1. rewrite add_chunks_run.
  unfold sbind, commit. cbn [working].
  rewrite constraints_rows; [| rewrite constraints_subs; exact Hok | exact (chunks_of_sub_nil d _ Hn)].
  destruct (distinct_qnos _); reflexivity.
Qed.



(** A check of a submission without chunks answers 404 and changes
    nothing. *)
Lemma plagiarism_no_chunks `{SimilarityEngine} (s : Z) (thr : Q) (d : db) (q : seqs) :
  chunks_of_sub d s = [] -> plagiarism_check s thr (mkSession d d q) = (Raised (HTTPException 404), mkSession d d q).
Proof. intros E. unfold plagiarism_check, finish, sbind, query. cbn [working]. rewrite E. reflexivity. Qed.

(** The backend holds the Moodle id [m] without chunks, or not at all
    with a fresh next submission id: the states in which an answer
    without headers is seen again. *)
Definition unchunked (d : db) (q : seqs) (m : Z) : Prop :=
  constraints_ok d = true /\
  match find (fun y => sub_moodle_id y =? m) (t_subs d) with
  | None => Forall (fun c => ch_sub c <> seq_sub q + 1) (t_chunks d)
  | Some x => chunks_of_sub d (sub_id x) = []
  end.

Lemma find_app_none {A} (f : A -> bool) l x : find f l = None -> f x = true -> find f (l ++ [x]) = Some x.
Proof. induction l as [|y l IH]; cbn; [intros _ -> ; reflexivity|]. destruct (f y); [discriminate | auto]. Qed.

Lemma find_map {A} (p : A -> bool) (g : A -> A) (l : list A) :
  (forall y, p (g y) = p y) -> find p (map g l) = option_map g (find p l).
Proof. intros Hp. induction l as [|y l IH]; cbn; [reflexivity|]. rewrite Hp. destruct (p y); [reflexivity | exact IH]. Qed.

Lemma filter_none (s : Z) (cs : list chunk) :
  Forall (fun c => ch_sub c <> s) cs -> filter (fun c => ch_sub c =? s) cs = [].
Proof.
  induction 1 as [|c cs Hc _ IH]; cbn; [reflexivity|].
  apply Z.eqb_neq in Hc. rewrite Hc. exact IH.
Qed.

Lemma chunks_of_sub_no_rows (w : db) (sid next : Z) (s : Z) :
  chunks_of_sub (with_chunks w (chunk_rows sid next [])) s = chunks_of_sub w s.
Proof. unfold chunks_of_sub, with_chunks. cbn. rewrite app_nil_r. reflexivity. Qed.

(** Ingesting a text without headers stores or refills the submission
    and leaves it without chunks. *)
Lemma ingest_unnumbered (d : db) (q : seqs) (data : SubmissionIn) :
  source_text data <> [] ->
  split_numbered_answers (clean_text_basic (source_text data)) = [] ->
  unchunked d q (in_moodle_submission_id data) ->
  exists st s d' q', ingest_submission data (mkSession d d q) =
      (Done (ingest_response st s []), mkSession d' d' q') /\
    chunks_of_sub d' s = [] /\ unchunked d' q' (in_moodle_submission_id data).
Proof.
  intros Hne Hs [Hok Hfind].
  destruct (find _ (t_subs d)) as [x|] eqn:Hf.
  - pose proof (ingest_rechunk_run d q data x Hne Hf Hfind Hok) as E. cbv zeta in E. rewrite Hs in E.
    cbn [distinct_qnos] in E. rewrite E. do 4 eexists. split; [reflexivity|].
    rewrite chunks_of_sub_no_rows. unfold chunks_of_sub, with_update. cbn [t_chunks].
    split; [exact Hfind|]. split.
    + rewrite constraints_rows; [reflexivity | rewrite constraints_subs; exact Hok | exact (chunks_of_sub_nil d _ Hfind)].
    + unfold with_chunks, with_update. cbn [t_subs t_chunks]. rewrite find_map by (intros y; destruct (sub_id y =? sub_id x); reflexivity).
      rewrite Hf. cbn [option_map]. rewrite Z.eqb_refl. cbn [refill sub_id]. unfold chunks_of_sub. cbn [t_chunks].
      rewrite app_nil_r. exact Hfind.
  - pose proof (ingest_new_run d q data Hne Hf Hok Hfind) as E. cbv zeta in E. rewrite Hs in E.
    cbn [distinct_qnos] in E. rewrite E. do 4 eexists. split; [reflexivity|].
    rewrite chunks_of_sub_no_rows. unfold chunks_of_sub, with_sub. cbn [t_chunks].
    split; [exact (filter_none _ _ Hfind)|]. split.
    + rewrite constraints_rows; [reflexivity | rewrite constraints_subs; exact Hok|].
      rewrite Forall_forall in Hfind. exact Hfind.
    + unfold with_chunks, with_sub. cbn [t_subs t_chunks]. rewrite (find_app_none _ _ _ Hf) by apply Z.eqb_refl.
      unfold chunks_of_sub. cbn [t_chunks sub_id]. rewrite app_nil_r. exact (filter_none _ _ Hfind).
Qed.


Lemma preserves_modify P (f : db -> db) : (forall d, P d -> P (f d)) -> preserves P (modify f).
Proof. intros Hf s r s' H1 H2 E. inv E. simpl. auto. Qed.

Lemma preserves_handle_500 P {A} (m : SM A) : preserves P m -> preserves P (handle_500 m).
Proof.
  intros Hm s r s' H1 H2 E. unfold handle_500 in E.
  destruct (m s) as [[a|e] s1] eqn:Em; inv E; destruct (Hm _ _ _ H1 H2 Em); simpl; auto.
Qed.

Lemma sims_sound_chunks_app (d : db) subs cs :
  sims_sound d -> sims_sound (mkDB subs (t_chunks d ++ cs) (t_embs d) (t_sims d) (t_fbs d) (t_hist d) (t_profiles d)).
Proof.
  intros Hs r Hr. destruct (Hs r Hr) as [c [oc [Hc [Hoc H]]]].
  exists c, oc. simpl. repeat split; try apply in_or_app; auto; apply H.
Qed.

Lemma add_chunks_preserves sid chunks : preserves sims_sound (add_chunks sid chunks).
Proof.
  apply preserves_forM. intros qc _. apply preserves_bind; [apply preserves_fresh|].
  intros cid. apply preserves_modify. intros d Hd. apply sims_sound_chunks_app. exact Hd.
Qed.

(** Ingestion keeps the similarity table sound: it only appends
    submissions and chunks, so every stored result still pairs two
    distinct chunks of the same question. *)
Theorem ingest_preserves_sims_sound (data : SubmissionIn) :
  preserves sims_sound (ingest_submission data).
Proof.
  unfold ingest_submission. apply preserves_finish, preserves_handle_500.
  destruct (strip _) as [|c t]; [apply preserves_raise|].
  apply preserves_query_bind. intros d Hd. destruct (find _ _) as [ex|].
  - apply preserves_query_bind. intros d' Hd'. destruct (0 <? _)%nat; [apply preserves_ret|].
    apply preserves_bind; [apply preserves_modify; intros d1 H1 r Hr; exact (H1 r Hr)|]. intros _.
    apply preserves_bind; [apply add_chunks_preserves|]. intros _.
    apply preserves_bind; [apply preserves_commit | intros; apply preserves_ret].
  - apply preserves_bind; [apply preserves_fresh|]. intros sid.
    apply preserves_bind; [apply preserves_modify; intros d1 H1; exact H1|]. intros _.
    apply preserves_bind; [apply preserves_commit|]. intros _.
    apply preserves_bind; [apply add_chunks_preserves|]. intros _.
    apply preserves_bind; [apply preserves_commit | intros; apply preserves_ret].
Qed.

(** ** Scenarios *)

(** A deterministic fake similarity engine: the embedding of a text is
    its code points, and two embeddings are similar (1) exactly when
    they are equal. *)
Fixpoint qlist_eqb (a b : list Q) : bool :=
  match a, b with
  | [], [] => true
  | x :: a', y :: b' => Qeq_bool x y && qlist_eqb a' b'
  | _, _ => false
  end.

#[export] Instance exact_engine : SimilarityEngine := {
  local_embedding := fun t => map inject_Z t;
  cosine_similarity := fun a b => if qlist_eqb a b then 1%Q else 0%Q
}.

Definition empty_db : db := mkDB [] [] [] [] [] [] [].
Definition fresh_session (d : db) (q : seqs) : session := mkSession d d q.
Definition seqs0 : seqs := mkSeqs 0 0 0 0 0 0.

Definition payload (moodle_id : Z) (t : text) : SubmissionIn :=
  mkIn moodle_id 1 1 (100 + moodle_id) (Some t) None.

Definition answer_a : text :=
  str "1. Services give pods a stable endpoint" ++ [10] ++ str "2. ClusterIP is internal".
Definition answer_b : text :=
  str "1. Services give pods a stable endpoint" ++ [10] ++ str "2. NodePort is external".

(** Each request runs on a fresh session over the committed tables. *)
Definition after {A} (h : SM A) (d : db) (q : seqs) : db * seqs :=
  let s := snd (h (fresh_session d q)) in (committed s, sequences s).

Definition two_submissions : db * seqs :=
  let (d1, q1) := after (ingest_submission (payload 7 answer_a)) empty_db seqs0 in
  after (ingest_submission (payload 8 answer_b)) d1 q1.

Definition flagged_subs (d : db) : list (Z * bool) := map (fun x => (sub_id x, sub_flag x)) (t_subs d).

(** A submission is compared only with chunks that already have an
    embedding, i.e. with submissions checked before it (the query of
    lines 170-176 joins [ChunkEmbedding]): two submissions with the same
    answer to question 1, checked first A then B, flag B only; checking A
    alone flags nothing. *)
Example plagiarism_order_dependent :
  let (d, q) := two_submissions in
  flagged_subs (fst (after (plagiarism_check 1 (9 # 10)) d q)) = [(1, false); (2, false)] /\
  (let (d1, q1) := after (plagiarism_check 1 (9 # 10)) d q in
   flagged_subs (fst (after (plagiarism_check 2 (9 # 10)) d1 q1)) = [(1, false); (2, true)]).
Proof. vm_compute. split; reflexivity. Qed.

(** A retry of an answer that repeats a question number takes the
    re-chunk path and fails the same way. *)
Example ingest_duplicate_retry :
  let t := str "1. a" ++ [10] ++ str "1. b" in
  let (r, s) := ingest_submission (payload 7 t) (fresh_session empty_db seqs0) in
  r = Raised (HTTPException 500) /\
  map sub_id (t_subs (committed s)) = [1] /\ t_chunks (committed s) = [] /\
  fst (ingest_submission (payload 7 t) (fresh_session (committed s) (sequences s))) =
    Raised (HTTPException 500).
Proof. vm_compute. repeat split; reflexivity. Qed.

(** ** Witnesses *)

Definition demo_db : db := fst two_submissions.
Definition demo_seqs : seqs := snd two_submissions.

(** The database after checking A then B: B is flagged and one result
    is stored. *)
Definition checked_db : db * seqs :=
  let (d1, q1) := after (plagiarism_check 1 (9 # 10)) demo_db demo_seqs in
  after (plagiarism_check 2 (9 # 10)) d1 q1.

Definition recheck := plagiarism_check 2 (9 # 10) (fresh_session (fst checked_db) (snd checked_db)).

Lemma best_match_max_witness :
  let os := others (working (snd recheck)) (hd (mkChunk 0 0 0 [] []) (t_chunks (fst checked_db))) in
  best_match (map inject_Z (str "Services give pods a stable endpoint")) os =
    Some (mkBest 3 1 2) /\
  ((forall oe, In oe os ->
      Qle (cosine_similarity (map inject_Z (str "Services give pods a stable endpoint")) (emb_vec (snd oe)))
          (best_sim (mkBest 3 1 2))) /\
   exists oe, In oe os /\ best_chunk (mkBest 3 1 2) = ch_id (fst oe) /\
              best_sim (mkBest 3 1 2) =
                cosine_similarity (map inject_Z (str "Services give pods a stable endpoint")) (emb_vec (snd oe))).
Proof.
  intros os. assert (E : best_match (map inject_Z (str "Services give pods a stable endpoint")) os =
                         Some (mkBest 3 1 2)) by (vm_compute; reflexivity).
  split; [exact E | exact (best_match_max _ _ _ E)].
Defined.

Lemma plagiarism_check_sims_sound_witness :
  sims_sound (fst checked_db) /\
  plagiarism_check 2 (9 # 10) (mkSession (fst checked_db) (fst checked_db) (snd checked_db)) =
    (fst recheck, snd recheck) /\
  (sims_sound (committed (snd recheck)) /\ t_chunks (committed (snd recheck)) = t_chunks (fst checked_db)).
Proof.
  assert (H1 : sims_sound (fst checked_db)) by (apply sims_soundb_sound; vm_compute; reflexivity).
  assert (H2 : plagiarism_check 2 (9 # 10) (mkSession (fst checked_db) (fst checked_db) (snd checked_db)) =
               (fst recheck, snd recheck)) by (vm_compute; reflexivity).
  split; [exact H1 | split; [exact H2 | exact (plagiarism_check_sims_sound _ _ _ _ _ _ H1 H2)]].
Defined.

Lemma plagiarism_check_above_threshold_witness :
  sims_sound (fst checked_db) /\
  plagiarism_check 2 (9 # 10) (mkSession (fst checked_db) (fst checked_db) (snd checked_db)) =
    (fst recheck, snd recheck) /\
  exists new, t_sims (committed (snd recheck)) = t_sims (fst checked_db) ++ new /\
              Forall (fun x => Qle (9 # 10) (sim_score x)) new.
Proof.
  assert (H1 : sims_sound (fst checked_db)) by (apply sims_soundb_sound; vm_compute; reflexivity).
  assert (H2 : plagiarism_check 2 (9 # 10) (mkSession (fst checked_db) (fst checked_db) (snd checked_db)) =
               (fst recheck, snd recheck)) by (vm_compute; reflexivity).
  split; [exact H1 | split; [exact H2 | exact (plagiarism_check_above_threshold _ _ _ _ _ _ H1 H2)]].
Defined.

Lemma plagiarism_check_flags_monotone_witness :
  sims_sound (fst checked_db) /\
  plagiarism_check 2 (9 # 10) (mkSession (fst checked_db) (fst checked_db) (snd checked_db)) =
    (fst recheck, snd recheck) /\
  flag_of (fst checked_db) 2 = true /\ flag_of (committed (snd recheck)) 2 = true.
Proof.
  assert (H1 : sims_sound (fst checked_db)) by (apply sims_soundb_sound; vm_compute; reflexivity).
  assert (H2 : plagiarism_check 2 (9 # 10) (mkSession (fst checked_db) (fst checked_db) (snd checked_db)) =
               (fst recheck, snd recheck)) by (vm_compute; reflexivity).
  assert (H3 : flag_of (fst checked_db) 2 = true) by (vm_compute; reflexivity).
  split; [exact H1 | split; [exact H2 | split; [exact H3 | exact (plagiarism_check_flags_monotone _ _ _ _ _ _ _ H1 H2 H3)]]].
Defined.

Lemma sims_cross_submission_witness :
  chunks_unique (t_chunks (fst checked_db)) = true /\ sims_sound (fst checked_db) /\
  (forall r, In r (t_sims (fst checked_db)) ->
    exists c oc, In c (t_chunks (fst checked_db)) /\ In oc (t_chunks (fst checked_db)) /\
                 ch_id c = sim_chunk r /\ ch_id oc = sim_matched r /\
                 ch_qno oc = ch_qno c /\ ch_sub oc <> ch_sub c).
Proof.
  assert (H1 : chunks_unique (t_chunks (fst checked_db)) = true) by (vm_compute; reflexivity).
  assert (H2 : sims_sound (fst checked_db)) by (apply sims_soundb_sound; vm_compute; reflexivity).
  split; [exact H1 | split; [exact H2 | exact (sims_cross_submission _ H1 H2)]].
Defined.

Definition payload_a := payload 7 answer_a.

Lemma ingest_existing_idempotent_witness :
  source_text payload_a <> [] /\
  find (fun y => sub_moodle_id y =? in_moodle_submission_id payload_a) (t_subs demo_db) =
    Some (hd (mkSub 0 0 0 0 0 None [] Pending false) (t_subs demo_db)) /\
  (0 < length (chunks_of_sub demo_db 1))%nat /\
  ingest_submission payload_a (mkSession demo_db demo_db demo_seqs) =
  (Done (VDict [(str "status", VStr (str "already_exists")); (str "id", VInt 1);
                (str "chunks_saved", VInt (Z.of_nat (length (chunks_of_sub demo_db 1))))]),
   mkSession demo_db demo_db demo_seqs).
Proof.
  assert (H1 : source_text payload_a <> []) by (vm_compute; discriminate).
  assert (H2 : find (fun y => sub_moodle_id y =? in_moodle_submission_id payload_a) (t_subs demo_db) =
               Some (hd (mkSub 0 0 0 0 0 None [] Pending false) (t_subs demo_db))) by (vm_compute; reflexivity).
  assert (H3 : (0 < length (chunks_of_sub demo_db 1))%nat) by (vm_compute; lia).
  split; [exact H1 | split; [exact H2 | split; [exact H3 |]]].
  exact (ingest_existing_idempotent demo_db demo_seqs payload_a _ H1 H2 H3).
Defined.






Lemma ingest_empty_is_500_witness :
  source_text (mkIn 9 1 1 1 (Some (str "   ")) None) = [] /\
  ingest_submission (mkIn 9 1 1 1 (Some (str "   ")) None) (mkSession demo_db demo_db demo_seqs) =
    (Raised (HTTPException 500), mkSession demo_db demo_db demo_seqs).
Proof.
  assert (H : source_text (mkIn 9 1 1 1 (Some (str "   ")) None) = []) by (vm_compute; reflexivity).
  split; [exact H | exact (ingest_empty_is_500 _ _ _ H)].
Defined.

End Backend.
