(* ===== verification/Handlers.v ===== *)
(** * The grading, profile and export handlers of main.py

    [grade_submission] (lines 222-261), [llm_grade_submission] (264-323),
    [llm_multi_grade] (326-417), [student_progress] (419-479),
    [moodle_push_payload] (482-507), [get_by_moodle_id] (513-526) and
    the constant [root] and [health] (31-37), as
    programs of the session monad of [Backend] over the [FeedbackResult],
    [ConceptHistory] and [StudentProfile] tables.  The handlers that call
    the generative provider take the provider's state as a parameter:
    the calls they make are the subject of [MultiAgent], and here only
    their answers matter.  Timestamps ([created_at], [updated_at]) are
    not represented, so the [created_at] fields of [student_progress]'s
    answer are left out. *)

From Stdlib Require Import String ZArith QArith List Lia Bool.
From S2P Require Import Prelude Regex Chunking Json PyFormat MultiAgent Profile Grading Backend.
Import ListNotations.
Open Scope list_scope.

Module Handlers.
Import Py PyFormat Chunking MultiAgent Profile Grading Backend.

(** ** Table operations *)

Definition fresh_fb_id : SM Z :=
  next_ids (fun q => mkSeqs (seq_sub q) (seq_chunk q) (seq_emb q) (seq_sim q) (seq_fb q + 1)
                            (seq_hist q)) seq_fb.
Definition fresh_hist_id : SM Z :=
  next_ids (fun q => mkSeqs (seq_sub q) (seq_chunk q) (seq_emb q) (seq_sim q) (seq_fb q)
                            (seq_hist q + 1)) seq_hist.

Definition add_fb (x : feedback_result) : SM unit :=
  modify (fun d => mkDB (t_subs d) (t_chunks d) (t_embs d) (t_sims d) (t_fbs d ++ [x]) (t_hist d)
                        (t_profiles d)).
Definition add_hist (x : concept_row) : SM unit :=
  modify (fun d => mkDB (t_subs d) (t_chunks d) (t_embs d) (t_sims d) (t_fbs d) (t_hist d ++ [x])
                        (t_profiles d)).
Definition add_profile (x : profile_row) : SM unit :=
  modify (fun d => mkDB (t_subs d) (t_chunks d) (t_embs d) (t_sims d) (t_fbs d) (t_hist d)
                        (t_profiles d ++ [x])).

(** Attribute assignments on the loaded [StudentProfile] of [student]. *)
Definition update_profile (student : Z) (f : profile_row -> profile_row) : SM unit :=
  modify (fun d => mkDB (t_subs d) (t_chunks d) (t_embs d) (t_sims d) (t_fbs d) (t_hist d)
                        (map (fun p => if p_student p =? student then f p else p) (t_profiles d))).

(** [db.query(Submission).filter(Submission.id == submission_id).first()]. *)
Definition find_sub (d : db) (submission_id : Z) : option submission :=
  find (fun x => sub_id x =? submission_id) (t_subs d).

Definition find_profile (d : db) (student : Z) : option profile_row :=
  find (fun p => p_student p =? student) (t_profiles d).

(** [sub.status = "graded"]. *)
Definition set_graded (y : submission) : submission :=
  mkSub (sub_id y) (sub_moodle_id y) (sub_assignment y) (sub_course y) (sub_student y)
        (sub_raw y) (sub_cleaned y) Graded (sub_flag y).

(** [d[k] = v] on a [dict] with [int] keys. *)
Fixpoint zdict_set (m : list (Z * text)) (k : Z) (v : text) : list (Z * text) :=
  match m with
  | [] => [(k, v)]
  | (k', v') :: m' => if k =? k' then (k', v) :: m' else (k', v') :: zdict_set m' k v
  end.

(** [{c.question_no: c.cleaned_text for c in chunks}]. *)
Definition qmap_of_chunks (cs : list chunk) : list (Z * text) :=
  fold_left (fun m c => zdict_set m (ch_qno c) (ch_cleaned c)) cs [].

(** A Python operation that may raise, inside a handler. *)
Definition of_result {A} (r : result A) : SM A :=
  match r with
  | Ok a => sret a
  | Err e => raise (PyError e)
  end.

Definition status_text (st : status) : text :=
  match st with
  | Pending => str "pending"
  | Flagged => str "flagged"
  | Graded => str "graded"
  end.

Definition trend_text (t : trend) : text :=
  match t with
  | Unknown => str "unknown"
  | Improving => str "improving"
  | Declining => str "declining"
  | Stable => str "stable"
  end.

(** The warning sign U+26A0 with the emoji variation selector U+FE0F. *)
Definition warning_sign : text := [9888; 65039].

Definition heuristic_warning : text :=
  warning_sign ++
  str " Plagiarism warning: This submission is highly similar to another submission on at least one question." ++
  [10; 10].

Definition llm_warning : text := warning_sign ++ str " Plagiarism warning: Similarity flagged." ++ [10; 10].

(** [float(column) if column else None] on a [Text] column. *)
Definition float_or_none (column : text) : result py_value :=
  match column with
  | [] => Ok VNone
  | _ => match parse_float_str column with
         | Some f => Ok (VFloat f)
         | None => Err ValueError
         end
  end.

(** ** [grade_submission] *)

Definition grade_submission (submission_id : Z) (max_grade : Q) : SM py_value :=
  finish (handle_500 (
    do sub <- query (fun d => find_sub d submission_id) ;
    match sub with
    | None => raise (HTTPException 404)
    | Some x =>
        do chunks <- query (fun d => chunks_of_sub d submission_id) ;
        let qmap := qmap_of_chunks chunks in
        let '(grade, feedback_text, feedback_json) := grade_networking_short_answer qmap max_grade in
        let feedback_text := if sub_flag x then heuristic_warning ++ feedback_text else feedback_text in
        do fid <- fresh_fb_id ;
        add_fb (mkFb fid submission_id (float_repr (Finite grade)) feedback_text feedback_json
                     (str "0.75")) ;;
        update_sub (sub_id x) set_graded ;;
        commit ;;
        sret (VDict [(str "status", VStr (str "graded")); (str "submission_id", VInt submission_id);
                     (str "grade", VFloat (Finite grade)); (str "feedback_id", VInt fid)])
    end)).

(** ** [llm_grade_submission] *)

Definition sys_grade : text :=
  str "You are an academic assistant that grades short answers and returns STRICT JSON.".

(** [sep.join(x)] for any value [x]: a list must hold only [str]; a
    [str] is iterated by characters and a [dict] by keys; other values
    are not iterable. *)
Fixpoint join_strs (sep : text) (l : list py_value) : result text :=
  match l with
  | [] => Ok []
  | [VStr s] => Ok s
  | VStr s :: l' => t <- join_strs sep l' ;; Ok (s ++ sep ++ t)
  | _ :: _ => Err TypeError
  end.

Definition py_join (sep : text) (x : py_value) : result text :=
  match x with
  | VList l => join_strs sep l
  | VStr s => Ok (join sep (map (fun c => [c]) s))
  | VDict kvs => Ok (join sep (map fst kvs))
  | _ => Err TypeError
  end.

Definition nl_dash : text := [10; 45; 32].

(** The [feedback_text] expression of lines 294-300, evaluated left to
    right. *)
Definition llm_feedback (result : py_value) : Py.result text :=
  g <- get result (str "grade") VNone ;;
  st <- get result (str "strengths") (VList []) ;; st <- py_join nl_dash st ;;
  wk <- get result (str "weaknesses") (VList []) ;; wk <- py_join nl_dash wk ;;
  ns <- get result (str "next_steps") (VList []) ;; ns <- py_join nl_dash ns ;;
  Ok (str "LLM Feedback:" ++ [10] ++ str "Grade: " ++ py_str g ++ [10; 10] ++
      str "Strengths:" ++ nl_dash ++ st ++ [10; 10] ++
      str "Weaknesses:" ++ nl_dash ++ wk ++ [10; 10] ++
      str "Next steps:" ++ nl_dash ++ ns).

Section Provider.
Context {St : Type} `{LLMProvider St}.

Definition llm_grade_submission (submission_id : Z) (ps : pstate St) : SM py_value :=
  finish (handle_500 (
    do sub <- query (fun d => find_sub d submission_id) ;
    match sub with
    | None => raise (HTTPException 404)
    | Some x =>
        do chunks <- query (fun d => chunks_of_sub d submission_id) ;
        let qmap := qmap_of_chunks chunks in
        do result <- of_result (fst (call_llm sys_grade
                                       (PLLMGrade (qget qmap 1) (qget qmap 2) (qget qmap 3)) ps)) ;
        do feedback_text <- of_result (llm_feedback result) ;
        let feedback_text := if sub_flag x then llm_warning ++ feedback_text else feedback_text in
        do g <- of_result (get result (str "grade") (VStr [])) ;
        do c <- of_result (get result (str "confidence") (VStr [])) ;
        do fid <- fresh_fb_id ;
        add_fb (mkFb fid submission_id (py_str g) feedback_text result (py_str c)) ;;
        update_sub (sub_id x) set_graded ;;
        commit ;;
        sret (VDict [(str "status", VStr (str "graded")); (str "submission_id", VInt submission_id);
                     (str "feedback_id", VInt fid); (str "llm_result", result)])
    end)).

(** ** [llm_multi_grade] *)

(** [student_context] of lines 338-343. *)
Definition student_context (student : Z) (profile : option profile_row) : py_value :=
  VDict [(str "student_id", VInt student);
         (str "weak_concepts", VList (map VStr (match profile with Some p => p_weak p | None => [] end)));
         (str "trend", VStr (match profile with Some p => trend_text (p_trend p) | None => str "unknown" end));
         (str "last_feedback_summary", VStr (match profile with Some p => p_summary p | None => [] end))].

(** [float(cs.get(k, 0))]. *)
Definition concept_score (cs : py_value) (k : string) : Py.result pyfloat :=
  v <- get cs (str k) (VInt 0) ;; py_float v.

(** A value written to a [Text] column: a [str] as it is; the driver
    writes any other value as its text. *)
Definition text_column (v : py_value) : text := py_str v.

(** Lines 379-393: create the profile, or update it with the trend from
    the previous grade. *)
Definition upsert_profile (student : Z) (profile : option profile_row) (weak : list text)
  (summary : text) (new_grade : pyfloat) : SM unit :=
  match profile with
  | None => add_profile (mkProf student weak summary (float_repr new_grade) Unknown)
  | Some p =>
      do prev <- of_result (match p_last_grade p with
                            | [] => Ok None
                            | t => match parse_float_str t with
                                   | Some f => Ok (Some f)
                                   | None => Err ValueError
                                   end
                            end) ;
      update_profile student (fun p =>
        mkProf (p_student p) weak summary (float_repr new_grade) (calc_trend prev new_grade))
  end.

Definition llm_multi_grade (submission_id : Z) (ps : pstate St) : SM py_value :=
  finish (handle_500 (
    do sub <- query (fun d => find_sub d submission_id) ;
    match sub with
    | None => raise (HTTPException 404)
    | Some x =>
        do chunks <- query (fun d => chunks_of_sub d submission_id) ;
        let qmap := qmap_of_chunks chunks in
        do profile <- query (fun d => find_profile d (sub_student x)) ;
        do result <- of_result (fst (run_multi_agent qmap (student_context (sub_student x) profile) ps)) ;
        do ff <- of_result (get result (str "final_feedback") (VStr [])) ;
        do feedback_text <- (if sub_flag x then
                               match ff with
                               | VStr s => sret (VStr (llm_warning ++ s))
                               | _ => raise (PyError TypeError)
                               end
                             else sret ff) ;
        do cs <- of_result (get result (str "concept_scores") (VDict [])) ;
        do service <- of_result (get cs (str "service") (VStr [])) ;
        do cn <- of_result (get cs (str "clusterip_nodeport") (VStr [])) ;
        do np <- of_result (get cs (str "networkpolicy") (VStr [])) ;
        do hid <- fresh_hist_id ;
        add_hist (mkHist hid (sub_student x) submission_id (py_str service) (py_str cn) (py_str np)) ;;
        do profile <- query (fun d => find_profile d (sub_student x)) ;
        do g <- of_result (get result (str "grade") (VInt 0)) ;
        do new_grade <- of_result (py_float g) ;
        do s1 <- of_result (concept_score cs "service") ;
        do s2 <- of_result (concept_score cs "clusterip_nodeport") ;
        do s3 <- of_result (concept_score cs "networkpolicy") ;
        let weak := pick_weak_concepts [(str "service", s1); (str "clusterip_nodeport", s2);
                                        (str "networkpolicy", s3)] 2 in
        do ff2 <- of_result (get result (str "final_feedback") (VStr [])) ;
        do summary <- of_result (summarize_feedback ff2 180) ;
        upsert_profile (sub_student x) profile weak summary new_grade ;;
        do g2 <- of_result (get result (str "grade") (VStr [])) ;
        do c <- of_result (get result (str "confidence") (VStr [])) ;
        do fid <- fresh_fb_id ;
        add_fb (mkFb fid submission_id (py_str g2) (text_column feedback_text) result (py_str c)) ;;
        update_sub (sub_id x) set_graded ;;
        commit ;;
        sret (VDict [(str "status", VStr (str "graded")); (str "submission_id", VInt submission_id);
                     (str "feedback_id", VInt fid); (str "multi_agent", result)])
    end)).

End Provider.

(** ** [student_progress] *)

(** [order_by(id.desc()).limit(limit)]; PostgreSQL rejects a negative
    [LIMIT]. *)
Definition latest {A} (id : A -> Z) (limit : Z) (rows : list A) : SM (list A) :=
  if limit <? 0 then raise DataError
  else sret (firstn (Z.to_nat limit)
               (fold_left (fun acc r =>
                  (fix ins (l : list A) : list A :=
                     match l with
                     | [] => [r]
                     | y :: l' => if id y <? id r then r :: l else y :: ins l'
                     end) acc) rows [])).

Definition concept_entry (r : concept_row) : Py.result py_value :=
  s <- float_or_none (h_service r) ;;
  c <- float_or_none (h_clusterip_nodeport r) ;;
  n <- float_or_none (h_networkpolicy r) ;;
  Ok (VDict [(str "submission_id", VInt (h_sub r)); (str "service", s);
             (str "clusterip_nodeport", c); (str "networkpolicy", n)]).

Definition grade_entry (g : feedback_result) : Py.result py_value :=
  gr <- float_or_none (fb_grade g) ;;
  cf <- float_or_none (fb_conf g) ;;
  Ok (VDict [(str "submission_id", VInt (fb_sub g)); (str "grade", gr); (str "confidence", cf)]).

Fixpoint map_result {A B} (f : A -> Py.result B) (l : list A) : Py.result (list B) :=
  match l with
  | [] => Ok []
  | x :: l' => y <- f x ;; ys <- map_result f l' ;; Ok (y :: ys)
  end.

(** The join of lines 447-454: the feedback of the student's
    submissions. *)
Definition student_feedback (d : db) (student : Z) : list feedback_result :=
  filter (fun f => existsb (fun x => (sub_id x =? fb_sub f) && (sub_student x =? student)) (t_subs d))
         (t_fbs d).

(** No [except] clause: a failing [float()] reaches the client. *)
Definition student_progress (student : Z) (limit : Z) : SM py_value :=
  finish (
    do profile <- query (fun d => find_profile d student) ;
    do rows <- query (fun d => filter (fun r => h_student r =? student) (t_hist d)) ;
    do rows <- latest h_id limit rows ;
    do concept_history <- of_result (map_result concept_entry rows) ;
    do grades <- query (fun d => student_feedback d student) ;
    do grades <- latest fb_id limit grades ;
    do grade_history <- of_result (map_result grade_entry grades) ;
    do last_grade <- of_result (match profile with
                                | Some p => float_or_none (p_last_grade p)
                                | None => Ok VNone
                                end) ;
    sret (VDict [(str "student_id", VInt student);
                 (str "profile", VDict [
                    (str "weak_concepts", VList (map VStr (match profile with Some p => p_weak p | None => [] end)));
                    (str "trend", VStr (match profile with Some p => trend_text (p_trend p) | None => str "unknown" end));
                    (str "last_grade", last_grade);
                    (str "last_feedback_summary",
                       VStr (match profile with Some p => p_summary p | None => [] end))]);
                 (str "grade_history", VList grade_history);
                 (str "concept_history", VList concept_history)])).

(** ** [moodle_push_payload] and [get_by_moodle_id] *)

(** The feedback of [submission_id] of highest id ([order_by(id.desc())
    .first()]). *)
Definition latest_feedback (d : db) (submission_id : Z) : option feedback_result :=
  fold_left (fun acc f =>
      if fb_sub f =? submission_id then
        match acc with
        | Some g => if fb_id g <? fb_id f then Some f else acc
        | None => Some f
        end
      else acc) (t_fbs d) None.

(** No [except] clause: the 404s reach the client as they are. *)
Definition moodle_push_payload (submission_id : Z) : SM py_value :=
  finish (
    do sub <- query (fun d => find_sub d submission_id) ;
    match sub with
    | None => raise (HTTPException 404)
    | Some x =>
        do fb <- query (fun d => latest_feedback d submission_id) ;
        match fb with
        | None => raise (HTTPException 404)
        | Some f =>
            do grade <- of_result (float_or_none (fb_grade f)) ;
            sret (VDict [(str "moodle_user_id", VInt (sub_student x));
                         (str "moodle_submission_id",
                            if sub_moodle_id x =? 0 then VNone else VInt (sub_moodle_id x));
                         (str "moodle_assign_id", VInt (sub_assignment x));
                         (str "grade", grade);
                         (str "feedback_text", VStr (fb_text f))])
        end
    end).

(** [root] and [health] (lines 31-37) open no session; [health]
    answers the [LLM_MODE] config.py read at import. *)
Definition root : SM py_value :=
  sret (VDict [(str "message", VStr (str "FYP backend running")); (str "try", VStr (str "/health or /docs"))]).

Definition health (LLM_MODE : text) : SM py_value :=
  sret (VDict [(str "status", VStr (str "ok")); (str "llm_mode", VStr LLM_MODE)]).

Definition get_by_moodle_id (moodle_submission_id : Z) : SM py_value :=
  finish (
    do sub <- query (fun d => find (fun x => sub_moodle_id x =? moodle_submission_id) (t_subs d)) ;
    match sub with
    | None => raise (HTTPException 404)
    | Some x =>
        sret (VDict [(str "id", VInt (sub_id x)); (str "moodle_submission_id", VInt (sub_moodle_id x));
                     (str "student_id", VInt (sub_student x));
                     (str "assignment_id", VInt (sub_assignment x));
                     (str "course_id", VInt (sub_course x));
                     (str "status", VStr (status_text (sub_status x)));
                     (str "plagiarism_flag", VBool (sub_flag x))])
    end).

(** ** Invariants of the handlers *)

Lemma preserves_of_result P {A} (r : Py.result A) : preserves P (of_result r).
Proof. destruct r; [apply preserves_ret | apply preserves_raise]. Qed.

(** Prove [preserves P h] for a handler [h] by following its program;
    [step] proves [P (f d)] from [P d] for each table update [f]. *)
Ltac preserve step :=
  unfold add_fb, add_hist, add_profile, update_profile, update_sub, fresh_fb_id, fresh_hist_id,
    upsert_profile, latest;
  repeat first
    [ apply preserves_finish | apply preserves_handle_500
    | apply preserves_ret | apply preserves_raise | apply preserves_commit | apply preserves_fresh
    | apply preserves_of_result
    | apply preserves_query_bind; intros ?d ?Hd
    | apply preserves_bind; [|intros ?]
    | apply preserves_modify; intros ?d ?Hd; step
    | match goal with
      | |- preserves _ (match ?x with _ => _ end) => destruct x
      | |- preserves _ (if ?b then _ else _) => destruct b
      end ].

(** The tables of the plagiarism check. *)
Definition plag_tables (C : list chunk) (E : list embedding) (S : list similarity_result) (d : db)
  : Prop := t_chunks d = C /\ t_embs d = E /\ t_sims d = S.

(** ConceptHistory and FeedbackResult only grow, and a profile is never
    removed. *)
Definition grows (H : list concept_row) (F : list feedback_result) (Ps : list Z) (d : db) : Prop :=
  (exists l, t_hist d = H ++ l) /\ (exists l, t_fbs d = F ++ l) /\
  (forall st, In st Ps -> In st (map p_student (t_profiles d))).

Lemma map_p_student_update (ps : list profile_row) (st : Z) (f : profile_row -> profile_row) :
  (forall p, p_student (f p) = p_student p) ->
  map p_student (map (fun p => if p_student p =? st then f p else p) ps) = map p_student ps.
Proof.
  intros Hf. rewrite map_map. apply map_ext. intros p. destruct (p_student p =? st); auto.
Qed.

Lemma grows_step H F Ps d d' :
  grows H F Ps d ->
  (exists l, t_hist d' = t_hist d ++ l) -> (exists l, t_fbs d' = t_fbs d ++ l) ->
  (forall st, In st (map p_student (t_profiles d)) -> In st (map p_student (t_profiles d'))) ->
  grows H F Ps d'.
Proof.
  intros [[l1 E1] [[l2 E2] Hp]] [l3 E3] [l4 E4] Hps.
  split; [|split].
  - exists (l1 ++ l3). rewrite E3, E1, app_assoc. reflexivity.
  - exists (l2 ++ l4). rewrite E4, E2, app_assoc. reflexivity.
  - auto.
Qed.

(** Grading never touches the tables of the plagiarism check: every
    run of [grade_submission], [llm_grade_submission] and
    [llm_multi_grade], failed or not, leaves the chunks, the embeddings
    and the similarity results as they were. *)
Theorem grading_handlers_frame {St} `{LLMProvider St} C E S (sid : Z) (m : Q) (ps : pstate St) :
  preserves (plag_tables C E S) (grade_submission sid m) /\
  preserves (plag_tables C E S) (llm_grade_submission sid ps) /\
  preserves (plag_tables C E S) (llm_multi_grade sid ps).
Proof.
  unfold grade_submission, llm_grade_submission, llm_multi_grade.
  split; [|split]; preserve ltac:(unfold plag_tables in *; simpl; tauto).
Qed.

(** C31. The concept history and the feedback results are append-only,
    and a student profile, once created, is never removed: every run of
    the three grading handlers only appends to [ConceptHistory] and
    [FeedbackResult] and only adds or updates [StudentProfile] rows. *)
Theorem grading_handlers_append_only {St} `{LLMProvider St} hist fbs students (sid : Z) (m : Q)
  (ps : pstate St) :
  preserves (grows hist fbs students) (grade_submission sid m) /\
  preserves (grows hist fbs students) (llm_grade_submission sid ps) /\
  preserves (grows hist fbs students) (llm_multi_grade sid ps).
Proof.
  unfold grade_submission, llm_grade_submission, llm_multi_grade.
  split; [|split]; preserve ltac:(
    cbv beta;
    match goal with
    | Hx : grows _ _ _ ?d |- context [t_hist ?d] => apply (grows_step _ _ _ d); [exact Hx| | |]
    end; cbn [t_hist t_fbs t_profiles];
    [ first [ exists []; apply eq_sym, app_nil_r | eexists; reflexivity ]
    | first [ exists []; apply eq_sym, app_nil_r | eexists; reflexivity ]
    | intros st Hst;
      first [ exact Hst
            | rewrite map_app; apply in_or_app; left; exact Hst
            | rewrite map_p_student_update by reflexivity; exact Hst ] ]).
Qed.

(** The export handlers only read: [student_progress],
    [moodle_push_payload] and [get_by_moodle_id] leave the committed
    database as it was, whatever they answer. *)
Theorem export_handlers_read_only (d : db) (q : seqs) (student limit sid moodle_id : Z) :
  committed (snd (student_progress student limit (mkSession d d q))) = d /\
  committed (snd (moodle_push_payload sid (mkSession d d q))) = d /\
  committed (snd (get_by_moodle_id moodle_id (mkSession d d q))) = d.
Proof.
  pose (P := fun d' => d' = d).
  assert (Hp : forall {A} (h : SM A), preserves P h -> committed (snd (h (mkSession d d q))) = d).
  { intros A h Hh. destruct (h (mkSession d d q)) as [r s'] eqn:E.
    exact (proj1 (Hh (mkSession d d q) r s' eq_refl eq_refl E)). }
  unfold student_progress, moodle_push_payload, get_by_moodle_id.
  split; [|split]; apply Hp; preserve idtac.
Qed.

(** C37. An unknown submission id: the three grading handlers raise
    their [HTTPException(404)] inside [try], where [except Exception]
    turns it into a 500; [moodle_push_payload], which has no [except],
    answers 404.  Nothing is written. *)
Theorem unknown_submission_status {St} `{LLMProvider St} (d : db) (q : seqs) (sid : Z) (m : Q)
  (ps : pstate St) :
  find_sub d sid = None ->
  grade_submission sid m (mkSession d d q) = (Raised (HTTPException 500), mkSession d d q) /\
  llm_grade_submission sid ps (mkSession d d q) = (Raised (HTTPException 500), mkSession d d q) /\
  llm_multi_grade sid ps (mkSession d d q) = (Raised (HTTPException 500), mkSession d d q) /\
  moodle_push_payload sid (mkSession d d q) = (Raised (HTTPException 404), mkSession d d q).
Proof.
  intros Hn.
  unfold grade_submission, llm_grade_submission, llm_multi_grade, moodle_push_payload,
    finish, handle_500, sbind, query, raise; cbn [working]. rewrite Hn.
  repeat split.
Qed.

(** The database [grade_submission] commits: the submission marked
    graded and one feedback row appended. *)
Definition graded_db (d : db) (x : submission) (fb : feedback_result) : db :=
  mkDB (map (fun y => if sub_id y =? sub_id x then set_graded y else y) (t_subs d))
       (t_chunks d) (t_embs d) (t_sims d) (t_fbs d ++ [fb]) (t_hist d) (t_profiles d).

(** C32. [grade_submission] on a stored submission always succeeds: it
    commits exactly one new feedback row, with the heuristic grade
    written as [str(grade)], the feedback text (behind the plagiarism
    warning when the submission is flagged), the JSON breakdown and
    confidence ["0.75"]; it marks the submission graded and changes
    nothing else. *)
Theorem grade_submission_spec (d : db) (q : seqs) (sid : Z) (m : Q) (x : submission) :
  find_sub d sid = Some x -> constraints_ok d = true ->
  let '(g, ft, fj) := grade_networking_short_answer (qmap_of_chunks (chunks_of_sub d sid)) m in
  let q' := mkSeqs (seq_sub q) (seq_chunk q) (seq_emb q) (seq_sim q) (seq_fb q + 1) (seq_hist q) in
  let fb := mkFb (seq_fb q + 1) sid (float_repr (Finite g))
                 (if sub_flag x then heuristic_warning ++ ft else ft) fj (str "0.75") in
  grade_submission sid m (mkSession d d q) =
  (Done (VDict [(str "status", VStr (str "graded")); (str "submission_id", VInt sid);
                (str "grade", VFloat (Finite g)); (str "feedback_id", VInt (seq_fb q + 1))]),
   mkSession (graded_db d x fb) (graded_db d x fb) q').
Proof.
  intros Hf Hc.
  destruct (grade_networking_short_answer _ _) as [[g ft] fj] eqn:Eg.
  unfold grade_submission, finish, handle_500, sbind, query, sret, fresh_fb_id, next_ids,
    add_fb, update_sub, modify, commit; cbn [working committed sequences seq_fb].
  rewrite Hf. cbn [working committed sequences]. rewrite Eg.
  cbn [t_subs t_chunks t_embs t_sims t_fbs t_hist t_profiles seq_sub seq_chunk
       seq_emb seq_sim seq_fb seq_hist].
  match goal with
  | |- context [constraints_ok ?y] => change (constraints_ok y) with (constraints_ok d)
  end.
  rewrite Hc. reflexivity.
Qed.

(** ** Scenarios *)

Definition corr_answer (a b c : Z) : py_value :=
  VDict [(str "q_scores", VDict [(str "Q1", VInt a); (str "Q2", VInt b); (str "Q3", VInt c)])].

Definition synth_answer : py_value :=
  VDict [(str "final_feedback", VStr (str "Good work"));
         (str "concept_scores", VDict [(str "service", VFloat (Finite (9 # 10)));
                                      (str "clusterip_nodeport", VFloat (Finite (4 # 10)));
                                      (str "networkpolicy", VFloat (Finite (6 # 10)))]);
         (str "grade", VInt 50); (str "confidence", VFloat (Finite (8 # 10)))].

(** The six answers of a run whose QA pass flags nothing. *)
Definition plain_run (corr : py_value) : list (Py.result py_value) :=
  [Ok corr; Ok (VDict []); Ok (VDict []); Ok (VDict []); Ok synth_answer; Ok (VDict [])].

(** Submission 1 graded twice by the multi-agent pipeline: q_scores
    3/2/1 (grade 67), then 3/3/3 (grade 100). *)
Definition twice_graded : db * seqs :=
  let (d1, q1) := after (llm_multi_grade 1 (mkPState (plain_run (corr_answer 3 2 1)) []))
                        demo_db demo_seqs in
  after (llm_multi_grade 1 (mkPState (plain_run (corr_answer 3 3 3)) [])) d1 q1.

Definition profile_view (d : db) : list (Z * list text * text * trend) :=
  map (fun p => (p_student p, p_weak p, p_last_grade p, p_trend p)) (t_profiles d).

(** The profile of a student is created by the first multi-agent
    grading (trend unknown) and updated by the next one: one profile
    row, whose last grade is the fused grade 100, whose trend compares it
    with the previous 67 (improving), and whose weak concepts are the
    two lowest concept scores; each run appends one concept-history row
    and one feedback row. *)
Example multi_grade_profile_scenario :
  profile_view (fst (after (llm_multi_grade 1 (mkPState (plain_run (corr_answer 3 2 1)) []))
                           demo_db demo_seqs)) =
    [(107, [str "clusterip_nodeport"; str "networkpolicy"], str "67.0", Unknown)] /\
  profile_view (fst twice_graded) =
    [(107, [str "clusterip_nodeport"; str "networkpolicy"], str "100.0", Improving)] /\
  length (t_hist (fst twice_graded)) = 2%nat /\ length (t_fbs (fst twice_graded)) = 2%nat.
Proof. vm_compute. split; [reflexivity | split; [reflexivity | split; reflexivity]]. Qed.

Definition letter_grade : py_value :=
  VDict [(str "grade", VStr (str "B+")); (str "strengths", VList [VStr (str "clear")])].

Definition letter_graded : db * seqs :=
  after (llm_grade_submission 1 (mkPState [Ok letter_grade] [])) demo_db demo_seqs.

(** A grade the provider returns that is not a number is stored as
    it is by [llm_grade_submission] (["B+"]); from then on
    [moodle_push_payload] of the submission and [student_progress] of
    the student fail with [ValueError] at [float(fb.grade)]. *)
Example llm_letter_grade_breaks_exports :
  map fb_grade (t_fbs (fst letter_graded)) = [str "B+"] /\
  fst (moodle_push_payload 1 (fresh_session (fst letter_graded) (snd letter_graded))) =
    Raised (PyError ValueError) /\
  fst (student_progress 107 20 (fresh_session (fst letter_graded) (snd letter_graded))) =
    Raised (PyError ValueError).
Proof. vm_compute. split; [reflexivity | split; reflexivity]. Qed.

(** ** Witnesses *)

Lemma unknown_submission_status_witness :
  find_sub demo_db 9 = None /\
  grade_submission 9 100 (mkSession demo_db demo_db demo_seqs) =
    (Raised (HTTPException 500), mkSession demo_db demo_db demo_seqs) /\
  llm_grade_submission 9 (mkPState ([] : list (Py.result py_value)) [])
      (mkSession demo_db demo_db demo_seqs) =
    (Raised (HTTPException 500), mkSession demo_db demo_db demo_seqs) /\
  llm_multi_grade 9 (mkPState ([] : list (Py.result py_value)) []) (mkSession demo_db demo_db demo_seqs) =
    (Raised (HTTPException 500), mkSession demo_db demo_db demo_seqs) /\
  moodle_push_payload 9 (mkSession demo_db demo_db demo_seqs) =
    (Raised (HTTPException 404), mkSession demo_db demo_db demo_seqs).
Proof.
  assert (H : find_sub demo_db 9 = None) by (vm_compute; reflexivity).
  split; [exact H | exact (unknown_submission_status demo_db demo_seqs 9 100 _ H)].
Defined.

Definition demo_sub : submission := hd (mkSub 0 0 0 0 0 None [] Pending false) (t_subs demo_db).

Lemma grade_submission_spec_witness :
  find_sub demo_db 1 = Some demo_sub /\ constraints_ok demo_db = true /\
  (let '(g, ft, fj) := grade_networking_short_answer (qmap_of_chunks (chunks_of_sub demo_db 1)) 100 in
   let q' := mkSeqs (seq_sub demo_seqs) (seq_chunk demo_seqs) (seq_emb demo_seqs) (seq_sim demo_seqs)
                    (seq_fb demo_seqs + 1) (seq_hist demo_seqs) in
   let fb := mkFb (seq_fb demo_seqs + 1) 1 (float_repr (Finite g))
                  (if sub_flag demo_sub then heuristic_warning ++ ft else ft) fj (str "0.75") in
   grade_submission 1 100 (mkSession demo_db demo_db demo_seqs) =
   (Done (VDict [(str "status", VStr (str "graded")); (str "submission_id", VInt 1);
                 (str "grade", VFloat (Finite g)); (str "feedback_id", VInt (seq_fb demo_seqs + 1))]),
    mkSession (graded_db demo_db demo_sub fb) (graded_db demo_db demo_sub fb) q')).
Proof.
  assert (H1 : find_sub demo_db 1 = Some demo_sub) by (vm_compute; reflexivity).
  assert (H2 : constraints_ok demo_db = true) by (vm_compute; reflexivity).
  split; [exact H1 | split; [exact H2 | exact (grade_submission_spec demo_db demo_seqs 1 100 demo_sub H1 H2)]].
Defined.

(** Round trip of an integer grade through the [grade] column:
    [student_progress] reads the text [str(grade)] that [llm_multi_grade]
    stores for its integer grade ([float(g.grade) if g.grade else None])
    as that integer as a float, never as [None] and never with a
    [ValueError]. *)
Theorem grade_column_roundtrip (z : Z) : float_or_none (py_str (VInt z)) = Ok (VFloat (Finite (inject_Z z))).
Proof.
  destruct (str_int_roundtrip z) as [_ H]. cbn [py_str py_repr py_float] in *. unfold float_or_none.
  destruct (parse_float_str (py_str_int z)) as [f|] eqn:E; [|discriminate].
  injection H as ->. destruct (py_str_int z); [vm_compute in E; discriminate E | reflexivity].
Qed.

End Handlers.
