(* ===== verification/Scheduler.v ===== *)
(** * The deadline scheduler (scheduler_deadline_pipeline.py) and the HTTP routing of main.py

    The scheduler is a script that reads an assignment and its
    submissions from Moodle and drives the backend over HTTP: for each
    submission it asks whether the backend already holds it
    ([GET /submission/by_moodle/{id}]), extracts its text, ingests it,
    runs the plagiarism check and, once the deadline has passed, grades
    it with the multi-agent pipeline and pushes the grade to Moodle.

    This file models the routing table of main.py as the sequence of
    route registrations the module performs ([register]), the backend as
    a server answering requests with the handler models of [Backend]
    and [Handlers] (class [BackendAPI], instance [app_api]), and the
    script as a program of a state-and-error monad over the backend's
    state and the grades pushed to Moodle.  Moodle's answers, the file
    download and pypdf's page texts are oracles ([moodle]), joined and
    stripped by [extract_text_from_pdf]; the printing is
    not modelled, nor the range errors of [datetime.fromtimestamp] in
    the print of the due date. *)

From Stdlib Require Import String ZArith QArith List Lia Bool.
From S2P Require Import Prelude Regex Chunking Json PyFormat MultiAgent Providers Grading Backend Handlers.
Import ListNotations.
Open Scope list_scope.

Module Scheduler.
Import Py PyFormat Chunking MultiAgent Providers Backend Handlers.

(** ** The routing table of main.py *)

(** The endpoints of main.py, in the order of their decorators. *)
Inductive route : Type :=
| RtRoot | RtHealth | RtIngest | RtPlagiarism | RtGrade | RtLLMGrade | RtMultiGrade
| RtProgress | RtPushPayload | RtByMoodle.

Scheme Equality for route.

(** The routes of the application and of the [APIRouter]. *)
Record routing : Type := mkRouting { app_routes : list route; router_routes : list route }.

(** A decorator [@app.get]/[@app.post] adds a route to the application;
    [APIRouter(...)] creates an empty router; [app.include_router]
    copies the routes the router holds at that moment; a decorator
    [@router.get] adds a route to the router only. *)
Inductive registration : Type :=
| AppRoute (r : route)
| NewRouter
| IncludeRouter
| RouterRoute (r : route).

Definition register (st : routing) (x : registration) : routing :=
  match x with
  | AppRoute r => mkRouting (app_routes st ++ [r]) (router_routes st)
  | NewRouter => mkRouting (app_routes st) []
  | IncludeRouter => mkRouting (app_routes st ++ router_routes st) (router_routes st)
  | RouterRoute r => mkRouting (app_routes st) (router_routes st ++ [r])
  end.

(** The registrations of main.py, in the order the module runs them
    (lines 31, 35, 48, 145, 222, 264, 326, 419, 482, 510, 511, 513). *)
Definition main_registrations : list registration :=
  [AppRoute RtRoot; AppRoute RtHealth; AppRoute RtIngest; AppRoute RtPlagiarism; AppRoute RtGrade;
   AppRoute RtLLMGrade; AppRoute RtMultiGrade; AppRoute RtProgress; AppRoute RtPushPayload;
   NewRouter; IncludeRouter; RouterRoute RtByMoodle].

Definition app_routing : routing := fold_left register main_registrations (mkRouting [] []).

Definition routed_in (rt : routing) (r : route) : bool := existsb (route_beq r) (app_routes rt).

(** ** The backend as an HTTP server *)

(** The requests of the application's endpoints, with their path and
    query parameters. *)
Inductive request : Type :=
| RRoot
| RHealth
| RByMoodle (moodle_submission_id : Z)
| RIngest (data : SubmissionIn)
| RPlagiarism (submission_id : Z) (threshold : Q)
| RGrade (submission_id : Z) (max_grade : Q)
| RLLMGrade (submission_id : Z)
| RMultiGrade (submission_id : Z)
| RProgress (student_id : Z) (limit : Z)
| RPushPayload (submission_id : Z).

Definition route_of (r : request) : route :=
  match r with
  | RRoot => RtRoot
  | RHealth => RtHealth
  | RByMoodle _ => RtByMoodle
  | RIngest _ => RtIngest
  | RPlagiarism _ _ => RtPlagiarism
  | RGrade _ _ => RtGrade
  | RLLMGrade _ => RtLLMGrade
  | RMultiGrade _ => RtMultiGrade
  | RProgress _ _ => RtProgress
  | RPushPayload _ => RtPushPayload
  end.

(** What a client observes: a status code and the JSON body of a
    successful answer. *)
Definition response : Type := (Z * py_value)%type.

(** The status of a handler's outcome: [HTTPException(n)] answers [n];
    any other exception escapes the handler and the server answers 500. *)
Definition http_response (r : outcome py_value) : response :=
  match r with
  | Done v => (200, v)
  | Raised (HTTPException n) => (n, VNone)
  | Raised _ => (500, VNone)
  end.

(** What persists between requests: the committed database and the
    [SERIAL] sequences. *)
Record server : Type := mkServer { sv_db : db; sv_seqs : seqs }.

(** One request runs in a fresh session over the committed database. *)
Definition run_handler (h : SM py_value) (sv : server) : response * server :=
  let '(r, s') := h (mkSession (sv_db sv) (sv_db sv) (sv_seqs sv)) in
  (http_response r, mkServer (committed s') (sequences s')).

(** The interface between the scripts and the backend. *)
Class BackendAPI (Srv : Type) : Type := {
  serve : request -> Srv -> response * Srv
}.

Section App.
Context `{SimilarityEngine} {St : Type} `{LLMProvider St}.

(** The environment config.py reads at import, and the provider
    [get_llm()] builds for each grading request. *)
Variable env : environ.
Variable ps0 : pstate St.

Definition handler (r : request) : SM py_value :=
  match r with
  | RRoot => root
  | RHealth => health (LLM_MODE env)
  | RByMoodle m => get_by_moodle_id m
  | RIngest d => ingest_submission d
  | RPlagiarism sid thr => plagiarism_check sid thr
  | RGrade sid g => grade_submission sid g
  | RLLMGrade sid => llm_grade_submission sid ps0
  | RMultiGrade sid => llm_multi_grade sid ps0
  | RProgress st lim => student_progress st lim
  | RPushPayload sid => moodle_push_payload sid
  end.

(** A request whose route the application does not hold is answered
    404 by the framework. *)
Definition serve_routes (rt : routing) (r : request) (sv : server) : response * server :=
  if routed_in rt (route_of r) then run_handler (handler r) sv else ((404, VNone), sv).

Definition serve_app : request -> server -> response * server := serve_routes app_routing.

End App.

Definition app_api `{SimilarityEngine} {St : Type} `{LLMProvider St} (env : environ) (ps0 : pstate St)
  : BackendAPI server := {| serve := serve_app env ps0 |}.

(** ** The script's values and errors *)

(** The exceptions that stop the script: one of its Python operations
    raises, a subscript raises [IndexError] or [KeyError], or
    [raise_for_status] raises [requests.HTTPError]. *)
Inductive serr : Type :=
| SPy (e : exc)
| IndexError
| KeyError
| HTTPError (status : Z).

Inductive sresult (A : Type) : Type :=
| SOk (a : A)
| SErr (e : serr).
Arguments SOk {A} a.
Arguments SErr {A} e.

Definition rthen {A B} (r : sresult A) (k : A -> sresult B) : sresult B :=
  match r with SOk a => k a | SErr e => SErr e end.

Declare Scope sched_scope.
Delimit Scope sched_scope with sched.
Notation "'let?' x ':=' r 'in' k" := (rthen r (fun x => k))
  (at level 61, x name, r at next level, right associativity) : sched_scope.
Open Scope sched_scope.

Definition of_py {A} (r : Py.result A) : sresult A :=
  match r with Ok a => SOk a | Err e => SErr (SPy e) end.

(** [for x in v]: a list gives its elements, a dict its keys, a [str]
    its characters; other values are not iterable. *)
Definition py_iter (v : py_value) : sresult (list py_value) :=
  match v with
  | VList l => SOk l
  | VDict kvs => SOk (map (fun kv => VStr (fst kv)) kvs)
  | VStr s => SOk (map (fun c => VStr [c]) s)
  | _ => SErr (SPy TypeError)
  end.

(** [len(v)]. *)
Definition py_len (v : py_value) : sresult Z :=
  match v with
  | VList l => SOk (Z.of_nat (length l))
  | VDict kvs => SOk (Z.of_nat (length kvs))
  | VStr s => SOk (Z.of_nat (length s))
  | _ => SErr (SPy TypeError)
  end.

(** [v[k]] with a [str] key. *)
Definition getitem (v : py_value) (k : text) : sresult py_value :=
  match v with
  | VDict kvs => match dict_find kvs k with Some x => SOk x | None => SErr KeyError end
  | _ => SErr (SPy TypeError)
  end.

(** [v[0]]. *)
Definition getitem0 (v : py_value) : sresult py_value :=
  match v with
  | VList (x :: _) => SOk x
  | VStr (c :: _) => SOk (VStr [c])
  | VList [] | VStr [] => SErr IndexError
  | VDict _ => SErr KeyError
  | _ => SErr (SPy TypeError)
  end.

(** [v == s] for a [str] literal and [v == n] for an [int]. *)
Definition py_eq_str (v : py_value) (s : text) : bool :=
  match v with VStr t => if list_eq_dec Z.eq_dec t s then true else false | _ => false end.

Definition py_eq_int (v : py_value) (n : Z) : bool :=
  match v with
  | VInt z => z =? n
  | VBool b => (if b then 1 else 0) =? n
  | VFloat (Finite q) => Qeq_bool q (inject_Z n)
  | _ => false
  end.

(** [v or d]. *)
Definition py_or (v d : py_value) : py_value := if truthy v then v else d.

(** The [str] a method of [str] is called on ([v.strip()],
    [v.lower()]): other values have no such attribute. *)
Definition str_of (v : py_value) : sresult text :=
  match v with VStr s => SOk s | _ => SErr (SPy AttributeError) end.

Definition ends_with (s suffix : text) : bool := is_prefix (rev suffix) (rev s).

(** ** Moodle *)

(** [MOODLE_TOKEN] (default empty), [COURSE_ID] and [ASSIGNMENT_ID]
    after [int()] of the environment. *)
Record config : Type := mkConfig { moodle_token : text; course_id : Z; assignment_id : Z }.

(** A grade pushed with [mod_assign_save_grade]; [push_submission] is
    the Moodle submission it was computed for (the call itself sends
    the user).  [push_grade] is the form field [requests] sends for the
    grade: [str()] of the value, or no field at all ([None]) when the
    value is Python's [None], which [requests] leaves out of a form. *)
Record push : Type := mkPush {
  push_submission : py_value; push_assign : py_value; push_user : py_value;
  push_grade : option text; push_feedback : py_value }.

(** Moodle as the script sees it: the decoded replies of its web
    service functions; [download_file(add_token_to_fileurl(url), out)]
    for the URL and the file name under [DOWNLOAD_DIR] (the bytes it
    writes, or [HTTPError]); pypdf's [page.extract_text()] for every page
    of a file ([None] when [PdfReader] raises). *)
Record moodle : Type := mkMoodle {
  m_assignments : py_value;
  m_submissions : py_value;
  m_save_reply : push -> py_value;
  m_download : text -> text -> sresult (list Z);
  m_pages : list Z -> option (list (option text)) }.

(** [extract_text_from_pdf] (lines 18-28): the page texts ([or ""])
    joined by newlines and stripped; [""] when pypdf raises. *)
Definition extract_text_from_pdf (pages : option (list (option text))) : text :=
  match pages with
  | None => []
  | Some ps => strip (Grading.join [10] (map (fun o => match o with Some t => t | None => [] end) ps))
  end.

(** [moodle_call]: without a token it raises before sending; a reply
    [dict] whose ["exception"] is truthy raises [RuntimeError]. *)
Definition moodle_reply (cfg : config) (data : py_value) : sresult py_value :=
  match moodle_token cfg with
  | [] => SErr (SPy RuntimeError)
  | _ =>
      match data with
      | VDict kvs =>
          if truthy (match dict_find kvs (str "exception") with Some x => x | None => VNone end)
          then SErr (SPy RuntimeError) else SOk data
      | _ => SOk data
      end
  end.

(** [get_assignment_due_date]: the first assignment with the configured
    id, in course order, gives [int(a.get("duedate") or 0)]; none gives
    0. *)
Fixpoint due_in_assignments (aid : Z) (assigns : list py_value) : sresult (option Z) :=
  match assigns with
  | [] => SOk None
  | a :: rest =>
      let? id := of_py (get a (str "id") VNone) in
      if py_eq_int id aid then
        let? dd := of_py (get a (str "duedate") VNone) in
        let? n := of_py (py_int (py_or dd (VInt 0))) in
        SOk (Some n)
      else due_in_assignments aid rest
  end.

Fixpoint due_in_courses (aid : Z) (courses : list py_value) : sresult (option Z) :=
  match courses with
  | [] => SOk None
  | c :: rest =>
      let? av := of_py (get c (str "assignments") (VList [])) in
      let? assigns := py_iter av in
      let? r := due_in_assignments aid assigns in
      match r with Some n => SOk (Some n) | None => due_in_courses aid rest end
  end.

Definition get_assignment_due_date (cfg : config) (mdl : moodle) : sresult Z :=
  let? data := moodle_reply cfg (m_assignments mdl) in
  let? cv := of_py (get data (str "courses") (VList [])) in
  let? courses := py_iter cv in
  let? r := due_in_courses (assignment_id cfg) courses in
  SOk (match r with Some n => n | None => 0 end).

(** [get_submissions]: [data.get("assignments", [])[0].get("submissions", [])]. *)
Definition get_submissions (cfg : config) (mdl : moodle) : sresult py_value :=
  let? data := moodle_reply cfg (m_submissions mdl) in
  let? av := of_py (get data (str "assignments") (VList [])) in
  let? a0 := getitem0 av in
  of_py (get a0 (str "submissions") (VList [])).

(** ** [get_submission_text] *)

(** The first element of a list for which a search step returns a
    text; the search stops at the first exception. *)
Fixpoint first_text (f : py_value -> sresult (option text)) (l : list py_value) : sresult (option text) :=
  match l with
  | [] => SOk None
  | x :: rest => let? o := f x in match o with Some t => SOk (Some t) | None => first_text f rest end
  end.

(** [txt = ef.get("text") or ""; if txt.strip(): return txt]. *)
Definition editor_text (ef : py_value) : sresult (option text) :=
  let? v := of_py (get ef (str "text") VNone) in
  let? t := str_of (py_or v (VStr [])) in
  SOk (match strip t with [] => None | _ => Some t end).

(** [txt = fa.get("text") or ""; if txt and txt.strip(): return txt]. *)
Definition area_text (fa : py_value) : sresult (option text) :=
  let? v := of_py (get fa (str "text") VNone) in
  let w := py_or v (VStr []) in
  if truthy w then
    let? t := str_of w in
    SOk (match strip t with [] => None | _ => Some t end)
  else SOk None.

(** Lines 90-102: an ["onlinetext"] plugin, editor fields first. *)
Definition online_text (p : py_value) : sresult (option text) :=
  let? ty := of_py (get p (str "type") VNone) in
  if py_eq_str ty (str "onlinetext") then
    let? ev := of_py (get p (str "editorfields") (VList [])) in
    let? efs := py_iter ev in
    let? r := first_text editor_text efs in
    match r with
    | Some t => SOk (Some t)
    | None =>
        let? fv := of_py (get p (str "fileareas") (VList [])) in
        let? fas := py_iter fv in
        first_text area_text fas
    end
  else SOk None.

(** Lines 108-126: a file with a URL and a name ending in [.pdf] is
    downloaded to [<id>_<userid>_<filename>] -- the name as Moodle gives
    it -- and read; its text, or [""] when it has none, ends the search.
    [.lower()] of a non-[str] name raises [AttributeError], as does
    [urlparse] of a non-[str] URL in [add_token_to_fileurl]. *)
Definition file_text (mdl : moodle) (sub f : py_value) : sresult (option text) :=
  let? filename := of_py (get f (str "filename") (VStr [])) in
  let? fileurl := of_py (get f (str "fileurl") (VStr [])) in
  if negb (truthy fileurl) then SOk None
  else
    let? name := str_of filename in
    if ends_with (lower name) (str ".pdf") then
      let? sid := of_py (get sub (str "id") VNone) in
      let? uid := of_py (get sub (str "userid") VNone) in
      let out := py_str sid ++ [95] ++ py_str uid ++ [95] ++ name in
      let? url := str_of fileurl in
      let? bytes := m_download mdl url out in
      let t := extract_text_from_pdf (m_pages mdl bytes) in
      SOk (Some (match strip t with [] => [] | _ => t end))
    else SOk None.

Definition filearea_files (mdl : moodle) (sub fa : py_value) : sresult (option text) :=
  let? fv := of_py (get fa (str "files") (VList [])) in
  let? fs := py_iter fv in
  first_text (file_text mdl sub) fs.

Definition upload_text (mdl : moodle) (sub p : py_value) : sresult (option text) :=
  let? ty := of_py (get p (str "type") VNone) in
  if py_eq_str ty (str "file") then
    let? fv := of_py (get p (str "fileareas") (VList [])) in
    let? fas := py_iter fv in
    first_text (filearea_files mdl sub) fas
  else SOk None.

Definition get_submission_text (mdl : moodle) (sub : py_value) : sresult text :=
  let? pv := of_py (get sub (str "plugins") (VList [])) in
  let? plugins := py_iter pv in
  let? r := first_text online_text plugins in
  match r with
  | Some t => SOk t
  | None => let? r2 := first_text (upload_text mdl sub) plugins in
            SOk (match r2 with Some t => t | None => [] end)
  end.

(** ** The script as a program over the backend and Moodle *)

(** What the script changes: the backend's state and the grades Moodle
    has saved. *)
Record world (Srv : Type) : Type := mkWorld { w_srv : Srv; w_pushes : list push }.
Arguments mkWorld {Srv} w_srv w_pushes.
Arguments w_srv {Srv} w.
Arguments w_pushes {Srv} w.

Section Script.
Context {Srv : Type} `{BackendAPI Srv}.

Definition SS (A : Type) : Type := world Srv -> sresult A * world Srv.

Definition wret {A} (a : A) : SS A := fun w => (SOk a, w).

Definition wbind {A B} (m : SS A) (k : A -> SS B) : SS B :=
  fun w => match m w with
           | (SOk a, w') => k a w'
           | (SErr e, w') => (SErr e, w')
           end.

(** A step of the script's own code, which may raise. *)
Definition wlift {A} (r : sresult A) : SS A := fun w => (r, w).

(** One HTTP request to the backend. *)
Definition call (r : request) : SS response :=
  fun w => let '(resp, sv') := serve r (w_srv w) in (SOk resp, mkWorld sv' (w_pushes w)).

Local Notation "'let!' x ':=' m 'in' k" := (wbind m (fun x => k))
  (at level 61, x name, m at next level, right associativity).

(** A path parameter reaches the handler when it is an [int] (the ids
    Moodle and the backend return are); any other value is answered 422
    by the framework. *)
Definition path_int (v : py_value) : option Z :=
  match v with VInt z => Some z | _ => None end.

(** [backend_post]: [raise_for_status], then [r.json()]; a request the
    framework rejects ([None]) is answered 422. *)
Definition backend_post (r : option request) : SS py_value :=
  match r with
  | None => wlift (SErr (HTTPError 422))
  | Some rq =>
      let! resp := call rq in
      if 400 <=? fst resp then wlift (SErr (HTTPError (fst resp))) else wret (snd resp)
  end.

(** [backend_get_existing] (lines 158-165): the JSON of a 200 answer,
    [None] otherwise. *)
Definition backend_get_existing (mid : py_value) : SS (option py_value) :=
  match path_int mid with
  | None => wret None
  | Some m => let! resp := call (RByMoodle m) in
              wret (if fst resp =? 200 then Some (snd resp) else None)
  end.

(** [backend_submission_exists] (lines 55-63). *)
Definition backend_submission_exists (mid : py_value) : SS bool :=
  match path_int mid with
  | None => wret false
  | Some m => let! resp := call (RByMoodle m) in wret (fst resp =? 200)
  end.

(** The body of [POST /ingest/submission]: [SubmissionIn] validates the
    ids as [int]s; [cleaned_text] is absent, so it is [""]. *)
Definition ingest_payload (cfg : config) (mid student : py_value) (raw : text) : option request :=
  match mid, student with
  | VInt m, VInt u => Some (RIngest (mkIn m (assignment_id cfg) (course_id cfg) u (Some raw) (Some [])))
  | _, _ => None
  end.

(** [push_grade_to_moodle] (lines 142-156): Moodle saves the grade
    unless its reply is an exception. *)
Definition push_grade_to_moodle (cfg : config) (mdl : moodle) (p : push) : SS unit :=
  match moodle_token cfg with
  | [] => wlift (SErr (SPy RuntimeError))
  | _ => fun w =>
      match moodle_reply cfg (m_save_reply mdl p) with
      | SOk _ => (SOk tt, mkWorld (w_srv w) (w_pushes w ++ [p]))
      | SErr e => (SErr e, w)
      end
  end.

(** The plagiarism threshold the script sends. *)
Definition plag_threshold : Q := 85 # 100.

(** Lines 177-232: the body of the loop of [main] for one submission;
    [continue] is [wret tt]. *)
Definition process_sub (cfg : config) (mdl : moodle) (due now : Z) (sub : py_value) : SS unit :=
  let! mid := wlift (of_py (get sub (str "id") VNone)) in
  let! student := wlift (of_py (get sub (str "userid") VNone)) in
  let! existing := backend_get_existing mid in
  let! skip := (match existing with
                | Some v =>
                    if truthy v then
                      let! _ := wlift (getitem v (str "id")) in
                      let! _ := wlift (of_py (get v (str "status") VNone)) in
                      wret true
                    else wret false
                | None => wret false
                end) in
  if skip then wret tt else
  let! raw := wlift (get_submission_text mdl sub) in
  match strip raw with
  | [] => wret tt
  | _ =>
    let! exists_ := backend_submission_exists mid in
    if exists_ then wret tt else
    let! ingest := backend_post (ingest_payload cfg mid student raw) in
    let! sid := wlift (getitem ingest (str "id")) in
    match path_int sid with
    | None => wret tt
    | Some s =>
        let! plag := call (RPlagiarism s plag_threshold) in
        if 400 <=? fst plag then wret tt else
        if negb (due =? 0) && (now <? due) then wret tt else
        let! graded := backend_post (Some (RMultiGrade s)) in
        let! result := wlift (getitem graded (str "multi_agent")) in
        let! g := wlift (of_py (get result (str "grade") (VInt 0))) in
        let! grade := wlift (of_py (py_float g)) in
        let! feedback := wlift (of_py (get result (str "final_feedback") (VStr []))) in
        push_grade_to_moodle cfg mdl (mkPush mid (VInt (assignment_id cfg)) student (Some (float_repr grade)) feedback)
    end
  end.

Fixpoint for_each (l : list py_value) (f : py_value -> SS unit) : SS unit :=
  match l with
  | [] => wret tt
  | x :: rest => let! _ := f x in for_each rest f
  end.

(** [main] (lines 167-232), at the time [now]. *)
Definition main (cfg : config) (mdl : moodle) (now : Z) : SS unit :=
  let! due := wlift (get_assignment_due_date cfg mdl) in
  let! subs := wlift (get_submissions cfg mdl) in
  let! _ := wlift (py_len subs) in
  let! l := wlift (py_iter subs) in
  for_each l (process_sub cfg mdl due now).

End Script.

(** ** What the script needs of the backend to grade a submission *)

(** The JSON of a multi-agent grading that the script reads: a
    [multi_agent] entry with a grade [float()] accepts and a feedback. *)
Definition graded_reply (v : py_value) : Prop :=
  exists result g f fb, getitem v (str "multi_agent") = SOk result /\
    get result (str "grade") (VInt 0) = Ok g /\ py_float g = Ok f /\
    get result (str "final_feedback") (VStr []) = Ok fb.

(** A backend that answers the script's requests the way the grading
    routes of main.py answer a submission they have not stored yet: the
    lookup by Moodle id answers anything but 200 (which main.py's
    application always does, see [scheduler_existence_checks_fail]),
    ingestion succeeds with the new id, the plagiarism check succeeds
    and the grading succeeds with a [graded_reply]. *)
Class GradingBackend (Srv : Type) `{BackendAPI Srv} : Prop := {
  gb_unknown : forall m sv, fst (fst (serve (RByMoodle m) sv)) <> 200;
  gb_ingest : forall p sv, fst (fst (serve (RIngest p) sv)) < 400 /\
    exists s, getitem (snd (fst (serve (RIngest p) sv))) (str "id") = SOk (VInt s);
  gb_plagiarism : forall s thr sv, fst (fst (serve (RPlagiarism s thr) sv)) < 400;
  gb_grade : forall s sv, fst (fst (serve (RMultiGrade s) sv)) < 400 /\
    graded_reply (snd (fst (serve (RMultiGrade s) sv)))
}.

(** A submission the script grades: [int] ids and a submission text
    that is not blank. *)
Definition gradable (mdl : moodle) (sub : py_value) : Prop :=
  (exists m, get sub (str "id") VNone = Ok (VInt m)) /\
  (exists u, get sub (str "userid") VNone = Ok (VInt u)) /\
  exists raw, get_submission_text mdl sub = SOk raw /\ strip raw <> [].

(** ** Lemmas *)

Section Pushes.
Context {Srv : Type} `{BackendAPI Srv}.

(** A part of the script that saves no grade in Moodle. *)
Definition no_push {A} (m : SS A) : Prop :=
  forall (w : world Srv) r w', m w = (r, w') -> w_pushes w' = w_pushes w.

Lemma no_push_ret {A} (a : A) : no_push (wret a).
Proof. intros w r w' E. inv E. reflexivity. Qed.

Lemma no_push_lift {A} (r : sresult A) : no_push (wlift r).
Proof. intros w r' w' E. inv E. reflexivity. Qed.

Lemma no_push_call (rq : request) : no_push (call rq).
Proof.
  intros w r w' E. unfold call in E. destruct (serve rq (w_srv w)) as [resp sv']. inv E. reflexivity.
Qed.

Lemma no_push_bind {A B} (m : SS A) (k : A -> SS B) :
  no_push m -> (forall a, no_push (k a)) -> no_push (wbind m k).
Proof.
  intros Hm Hk w r w' E. unfold wbind in E. destruct (m w) as [[a|e] w1] eqn:Em.
  - rewrite (Hk a _ _ _ E). exact (Hm _ _ _ Em).
  - inv E. exact (Hm _ _ _ Em).
Qed.

Lemma no_push_for_each (l : list py_value) (f : py_value -> SS unit) :
  (forall x, In x l -> no_push (f x)) -> no_push (for_each l f).
Proof.
  induction l as [|x l IH]; intros Hf; cbn [for_each]; [apply no_push_ret|].
  apply no_push_bind; [apply Hf; left; reflexivity | intros _; apply IH; intros y Hy; apply Hf; right; exact Hy].
Qed.

End Pushes.

(** Follow a program of the script through its binds and branches. *)
Ltac no_push_steps :=
  unfold backend_post, backend_get_existing, backend_submission_exists;
  repeat first
    [ apply no_push_ret | apply no_push_lift | apply no_push_call
    | apply no_push_bind; [|intros ?]
    | match goal with
      | |- no_push (match ?x with _ => _ end) => destruct x
      | |- no_push (if ?b then _ else _) => destruct b
      end ].

(** A run after the deadline reaches the push of every gradable
    submission. *)
Section Progress.
Context {Srv : Type} `{BackendAPI Srv} `{!GradingBackend Srv}.

Lemma process_sub_grades (cfg : config) (mdl : moodle) (due now : Z) (sub : py_value) (w : world Srv) :
  negb (due =? 0) && (now <? due) = false ->
  (forall p, exists x, moodle_reply cfg (m_save_reply mdl p) = SOk x) ->
  gradable mdl sub ->
  exists p sv', process_sub cfg mdl due now sub w = (SOk tt, mkWorld sv' (w_pushes w ++ [p])) /\
    get sub (str "id") VNone = Ok (push_submission p).
Proof.
  intros Hd Hsave [[m Hm] [[u Hu] [raw [Hraw Hb]]]].
  destruct w as [sv ps].
  cbv [process_sub wbind wlift wret call backend_get_existing backend_submission_exists backend_post path_int of_py].
  rewrite Hm, Hu. cbn [w_srv w_pushes].
  destruct (serve (RByMoodle m) sv) as [[c1 v1] sv1] eqn:S1.
  pose proof (gb_unknown m sv) as U1. rewrite S1 in U1. cbn [fst] in U1. apply Z.eqb_neq in U1.
  cbn [fst snd]. rewrite U1. cbv beta iota. rewrite Hraw.
  destruct (strip raw) eqn:Es; [contradiction|]. cbv beta iota. cbn [w_srv w_pushes].
  destruct (serve (RByMoodle m) sv1) as [[c2 v2] sv2] eqn:S2.
  pose proof (gb_unknown m sv1) as U2. rewrite S2 in U2. cbn [fst] in U2. apply Z.eqb_neq in U2.
  cbn [fst snd]. rewrite U2. cbv beta iota. cbv [ingest_payload]. cbn [w_srv w_pushes].
  match goal with |- context [serve (RIngest ?p) sv2] => set (pl := p) end.
  destruct (gb_ingest pl sv2) as [I1 [s I2]]. 
  destruct (serve (RIngest pl) sv2) as [[c3 v3] sv3] eqn:S3. cbn [fst snd] in I1, I2.
  apply Z.leb_gt in I1. cbn [fst snd]. rewrite I1. cbv beta iota. rewrite I2. cbv beta iota. cbn [w_srv w_pushes].
  pose proof (gb_plagiarism s plag_threshold sv3) as P1.
  destruct (serve (RPlagiarism s plag_threshold) sv3) as [[c4 v4] sv4] eqn:S4. cbn [fst] in P1.
  apply Z.leb_gt in P1. cbn [fst snd]. rewrite P1, Hd. cbv beta iota. cbn [w_srv w_pushes].
  destruct (gb_grade s sv4) as [G1 [result [g [f [fb [G2 [G3 [G4 G5]]]]]]]].
  destruct (serve (RMultiGrade s) sv4) as [[c5 v5] sv5] eqn:S5. cbn [fst snd] in G1, G2.
  apply Z.leb_gt in G1. cbn [fst snd]. rewrite G1. cbv beta iota. rewrite G2, G3, G4, G5. cbv beta iota.
  unfold push_grade_to_moodle.
  set (p := mkPush (VInt m) (VInt (assignment_id cfg)) (VInt u) (Some (float_repr f)) fb).
  destruct (Hsave p) as [x Hx]. exists p, sv5.
  destruct (moodle_token cfg) eqn:T; [unfold moodle_reply in Hx; rewrite T in Hx; discriminate|].
  rewrite Hx. split; reflexivity.
Qed.
Lemma for_each_grades (cfg : config) (mdl : moodle) (due now : Z) (subs : list py_value) (w : world Srv) :
  negb (due =? 0) && (now <? due) = false ->
  (forall p, exists x, moodle_reply cfg (m_save_reply mdl p) = SOk x) ->
  Forall (gradable mdl) subs ->
  exists ps sv', for_each subs (process_sub cfg mdl due now) w = (SOk tt, mkWorld sv' (w_pushes w ++ ps)) /\
    map (fun p => Ok (push_submission p)) ps = map (fun sub => get sub (str "id") VNone) subs.
Proof.
  intros Hd Hsave Hsubs. revert w. induction Hsubs as [|sub subs Hg _ IH]; intros w.
  - exists [], (w_srv w). rewrite app_nil_r. destruct w. split; reflexivity.
  - destruct (process_sub_grades cfg mdl due now sub w Hd Hsave Hg) as [p [sv1 [E1 Ep]]].
    destruct (IH (mkWorld sv1 (w_pushes w ++ [p]))) as [ps [sv' [E2 Eps]]].
    cbn [w_pushes] in E2. exists (p :: ps), sv'. cbn [for_each]. unfold wbind. rewrite E1, E2, <- app_assoc.
    split; [reflexivity|]. cbn [map]. rewrite Ep, Eps. reflexivity.
Qed.
End Progress.

(** C16. Nothing the backend stores is seen by the scheduler's checks:
    against the application main.py builds, [backend_get_existing]
    answers [None] and [backend_submission_exists] answers [False] for
    every submission id and every state of the backend, and neither
    changes it, so every run ingests, checks and (after the deadline)
    grades and pushes every submission again. *)
Theorem scheduler_existence_checks_fail `{SimilarityEngine} {St : Type} `{LLMProvider St}
  (env : environ) (ps0 : pstate St) (mid : py_value) (w : world server) :
  @backend_get_existing _ (app_api env ps0) mid w = (SOk None, w) /\
  @backend_submission_exists _ (app_api env ps0) mid w = (SOk false, w).
Proof.
  destruct w as [sv ps]. unfold backend_get_existing, backend_submission_exists.
  destruct (path_int mid) as [m|]; [|split; reflexivity].
  split; reflexivity.
Qed.

(** The application serves every endpoint of main.py with its handler,
    except the router's [GET /submission/by_moodle/{id}], which it
    answers 404 without running anything. *)
Lemma app_routes_all_but_by_moodle `{SimilarityEngine} {St : Type} `{LLMProvider St}
  (env : environ) (ps0 : pstate St) (r : request) (sv : server) :
  serve_app env ps0 r sv =
  if route_beq (route_of r) RtByMoodle then ((404, VNone), sv) else run_handler (handler env ps0 r) sv.
Proof. destruct r; reflexivity. Qed.

(** A handler that opens no session answers its value and leaves the
    server as it was. *)
Lemma run_handler_sret (v : py_value) (sv : server) : run_handler (sret v) sv = ((200, v), sv).
Proof. destruct sv. reflexivity. Qed.

(** [GET /health] answers [{"status": "ok", "llm_mode": LLM_MODE}]
    and leaves the backend unchanged; the mode it reports is in lower
    case, and it is ["gemini"] exactly when the grading requests do not
    use the mock provider [get_llm()] builds (they use Gemini, or fail
    without a key). *)
Theorem health_reports_mode `{SimilarityEngine} {St : Type} `{LLMProvider St}
  (env : environ) (ps0 : pstate St) (svc : service) (sv : server) :
  serve_app env ps0 RHealth sv =
    ((200, VDict [(str "status", VStr (str "ok")); (str "llm_mode", VStr (LLM_MODE env))]), sv) /\
  lower (LLM_MODE env) = LLM_MODE env /\
  (LLM_MODE env = str "gemini" <-> get_llm env svc <> Ok (LMock tt)).
Proof.
  split; [rewrite app_routes_all_but_by_moodle; apply run_handler_sret|].
  split; [apply LLM_MODE_lower|]. rewrite get_llm_mock.
  destruct (list_eq_dec Z.eq_dec (LLM_MODE env) (str "gemini")); tauto.
Qed.

(** C17. No grade reaches Moodle before the deadline: when the
    assignment has a due date and the run starts before it, a run of
    [main], whatever the submissions, the backend and Moodle answer and
    wherever it stops, saves no grade. *)
Theorem no_push_before_deadline {Srv : Type} `{BackendAPI Srv} (cfg : config) (mdl : moodle)
  (due now : Z) (w : world Srv) r w' :
  get_assignment_due_date cfg mdl = SOk due -> due <> 0 -> now < due ->
  main cfg mdl now w = (r, w') -> w_pushes w' = w_pushes w.
Proof.
  intros Hdue Hd Hn E.
  assert (Hb : negb (due =? 0) && (now <? due) = true).
  { apply andb_true_intro. split; [apply negb_true_iff, Z.eqb_neq | apply Z.ltb_lt]; assumption. }
  unfold main, wbind, wlift in E. rewrite Hdue in E.
  destruct (get_submissions cfg mdl) as [sv|e]; [|inv E; reflexivity].
  destruct (py_len sv) as [n|e]; [|inv E; reflexivity].
  destruct (py_iter sv) as [l|e]; [|inv E; reflexivity].
  revert E. apply no_push_for_each. intros x _. unfold process_sub. rewrite Hb. no_push_steps.
Qed.

(** C18. Liveness: a run of the scheduler's [main] at or after the due
    date (or with no due date) against a backend that grades what it is
    sent and a Moodle that saves what it is given ends normally, having
    saved one grade per submission of the assignment, in the order Moodle
    lists them, each for that submission's id. *)
Theorem main_grades_every_submission {Srv : Type} `{GradingBackend Srv} (cfg : config) (mdl : moodle)
  (due now : Z) (subs : list py_value) (w : world Srv) :
  get_assignment_due_date cfg mdl = SOk due -> due = 0 \/ due <= now ->
  get_submissions cfg mdl = SOk (VList subs) ->
  (forall p, exists x, moodle_reply cfg (m_save_reply mdl p) = SOk x) ->
  Forall (gradable mdl) subs ->
  exists ps sv', main cfg mdl now w = (SOk tt, mkWorld sv' (w_pushes w ++ ps)) /\
    map (fun p => Ok (push_submission p)) ps = map (fun sub => get sub (str "id") VNone) subs.
Proof.
  intros Hdue Hd Hsubs Hsave Hg.
  assert (Hb : negb (due =? 0) && (now <? due) = false).
  { destruct Hd as [->|Hd]; [reflexivity|]. apply andb_false_intro2, Z.ltb_ge. exact Hd. }
  unfold main, wbind, wlift. rewrite Hdue, Hsubs. cbn [py_len py_iter].
  exact (for_each_grades cfg mdl due now subs w Hb Hsave Hg).
Qed.


(** Every request but the router's runs its handler. *)
Lemma app_serve `{SimilarityEngine} {St : Type} `{LLMProvider St} (env : environ) (ps0 : pstate St)
  (r : request) (sv : server) :
  route_beq (route_of r) RtByMoodle = false -> serve_app env ps0 r sv = run_handler (handler env ps0 r) sv.
Proof. intros E. rewrite app_routes_all_but_by_moodle, E. reflexivity. Qed.

(** The id of an ingestion answer. *)
Lemma ingest_response_id (st : text) (id : Z) (chunks : list (Z * text)) :
  getitem (ingest_response st id chunks) (str "id") = SOk (VInt id).
Proof. vm_compute. reflexivity. Qed.

(** main.py's application on an answer without headers: ingestion
    answers 200 with the id of a submission without chunks, whose
    plagiarism check then answers 404. *)
Lemma app_unnumbered `{SimilarityEngine} {St : Type} `{LLMProvider St} (env : environ) (ps0 : pstate St)
  (data : SubmissionIn) (thr : Q) (d : db) (q : seqs) :
  source_text data <> [] -> split_numbered_answers (clean_text_basic (source_text data)) = [] ->
  unchunked d q (in_moodle_submission_id data) ->
  exists st s d' q', serve_app env ps0 (RIngest data) (mkServer d q) = ((200, ingest_response st s []), mkServer d' q') /\
    serve_app env ps0 (RPlagiarism s thr) (mkServer d' q') = ((404, VNone), mkServer d' q') /\
    unchunked d' q' (in_moodle_submission_id data).
Proof.
  intros Hne Hs Hun. destruct (ingest_unnumbered d q data Hne Hs Hun) as [st [s [d' [q' [Ei [Hc Hun']]]]]].
  exists st, s, d', q'. rewrite !(app_serve env ps0) by reflexivity. cbn [handler]. unfold run_handler. cbn [sv_db sv_seqs].
  rewrite Ei, (plagiarism_no_chunks s thr d' q' Hc). split; [reflexivity | split; [reflexivity | exact Hun']].
Qed.

(** The text the scheduler sends for a non-blank answer. *)
Lemma or_text_nonempty (raw : text) : strip raw <> [] -> or_text (Some []) (or_text (Some raw) []) = raw.
Proof. destruct raw as [|c r]; [intros H; contradiction H; reflexivity | reflexivity]. Qed.

(** C19. A submission whose text has no numbered header is never
    graded: from any state of main.py's backend in which its Moodle id
    is not stored (and the next submission id is fresh) or is stored
    without chunks, the scheduler's loop body on it stores or refills it
    without chunks, gets 404 from the plagiarism check, returns normally
    without pushing a grade, and leaves the backend again with the
    submission stored without chunks, so every later run does the
    same. *)
Theorem unnumbered_answer_never_graded `{SimilarityEngine} {St : Type} `{LLMProvider St}
  (env : environ) (ps0 : pstate St) (cfg : config) (mdl : moodle) (due now : Z) (sub : py_value)
  (m u : Z) (raw : text) (d : db) (q : seqs) (ps : list push) :
  get sub (str "id") VNone = Ok (VInt m) -> get sub (str "userid") VNone = Ok (VInt u) ->
  get_submission_text mdl sub = SOk raw ->
  split_numbered_answers (clean_text_basic (strip raw)) = [] ->
  unchunked d q m ->
  exists d' q', @process_sub _ (app_api env ps0) cfg mdl due now sub (mkWorld (mkServer d q) ps) =
                (SOk tt, mkWorld (mkServer d' q') ps) /\ unchunked d' q' m.
Proof.
  intros Hid Hu Hraw Hs Hun.
  unfold process_sub, wbind, wlift, of_py. rewrite Hid, Hu.
  unfold backend_get_existing, backend_submission_exists, wbind, call, wret. cbn [path_int serve app_api w_srv w_pushes].
  rewrite (app_routes_all_but_by_moodle env ps0 (RByMoodle m)). cbn -[serve_app get_submission_text strip str].
  rewrite Hraw. destruct (strip raw) as [|c t] eqn:Es; [exists d, q; split; [reflexivity | exact Hun]|].
  rewrite (app_routes_all_but_by_moodle env ps0 (RByMoodle m)). cbn -[serve_app strip str].
  unfold backend_post, ingest_payload, wbind, call. cbn [serve app_api w_srv w_pushes].
  set (data := mkIn m (assignment_id cfg) (course_id cfg) u (Some raw) (Some [])).
  assert (Hsrc : source_text data = c :: t).
  { unfold source_text, data. cbn [in_cleaned_text in_raw_text]. rewrite or_text_nonempty; [exact Es | rewrite Es; discriminate]. }
  destruct (app_unnumbered env ps0 data plag_threshold d q) as [st [s [d' [q' [Ei [Ep Hun']]]]]];
    [rewrite Hsrc; discriminate | rewrite Hsrc; exact Hs | exact Hun|].
  rewrite Ei. cbn -[serve_app getitem ingest_response str].
  rewrite ingest_response_id. cbn -[serve_app str]. rewrite Ep. cbn.
  exists d', q'. split; [reflexivity | exact Hun'].
Qed.

(** ** Scenarios: the scheduler over the whole backend *)

(** The registrations with [include_router] moved after the route it
    should include: the order the module would need for the route to be
    served. *)
Definition included_registrations : list registration :=
  [AppRoute RtRoot; AppRoute RtHealth; AppRoute RtIngest; AppRoute RtPlagiarism; AppRoute RtGrade;
   AppRoute RtLLMGrade; AppRoute RtMultiGrade; AppRoute RtProgress; AppRoute RtPushPayload;
   NewRouter; RouterRoute RtByMoodle; IncludeRouter].

Definition included_api `{SimilarityEngine} {St : Type} `{LLMProvider St} (env : environ) (ps0 : pstate St)
  : BackendAPI server :=
  {| serve := serve_routes env ps0 (fold_left register included_registrations (mkRouting [] [])) |}.

Definition demo_cfg : config := mkConfig (str "token") 2 1.

(** One submission with an online text answering questions 1 and 2. *)
Definition demo_sub : py_value :=
  VDict [(str "id", VInt 77); (str "userid", VInt 5);
         (str "plugins", VList [VDict [(str "type", VStr (str "onlinetext"));
                                       (str "editorfields", VList [VDict [(str "text", VStr answer_a)]])]])].

(** Moodle with assignment 1 due at [due] and the one submission; grades
    are saved ([null] reply). *)
Definition demo_moodle (due : Z) : moodle :=
  mkMoodle
    (VDict [(str "courses", VList [VDict [(str "assignments",
              VList [VDict [(str "id", VInt 1); (str "duedate", VInt due)]])]])])
    (VDict [(str "assignments", VList [VDict [(str "submissions", VList [demo_sub])]])])
    (fun _ => VNone) (fun _ _ => SOk []) (fun _ => None).

Definition demo_world : world server := mkWorld (mkServer empty_db seqs0) [].

(** A run of the script at [now] against the application main.py
    builds, with the mock provider and the exact similarity engine. *)
Definition run_app (now : Z) (w : world server) : world server :=
  snd (@main _ (app_api [] (mkPState tt [])) demo_cfg (demo_moodle 1000) now w).

Definition run_included (now : Z) (w : world server) : world server :=
  snd (@main _ (included_api [] (mkPState tt [])) demo_cfg (demo_moodle 1000) now w).

Definition pushed (w : world server) : list py_value := map push_submission (w_pushes w).

(** The scheduler grades the same submission again on every run
    after the deadline: two runs push its grade twice to Moodle and store
    two feedback results for it, because the existence checks never see
    the stored submission. *)
Example scheduler_regrades_every_run :
  pushed (run_app 2000 demo_world) = [VInt 77] /\
  pushed (run_app 2000 (run_app 2000 demo_world)) = [VInt 77; VInt 77] /\
  map fb_sub (t_fbs (sv_db (w_srv (run_app 2000 (run_app 2000 demo_world))))) = [1; 1].
Proof. vm_compute. split; [reflexivity | split; reflexivity]. Qed.

(** The two faults hide each other: a submission first seen before
    the deadline is ingested and not graded; the next run after the
    deadline grades it only because the existence check fails.  With the
    route included, the same two runs never grade it. *)
Example early_submission_graded_only_by_fault :
  pushed (run_app 500 demo_world) = [] /\
  map sub_moodle_id (t_subs (sv_db (w_srv (run_app 500 demo_world)))) = [77] /\
  pushed (run_app 2000 (run_app 500 demo_world)) = [VInt 77] /\
  pushed (run_included 2000 (run_included 500 demo_world)) = [].
Proof. vm_compute. split; [reflexivity | split; [reflexivity | split; reflexivity]]. Qed.

(** A submission whose online text has no numbered question header. *)
Definition unnumbered_sub : py_value :=
  VDict [(str "id", VInt 78); (str "userid", VInt 6);
         (str "plugins", VList [VDict [(str "type", VStr (str "onlinetext"));
                                       (str "editorfields", VList [VDict [(str "text",
                                          VStr (str "Services give pods a stable endpoint."))]])]])].

Definition unnumbered_moodle : moodle :=
  mkMoodle (m_assignments (demo_moodle 1000))
    (VDict [(str "assignments", VList [VDict [(str "submissions", VList [unnumbered_sub])]])])
    (fun _ => VNone) (fun _ _ => SOk []) (fun _ => None).

Definition unnumbered_text : text := str "Services give pods a stable endpoint.".

Lemma unnumbered_answer_never_graded_witness :
  get unnumbered_sub (str "id") VNone = Ok (VInt 78) /\ get unnumbered_sub (str "userid") VNone = Ok (VInt 6) /\
  get_submission_text unnumbered_moodle unnumbered_sub = SOk unnumbered_text /\
  split_numbered_answers (clean_text_basic (strip unnumbered_text)) = [] /\
  unchunked empty_db seqs0 78 /\
  exists d' q', @process_sub _ (app_api [] (mkPState tt [])) demo_cfg unnumbered_moodle 1000 2000 unnumbered_sub
                  (mkWorld (mkServer empty_db seqs0) []) = (SOk tt, mkWorld (mkServer d' q') []) /\
                unchunked d' q' 78.
Proof.
  assert (H1 : get unnumbered_sub (str "id") VNone = Ok (VInt 78)) by reflexivity.
  assert (H2 : get unnumbered_sub (str "userid") VNone = Ok (VInt 6)) by reflexivity.
  assert (H3 : get_submission_text unnumbered_moodle unnumbered_sub = SOk unnumbered_text) by (vm_compute; reflexivity).
  assert (H4 : split_numbered_answers (clean_text_basic (strip unnumbered_text)) = []) by (vm_compute; reflexivity).
  assert (H5 : unchunked empty_db seqs0 78) by (split; [reflexivity | constructor]).
  split; [exact H1 | split; [exact H2 | split; [exact H3 | split; [exact H4 | split; [exact H5 |]]]]].
  exact (unnumbered_answer_never_graded [] (mkPState tt []) demo_cfg unnumbered_moodle 1000 2000 unnumbered_sub
           78 6 unnumbered_text empty_db seqs0 [] H1 H2 H3 H4 H5).
Defined.

(** A whole run on a submission without numbered headers: it is stored
    with no chunks, the plagiarism check answers 404, the scheduler
    swallows the [HTTPError] and moves on, and a second run does the
    same; no run reports an error. *)
Example unnumbered_answer_scenario :
  let run w := @main _ (app_api [] (mkPState tt [])) demo_cfg unnumbered_moodle 2000 w in
  fst (run demo_world) = SOk tt /\ w_pushes (snd (run demo_world)) = [] /\
  map sub_moodle_id (t_subs (sv_db (w_srv (snd (run demo_world))))) = [78] /\
  t_chunks (sv_db (w_srv (snd (run demo_world)))) = [] /\
  fst (run (snd (run demo_world))) = SOk tt /\ w_pushes (snd (run (snd (run demo_world)))) = [].
Proof. vm_compute. split; [reflexivity | split; [reflexivity | split; [reflexivity | split; [reflexivity | split; reflexivity]]]]. Qed.

Lemma no_push_before_deadline_witness :
  get_assignment_due_date demo_cfg (demo_moodle 1000) = SOk 1000 /\ 1000 <> 0 /\ 500 < 1000 /\
  @main _ (app_api [] (mkPState tt [])) demo_cfg (demo_moodle 1000) 500 demo_world =
    (fst (@main _ (app_api [] (mkPState tt [])) demo_cfg (demo_moodle 1000) 500 demo_world),
     snd (@main _ (app_api [] (mkPState tt [])) demo_cfg (demo_moodle 1000) 500 demo_world)) /\
  w_pushes (snd (@main _ (app_api [] (mkPState tt [])) demo_cfg (demo_moodle 1000) 500 demo_world)) =
    w_pushes demo_world.
Proof.
  assert (H1 : get_assignment_due_date demo_cfg (demo_moodle 1000) = SOk 1000) by reflexivity.
  assert (H2 : 1000 <> 0) by lia. assert (H3 : 500 < 1000) by lia.
  assert (H4 := surjective_pairing (@main _ (app_api [] (mkPState tt [])) demo_cfg (demo_moodle 1000) 500 demo_world)).
  split; [exact H1 | split; [exact H2 | split; [exact H3 | split; [exact H4 |]]]].
  exact (@no_push_before_deadline server (app_api [] (mkPState tt [])) _ _ _ _ _ _ _ H1 H2 H3 H4).
Defined.

(** A backend that answers every request as [GradingBackend] asks:
    every submission unknown, id 1, no plagiarism, grade 7. *)
Definition stub_serve (r : request) (sv : unit) : response * unit :=
  match r with
  | RByMoodle _ => ((404, VNone), sv)
  | RRoot | RHealth | RGrade _ _ | RLLMGrade _ | RProgress _ _ => ((200, VDict []), sv)
  | RIngest _ => ((200, VDict [(str "id", VInt 1)]), sv)
  | RPlagiarism _ _ => ((200, VDict []), sv)
  | RMultiGrade _ => ((200, VDict [(str "multi_agent", VDict [(str "grade", VInt 7); (str "final_feedback", VStr (str "ok"))])]), sv)
  | RPushPayload _ => ((404, VNone), sv)
  end.

#[local] Instance stub_api : BackendAPI unit := { serve := stub_serve }.

#[local] Instance stub_grading : GradingBackend unit.
Proof.
  split.
  - intros m sv. discriminate.
  - intros p sv. split; [reflexivity | exists 1; reflexivity].
  - intros s thr sv. reflexivity.
  - intros s sv. split; [reflexivity|]. do 4 eexists. split; [reflexivity | split; [reflexivity | split; reflexivity]].
Qed.

Lemma main_grades_every_submission_witness :
  exists ps sv', @main unit stub_api demo_cfg (demo_moodle 1000) 2000 (mkWorld tt []) = (SOk tt, mkWorld sv' ([] ++ ps)) /\
    map (fun p => Ok (push_submission p)) ps = map (fun sub => get sub (str "id") VNone) [demo_sub].
Proof.
  apply (@main_grades_every_submission unit stub_api stub_grading demo_cfg (demo_moodle 1000) 1000 2000 [demo_sub]).
  - reflexivity.
  - right. lia.
  - reflexivity.
  - intros p. eexists. reflexivity.
  - constructor; [|constructor].
    split; [eexists; reflexivity|]. split; [eexists; reflexivity|].
    eexists. split; [reflexivity|]. intros E. vm_compute in E. discriminate E.
Defined.

End Scheduler.
