(* ===== verification/PushFeedback.v ===== *)
(** * The one-shot grading script: push_feedback.py

    The script grades the latest Moodle submission of an assignment
    without the backend: it reads the assignment's maximum grade and the
    submissions from Moodle, picks the most recently modified
    submission, reads its extracted text from a local file, scores it
    with a keyword rubric of its own and saves the grade and the
    feedback in Moodle.  Moodle's replies and the local files are
    oracles; the script's own code is modelled statement by statement:
    [get_assignment_max_grade], [pick_latest_submission] (its loop with
    the running maximum), [clean_pdf_text], [read_extracted_submission_text]
    (the [re.search] of the marker line written with the [str] methods
    it amounts to), [grade_and_feedback] and [save_grade_with_feedback].
    The theorems compare its rubric with the backend's grader
    (grading.py) and characterise the submission it picks. *)

From Stdlib Require Import String ZArith QArith List Lia Bool.
From S2P Require Import Prelude Regex Chunking Json PyFormat Grading Scheduler.
Import ListNotations.
Open Scope list_scope.

Module PushFeedback.
Import Sre Py PyFormat Chunking Grading Scheduler.

(** ** Moodle *)

(** [call_moodle] (lines 17-33): the token is a constant of the script;
    a reply [dict] whose ["exception"] is truthy raises. *)
Definition call_moodle (data : py_value) : sresult py_value :=
  match data with
  | VDict kvs =>
      if truthy (match dict_find kvs (str "exception") with Some x => x | None => VNone end)
      then SErr (SPy RuntimeError) else SOk data
  | _ => SOk data
  end.

(** [COURSE_ID] and [ASSIGNMENT_ID] (lines 9-10). *)
Definition COURSE_ID : Z := 2.
Definition ASSIGNMENT_ID : Z := 1.

(** [float(g)], and [10.0] when it raises. *)
Definition float_or_10 (g : py_value) : pyfloat :=
  match py_float g with Ok f => f | Err _ => Finite 10 end.

(** Lines 38-46: the first assignment with the id gives [float(grade)]
    (default 10), none gives [10.0]. *)
Fixpoint max_in_assignments (aid : Z) (assigns : list py_value) : sresult (option pyfloat) :=
  match assigns with
  | [] => SOk None
  | a :: rest =>
      let? id := of_py (get a (str "id") VNone) in
      if py_eq_int id aid then
        let? g := of_py (get a (str "grade") (VInt 10)) in SOk (Some (float_or_10 g))
      else max_in_assignments aid rest
  end.

Fixpoint max_in_courses (aid : Z) (courses : list py_value) : sresult (option pyfloat) :=
  match courses with
  | [] => SOk None
  | c :: rest =>
      let? av := of_py (get c (str "assignments") (VList [])) in
      let? assigns := py_iter av in
      let? r := max_in_assignments aid assigns in
      match r with Some f => SOk (Some f) | None => max_in_courses aid rest end
  end.

Definition get_assignment_max_grade (reply : py_value) (aid : Z) : sresult pyfloat :=
  let? data := call_moodle reply in
  let? cv := of_py (get data (str "courses") (VList [])) in
  let? courses := py_iter cv in
  let? r := max_in_courses aid courses in
  SOk (match r with Some f => f | None => Finite 10 end).

(** ** [pick_latest_submission] (lines 49-66) *)

(** A number as Python compares it ([bool] and [int] exactly). *)
Definition num_of (v : py_value) : option pyfloat :=
  match v with
  | VBool b => Some (Finite (if b then 1 else 0))
  | VInt z => Some (Finite (inject_Z z))
  | VFloat f => Some f
  | _ => None
  end.

(** [t > latest_time]: [latest_time] starts at [-1] and only takes
    values that compared greater than a number, so it is always a
    number; a [t] that is not a number raises [TypeError]. *)
Definition later (t : py_value) (latest : pyfloat) : sresult (option pyfloat) :=
  match num_of t with
  | Some x => SOk (if float_lt latest x then Some x else None)
  | None => SErr (SPy TypeError)
  end.

(** The loop state: [latest_userid], [latest_subid], [latest_time]. *)
Definition latest_state : Type := (py_value * py_value * pyfloat)%type.

(** [t = sub.get("timemodified") or sub.get("timecreated") or 0]. *)
Definition sub_time (sub : py_value) : sresult py_value :=
  let? tm := of_py (get sub (str "timemodified") VNone) in
  if truthy tm then SOk tm
  else let? tc := of_py (get sub (str "timecreated") VNone) in SOk (py_or tc (VInt 0)).

Definition latest_step (st : latest_state) (sub : py_value) : sresult latest_state :=
  let? userid := of_py (get sub (str "userid") VNone) in
  let? subid := of_py (get sub (str "id") VNone) in
  let? t := sub_time sub in
  let? g := later t (snd st) in
  SOk (match g with Some x => (userid, subid, x) | None => st end).

Fixpoint scan_subs (subs : list py_value) (st : latest_state) : sresult latest_state :=
  match subs with
  | [] => SOk st
  | sub :: rest => let? st' := latest_step st sub in scan_subs rest st'
  end.

Fixpoint scan_assignments (assigns : list py_value) (st : latest_state) : sresult latest_state :=
  match assigns with
  | [] => SOk st
  | a :: rest =>
      let? sv := of_py (get a (str "submissions") (VList [])) in
      let? subs := py_iter sv in
      let? st' := scan_subs subs st in
      scan_assignments rest st'
  end.

(** [latest_userid, latest_subid], or [RuntimeError] when one is [None] (lines 64-66). *)
Definition ids_of (st : latest_state) : sresult (py_value * py_value) :=
  match st with
  | (VNone, _, _) | (_, VNone, _) => SErr (SPy RuntimeError)
  | (u, s, _) => SOk (u, s)
  end.

Definition pick_latest_submission (submissions_json : py_value) : sresult (py_value * py_value) :=
  let? av := of_py (get submissions_json (str "assignments") (VList [])) in
  let? assigns := py_iter av in
  let? st := scan_assignments assigns (VNone, VNone, Finite (-1)) in
  ids_of st.

(** ** The local text and the rubric *)

(** [clean_pdf_text] (lines 71-77): the four steps of
    [clean_text_basic], with [.strip()] applied to the last one. *)
Definition clean_pdf_text (s : text) : text :=
  let s := re_sub cid_re [] s in
  let s := replace_char 173 [] s in
  let s := re_sub hspace_re [32] s in
  strip (re_sub newlines3_re [10; 10] s).

Definition pdf_marker : text := str "=== PDF SUBMISSION TEXT ===".

(** The text after the first occurrence of the marker. *)
Fixpoint after_marker (s : text) : option text :=
  if is_prefix pdf_marker s then Some (skipn (length pdf_marker) s)
  else match s with [] => None | _ :: s' => after_marker s' end.

(** [read_extracted_submission_text] (lines 80-98) on the content of
    the file, [None] when it does not exist: the [re.search] of line 93
    with [re.DOTALL] finds the first marker, its greedy [\s*] takes
    every blank after it and its group [.*] the rest of the text. *)
Definition read_extracted_submission_text (file : option text) : sresult text :=
  match file with
  | None => SErr (SPy RuntimeError)
  | Some content =>
      match after_marker content with
      | Some rest => SOk (clean_pdf_text (strip (lstrip rest)))
      | None => SOk (clean_pdf_text content)
      end
  end.

(** The rubric of [grade_and_feedback] (lines 109-143), on the whole
    lowercased text. *)
Definition push_tests1 (t : text) : list bool :=
  [ kw t "service" && (kw t "stable" || kw t "endpoint" || kw t "dns");
    kw t "pods" && (kw t "ip" || kw t "change" || kw t "restart");
    kw t "load" && (kw t "balance" || kw t "load-balanc") ].

Definition push_tests2 (t : text) : list bool :=
  [ kw t "clusterip" && (kw t "inside" || kw t "internal" || kw t "within");
    kw t "nodeport" && (kw t "outside" || kw t "external" || kw t "access");
    kw t "port" && (kw t "node" || kw t "every node") ].

Definition push_tests3 (t : text) : list bool :=
  [ kw t "networkpolicy" || kw t "network policy";
    (kw t "allow" || kw t "only") && (kw t "block" || kw t "deny");
    kw t "frontend" && kw t "backend" ].

(** [f"Q{i} ({name}): {q}/3 — {comment}"]. *)
Definition push_line (i : Z) (name : string) (q : Z) (comment : string) : text :=
  str "Q" ++ py_str_int i ++ str " (" ++ str name ++ str "): " ++ py_str_int q ++ str "/3 " ++
  [em_dash] ++ str " " ++ str comment.

Definition push_overall : list text :=
  [str "Overall: Strong submission " ++ [em_dash] ++ str " concepts are correct and explained clearly.";
   str "Improvement idea: mention Services select Pods using labels, and in production external exposure is often via LoadBalancer/Ingress (not only NodePort).";
   [];
   str "Breakdown:"].

(** [round((score / raw_max) * max_grade, 2)] on a float [max_grade]:
    exact for a finite one; [0.0 * inf] is [nan]. *)
Definition scale (score : Z) (max_grade : pyfloat) : pyfloat :=
  match max_grade with
  | Finite m => Finite (round2 ((inject_Z score / 9) * m))
  | PosInf => if score =? 0 then NaN else PosInf
  | NegInf => if score =? 0 then NaN else NegInf
  | NaN => NaN
  end.

Definition grade_and_feedback (answer_text : text) (max_grade : pyfloat) : pyfloat * text :=
  let t := lower (clean_pdf_text answer_text) in
  let q1 := points (push_tests1 t) in
  let q2 := points (push_tests2 t) in
  let q3 := points (push_tests3 t) in
  let feedback :=
    [push_line 1 "Service" q1 "Clear idea of stable access to Pods. DNS + load balancing mention is solid.";
     push_line 2 "ClusterIP vs NodePort" q2 "Correct internal vs external exposure. Nice detail about node-level ports.";
     push_line 3 "NetworkPolicy" q3 "Great example: only frontend can talk to backend, others blocked."] in
  (scale (q1 + q2 + q3) max_grade, join [10] (push_overall ++ feedback)).

(** ** The script *)

(** Moodle and the local files as the script sees them. *)
Record pf_env : Type := mkPfEnv {
  pf_assignments : py_value;
  pf_submissions : py_value;
  pf_save_reply : push -> py_value;
  pf_files : text -> option text }.

(** [os.path.join(SUBMISSIONS_DIR, f"{user_id}_{course_id}_{assignment_id}.txt")]. *)
Definition submission_path (user_id : py_value) : text :=
  str "submissions/" ++ py_str user_id ++ str "_" ++ py_str_int COURSE_ID ++ str "_" ++
  py_str_int ASSIGNMENT_ID ++ str ".txt".

(** [save_grade_with_feedback] (lines 160-172): the saved grade, or the
    exception of the reply. *)
Definition save_grade_with_feedback (env : pf_env) (p : push) : sresult push :=
  let? _ := call_moodle (pf_save_reply env p) in SOk p.

(** [main] (lines 175-191): the grade saved in Moodle. *)
Definition main (env : pf_env) : sresult push :=
  let? max_grade := get_assignment_max_grade (pf_assignments env) ASSIGNMENT_ID in
  let? submissions := call_moodle (pf_submissions env) in
  let? ids := pick_latest_submission submissions in
  let '(userid, subid) := ids in
  let? extracted := read_extracted_submission_text (pf_files env (submission_path userid)) in
  let '(grade, feedback) := grade_and_feedback extracted max_grade in
  save_grade_with_feedback env (mkPush subid (VInt ASSIGNMENT_ID) userid (Some (float_repr grade)) (VStr feedback)).

(** ** The rubric against the backend's grader *)

Lemma fold_b2z_le (l1 l2 : list bool) (a1 a2 : Z) :
  a1 <= a2 -> Forall2 (fun a b => a = true -> b = true) l1 l2 ->
  fold_left (fun pts b => pts + b2z b) l1 a1 <= fold_left (fun pts b => pts + b2z b) l2 a2.
Proof.
  intros Ha HF. revert a1 a2 Ha. induction HF as [|x y l1 l2 Hxy _ IH].
  - intros a1 a2 Ha. exact Ha.
  - intros a1 a2 Ha. cbn [fold_left]. apply IH. unfold b2z.
    destruct x, y; try lia; discriminate (Hxy eq_refl).
Qed.

(** More passing tests, test by test, never score fewer points. *)
Lemma points_le (l1 l2 : list bool) :
  Forall2 (fun a b => a = true -> b = true) l1 l2 -> points l1 <= points l2.
Proof. intros H. unfold points. pose proof (fold_b2z_le l1 l2 0 0 (Z.le_refl 0) H). lia. Qed.

Lemma kw_infix (t : text) (a k b : string) :
  str a ++ str k ++ str b = str (a ++ k ++ b) -> kw t (a ++ k ++ b) = true -> kw t k = true.
Proof. unfold kw. intros E H. rewrite <- E in H. exact (contains_key_infix _ _ _ _ H). Qed.

Lemma kw_pods (t : text) : kw t "pods" = true -> kw t "pod" = true.
Proof. apply (kw_infix t "" "pod" "s"). reflexivity. Qed.

Lemma kw_load_balanc (t : text) : kw t "load-balanc" = true -> kw t "balanc" = true.
Proof. apply (kw_infix t "load-" "balanc" ""). reflexivity. Qed.

Lemma kw_every_node (t : text) : kw t "every node" = true -> kw t "node" = true.
Proof. apply (kw_infix t "every " "node" ""). reflexivity. Qed.

(** C27. The script's rubric against the backend's grader (grading.py),
    on the same normalised text: its Q1 tests are stricter ([pods] for
    [pod], [balance] or [load-balanc] for [balance] or [balanc]), so Q1
    never scores more; its Q2 tests are looser ([access] also counts for
    NodePort, and [port] with [node] or [every node] is [node] with
    [port]), so Q2 never scores less; its Q3 tests are the grader's. *)
Theorem push_rubric_vs_grader (t : text) :
  points (push_tests1 t) <= points (tests1 t) /\
  points (tests2 t) <= points (push_tests2 t) /\
  push_tests3 t = tests3 t.
Proof.
  split; [|split; [|reflexivity]]; apply points_le; unfold push_tests1, tests1, push_tests2, tests2;
    repeat constructor; intros H; rewrite !andb_true_iff, !orb_true_iff in *.
  - exact H.
  - destruct H as [H1 H2]. split; [apply kw_pods, H1 | tauto].
  - destruct H as [H1 [H2 | H2]]; split; [exact H1 | left; exact H2 | exact H1 | right; apply kw_load_balanc, H2].
  - tauto.
  - tauto.
  - destruct H as [H1 H2]. split; [exact H2 | left; exact H1].
Qed.

(** The script on a sample answer, as CPython computes it: 8 of 9
    points (Q1 loses the point for [load balancing], which the grader
    of grading.py gives), 88.89 of 100, and the feedback text. *)
Example grade_and_feedback_sample :
  let t := str "1. Services give pods a stable endpoint and DNS name; load balancing spreads traffic." ++ [10] ++
           str "2. NodePort allows access on every node port; ClusterIP is internal." ++ [10] ++
           str "3. A NetworkPolicy can allow frontend to backend only and deny the rest." in
  grade_and_feedback t (Finite 100) =
    (Finite (8889 # 100),
     join [10] (push_overall ++
       [push_line 1 "Service" 2 "Clear idea of stable access to Pods. DNS + load balancing mention is solid.";
        push_line 2 "ClusterIP vs NodePort" 3 "Correct internal vs external exposure. Nice detail about node-level ports.";
        push_line 3 "NetworkPolicy" 3 "Great example: only frontend can talk to backend, others blocked."])) /\
  points (tests1 (lower (clean_pdf_text t))) = 3.
Proof. vm_compute. split; reflexivity. Qed.

(** ** The submission [pick_latest_submission] picks *)

Local Open Scope Q_scope.

(** What the loop reads from a submission [dict] whose time is a finite
    number: its user and submission ids and the time. *)
Definition entry_of (sub : py_value) : option ((py_value * py_value) * Q) :=
  match sub with
  | VDict kvs =>
      let at_ (k : text) := match dict_find kvs k with Some x => x | None => VNone end in
      let tm := at_ (str "timemodified") in
      match num_of (if truthy tm then tm else py_or (at_ (str "timecreated")) (VInt 0)) with
      | Some (Finite q) => Some ((at_ (str "userid"), at_ (str "id")), q)
      | _ => None
      end
  | _ => None
  end.

(** One step of the loop on such an entry. *)
Definition pick_step (st : latest_state) (e : (py_value * py_value) * Q) : latest_state :=
  if float_lt (snd st) (Finite (snd e)) then (fst (fst e), snd (fst e), Finite (snd e)) else st.

(** [e] is the first entry of [es] with the greatest time, and that time
    exceeds [q0]. *)
Definition first_max (q0 : Q) (es : list ((py_value * py_value) * Q)) (e : (py_value * py_value) * Q)
  : Prop :=
  exists pre post, es = pre ++ e :: post /\ q0 < snd e /\
    Forall (fun y => snd y < snd e) pre /\ Forall (fun y => snd y <= snd e) post.

Lemma latest_step_entry (st : latest_state) (sub : py_value) e :
  entry_of sub = Some e -> latest_step st sub = SOk (pick_step st e).
Proof.
  destruct sub as [| | | | | | kvs]; try discriminate. cbn [entry_of]. intros H.
  unfold latest_step, sub_time, later, pick_step. cbn [get of_py rthen].
  destruct (truthy _); cbn [rthen];
    destruct (num_of _) as [[q| | |]|]; try discriminate; injection H as <-; cbn [rthen fst snd];
    destruct (float_lt _ _); reflexivity.
Qed.

Lemma scan_subs_entries (subs : list py_value) es (st : latest_state) :
  map entry_of subs = map Some es -> scan_subs subs st = SOk (fold_left pick_step es st).
Proof.
  revert es st; induction subs as [|sub subs IH]; intros [|e es] st H; try discriminate; [reflexivity|].
  injection H as He Hs. cbn [scan_subs fold_left]. rewrite (latest_step_entry st sub e He). apply IH, Hs.
Qed.

(** The loop keeps the first entry of greatest time above its start, or
    its start when there is none. *)
Lemma fold_pick (es : list ((py_value * py_value) * Q)) (u s : py_value) (q0 : Q) :
  (Forall (fun y => snd y <= q0) es /\ fold_left pick_step es (u, s, Finite q0) = (u, s, Finite q0)) \/
  (exists e, first_max q0 es e /\ fold_left pick_step es (u, s, Finite q0) = (fst (fst e), snd (fst e), Finite (snd e))).
Proof.
  revert u s q0; induction es as [|x es IH]; intros u s q0; [left; split; [constructor | reflexivity]|].
  cbn [fold_left].
  change (pick_step (u, s, Finite q0) x) with
    (if float_lt (Finite q0) (Finite (snd x)) then (fst (fst x), snd (fst x), Finite (snd x))
     else (u, s, Finite q0)).
  destruct (float_lt (Finite q0) (Finite (snd x))) eqn:Ex; [apply float_lt_finite in Ex|].
  - right. destruct (IH (fst (fst x)) (snd (fst x)) (snd x)) as [[Hall Hf] | [e [[pre [post [E [Hlt [Hpre Hpost]]]]] Hf]]].
    + exists x. split; [exists [], es; split; [reflexivity | split; [exact Ex | split; [constructor | exact Hall]]] | exact Hf].
    + exists e. split; [|exact Hf]. exists (x :: pre), post. rewrite E.
      split; [reflexivity | split; [apply Qlt_trans with (snd x); auto | split; [constructor; auto | exact Hpost]]].
  - assert (Hx : snd x <= q0).
    { apply Qnot_lt_le. intros C. apply float_lt_finite in C. congruence. }
    destruct (IH u s q0) as [[Hall Hf] | [e [[pre [post [E [Hlt [Hpre Hpost]]]]] Hf]]].
    + left. split; [constructor; auto | exact Hf].
    + right. exists e. split; [|exact Hf]. exists (x :: pre), post. rewrite E.
      split; [reflexivity | split; [exact Hlt | split; [constructor; [apply Qle_lt_trans with q0; auto | exact Hpre] | exact Hpost]]].
Qed.

Lemma in_mid {A} (x : A) (l r : list A) : In x (l ++ x :: r).
Proof. apply in_or_app. right. left. reflexivity. Qed.

Lemma first_max_unique (q0 : Q) es e1 e2 : first_max q0 es e1 -> first_max q0 es e2 -> e1 = e2.
Proof.
  intros [p1 [s1 [E1 [_ [P1 S1]]]]] [p2 [s2 [E2 [_ [P2 S2]]]]]. rewrite E1 in E2.
  rewrite Forall_forall in P1, S1, P2, S2.
  apply app_eq_app in E2 as [l [[Ep Es] | [Ep Es]]]; destruct l as [|y l]; cbn in Es.
  - injection Es as <- _. reflexivity.
  - injection Es as <- Es. exfalso. apply (Qlt_not_le (snd e2) (snd e1)).
    + apply P1. rewrite Ep. apply in_mid.
    + apply S2. rewrite Es. apply in_mid.
  - injection Es as -> _. reflexivity.
  - injection Es as <- Es. exfalso. apply (Qlt_not_le (snd e1) (snd e2)).
    + apply P2. rewrite Ep. apply in_mid.
    + apply S1. rewrite Es. apply in_mid.
Qed.

Lemma get_single (k : text) (v d : py_value) : get (VDict [(k, v)]) k d = Ok v.
Proof. cbn [get dict_find]. destruct (list_eq_dec Z.eq_dec k k); [reflexivity | congruence]. Qed.

Lemma ids_of_ok (u s u' s' : py_value) (q : Q) :
  ids_of (u', s', Finite q) = SOk (u, s) <-> (u', s') = (u, s) /\ u <> VNone /\ s <> VNone.
Proof.
  split.
  - destruct u', s'; cbn; intros H; try discriminate; injection H as <- <-; split; auto; split; discriminate.
  - intros [E [Hu Hs]]. injection E as -> ->. destruct u, s; cbn; congruence.
Qed.

(** C26. [pick_latest_submission] on one assignment whose submissions
    carry finite times returns the ids of the first submission with the
    greatest time ([timemodified], else [timecreated], else 0), provided
    that time exceeds -1 and both ids are present; otherwise it raises
    [RuntimeError]. *)
Theorem pick_latest_spec (subs : list py_value) (es : list ((py_value * py_value) * Q)) (u s : py_value) :
  map entry_of subs = map Some es ->
  pick_latest_submission (VDict [(str "assignments", VList [VDict [(str "submissions", VList subs)]])]) =
    SOk (u, s) <->
  exists e, first_max (-1) es e /\ fst e = (u, s) /\ u <> VNone /\ s <> VNone.
Proof.
  intros H.
  assert (E : pick_latest_submission (VDict [(str "assignments", VList [VDict [(str "submissions", VList subs)]])]) =
              ids_of (fold_left pick_step es (VNone, VNone, Finite (-1)))).
  { unfold pick_latest_submission. rewrite get_single. cbn [of_py rthen py_iter scan_assignments].
    rewrite get_single. cbn [of_py rthen py_iter]. rewrite (scan_subs_entries _ _ _ H). reflexivity. }
  rewrite E. destruct (fold_pick es VNone VNone (-1)) as [[Hall Hf] | [e [Hm Hf]]]; rewrite Hf.
  - split; [discriminate|]. intros [e [[pre [post [Ee [Hlt _]]]] _]].
    exfalso. rewrite Forall_forall in Hall. apply (Qlt_not_le _ _ Hlt), Hall. rewrite Ee. apply in_mid.
  - destruct e as [[u' s'] q]. rewrite ids_of_ok. split.
    + intros [Hi Hus]. exists (u', s', q). split; [exact Hm | split; [exact Hi | exact Hus]].
    + intros [e' [Hm' [He' Hus]]]. rewrite (first_max_unique _ _ _ _ Hm' Hm) in He'. split; [exact He' | exact Hus].
Qed.

Definition sample_subs : list py_value :=
  [VDict [(str "userid", VInt 5); (str "id", VInt 11); (str "timemodified", VInt 100)];
   VDict [(str "userid", VInt 6); (str "id", VInt 12); (str "timemodified", VInt 0); (str "timecreated", VInt 300)];
   VDict [(str "userid", VInt 7); (str "id", VInt 13); (str "timemodified", VInt 300)]].

Definition sample_entries : list ((py_value * py_value) * Q) :=
  [((VInt 5, VInt 11), 100); ((VInt 6, VInt 12), 300); ((VInt 7, VInt 13), 300)].

(** The submission created at 300 with [timemodified] 0 is picked over
    the one modified at 300 after it, as CPython picks [(6, 12)]. *)
Lemma pick_latest_spec_witness :
  map entry_of sample_subs = map Some sample_entries /\
  (pick_latest_submission (VDict [(str "assignments", VList [VDict [(str "submissions", VList sample_subs)]])]) =
     SOk (VInt 6, VInt 12) <->
   exists e, first_max (-1) sample_entries e /\ fst e = (VInt 6, VInt 12) /\ VInt 6 <> VNone /\ VInt 12 <> VNone).
Proof.
  assert (H : map entry_of sample_subs = map Some sample_entries) by reflexivity.
  split; [exact H | exact (pick_latest_spec sample_subs sample_entries (VInt 6) (VInt 12) H)].
Defined.

End PushFeedback.
