(* ===== verification/Pipeline.v ===== *)
(** * The pipeline script: get_submissions_assignments.py

    The first version of the Moodle pipeline, which the deadline
    scheduler imports [add_token_to_fileurl] and [download_file] from.
    It runs over the same world as the scheduler ([Scheduler.world]: the
    backend's state and the grades Moodle has saved) and talks to the
    backend through the same [BackendAPI]; what differs is Moodle's side
    and the loop body: no existence check, [strip_html_to_text] on the
    online text, a PDF path with a magic-number check and a length cap,
    and a plagiarism warning put in front of the feedback of a flagged
    submission, whose grade is pushed all the same.

    The libraries the script calls and whose code is not in the
    repository are parameters of the site: [html.unescape], the download
    of [add_token_to_fileurl(fileurl)] and pdfplumber's page texts. *)

From Stdlib Require Import String ZArith QArith List Lia Bool.
From S2P Require Import Prelude Regex Chunking Json PyFormat MultiAgent Providers Grading Backend Handlers Scheduler.
Import ListNotations.
Open Scope Z_scope.
Open Scope list_scope.

Module Pipeline.
Import Sre Py PyFormat Chunking MultiAgent Providers Backend Handlers Scheduler.

(** ** The site: Moodle's replies and the libraries the script calls *)

(** [mod_assign_get_assignments] and [mod_assign_get_submissions]
    replies, the reply to [mod_assign_save_grade], and the library
    functions: [download_file(add_token_to_fileurl(url), out)] for the
    URL and the file name under [DOWNLOAD_DIR] (the bytes it writes, or
    [requests.HTTPError]), pdfplumber's
    [page.extract_text()] for every page of a file ([None] when
    pdfplumber raises) and [html.unescape]. *)
Record site : Type := mkSite {
  s_assignments : py_value;
  s_submissions : py_value;
  s_save_reply : push -> py_value;
  s_download : text -> text -> sresult (list Z);
  s_pages : list Z -> option (list (option text));
  s_unescape : text -> text }.

(** [MAX_EXTRACT_CHARS] (line 30) and [PLAG_THRESHOLD] (line 23) after
    [int()] and [float()] of the environment; the Moodle ids are the
    scheduler's [config]. *)
Record pconfig : Type := mkPConfig {
  p_cfg : config;
  p_threshold : Q;
  p_max_chars : Z }.

(** The defaults of lines 16-30. *)
Definition default_pconfig : pconfig :=
  mkPConfig (mkConfig (str "ef6d0d7a10b807c02a779fded5d568bf") 2 1) (85 # 100) 30000.

(** [moodle_call] (lines 36-55): no token check; a reply [dict] whose
    ["exception"] is truthy raises [RuntimeError]. *)
Definition moodle_call (data : py_value) : sresult py_value :=
  match data with
  | VDict kvs =>
      if truthy (match dict_find kvs (str "exception") with Some x => x | None => VNone end)
      then SErr (SPy RuntimeError) else SOk data
  | _ => SOk data
  end.

(** ** Strings *)

(** [s[:n]] with Python's negative bound. *)
Definition py_prefix (n : Z) (s : text) : text :=
  if 0 <=? n then firstn (Z.to_nat n) s else firstn (length s - Z.to_nat (- n)) s.

(** [s.lstrip(c)] and [s.strip(c)] for one character. *)
Fixpoint lstrip_char (c : Z) (l : text) : text :=
  match l with x :: l' => if x =? c then lstrip_char c l' else l | [] => [] end.

Definition strip_char (c : Z) (s : text) : text := rev (lstrip_char c (rev (lstrip_char c s))).

(** [[a-zA-Z0-9._-]]. *)
Definition name_char (c : Z) : bool :=
  ((48 <=? c) && (c <=? 57)) || ((65 <=? c) && (c <=? 90)) || ((97 <=? c) && (c <=? 122)) ||
  (c =? 46) || (c =? 95) || (c =? 45).

(** [[^a-zA-Z0-9._-]+]. *)
Definition unsafe_re : regex := RRep (fun c => negb (name_char c)) 1%nat None.

(** [safe_name] (lines 65-66). *)
Definition safe_name (s : text) : text := strip_char 95 (re_sub unsafe_re [95] s).

(** [(?i)<br\s*/?>]. *)
Definition br_re : regex :=
  seq_lit [60] (seq_ci (str "br") (RSeq ws_star (RSeq (RRep (Z.eqb 47) 0%nat (Some 1%nat)) (RAny (Z.eqb 62))))).

(** [(?i)</p\s*>]. *)
Definition p_close_re : regex := seq_lit [60; 47] (seq_ci (str "p") (RSeq ws_star (RAny (Z.eqb 62)))).

(** [<[^>]+>]. *)
Definition tag_re : regex :=
  RSeq (RAny (Z.eqb 60)) (RSeq (RRep (fun c => negb (c =? 62)) 1%nat None) (RAny (Z.eqb 62))).

(** [\n\s*\n+]. *)
Definition blank_run_re : regex := RSeq (RAny (Z.eqb 10)) (RSeq ws_star (RRep (Z.eqb 10) 1%nat None)).

(** [strip_html_to_text] (lines 69-77). *)
Definition strip_html_to_text (st : site) (h : text) : text :=
  match h with
  | [] => []
  | _ =>
      let s := s_unescape st h in
      let s := re_sub br_re [10] s in
      let s := re_sub p_close_re [10] s in
      let s := re_sub tag_re [] s in
      strip (re_sub blank_run_re [10; 10] s)
  end.

(** [extract_text_from_pdf] (lines 90-109): the non-blank page texts
    joined by a blank line and stripped, cut to [max_chars] code points
    followed by ["..."] when longer; [""] when pdfplumber raises. *)
Definition extract_text_from_pdf (pages : option (list (option text))) (max_chars : Z) : text :=
  match pages with
  | None => []
  | Some ps =>
      let parts := filter (fun t => match strip t with [] => false | _ => true end)
                          (map (fun o => match o with Some t => t | None => [] end) ps) in
      match strip (Grading.join [10; 10] parts) with
      | [] => []
      | text => if Z.of_nat (length text) >? max_chars then py_prefix max_chars text ++ str "..." else text
      end
  end.

(** ** Moodle's replies (lines 149-163) *)

(** [get_assignment_due_date]: the scheduler's search over courses and
    assignments, on the reply of this script's [moodle_call]. *)
Definition get_assignment_due_date (pc : pconfig) (st : site) : sresult Z :=
  let? data := moodle_call (s_assignments st) in
  let? cv := of_py (get data (str "courses") (VList [])) in
  let? courses := py_iter cv in
  let? r := due_in_courses (assignment_id (p_cfg pc)) courses in
  SOk (match r with Some n => n | None => 0 end).

(** [get_submissions]: an empty (falsy) ["assignments"] gives [[]];
    otherwise [assignments[0].get("submissions", []) or []]. *)
Definition get_submissions (st : site) : sresult py_value :=
  let? data := moodle_call (s_submissions st) in
  let? av := of_py (get data (str "assignments") (VList [])) in
  if negb (truthy av) then SOk (VList []) else
  let? a0 := getitem0 av in
  let? subs := of_py (get a0 (str "submissions") (VList [])) in
  SOk (py_or subs (VList [])).

(** ** [get_submission_text] (lines 169-219) *)

(** [html_text = ef.get("text") or ef.get("content") or ""], then
    [strip_html_to_text]; a plain text that is not blank is returned.
    A truthy value that is not a [str] makes [html.unescape] or
    [re.sub] raise [TypeError]. *)
Definition editor_plain (st : site) (ef : py_value) : sresult (option text) :=
  let? t := of_py (get ef (str "text") VNone) in
  let? v := (if truthy t then SOk t
             else let? c := of_py (get ef (str "content") VNone) in SOk (py_or c (VStr []))) in
  let? h := (match v with VStr h => SOk h | _ => SErr (SPy TypeError) end) in
  let plain := strip_html_to_text st h in
  SOk (match strip plain with [] => None | _ => Some plain end).

(** Lines 173-179: an ["onlinetext"] plugin, its editor fields in order. *)
Definition online_plain (st : site) (p : py_value) : sresult (option text) :=
  let? ty := of_py (get p (str "type") VNone) in
  if py_eq_str ty (str "onlinetext") then
    let? ev := of_py (get p (str "editorfields") (VList [])) in
    let? efs := py_iter ev in
    first_text (editor_plain st) efs
  else SOk None.

(** [head != b"%PDF"]. *)
Definition pdf_magic (b : list Z) : bool :=
  if list_eq_dec Z.eq_dec (firstn 4 b) [37; 80; 68; 70] then true else false.

(** Lines 185-217, one file: a file that is not a PDF (by MIME type or
    name) or has no URL is skipped; otherwise it is downloaded to
    [<id>_<userid>_<safe_name(filename)>], and the
    search ends with its extracted text, or with [""] when the bytes do
    not start with [%PDF] or the text is blank.  [.lower()] of a
    non-[str] raises [AttributeError], as does [urlparse] in
    [add_token_to_fileurl]; [safe_name] of a non-[str] name (reached
    when the MIME type says PDF) raises [TypeError]. *)
Definition pdf_file_text (pc : pconfig) (st : site) (sub f : py_value) : sresult (option text) :=
  let? fnv := of_py (get f (str "filename") VNone) in
  let filename := py_or fnv (VStr []) in
  let? fuv := of_py (get f (str "fileurl") VNone) in
  let fileurl := py_or fuv (VStr []) in
  let? mv := of_py (get f (str "mimetype") VNone) in
  let? mimetype := str_of (py_or mv (VStr [])) in
  let? is_pdf := (if contains (lower mimetype) (str "pdf") then SOk true
                  else let? name := str_of filename in SOk (ends_with (lower name) (str ".pdf"))) in
  if negb is_pdf || negb (truthy fileurl) then SOk None else
  let? url := str_of fileurl in
  let? name := (match filename with VStr n => SOk n | _ => SErr (SPy TypeError) end) in
  let? sid := of_py (get sub (str "id") VNone) in
  let? uid := of_py (get sub (str "userid") VNone) in
  let out := py_str sid ++ [95] ++ py_str uid ++ [95] ++ safe_name name in
  let? bytes := s_download st url out in
  if negb (pdf_magic bytes) then SOk (Some []) else
  let t := extract_text_from_pdf (s_pages st bytes) (p_max_chars pc) in
  SOk (Some (match strip t with [] => [] | _ => t end)).

(** Lines 184-185: the files of one file area. *)
Definition area_pdf (pc : pconfig) (st : site) (sub area : py_value) : sresult (option text) :=
  let? fv := of_py (get area (str "files") (VList [])) in
  let? fs := py_iter fv in
  first_text (pdf_file_text pc st sub) fs.

(** Lines 182-184: a ["file"] plugin, its file areas in order. *)
Definition file_plugin_text (pc : pconfig) (st : site) (sub p : py_value) : sresult (option text) :=
  let? ty := of_py (get p (str "type") VNone) in
  if py_eq_str ty (str "file") then
    let? fv := of_py (get p (str "fileareas") (VList [])) in
    let? fas := py_iter fv in
    first_text (area_pdf pc st sub) fas
  else SOk None.

Definition get_submission_text (pc : pconfig) (st : site) (sub : py_value) : sresult text :=
  let? pv := of_py (get sub (str "plugins") (VList [])) in
  let? plugins := py_iter pv in
  let? r := first_text (online_plain st) plugins in
  match r with
  | Some t => SOk t
  | None =>
      let? r2 := first_text (file_plugin_text pc st sub) plugins in
      SOk (match r2 with Some t => t | None => [] end)
  end.

(** ** The main pipeline (lines 225-282) *)

(** The text put in front of a flagged submission's feedback (line 273). *)
Definition plagiarism_warning : text :=
  [9888; 65039] ++ str " Plagiarism warning: similarity flagged." ++ [10; 10].

(** [x > 0] for the [flagged_count] the backend answers. *)
Definition py_gt0 (v : py_value) : sresult bool :=
  match v with
  | VInt z => SOk (0 <? z)
  | VBool b => SOk b
  | VFloat f => SOk (float_lt (Finite 0) f)
  | _ => SErr (SPy TypeError)
  end.

(** [feedback = warning + feedback]: [str] concatenation. *)
Definition warn (feedback : py_value) : sresult py_value :=
  match feedback with
  | VStr t => SOk (VStr (plagiarism_warning ++ t))
  | _ => SErr (SPy TypeError)
  end.

Section Script.
Context {Srv : Type} `{BackendAPI Srv}.

Local Notation "'let!' x ':=' m 'in' k" := (wbind m (fun x => k))
  (at level 61, x name, m at next level, right associativity).

(** [push_grade_to_moodle] (lines 125-143): Moodle saves the grade
    unless its reply is an exception, which [moodle_call] raises. *)
Definition push_grade_to_moodle (st : site) (p : push) : SS unit :=
  fun (w : world Srv) =>
    match moodle_call (s_save_reply st p) with
    | SOk _ => (SOk tt, mkWorld (w_srv w) (w_pushes w ++ [p]))
    | SErr e => (SErr e, w)
    end.

(** Lines 236-280: the body of the loop for one submission; [continue]
    is [wret tt].  The ingest payload is the scheduler's (no
    [cleaned_text]); the path parameter [submission_db_id] reaches the
    handler when it is an [int], which the backend's ingest answers.
    The print of line 258 calls [plag.get], which raises on an answer
    that is not a [dict]. *)
Definition process_sub (pc : pconfig) (st : site) (due now : Z) (sub : py_value) : SS unit :=
  let! mid := wlift (of_py (get sub (str "id") VNone)) in
  let! student := wlift (of_py (get sub (str "userid") VNone)) in
  let! raw := wlift (get_submission_text pc st sub) in
  match strip raw with
  | [] => wret tt
  | _ =>
    let! ingest := backend_post (ingest_payload (p_cfg pc) mid student raw) in
    let! sid := wlift (getitem ingest (str "id")) in
    match path_int sid with
    | None => wlift (SErr (HTTPError 422))
    | Some s =>
        let! plag := backend_post (Some (RPlagiarism s (p_threshold pc))) in
        let! _ := wlift (of_py (get plag (str "flagged_count") (VInt 0))) in
        if negb (due =? 0) && (now <? due) then wret tt else
        let! graded := backend_post (Some (RMultiGrade s)) in
        let! result := wlift (of_py (get graded (str "multi_agent") (VDict []))) in
        let! g := wlift (of_py (get result (str "grade") (VInt 0))) in
        let! grade := wlift (of_py (py_float g)) in
        let! feedback := wlift (of_py (get result (str "final_feedback") (VStr []))) in
        let! fc := wlift (of_py (get plag (str "flagged_count") (VInt 0))) in
        let! flagged := wlift (py_gt0 fc) in
        let! fb := (if flagged then wlift (warn feedback) else wret feedback) in
        push_grade_to_moodle st (mkPush mid (VInt (assignment_id (p_cfg pc))) student (Some (float_repr grade)) fb)
    end
  end.

(** [main], at the time [now]. *)
Definition main (pc : pconfig) (st : site) (now : Z) : SS unit :=
  let! due := wlift (get_assignment_due_date pc st) in
  let! subs := wlift (get_submissions st) in
  let! _ := wlift (py_len subs) in
  let! l := wlift (py_iter subs) in
  for_each l (process_sub pc st due now).

End Script.

(** ** Scenarios *)

(** [html.unescape] on a text without [&] returns it unchanged. *)
Definition unescape_plain (t : text) : text := t.

(** A site with the scheduler's assignment (due at 1000) and the given
    submissions; grades are saved, no file is downloaded. *)
Definition site_with (subs : list py_value) : site :=
  mkSite (m_assignments (demo_moodle 1000))
    (VDict [(str "assignments", VList [VDict [(str "submissions", VList subs)]])])
    (fun _ => VNone) (fun _ _ => SOk []) (fun _ => None) unescape_plain.

Definition demo_site : site := site_with [demo_sub].

(** Submission 79 of user 6 copies submission 77 word for word. *)
Definition copied_sub : py_value :=
  VDict [(str "id", VInt 79); (str "userid", VInt 6);
         (str "plugins", VList [VDict [(str "type", VStr (str "onlinetext"));
                                       (str "editorfields", VList [VDict [(str "text", VStr answer_a)]])]])].

(** A run of the pipeline at [now] against the application main.py
    builds, with the mock provider and the exact similarity engine. *)
Definition run_pipeline (st : site) (now : Z) (w : world server) : sresult unit * world server :=
  @main _ (app_api [] (mkPState tt [])) default_pconfig st now w.

(** ** Lemmas *)

Lemma lstrip_char_suffix (c : Z) (l : text) : exists p, l = p ++ lstrip_char c l.
Proof.
  induction l as [|x l [p Hp]]; [exists []; reflexivity|]. cbn [lstrip_char].
  destruct (x =? c); [exists (x :: p); cbn; f_equal; exact Hp | exists []; reflexivity].
Qed.

Lemma lstrip_char_head (c : Z) (l : text) x r : lstrip_char c l = x :: r -> x <> c.
Proof.
  induction l as [|y l IH]; cbn [lstrip_char]; [discriminate|].
  destruct (Z.eqb_spec y c); [exact IH | intros H; inv H; assumption].
Qed.

Lemma in_strip_char (c x : Z) (s : text) : In x (strip_char c s) -> In x s.
Proof.
  unfold strip_char. intros H. apply in_rev in H.
  destruct (lstrip_char_suffix c (rev (lstrip_char c s))) as [p Hp].
  destruct (lstrip_char_suffix c s) as [q Hq].
  assert (H1 : In x (rev (lstrip_char c s))) by (rewrite Hp; apply in_or_app; right; exact H).
  apply in_rev in H1. rewrite Hq. apply in_or_app. right. exact H1.
Qed.

(** [s.strip(c)] neither starts nor ends with [c]. *)
Lemma strip_char_ends (c : Z) (s : text) :
  hd_error (strip_char c s) <> Some c /\ hd_error (rev (strip_char c s)) <> Some c.
Proof.
  unfold strip_char. rewrite rev_involutive. split.
  - destruct (lstrip_char c (rev (lstrip_char c s))) as [|y ys] eqn:E using rev_ind; [discriminate|].
    rewrite rev_app_distr. cbn. intros Hy. injection Hy as ->.
    destruct (lstrip_char_suffix c (rev (lstrip_char c s))) as [p Hp]. rewrite E, app_assoc in Hp.
    apply (f_equal (@rev Z)) in Hp. rewrite rev_involutive, rev_app_distr in Hp. cbn in Hp.
    exact (lstrip_char_head c s c _ Hp eq_refl).
  - destruct (lstrip_char c (rev (lstrip_char c s))) as [|y ys] eqn:E; [discriminate|].
    cbn. intros Hy. injection Hy as ->. exact (lstrip_char_head _ _ _ _ E eq_refl).
Qed.

(** C24. Safety: the file name [safe_name] gives a downloaded PDF
    (under [DOWNLOAD_DIR], after the submission and user ids) holds only
    ASCII letters, digits, [.], [_] and [-] -- no path separator, NUL or
    other character a file system treats specially -- and neither starts
    nor ends with [_]. *)
Theorem safe_name_safe (s : text) :
  forallb name_char (safe_name s) = true /\
  hd_error (safe_name s) <> Some 95 /\ hd_error (rev (safe_name s)) <> Some 95.
Proof.
  split; [|apply strip_char_ends].
  apply forallb_forall. intros c Hc. apply in_strip_char, re_sub_class in Hc as [[<- | []] | [_ Hc]].
  - reflexivity.
  - apply negb_false_iff. exact Hc.
Qed.

(** [../etc/passwd]: a file name with path separators. *)
Definition traversal_name : text := str "../etc/passwd".

Lemma safe_name_traversal : safe_name traversal_name = str ".._etc_passwd".
Proof. vm_compute. reflexivity. Qed.

Lemma length_py_prefix (n : Z) (s : text) : 0 <= n -> (length (py_prefix n s) <= Z.to_nat n)%nat.
Proof. intros Hn. unfold py_prefix. apply Z.leb_le in Hn. rewrite Hn, length_firstn. lia. Qed.

(** C25. Bounds: with a non-negative [MAX_EXTRACT_CHARS], the text
    [extract_text_from_pdf] returns for any PDF has at most
    [MAX_EXTRACT_CHARS + 3] code points (the cap and the ["..."] after
    it), so the ingest payload stays bounded whatever the PDF holds. *)
Theorem extract_text_bounded (pages : option (list (option text))) (max_chars : Z) :
  0 <= max_chars -> (length (extract_text_from_pdf pages max_chars) <= Z.to_nat max_chars + 3)%nat.
Proof.
  intros Hm. destruct pages as [ps|]; cbn [extract_text_from_pdf]; [|cbn; lia].
  destruct (strip _) as [|c t] eqn:E; [cbn; lia|].
  destruct (Z.of_nat (length (c :: t)) >? max_chars) eqn:Gt.
  - rewrite length_app. pose proof (length_py_prefix max_chars (c :: t) Hm). cbn [length str]. lia.
  - rewrite Z.gtb_ltb in Gt. apply Z.ltb_ge in Gt. lia.
Qed.

(** One page of 8 code points under a cap of 5. *)
Lemma extract_text_bounded_witness :
  0 <= 5 /\ (length (extract_text_from_pdf (Some [Some (str "abcdefgh")]) 5) <= Z.to_nat 5 + 3)%nat.
Proof. split; [lia | apply extract_text_bounded; lia]. Defined.

(** C21. Safety: before the due date the pipeline saves no grade: when
    the assignment has a due date and the run starts before it, a run of
    [main], whatever Moodle, the libraries and the backend answer and
    wherever it stops, leaves Moodle's saved grades as they were. *)
Theorem pipeline_no_push_before_deadline {Srv : Type} `{BackendAPI Srv} (pc : pconfig) (st : site)
  (due now : Z) (w : world Srv) r w' :
  get_assignment_due_date pc st = SOk due -> due <> 0 -> now < due ->
  main pc st now w = (r, w') -> w_pushes w' = w_pushes w.
Proof.
  intros Hdue Hd Hn E.
  assert (Hb : negb (due =? 0) && (now <? due) = true).
  { apply andb_true_intro. split; [apply negb_true_iff, Z.eqb_neq | apply Z.ltb_lt]; assumption. }
  unfold main, wbind, wlift in E. rewrite Hdue in E.
  destruct (get_submissions st) as [sv|e]; [|inv E; reflexivity].
  destruct (py_len sv) as [n|e]; [|inv E; reflexivity].
  destruct (py_iter sv) as [l|e]; [|inv E; reflexivity].
  revert E. apply no_push_for_each. intros x _. unfold process_sub. rewrite Hb. no_push_steps.
Qed.

Lemma pipeline_no_push_before_deadline_witness :
  get_assignment_due_date default_pconfig demo_site = SOk 1000 /\ 1000 <> 0 /\ 500 < 1000 /\
  @main _ (app_api [] (mkPState tt [])) default_pconfig demo_site 500 demo_world =
    (fst (@main _ (app_api [] (mkPState tt [])) default_pconfig demo_site 500 demo_world),
     snd (@main _ (app_api [] (mkPState tt [])) default_pconfig demo_site 500 demo_world)) /\
  w_pushes (snd (@main _ (app_api [] (mkPState tt [])) default_pconfig demo_site 500 demo_world)) =
    w_pushes demo_world.
Proof.
  assert (H1 : get_assignment_due_date default_pconfig demo_site = SOk 1000) by reflexivity.
  assert (H2 : 1000 <> 0) by lia. assert (H3 : 500 < 1000) by lia.
  assert (H4 := surjective_pairing (@main _ (app_api [] (mkPState tt [])) default_pconfig demo_site 500 demo_world)).
  split; [exact H1 | split; [exact H2 | split; [exact H3 | split; [exact H4 |]]]].
  exact (@pipeline_no_push_before_deadline server (app_api [] (mkPState tt [])) _ _ _ _ _ _ _ H1 H2 H3 H4).
Defined.

(** The whole stack on a copy: after the deadline, the pipeline stores
    submission 79 (a word-for-word copy of 77) as flagged, yet pushes
    its grade to Moodle like 77's, the feedback only prefixed with the
    plagiarism warning; a second run pushes both grades again. *)
Example flagged_copy_scenario :
  let st := site_with [demo_sub; copied_sub] in
  let w1 := snd (run_pipeline st 2000 demo_world) in
  fst (run_pipeline st 2000 demo_world) = SOk tt /\
  map push_submission (w_pushes w1) = [VInt 77; VInt 79] /\
  (exists t, map push_feedback (w_pushes w1) = [VStr t; VStr (plagiarism_warning ++ t)]) /\
  map sub_flag (t_subs (sv_db (w_srv w1))) = [false; true] /\
  map push_submission (w_pushes (snd (run_pipeline st 2000 w1))) = [VInt 77; VInt 79; VInt 77; VInt 79].
Proof.
  vm_compute. split; [reflexivity | split; [reflexivity | split; [eexists; reflexivity | split; reflexivity]]].
Qed.

(** A whole site where the submission without headers comes first:
    every run stops at it with the 404 and never reaches the other. *)
Example unnumbered_pipeline_scenario :
  let st := site_with [unnumbered_sub; demo_sub] in
  let w1 := snd (run_pipeline st 2000 demo_world) in
  fst (run_pipeline st 2000 demo_world) = SErr (HTTPError 404) /\
  w_pushes w1 = [] /\ map sub_moodle_id (t_subs (sv_db (w_srv w1))) = [78] /\
  fst (run_pipeline st 2000 w1) = SErr (HTTPError 404) /\
  map sub_moodle_id (t_subs (sv_db (w_srv (snd (run_pipeline st 2000 w1))))) = [78].
Proof. vm_compute. split; [reflexivity | split; [reflexivity | split; [reflexivity | split; reflexivity]]]. Qed.

(** C22. A submission without numbered headers listed first blocks the
    pipeline: from any state of main.py's backend in which its Moodle id
    is not stored (with a fresh next id) or is stored without chunks,
    the loop body stores or refills it without chunks and raises
    [HTTPError] 404 from the plagiarism check (backend_post has no
    [except]), so [main] ends with that error after this submission
    alone -- the submissions after it are never ingested, checked or
    graded -- and the backend is left in the same kind of state, so
    every later run stops there again. *)
Theorem unnumbered_submission_blocks_pipeline `{SimilarityEngine} {St : Type} `{LLMProvider St}
  (env : environ) (ps0 : pstate St) (pc : pconfig) (st : site) (now due : Z) (sub : py_value) (rest : list py_value)
  (m u : Z) (raw : text) (d : db) (q : seqs) (ps : list push) :
  get_assignment_due_date pc st = SOk due -> get_submissions st = SOk (VList (sub :: rest)) ->
  get sub (str "id") VNone = Ok (VInt m) -> get sub (str "userid") VNone = Ok (VInt u) ->
  get_submission_text pc st sub = SOk raw -> strip raw <> [] ->
  split_numbered_answers (clean_text_basic (strip raw)) = [] ->
  unchunked d q m ->
  exists d' q',
    @process_sub _ (app_api env ps0) pc st due now sub (mkWorld (mkServer d q) ps) =
      (SErr (HTTPError 404), mkWorld (mkServer d' q') ps) /\
    @main _ (app_api env ps0) pc st now (mkWorld (mkServer d q) ps) =
      (SErr (HTTPError 404), mkWorld (mkServer d' q') ps) /\ unchunked d' q' m.
Proof.
  intros Hdue Hsubs Hid Hu Hraw Hne Hs Hun.
  enough (Hp : exists d' q',
    @process_sub _ (app_api env ps0) pc st due now sub (mkWorld (mkServer d q) ps) =
      (SErr (HTTPError 404), mkWorld (mkServer d' q') ps) /\ unchunked d' q' m).
  { destruct Hp as [d' [q' [Ep Hun']]]. exists d', q'. split; [exact Ep | split; [|exact Hun']].
    unfold main, wbind, wlift. rewrite Hdue, Hsubs. cbn [py_len py_iter for_each].
    unfold wbind at 1. rewrite Ep. reflexivity. }
  unfold process_sub, wbind, wlift, of_py. rewrite Hid, Hu, Hraw.
  destruct (strip raw) as [|c t] eqn:Es; [contradiction|].
  unfold backend_post, ingest_payload, wbind, call. cbn [serve app_api w_srv w_pushes].
  set (data := mkIn m (assignment_id (p_cfg pc)) (course_id (p_cfg pc)) u (Some raw) (Some [])).
  assert (Hsrc : source_text data = c :: t).
  { unfold source_text, data. cbn [in_cleaned_text in_raw_text]. rewrite or_text_nonempty; [exact Es | rewrite Es; discriminate]. }
  destruct (app_unnumbered env ps0 data (p_threshold pc) d q) as [st' [s [d' [q' [Ei [Ep Hun']]]]]];
    [rewrite Hsrc; discriminate | rewrite Hsrc; exact Hs | exact Hun|].
  rewrite Ei. cbn -[serve_app getitem ingest_response str].
  rewrite ingest_response_id. cbn -[serve_app str]. rewrite Ep. cbn.
  exists d', q'. split; [reflexivity | exact Hun'].
Qed.

Lemma unnumbered_submission_blocks_pipeline_witness :
  get_assignment_due_date default_pconfig (site_with [unnumbered_sub; demo_sub]) = SOk 1000 /\
  get_submissions (site_with [unnumbered_sub; demo_sub]) = SOk (VList [unnumbered_sub; demo_sub]) /\
  get unnumbered_sub (str "id") VNone = Ok (VInt 78) /\ get unnumbered_sub (str "userid") VNone = Ok (VInt 6) /\
  get_submission_text default_pconfig (site_with [unnumbered_sub; demo_sub]) unnumbered_sub = SOk unnumbered_text /\
  strip unnumbered_text <> [] /\
  split_numbered_answers (clean_text_basic (strip unnumbered_text)) = [] /\
  unchunked empty_db seqs0 78 /\
  exists d' q',
    @process_sub _ (app_api [] (mkPState tt [])) default_pconfig (site_with [unnumbered_sub; demo_sub]) 1000 2000
      unnumbered_sub (mkWorld (mkServer empty_db seqs0) []) =
      (SErr (HTTPError 404), mkWorld (mkServer d' q') []) /\
    @main _ (app_api [] (mkPState tt [])) default_pconfig (site_with [unnumbered_sub; demo_sub]) 2000
      (mkWorld (mkServer empty_db seqs0) []) = (SErr (HTTPError 404), mkWorld (mkServer d' q') []) /\
    unchunked d' q' 78.
Proof.
  set (st := site_with [unnumbered_sub; demo_sub]).
  assert (H1 : get_assignment_due_date default_pconfig st = SOk 1000) by (vm_compute; reflexivity).
  assert (H2 : get_submissions st = SOk (VList [unnumbered_sub; demo_sub])) by (vm_compute; reflexivity).
  assert (H3 : get unnumbered_sub (str "id") VNone = Ok (VInt 78)) by reflexivity.
  assert (H4 : get unnumbered_sub (str "userid") VNone = Ok (VInt 6)) by reflexivity.
  assert (H5 : get_submission_text default_pconfig st unnumbered_sub = SOk unnumbered_text) by (vm_compute; reflexivity).
  assert (H6 : strip unnumbered_text <> []) by (vm_compute; discriminate).
  assert (H7 : split_numbered_answers (clean_text_basic (strip unnumbered_text)) = []) by (vm_compute; reflexivity).
  assert (H8 : unchunked empty_db seqs0 78) by (split; [reflexivity | constructor]).
  do 8 (split; [assumption|]).
  exact (unnumbered_submission_blocks_pipeline [] (mkPState tt []) default_pconfig st 2000 1000 unnumbered_sub [demo_sub]
           78 6 unnumbered_text empty_db seqs0 [] H1 H2 H3 H4 H5 H6 H7 H8).
Defined.


(** A backend that ingests everything as submission 1, reports one
    flag and grades 7 with the feedback ["ok"]. *)
Definition flagging_serve (r : request) (sv : unit) : response * unit :=
  match r with
  | RIngest _ => ((200, VDict [(str "id", VInt 1)]), sv)
  | RPlagiarism _ _ => ((200, VDict [(str "flagged_count", VInt 1)]), sv)
  | RMultiGrade _ => ((200, VDict [(str "multi_agent", VDict [(str "grade", VInt 7); (str "final_feedback", VStr (str "ok"))])]), sv)
  | _ => ((404, VNone), sv)
  end.

#[local] Instance flagging_api : BackendAPI unit := { serve := flagging_serve }.




End Pipeline.
