(* ===== verification/PushFromBackend.v ===== *)
(** * The one-shot push script: push_feedback_from_backend.py

    The script fetches [GET /moodle/push_payload/14] from the backend and
    saves its grade and feedback in Moodle with [mod_assign_save_grade].
    It runs over the scheduler's world (the backend's state and the
    grades Moodle has saved) through the same [BackendAPI].  It reads the
    backend's answer with [.json()] and no [raise_for_status], and reads
    Moodle's reply with [raise_for_status] but no check of the
    ["exception"] key. *)

From Stdlib Require Import String ZArith QArith List Lia Bool.
From S2P Require Import Prelude Regex Chunking Json PyFormat MultiAgent Providers Backend Handlers Scheduler.
Import ListNotations.
Open Scope Z_scope.
Open Scope list_scope.

Module PushFromBackend.
Import Py PyFormat MultiAgent Providers Backend Handlers Scheduler.






Section Script.
Context {Srv : Type} `{BackendAPI Srv}.

Local Notation "'let!' x ':=' m 'in' k" := (wbind m (fun x => k))
  (at level 61, x name, m at next level, right associativity).



End Script.

(** ** Lemmas *)





End PushFromBackend.
